(** * BigBird block-sparse attention: random adjacency, planner, gather

    A shallow embedding of the block-sparse attention engine of
    [src/transformers/models/big_bird/modeling_big_bird.py]
    (class [BigBirdBlockSparseAttention]) together with the properties
    of its random-block planner, its samplers, its block gatherer and
    the row-group computations.

    Python integers are [Z]; [//] and [%] are [Z.div] and [Z.modulo]
    (both floor, like Python's); numpy arrays and torch tensors are
    nested lists; a raised exception is a [Raise] result. *)

From Stdlib Require Import ZArith List Lia Bool Permutation FinFun.
From Stdlib Require String.
Import String.StringSyntax.
Delimit Scope string_scope with string.
Import ListNotations.
Open Scope Z_scope.


(** ** Exceptions and results *)

Inductive py_exn : Type :=
| AssertionError
| ValueError
| NotImplementedError
| ZeroDivisionError
| IndexError
| RuntimeError.

Inductive result (A : Type) : Type :=
| Ok (a : A)
| Raise (e : py_exn).

Arguments Ok {A} a.
Arguments Raise {A} e.

Definition is_ok {A} (r : result A) : bool :=
  match r with Ok _ => true | Raise _ => false end.

(** ** Python and numpy primitives used by the engine *)

Module Py.

(** [range(lo, hi)] and [np.arange(lo, hi)]: empty when [hi <= lo]. *)
Definition range (lo hi : Z) : list Z :=
  map (fun k => lo + Z.of_nat k) (seq 0 (Z.to_nat (hi - lo))).

(** Normalisation of a slice bound against a length: a negative bound
    counts from the end, and every bound is clipped to [0, len]. *)
Definition bound (len i : Z) : Z :=
  if i <? 0 then Z.max 0 (i + len) else Z.min i len.

(** [l[lo:hi]] *)
Definition slice {A} (l : list A) (lo hi : Z) : list A :=
  let len := Z.of_nat (length l) in
  let lo' := bound len lo in
  let hi' := bound len hi in
  firstn (Z.to_nat (hi' - lo')) (skipn (Z.to_nat lo') l).

(** [l[:hi]] *)
Definition slice_to {A} (l : list A) (hi : Z) : list A := slice l 0 hi.

(** [l[lo:]] *)
Definition slice_from {A} (l : list A) (lo : Z) : list A :=
  slice l lo (Z.of_nat (length l)).

(** [x in l] on integers *)
Definition mem (x : Z) (l : list Z) : bool := existsb (Z.eqb x) l.

(** [sum(l)] / [np.sum(l)] *)
Definition sum (l : list Z) : Z := fold_right Z.add 0 l.

(** [l[i]] for an index that may be negative; out of range raises. *)
Definition index {A} (l : list A) (i : Z) : result A :=
  let len := Z.of_nat (length l) in
  let i' := if i <? 0 then i + len else i in
  if (0 <=? i') && (i' <? len)
  then match nth_error l (Z.to_nat i') with
       | Some a => Ok a
       | None => Raise IndexError
       end
  else Raise IndexError.

(** [l.index(x)]: position of the first occurrence, [ValueError] if absent. *)
Fixpoint index_of (x : Z) (l : list Z) : result Z :=
  match l with
  | [] => Raise ValueError
  | y :: l' =>
      if y =? x then Ok 0
      else match index_of x l' with
           | Ok k => Ok (k + 1)
           | Raise e => Raise e
           end
  end.

(** [a // b] *)
Definition floordiv (a b : Z) : result Z :=
  if b =? 0 then Raise ZeroDivisionError else Ok (a / b).

(** [a % b] *)
Definition modulo (a b : Z) : result Z :=
  if b =? 0 then Raise ZeroDivisionError else Ok (a mod b).

(** [np.zeros((rows, cols), dtype=np.int32)] *)
Definition zeros (rows cols : Z) : result (list (list Z)) :=
  if (rows <? 0) || (cols <? 0) then Raise ValueError
  else Ok (repeat (repeat 0 (Z.to_nat cols)) (Z.to_nat rows)).

(** [row[c0:c1] = src] on a one-dimensional int array: the source is
    broadcast to the width of the slice, which succeeds when it has
    that width or exactly one element, and raises [ValueError]
    otherwise. *)
Definition assign_slice (row : list Z) (c0 c1 : Z) (src : list Z)
  : result (list Z) :=
  let len := Z.of_nat (length row) in
  let lo := bound len c0 in
  let hi := bound len c1 in
  let w := Z.to_nat (hi - lo) in
  let put fill :=
    Ok (firstn (Z.to_nat lo) row ++ fill ++ skipn (Z.to_nat lo + w) row) in
  if Nat.eqb (length src) w then put src
  else match src with
       | [x] => put (repeat x w)
       | _ => Raise ValueError
       end.

(** [arr[i, c0:c1] = src] on a two-dimensional int array. *)
Definition assign_row_slice (arr : list (list Z)) (i c0 c1 : Z)
           (src : list Z) : result (list (list Z)) :=
  let len := Z.of_nat (length arr) in
  let i' := if i <? 0 then i + len else i in
  if (0 <=? i') && (i' <? len)
  then match nth_error arr (Z.to_nat i') with
       | Some row =>
           match assign_slice row c0 c1 src with
           | Ok row' =>
               Ok (firstn (Z.to_nat i') arr ++ row'
                     :: skipn (S (Z.to_nat i')) arr)
           | Raise e => Raise e
           end
       | None => Raise IndexError
       end
  else Raise IndexError.

End Py.

(** ** The numpy global random generator

    [np.random] is a process-wide generator that the engine seeds and
    draws permutations from.  It lives outside the repository, so it
    is an interface: a type of generator states, the state installed
    by [np.random.seed(s)], and [np.random.permutation], which returns
    a rearrangement of its argument together with the advanced
    state. *)

Record Generator : Type := {
  gstate : Type;
  seed_state : Z -> gstate;
  permutation : list Z -> gstate -> list Z * gstate;
  permutation_perm : forall l g, Permutation l (fst (permutation l g))
}.

(** A concrete lawful generator, used to run the model: the state is a
    counter, and a draw rotates its argument by the counter. *)
Definition rotate (k : nat) (l : list Z) : list Z :=
  skipn (k mod (length l)) l ++ firstn (k mod (length l)) l.

Lemma rotate_perm : forall k l, Permutation l (rotate k l).
Proof.
  intros k l. unfold rotate.
  rewrite <- (firstn_skipn (k mod length l) l) at 1.
  apply Permutation_app_comm.
Qed.

Definition rot_generator : Generator :=
  {| gstate := Z;
     seed_state := fun s => s;
     permutation := fun l g => (rotate (Z.to_nat g) l, g + 1);
     permutation_perm := fun l g => rotate_perm (Z.to_nat g) l |}.

(** Computations that read and advance the global generator and may
    raise. *)
Section Monad.
Variable G : Generator.

Definition M (A : Type) : Type := gstate G -> result (A * gstate G).

Definition ret {A} (a : A) : M A := fun g => Ok (a, g).

Definition bind {A B} (m : M A) (k : A -> M B) : M B :=
  fun g => match m g with
           | Ok (a, g') => k a g'
           | Raise e => Raise e
           end.

Definition lift {A} (r : result A) : M A :=
  fun g => match r with Ok a => Ok (a, g) | Raise e => Raise e end.

Definition raise {A} (e : py_exn) : M A := fun _ => Raise e.

(** [np.random.permutation(l)] *)
Definition np_random_permutation (l : list Z) : M (list Z) :=
  fun g => Ok (permutation G l g).

(** A [for] loop threading a loop-carried value. *)
Fixpoint for_each {A S} (l : list A) (body : A -> S -> M S) (s : S) : M S :=
  match l with
  | [] => ret s
  | a :: l' => bind (body a s) (for_each l' body)
  end.

(** A list comprehension [[e for _ in l]]. *)
Fixpoint comprehension {A B} (l : list A) (e : A -> M B) : M (list B) :=
  match l with
  | [] => ret []
  | a :: l' =>
      bind (e a) (fun b => bind (comprehension l' e) (fun bs => ret (b :: bs)))
  end.
End Monad.

Arguments ret {G A} a.
Arguments bind {G A B} m k.
Arguments lift {G A} r.
Arguments raise {G A} e.
Arguments for_each {G A S} l body s.
Arguments comprehension {G A B} l e.

Notation "x <- m ;; k" := (bind m (fun x => k))
  (at level 61, m at next level, right associativity).
Notation "'assert_' c ;; k" :=
  (if c then k else raise AssertionError)
  (at level 61, c at next level, right associativity).

(** ** BlockPlanner: [_get_rand_attn_plan] *)

Definition _get_rand_attn_plan (from_seq_length from_block_size num_rand_blocks : Z)
  : result (list Z * list Z) :=
  match Py.floordiv from_seq_length from_block_size with
  | Raise e => Raise e
  | Ok nb =>
      if 2 * num_rand_blocks + 5 <? nb then
        Ok ([(2 * num_rand_blocks + 5) * from_block_size; from_seq_length],
            [num_rand_blocks; 0])
      else if num_rand_blocks + 5 <? nb then
        Ok ([(num_rand_blocks + 5) * from_block_size; from_seq_length],
            [num_rand_blocks / 2; num_rand_blocks - num_rand_blocks / 2])
      else
        Ok ([from_seq_length], [num_rand_blocks])
  end.

(** The plan as the ordered list of its segments. *)
Definition plan_segments (plan : list Z * list Z) : list (Z * Z) :=
  combine (fst plan) (snd plan).

(** ** RandomAdjacencySampler, one row: [_get_single_block_row_attention] *)

Definition illegal_blocks
    (block_id to_end_block_id
     window_block_left window_block_right
     global_block_left global_block_right : Z) : list Z :=
  Py.range (block_id - window_block_left) (block_id + window_block_right + 1)
  ++ Py.range 0 global_block_left
  ++ Py.range (to_end_block_id - global_block_right) to_end_block_id
  ++ (if block_id =? 1 then [to_end_block_id - 2] else [])
  ++ (if block_id =? to_end_block_id - 2 then [1] else []).

(** The selection loop over the permuted blocks: append the block when
    it is legal, then leave the loop as soon as the selection has
    [num_rand_blocks] entries. *)
Fixpoint select_blocks (illegal : list Z) (num_rand_blocks : Z)
         (perm_block : list Z) (selected : list Z) : list Z :=
  match perm_block with
  | [] => selected
  | p :: rest =>
      let selected' :=
        if Py.mem p illegal then selected else selected ++ [p] in
      if Z.of_nat (length selected') =? num_rand_blocks then selected'
      else select_blocks illegal num_rand_blocks rest selected'
  end.

Definition _get_single_block_row_attention (G : Generator)
    (block_id to_start_block_id to_end_block_id num_rand_blocks
     window_block_left window_block_right
     global_block_left global_block_right : Z) : M G (list Z) :=
  let to_block_list := Py.range to_start_block_id to_end_block_id in
  perm_block <- np_random_permutation G to_block_list ;;
  let illegal :=
    illegal_blocks block_id to_end_block_id window_block_left
                   window_block_right global_block_left global_block_right in
  ret (select_blocks illegal num_rand_blocks perm_block []).

(** The legal pool of a row: the segment range minus the window, the
    global blocks and the boundary exceptions. *)
Definition legal_pool
    (block_id to_start_block_id to_end_block_id
     window_block_left window_block_right
     global_block_left global_block_right : Z) : list Z :=
  filter (fun b => negb (Py.mem b
            (illegal_blocks block_id to_end_block_id window_block_left
               window_block_right global_block_left global_block_right)))
         (Py.range to_start_block_id to_end_block_id).


(** [arr[i, :] = src] *)
Definition assign_row (arr : list (list Z)) (i : Z) (src : list Z)
  : result (list (list Z)) :=
  match Py.index arr i with
  | Ok row => Py.assign_row_slice arr i 0 (Z.of_nat (length row)) src
  | Raise e => Raise e
  end.

(** [l[i] = x] on a Python list, for an index in range. *)
Definition set_item {A} (l : list A) (i : Z) (x : A) : result (list A) :=
  if (0 <=? i) && (i <? Z.of_nat (length l))
  then Ok (firstn (Z.to_nat i) l ++ x :: skipn (S (Z.to_nat i)) l)
  else Raise IndexError.

(** ** RandomAdjacencySampler, old plans: [_bigbird_block_rand_mask] *)

(** The blocks row [i] draws from.  Each branch of the source permutes
    one such slice of [middle_seq] and keeps the first [r] entries. *)
Definition old_pool (middle_seq : list Z) (last nb i : Z) : list Z :=
  let start := i - 2 in
  let end_ := i in
  if i =? 1 then Py.slice middle_seq 2 last
  else if i =? 2 then Py.slice middle_seq 3 last
  else if i =? nb - 3 then Py.slice_to middle_seq last
  else if i =? nb - 2 then Py.slice_to middle_seq last
  else if start >? last then Py.slice_to middle_seq last
  else if end_ + 1 =? last then Py.slice_to middle_seq start
  else Py.slice_to middle_seq start ++ Py.slice middle_seq (end_ + 1) last.

Definition _bigbird_block_rand_mask (G : Generator)
    (from_seq_length to_seq_length from_block_size to_block_size
     num_rand_blocks last_idx : Z) : M G (list (list Z)) :=
  fb <- lift (Py.floordiv from_seq_length from_block_size) ;;
  tb <- lift (Py.floordiv to_seq_length to_block_size) ;;
  assert_ (fb =? tb) ;;
  rand_attn <- lift (Py.zeros (fb - 2) num_rand_blocks) ;;
  let middle_seq := Py.range 1 (tb - 1) in
  let last :=
    if last_idx >? 2 * to_block_size
    then last_idx / to_block_size - 1
    else tb - 1 in
  let r := num_rand_blocks in
  for_each (Py.range 1 (fb - 1))
    (fun i rand_attn =>
       p <- np_random_permutation G (old_pool middle_seq last fb i) ;;
       lift (assign_row rand_attn (i - 1) (Py.slice_to p r)))
    rand_attn.

(** ** RandomAdjacencySampler, planned: [_bigbird_block_rand_mask_with_head] *)

(** The innermost loop shared by the three places that fill rows:
    [for h in range(num_heads):
       rand_attn[h][blk_rw_idx, rnd_r_cnt:curr_r_cnt] =
         self._get_single_block_row_attention(...)]. *)
Definition fill_heads (G : Generator) (num_heads blk_rw_idx rnd_r_cnt curr_r_cnt
     to_start_block_id to_end_block_id num_rand_blocks
     window_block_left window_block_right global_block_left global_block_right : Z)
    (rand_attn : list (list (list Z))) : M G (list (list (list Z))) :=
  for_each (Py.range 0 num_heads)
    (fun h rand_attn =>
       sel <- _get_single_block_row_attention G blk_rw_idx
                to_start_block_id to_end_block_id num_rand_blocks
                window_block_left window_block_right
                global_block_left global_block_right ;;
       arr <- lift (Py.index rand_attn h) ;;
       arr' <- lift (Py.assign_row_slice arr blk_rw_idx rnd_r_cnt curr_r_cnt sel) ;;
       lift (set_item rand_attn h arr'))
    rand_attn.

(** Rows of earlier segments get their columns for the current
    segment (the loop guarded by [plan_num_rand_blocks[plan_idx] > 0]). *)
Definition extend_earlier_rows (G : Generator) (num_heads plan_idx : Z)
    (plan_block_length plan_num_rand_blocks : list Z)
    (wl wr gbt gl gr : Z) (rand_attn : list (list (list Z)))
  : M G (list (list (list Z))) :=
  n_idx <- lift (Py.index plan_num_rand_blocks plan_idx) ;;
  if n_idx >? 0 then
    let rnd_r_cnt := Py.sum (Py.slice_to plan_num_rand_blocks plan_idx) in
    let curr_r_cnt := Py.sum (Py.slice_to plan_num_rand_blocks (plan_idx + 1)) in
    prev_len <- lift (Py.index plan_block_length (plan_idx - 1)) ;;
    for_each (Py.range gbt prev_len)
      (fun blk_rw_idx rand_attn =>
         to_start <- lift (Py.index plan_block_length (plan_idx - 1)) ;;
         to_end <- lift (Py.index plan_block_length plan_idx) ;;
         num <- lift (Py.index plan_num_rand_blocks plan_idx) ;;
         fill_heads G num_heads blk_rw_idx rnd_r_cnt curr_r_cnt
                    to_start to_end num wl wr gl gr rand_attn)
      rand_attn
  else ret rand_attn.

(** Rows of the current segment get their columns for every earlier
    segment with a non-zero budget (the loop over [pl_id]). *)
Definition cover_earlier_segments (G : Generator) (num_heads plan_idx : Z)
    (plan_block_length plan_num_rand_blocks : list Z)
    (wl wr gl gr : Z) (rand_attn : list (list (list Z)))
  : M G (list (list (list Z))) :=
  for_each (Py.range 0 plan_idx)
    (fun pl_id rand_attn =>
       n_pl <- lift (Py.index plan_num_rand_blocks pl_id) ;;
       if n_pl =? 0 then ret rand_attn
       else
         lo <- lift (Py.index plan_block_length (plan_idx - 1)) ;;
         hi <- lift (Py.index plan_block_length plan_idx) ;;
         for_each (Py.range lo hi)
           (fun blk_rw_idx rand_attn =>
              rnd_to <-
                (if pl_id >? 0 then
                   s <- lift (Py.index plan_block_length (pl_id - 1)) ;;
                   ret (Py.sum (Py.slice_to plan_num_rand_blocks pl_id), s)
                 else ret (0, 0)) ;;
              let rnd_r_cnt := fst rnd_to in
              let to_start_block_id := snd rnd_to in
              let curr_r_cnt :=
                Py.sum (Py.slice_to plan_num_rand_blocks (pl_id + 1)) in
              to_end <- lift (Py.index plan_block_length pl_id) ;;
              num <- lift (Py.index plan_num_rand_blocks pl_id) ;;
              fill_heads G num_heads blk_rw_idx rnd_r_cnt curr_r_cnt
                         to_start_block_id to_end num wl wr gl gr rand_attn)
           rand_attn)
    rand_attn.

(** Rows of the current segment get their columns for the segment
    itself (the last loop of the body). *)
Definition fill_own_segment (G : Generator) (num_heads plan_idx : Z)
    (plan_block_length plan_num_rand_blocks : list Z)
    (wl wr gbt gl gr : Z) (rand_attn : list (list (list Z)))
  : M G (list (list (list Z))) :=
  n_idx <- lift (Py.index plan_num_rand_blocks plan_idx) ;;
  if n_idx =? 0 then ret rand_attn
  else
    let curr_r_cnt := Py.sum (Py.slice_to plan_num_rand_blocks (plan_idx + 1)) in
    starts <-
      (if plan_idx >? 0 then
         s <- lift (Py.index plan_block_length (plan_idx - 1)) ;;
         ret (Py.sum (Py.slice_to plan_num_rand_blocks plan_idx), s, s)
       else ret (0, gbt, 0)) ;;
    let rnd_r_cnt := fst (fst starts) in
    let from_start_block_id := snd (fst starts) in
    let to_start_block_id := snd starts in
    hi <- lift (Py.index plan_block_length plan_idx) ;;
    for_each (Py.range from_start_block_id hi)
      (fun blk_rw_idx rand_attn =>
         to_end <- lift (Py.index plan_block_length plan_idx) ;;
         num <- lift (Py.index plan_num_rand_blocks plan_idx) ;;
         fill_heads G num_heads blk_rw_idx rnd_r_cnt curr_r_cnt
                    to_start_block_id to_end num wl wr gl gr rand_attn)
      rand_attn.

Definition _bigbird_block_rand_mask_with_head (G : Generator)
    (from_seq_length to_seq_length from_block_size to_block_size num_heads : Z)
    (plan_from_length plan_num_rand_blocks : list Z)
    (window_block_left window_block_right
     global_block_top global_block_bottom
     global_block_left global_block_right : Z)
  : M G (list (list (list Z))) :=
  fb <- lift (Py.floordiv from_seq_length from_block_size) ;;
  tb <- lift (Py.floordiv to_seq_length to_block_size) ;;
  assert_ (fb =? tb) ;;
  assert_ (Py.mem from_seq_length plan_from_length) ;;
  let num_blocks := fb in
  let plan_block_length := map (fun x => x / from_block_size) plan_from_length in
  max_plan_idx <- lift (Py.index_of from_seq_length plan_from_length) ;;
  rand_attn <-
    comprehension (Py.range 0 num_heads)
      (fun _ => lift (Py.zeros num_blocks
                   (Py.sum (Py.slice_to plan_num_rand_blocks (max_plan_idx + 1))))) ;;
  rand_attn <-
    for_each (Py.range 0 (max_plan_idx + 1))
      (fun plan_idx rand_attn =>
         rand_attn <-
           (if plan_idx >? 0 then
              rand_attn <- extend_earlier_rows G num_heads plan_idx
                             plan_block_length plan_num_rand_blocks
                             window_block_left window_block_right
                             global_block_top global_block_left
                             global_block_right rand_attn ;;
              cover_earlier_segments G num_heads plan_idx
                plan_block_length plan_num_rand_blocks
                window_block_left window_block_right
                global_block_left global_block_right rand_attn
            else ret rand_attn) ;;
         fill_own_segment G num_heads plan_idx
           plan_block_length plan_num_rand_blocks
           window_block_left window_block_right
           global_block_top global_block_left global_block_right rand_attn)
      rand_attn ;;
  ret (map (fun a => Py.slice a global_block_top (num_blocks - global_block_bottom))
           rand_attn).

(** ** The engine's adjacency: the first part of
    [bigbird_block_sparse_attention] *)

Definition max_seqlen : Z := 4096.

(** [np.random.seed(seed)]: an integer seed installs the state it
    determines, whatever the generator held before; with [None] numpy
    takes fresh entropy from the operating system, an input of the
    run. *)
Definition np_random_seed (G : Generator) (seed : option Z) (os_entropy : Z)
  : M G unit :=
  fun _ =>
    Ok (tt, seed_state G (match seed with Some s => s | None => os_entropy end)).

(** [np.stack(arrs, axis=0)] of equally shaped arrays. *)
Definition np_stack {A} (arrs : list A) : result (list A) :=
  match arrs with
  | [] => Raise ValueError
  | _ => Ok arrs
  end.

(** [torch.cat([t for _ in range(batch_size)], dim=0)] of [t.unsqueeze(0)]. *)
Definition torch_cat_batch {A} (t : A) (batch_size : Z) : result (list A) :=
  if batch_size <=? 0 then Raise RuntimeError
  else Ok (repeat t (Z.to_nat batch_size)).

(** Lines 499-546 of [bigbird_block_sparse_attention]: the random
    adjacency [rand_attn], indexed by batch element, head, query block
    (row [i - 1] for block [i]) and column. *)
Definition bigbird_rand_attn (G : Generator)
    (seed : option Z) (os_entropy : Z)
    (num_attention_heads num_rand_blocks from_block_size to_block_size
     batch_size from_seq_length to_seq_length : Z)
    (plan : option (list Z * list Z))
  : M G (list (list (list (list Z)))) :=
  let h := num_attention_heads in
  let r := num_rand_blocks in
  let m := from_seq_length in
  let n := to_seq_length in
  let wm := from_block_size in
  let wn := to_block_size in
  fb <- lift (Py.floordiv m wm) ;;
  tb <- lift (Py.floordiv n wn) ;;
  assert_ (fb =? tb) ;;
  _ <- np_random_seed G seed os_entropy ;;
  rand_attn <-
    (if Py.mem from_seq_length [1024; 3072; 4096] then
       comprehension (Py.range 0 h)
         (fun _ =>
            a <- _bigbird_block_rand_mask G max_seqlen max_seqlen wm wn r 1024 ;;
            ret (Py.slice_to a (m / wm - 2)))
     else
       p <- match plan with
            | None => lift (_get_rand_attn_plan from_seq_length wm r)
            | Some p => ret p
            end ;;
       _bigbird_block_rand_mask_with_head G m n wm wn h (fst p) (snd p)
         1 1 1 1 1 1) ;;
  rand_attn <- lift (np_stack rand_attn) ;;
  lift (torch_cat_batch rand_attn batch_size).

(** ** Reading arrays

    [arr[k][j]] and [rand_attn[h][k][j]] as partial lookups. *)

Definition cell2 (arr : list (list Z)) (k j : nat) : option Z :=
  match nth_error arr k with
  | Some row => nth_error row j
  | None => None
  end.

Definition cell3 (ra : list (list (list Z))) (h k j : nat) : option Z :=
  match nth_error ra h with
  | Some arr => cell2 arr k j
  | None => None
  end.

Definition cell4 (adj : list (list (list (list Z)))) (b h k j : nat) : option Z :=
  match nth_error adj b with
  | Some ra => cell3 ra h k j
  | None => None
  end.

(** The adjacency built from the old-plan routine alone, every head
    drawing its own array of [max_seqlen] rows clamped at
    [last_idx = 1024] and keeping the rows of the actual sequence. *)
Definition old_plan_rand_attn (G : Generator)
    (seed : option Z) (os_entropy : Z)
    (num_attention_heads num_rand_blocks block_size batch_size seq_length : Z)
  : M G (list (list (list (list Z)))) :=
  _ <- np_random_seed G seed os_entropy ;;
  rand_attn <-
    comprehension (Py.range 0 num_attention_heads)
      (fun _ =>
         a <- _bigbird_block_rand_mask G max_seqlen max_seqlen
                block_size block_size num_rand_blocks 1024 ;;
         ret (Py.slice_to a (seq_length / block_size - 2))) ;;
  rand_attn <- lift (np_stack rand_attn) ;;
  lift (torch_cat_batch rand_attn batch_size).

(** Block [v] is none of the window blocks of query block [i] and
    none of the two global blocks of a sequence of [B] blocks. *)
Definition outside_window_and_globals (B i v : Z) : Prop :=
  v <> i - 1 /\ v <> i /\ v <> i + 1 /\ v <> 0 /\ v <> B - 1.

(** ** Construction and the checks of [forward] *)

Record BigBirdConfig : Type := {
  hidden_size : Z;
  num_attention_heads : Z;
  position_embedding_type : String.string;
  num_random_blocks : Z;
  block_size : Z
}.

Record BlockSparseAttention : Type := {
  self_max_seqlen : Z;
  self_seed : option Z;
  self_num_attention_heads : Z;
  self_num_random_blocks : Z;
  self_block_size : Z;
  self_attention_head_size : Z;
  self_all_head_size : Z
}.

(** [BigBirdBlockSparseAttention.__init__(config, seed)], without the
    three linear layers. *)
Definition BigBirdBlockSparseAttention_init (config : BigBirdConfig)
    (seed : option Z) : result BlockSparseAttention :=
  match Py.modulo (hidden_size config) (num_attention_heads config) with
  | Raise e => Raise e
  | Ok rem =>
      if negb (rem =? 0) then Raise ValueError
      else if negb (String.eqb (position_embedding_type config) "absolute"%string)
      then Raise NotImplementedError
      else
        let head_size := hidden_size config / num_attention_heads config in
        Ok {| self_max_seqlen := 4096;
              self_seed := seed;
              self_num_attention_heads := num_attention_heads config;
              self_num_random_blocks := num_random_blocks config;
              self_block_size := block_size config;
              self_attention_head_size := head_size;
              self_all_head_size := num_attention_heads config * head_size |}
  end.

(** The two assertions [forward] makes on the sequence length before
    it projects the hidden states and calls the attention. *)
Definition forward_checks (self : BlockSparseAttention) (seqlen : Z)
  : result unit :=
  let from_seq_length := seqlen in
  let to_seq_length := seqlen in
  let from_block_size := self_block_size self in
  let to_block_size := self_block_size self in
  match Py.modulo from_seq_length from_block_size with
  | Raise e => Raise e
  | Ok r1 =>
      if negb (r1 =? 0) then Raise AssertionError
      else match Py.modulo to_seq_length to_block_size with
           | Raise e => Raise e
           | Ok r2 => if negb (r2 =? 0) then Raise AssertionError else Ok tt
           end
  end.

(** The explicit checks of the engine: construction from the
    configuration, then the two assertions of [forward].  They are not
    all that can stop the engine before it computes: the adjacency
    sampling and the gather that follow raise too, see
    [engine_prelude]. *)
Definition engine_checks (config : BigBirdConfig) (seed : option Z)
    (seqlen : Z) : result BlockSparseAttention :=
  match BigBirdBlockSparseAttention_init config seed with
  | Raise e => Raise e
  | Ok self =>
      match forward_checks self seqlen with
      | Raise e => Raise e
      | Ok _ => Ok self
      end
  end.

(** ** The whole attention call

    After the adjacency is built, [bigbird_block_sparse_attention]
    is tensor arithmetic on its arguments and on [rand_attn]: it draws
    no random number and reads no other state (the attributes it
    stores on [self] are never read back).  That part is a function
    [sparse_attention_compute] of the input tensors and the
    adjacency, which may raise. *)
Section Engine.
Variable G : Generator.
Variable Tensors : Type.
Variable Context : Type.
Variable sparse_attention_compute :
  Tensors -> list (list (list (list Z))) -> result Context.

Definition bigbird_block_sparse_attention
    (inputs : Tensors)
    (num_attention_heads num_rand_blocks from_block_size to_block_size
     batch_size from_seq_length to_seq_length : Z)
    (seed : option Z) (os_entropy : Z)
    (plan : option (list Z * list Z))
  : M G (list (list (list (list Z))) * Context) :=
  rand_attn <- bigbird_rand_attn G seed os_entropy num_attention_heads
                 num_rand_blocks from_block_size to_block_size batch_size
                 from_seq_length to_seq_length plan ;;
  context_layer <- lift (sparse_attention_compute inputs rand_attn) ;;
  ret (rand_attn, context_layer).

(** [forward]: the checks, then the attention with the module's own
    seed and no precomputed plan. *)
Definition forward (self : BlockSparseAttention) (inputs : Tensors)
    (batch_size seqlen os_entropy : Z)
  : M G (list (list (list (list Z))) * Context) :=
  _ <- lift (forward_checks self seqlen) ;;
  bigbird_block_sparse_attention inputs
    (self_num_attention_heads self) (self_num_random_blocks self)
    (self_block_size self) (self_block_size self)
    batch_size seqlen seqlen (self_seed self) os_entropy None.

End Engine.

Arguments bigbird_block_sparse_attention G {Tensors Context}.
Arguments forward G {Tensors Context}.

(** What a run returns, the generator state left aside. *)
Definition returned {A S} (r : result (A * S)) : result A :=
  match r with
  | Ok (a, _) => Ok a
  | Raise e => Raise e
  end.


(** ** BlockGatherer: [torch_gather_b2] and the view that follows

    A blocked key (or value) tensor [b, h, n // wn, wn, d] is a list
    over batch elements of lists over heads of lists of blocks, a block
    being its [wn] rows; the rows themselves (vectors of [d] floats)
    are of any type [V]. *)

Fixpoint map_result {A B} (f : A -> result B) (l : list A) : result (list B) :=
  match l with
  | [] => Ok []
  | a :: l' =>
      match f a with
      | Raise e => Raise e
      | Ok b =>
          match map_result f l' with
          | Raise e => Raise e
          | Ok bs => Ok (b :: bs)
          end
      end
  end.

(** [p2[idx]] for a one-dimensional index tensor [idx]. *)
Definition torch_index_select {T} (p2 : list T) (idx : list Z) : result (list T) :=
  map_result (Py.index p2) idx.

(** [t.shape[:2]] *)
Definition shape2 {A} (t : list (list A)) : nat * nat :=
  (length t, match t with [] => 0%nat | x :: _ => length x end).

(** [torch.stack(ts)] of equally shaped tensors. *)
Definition torch_stack {A} (ts : list A) : result (list A) :=
  match ts with
  | [] => Raise RuntimeError
  | _ => Ok ts
  end.

Definition torch_gather_b2 {T} (params : list (list (list T)))
    (indices : list (list (list (list Z)))) : result (list (list (list T))) :=
  if (Nat.eqb (fst (shape2 params)) (fst (shape2 indices)))
     && (Nat.eqb (snd (shape2 params)) (snd (shape2 indices)))
  then
    match map_result
            (fun p1i1 : list (list T) * list (list (list Z)) =>
               match map_result
                       (fun p2i2 : list T * list (list Z) =>
                          torch_index_select (fst p2i2) (concat (snd p2i2)))
                       (combine (fst p1i1) (snd p1i1)) with
               | Raise e => Raise e
               | Ok inner => torch_stack inner
               end)
            (combine params indices) with
    | Raise e => Raise e
    | Ok out => torch_stack out
    end
  else Raise AssertionError.

(** [groups] consecutive runs of [k] elements. *)
Fixpoint chunks {A} (groups k : nat) (l : list A) : list (list A) :=
  match groups with
  | O => []
  | S g => firstn k l :: chunks g k (skipn k l)
  end.

(** [t.view(b, h, groups, k, -1)] of a gathered tensor
    [b, h, c, wn, d]: per batch element and head the rows of the [c]
    blocks, in order, regrouped [k] at a time.  The view raises when
    the requested sizes multiply to zero (the [-1] is then ambiguous)
    and when the rows do not make [groups] runs of [k]. *)
Definition view_groups {V} (groups k : Z) (t : list (list (list (list V))))
  : result (list (list (list (list V)))) :=
  map_result
    (map_result
       (fun blocks : list (list V) =>
          let rows := concat blocks in
          if (0 <? groups * k) && (Z.of_nat (length rows) =? groups * k)
          then Ok (chunks (Z.to_nat groups) (Z.to_nat k) rows)
          else Raise RuntimeError))
    t.

(** Lines 561-564: [gathered_key] (and, on the values,
    [gathered_value]). *)
Definition gathered {V} (blocked_matrix : list (list (list (list V))))
    (rand_attn : list (list (list (list Z)))) (n wn r : Z)
  : result (list (list (list (list V)))) :=
  match torch_gather_b2 blocked_matrix rand_attn with
  | Raise e => Raise e
  | Ok g => view_groups (n / wn - 2) (r * wn) g
  end.

(** [t[b][h][i][j]] *)
Definition at4 {V} (t : list (list (list (list V)))) (b h i j : nat) : option V :=
  match nth_error t b with
  | None => None
  | Some tb =>
      match nth_error tb h with
      | None => None
      | Some tbh =>
          match nth_error tbh i with
          | None => None
          | Some row => nth_error row j
          end
      end
  end.

(** [blocked[b][h]] and [rand_attn[b][h]] *)
Definition at2 {A} (t : list (list A)) (b h : nat) : option A :=
  match nth_error t b with
  | Some tb => nth_error tb h
  | None => None
  end.

(** ** The dense attention map of [output_attentions]

    One batch element and one head of [attention_probs], a matrix of
    [m] rows and [n] columns over any type [R] of floats. *)
Section AttentionProbs.
Variable R : Type.
Variable zero : R.

(** [row[c0:c1] = src] for a source of the width of the slice. *)
Definition assign_cols (row : list R) (c0 c1 : Z) (src : list R)
  : result (list R) :=
  let len := Z.of_nat (length row) in
  let lo := Py.bound len c0 in
  let hi := Py.bound len c1 in
  let w := Z.to_nat (hi - lo) in
  if Nat.eqb (length src) w
  then Ok (firstn (Z.to_nat lo) row ++ src ++ skipn (Z.to_nat lo + w) row)
  else Raise RuntimeError.

(** [t[r0:r1, c0:c1] = src] for a source of the shape of the slice. *)
Definition assign_block (t : list (list R)) (r0 r1 c0 c1 : Z)
    (src : list (list R)) : result (list (list R)) :=
  let len := Z.of_nat (length t) in
  let lo := Py.bound len r0 in
  let hi := Py.bound len r1 in
  let h := Z.to_nat (hi - lo) in
  if Nat.eqb (length src) h
  then
    match map_result (fun rs : list R * list R => assign_cols (fst rs) c0 c1 (snd rs))
            (combine (firstn h (skipn (Z.to_nat lo) t)) src) with
    | Raise e => Raise e
    | Ok rows => Ok (firstn (Z.to_nat lo) t ++ rows ++ skipn (Z.to_nat lo + h) t)
    end
  else Raise RuntimeError.

(** [torch.zeros(m, n)] *)
Definition torch_zeros (m n : Z) : result (list (list R)) :=
  if (m <? 0) || (n <? 0) then Raise RuntimeError
  else Ok (repeat (repeat zero (Z.to_nat n)) (Z.to_nat m)).

(** [w[:, c0:c1]] *)
Definition cols (w : list (list R)) (c0 c1 : Z) : list (list R) :=
  map (fun row => Py.slice row c0 c1) w.

(** Lines 755-782, for [output_attentions] set.  [attn_weights], the
    weights of the interior blocks, has [m // wm - 4] blocks of [wm]
    rows of [(5 + r) * wn] columns; its view as rows of [n] columns
    raises when the sizes differ, and nothing is done with it. *)
Definition attention_probs (m n wm wn r : Z)
    (first_attn_weights second_attn_weights : list (list R))
    (attn_weights : list (list (list R)))
    (second_last_attn_weights last_attn_weights : list (list R))
  : result (list (list R)) :=
  match torch_zeros m n with
  | Raise e => Raise e
  | Ok p0 =>
  match assign_block p0 0 wm 0 n first_attn_weights with
  | Raise e => Raise e
  | Ok p1 =>
  match assign_block p1 wm (wm * 2) 0 (3 * wn)
          (cols second_attn_weights 0 (3 * wn)) with
  | Raise e => Raise e
  | Ok p2 =>
  match assign_block p2 wm (wm * 2) (- wn) n
          (cols second_attn_weights (3 * wn) (4 * wn)) with
  | Raise e => Raise e
  | Ok p3 =>
  if negb (Z.of_nat (length (concat (concat attn_weights)))
           =? (m / wm - 4) * wm * n)
  then Raise RuntimeError
  else
  match assign_block p3 (- 2 * wm) (- wm) 0 wn
          (cols second_last_attn_weights 0 wn) with
  | Raise e => Raise e
  | Ok p4 =>
  match assign_block p4 (- 2 * wm) (- wm) (- 3 * wn) n
          (cols second_last_attn_weights wn (4 * wn)) with
  | Raise e => Raise e
  | Ok p5 => assign_block p5 (- wm) m 0 n last_attn_weights
  end end end end end end.

End AttentionProbs.

Arguments assign_cols {R}.
Arguments assign_block {R}.
Arguments torch_zeros {R}.
Arguments cols {R}.
Arguments attention_probs {R}.

(** ** MaskAssembler and the second row-group

    Floats are any type [R] with the operations the code applies to
    them; a row of [head_dim] floats is any type [V], with the dot
    product and the weighted sum that the two [einsum] calls compute. *)
Section SecondBlock.
Variable R : Type.
Variable V : Type.
Variables one neg_10000 rsqrt_d : R.
Variables add sub mul rmin : R -> R -> R.
Variable dot : V -> V -> R.
Variable softmax : list R -> list R.
Variable weighted_sum : list R -> list V -> V.

(** An elementwise operation on two tensors of one shape. *)
Definition zip_with_checked {A B C} (f : A -> B -> C) (l1 : list A) (l2 : list B)
  : result (list C) :=
  if Nat.eqb (length l1) (length l2)
  then Ok (map (fun ab => f (fst ab) (snd ab)) (combine l1 l2))
  else Raise RuntimeError.

(** [_create_rand_mask_from_inputs]: the validity bits of the sampled
    blocks, gathered per batch element with the indices of all heads
    flattened, viewed as [b, h, num_windows, r * wm], and multiplied
    with the validity of each row of the query blocks [1 .. -1].  On a
    sequence of one block [num_windows] is [-1], which the view takes
    as the dimension to infer. *)
Definition _create_rand_mask_from_inputs
    (from_blocked_mask to_blocked_mask : list (list (list R)))
    (rand_attn : list (list (list (list Z))))
    (num_attention_heads num_rand_blocks batch_size
     from_seq_length from_block_size : Z)
  : result (list (list (list (list (list R))))) :=
  match Py.floordiv from_seq_length from_block_size with
  | Raise e => Raise e
  | Ok q =>
  let num_windows := q - 2 in
  let k := num_rand_blocks * from_block_size in
  match map_result
          (fun p1i1 : list (list R) * list (list (list Z)) =>
             torch_index_select (fst p1i1) (concat (map (@concat Z) (snd p1i1))))
          (combine to_blocked_mask rand_attn) with
  | Raise e => Raise e
  | Ok sel =>
  match torch_stack sel with
  | Raise e => Raise e
  | Ok sel =>
  if negb (Z.of_nat (length sel) =? batch_size) then Raise RuntimeError else
  match map_result
          (fun blocks : list (list R) =>
             let xs := concat blocks in
             let num_windows :=
               if (num_windows =? -1) && (0 <? num_attention_heads * k)
               then Z.of_nat (length xs) / (num_attention_heads * k)
               else num_windows in
             if (0 <=? num_attention_heads) && (0 <=? num_windows) && (0 <=? k)
                && (Z.of_nat (length xs) =? num_attention_heads * (num_windows * k))
             then Ok (map (chunks (Z.to_nat num_windows) (Z.to_nat k))
                          (chunks (Z.to_nat num_attention_heads)
                                  (Z.to_nat (num_windows * k)) xs))
             else Raise RuntimeError)
          sel with
  | Raise e => Raise e
  | Ok viewed =>
  if negb (Nat.eqb (length from_blocked_mask) (length viewed))
  then Raise RuntimeError
  else
    map_result
      (fun fv : list (list R) * list (list (list R)) =>
         let mid := Py.slice (fst fv) 1 (-1) in
         map_result
           (fun vh : list (list R) =>
              zip_with_checked
                (fun (fl : list R) (vl : list R) =>
                   map (fun fq => map (fun x => mul fq x) vl) fl)
                mid vh)
           (snd fv))
      (combine from_blocked_mask viewed)
  end end end end.

(** Lines 592-615 for one batch element and one head: the context rows
    of the second query block.  [gathered_key] and [gathered_value]
    are the gathered tensors of that batch element and head,
    [rand_mask] the random mask of that batch element and head. *)
Definition second_context_layer
    (blocked_query_matrix blocked_key_matrix blocked_value_matrix : list (list V))
    (to_mask : list R)
    (gathered_key gathered_value : list (list V))
    (rand_mask : list (list (list R)))
    (wm wn r : Z) : result (list V) :=
  match Py.index blocked_key_matrix 0, Py.index blocked_key_matrix 1,
        Py.index blocked_key_matrix 2, Py.index blocked_key_matrix (-1),
        Py.index gathered_key 0 with
  | Ok k0, Ok k1, Ok k2, Ok kl, Ok gk =>
  match Py.index blocked_value_matrix 0, Py.index blocked_value_matrix 1,
        Py.index blocked_value_matrix 2, Py.index blocked_value_matrix (-1),
        Py.index gathered_value 0 with
  | Ok v0, Ok v1, Ok v2, Ok vl, Ok gv =>
  match Py.index blocked_query_matrix 1, Py.index rand_mask 0 with
  | Ok q1, Ok rand_mask0 =>
      let second_key_mat := k0 ++ k1 ++ k2 ++ kl ++ gk in
      let second_value_mat := v0 ++ v1 ++ v2 ++ vl ++ gv in
      let second_product :=
        map (fun q => map (fun key => dot q key) second_key_mat) q1 in
      let second_seq_pad :=
        Py.slice_to to_mask (3 * wn) ++ Py.slice_from to_mask (- wn)
        ++ repeat one (Z.to_nat (r * wn)) in
      if negb (Z.of_nat (length rand_mask0) =? wm) then Raise RuntimeError
      else
        let second_rand_pad :=
          map (fun rm_q => repeat one (Z.to_nat (4 * wn)) ++ rm_q) rand_mask0 in
        match zip_with_checked (fun p rp => (p, rp)) second_product second_rand_pad with
        | Raise e => Raise e
        | Ok pairs =>
            match map_result
                    (fun prp : list R * list R =>
                       match zip_with_checked rmin second_seq_pad (snd prp) with
                       | Raise e => Raise e
                       | Ok pad =>
                           zip_with_checked
                             (fun p mk => add (mul p rsqrt_d)
                                              (mul (sub one mk) neg_10000))
                             (fst prp) pad
                       end)
                    pairs with
            | Raise e => Raise e
            | Ok biased =>
                let second_attn_weights := map softmax biased in
                map_result
                  (fun w =>
                     if Nat.eqb (length w) (length second_value_mat)
                     then Ok (weighted_sum w second_value_mat)
                     else Raise RuntimeError)
                  second_attn_weights
            end
        end
  | _, _ => Raise IndexError
  end
  | _, _, _, _, _ => Raise IndexError
  end
  | _, _, _, _, _ => Raise IndexError
  end.

(** The second row-group as the specification words it: the query
    block scored against the concatenation of key blocks 0, 1, 2, B-1
    and the random key blocks of its adjacency row [adj0], the bias
    [(1 - min(sequence-padding mask, random-block mask)) * -10000]
    added, one softmax over the row, and the weighted sum of the
    matching value blocks.  The sequence-padding mask is the padding
    of the four window and global blocks and one on the random keys;
    the random-block mask is one on the window and global keys and, on
    the random keys, the validity of the query row times that of the
    sampled key. *)
Definition second_block_spec
    (query_blocks key_blocks value_blocks : list (list V))
    (to_mask_blocks from_blocked_mask to_blocked_mask : list (list R))
    (adj0 : list Z) (B wn r : Z) : result (list V) :=
  let window_global := [0; 1; 2; B - 1] in
  match torch_index_select key_blocks (window_global ++ adj0),
        torch_index_select value_blocks (window_global ++ adj0),
        torch_index_select to_mask_blocks window_global,
        torch_index_select to_blocked_mask adj0,
        Py.index query_blocks 1, Py.index from_blocked_mask 1 with
  | Ok kb, Ok vb, Ok sb, Ok rb, Ok q1, Ok f1 =>
      let keys := concat kb in
      let values := concat vb in
      let seq_mask := concat sb ++ repeat one (Z.to_nat (r * wn)) in
      Ok (map (fun qf : V * R =>
                 let rand_mask :=
                   repeat one (Z.to_nat (4 * wn))
                   ++ map (fun x => mul (snd qf) x) (concat rb) in
                 let row :=
                   map (fun ksr : V * (R * R) =>
                          add (mul (dot (fst qf) (fst ksr)) rsqrt_d)
                              (mul (sub one (rmin (fst (snd ksr)) (snd (snd ksr))))
                                   neg_10000))
                       (combine keys (combine seq_mask rand_mask)) in
                 weighted_sum (softmax row) values)
              (combine q1 f1))
  | _, _, _, _, _, _ => Raise IndexError
  end.

End SecondBlock.

Arguments _create_rand_mask_from_inputs {R} mul.
Arguments second_context_layer {R V}.
Arguments second_block_spec {R V}.

(** A block that is not in the illegal list. *)
Definition legal_in (illegal : list Z) (b : Z) : bool := negb (Py.mem b illegal).

(** The invariant of the row-filling loops of the planned sampler: the
    list holds one array per head ([H] of them), every array has [B]
    rows of [total] columns, and every cell of the region [D]
    (a row and a column) holds a legal block for its row. *)
Definition Inv (B H : Z) (total : nat) (D : Z -> Z -> Prop)
    (ra : list (list (list Z))) : Prop :=
  length ra = Z.to_nat H /\
  (forall hd arr, nth_error ra hd = Some arr ->
     length arr = Z.to_nat B /\
     forall k row, nth_error arr k = Some row -> length row = total) /\
  (forall hd k j v, cell3 ra hd k j = Some v ->
     D (Z.of_nat k) (Z.of_nat j) ->
     outside_window_and_globals B (Z.of_nat k) v).

(** The state of the row-filling loops seen row by row: one array per
    head ([H] of them), every array of [B] rows of [total] columns, and
    every row of the set [W] (the rows written so far) satisfying [Q]. *)
Definition Rows (B H : Z) (total : nat) (W : Z -> Prop)
    (Q : Z -> list Z -> Prop) (ra : list (list (list Z))) : Prop :=
  length ra = Z.to_nat H /\
  forall hd arr, nth_error ra hd = Some arr ->
    length arr = Z.to_nat B /\
    forall k row, nth_error arr k = Some row ->
      length row = total /\ (W (Z.of_nat k) -> Q (Z.of_nat k) row).

(** ** The band mask: [BigBirdModel.create_band_mask_from_inputs]

    The block-level validity masks [batch, blocks, block_size] are
    lists of lists of rows of floats of any type [R]. *)
Section BandMask.
Variable R : Type.
Variable mul : R -> R -> R.

(** [torch.cat([x, y], dim=-1)] of two matrices: their rows are joined
    pairwise, and the numbers of rows must agree. *)
Definition cat_rows (x y : list (list R)) : result (list (list R)) :=
  zip_with_checked (@app R) x y.

(** [torch.einsum] pairs the entries along a subscript that both
    operands carry; a dimension of size one is broadcast, any other
    difference of sizes raises. *)
Definition einsum_pair {A B C} (f : A -> B -> result C)
    (l1 : list A) (l2 : list B) : result (list C) :=
  if Nat.eqb (length l1) (length l2)
  then map_result (fun ab => f (fst ab) (snd ab)) (combine l1 l2)
  else match l1, l2 with
       | [a], _ => map_result (f a) l2
       | _, [b] => map_result (fun a => f a b) l1
       | _, _ => Raise RuntimeError
       end.

(** [exp_blocked_to_pad] for one batch element: the bits of the blocks
    [1:-3], [2:-2] and [3:-1], joined row by row. *)
Definition exp_blocked_to_pad (to_blocked_mask : list (list R))
  : result (list (list R)) :=
  match cat_rows (Py.slice to_blocked_mask 1 (-3))
                 (Py.slice to_blocked_mask 2 (-2)) with
  | Raise e => Raise e
  | Ok xy => cat_rows xy (Py.slice to_blocked_mask 3 (-1))
  end.

Definition create_band_mask_from_inputs
    (from_blocked_mask to_blocked_mask : list (list (list R)))
  : result (list (list (list (list (list R))))) :=
  match map_result exp_blocked_to_pad to_blocked_mask with
  | Raise e => Raise e
  | Ok exp_blocked =>
      match einsum_pair
              (fun fm em =>
                 einsum_pair
                   (fun fl el => Ok (map (fun fq => map (fun x => mul fq x) el) fl))
                   (Py.slice fm 2 (-2)) em)
              from_blocked_mask exp_blocked with
      | Raise e => Raise e
      | Ok band_mask => Ok (map (fun t => [t]) band_mask)
      end
  end.

End BandMask.

Arguments cat_rows {R}.
Arguments einsum_pair {A B C}.
Arguments exp_blocked_to_pad {R}.
Arguments create_band_mask_from_inputs {R}.

(** ** Heads: [transpose_for_scores] and the merge that ends [forward]

    A hidden-state tensor [batch, seq, hidden] is a list of lists of
    rows of floats of any type [R]. *)
Section Heads.
Variable R : Type.

(** [row.view(h, d)] on the last dimension: [h] runs of [d] floats.
    The sizes are the module's head count and head size; a negative
    size or sizes that do not multiply to the length raise. *)
Definition view_heads (h d : Z) (row : list R) : result (list (list R)) :=
  if (0 <=? h) && (0 <=? d) && (Z.of_nat (length row) =? h * d)
  then Ok (chunks (Z.to_nat h) (Z.to_nat d) row)
  else Raise RuntimeError.

(** Exchanging the two outer dimensions of one batch element:
    [t.permute(0, 2, 1, 3)] and [torch.transpose(t, 1, 2)].  [n] is
    the size of the dimension that becomes the outer one. *)
Definition swap_axes {A} (n : nat) (t : list (list A)) : list (list A) :=
  map (fun i =>
         flat_map (fun row => match nth_error row i with
                              | Some x => [x]
                              | None => []
                              end) t)
      (seq 0 n).

(** [transpose_for_scores]: [batch, seq, hidden] to
    [batch, heads, seq, head_size]. *)
Definition transpose_for_scores (num_attention_heads attention_head_size : Z)
    (x : list (list (list R))) : result (list (list (list (list R)))) :=
  map_result
    (fun xb =>
       match map_result (view_heads num_attention_heads attention_head_size) xb with
       | Raise e => Raise e
       | Ok v => Ok (swap_axes (Z.to_nat num_attention_heads) v)
       end)
    x.

(** [t.contiguous().view(d0, d1, -1)]: the floats in row-major order,
    regrouped; the view raises when [d0 * d1] is not positive (the
    last size cannot be inferred) or does not divide their number. *)
Definition view_3d (d0 d1 : Z) (flat : list R) : result (list (list (list R))) :=
  if (0 <? d0) && (0 <? d1)
  then
    let w := Z.of_nat (length flat) / (d0 * d1) in
    if Z.of_nat (length flat) mod (d0 * d1) =? 0
    then Ok (map (chunks (Z.to_nat d1) (Z.to_nat w))
                 (chunks (Z.to_nat d0) (Z.to_nat (d1 * w)) flat))
    else Raise RuntimeError
  else Raise RuntimeError.

(** The floats of a tensor [batch, seq, heads, head_size] in row-major
    order. *)
Definition row_major (t : list (list (list (list R)))) : list R :=
  concat (map (fun tb => concat (map (@concat R) tb)) t).

(** The end of the attention: [torch.transpose(context_layer, 1, 2)]
    (line 751) and [context_layer.contiguous().view(batch_size,
    from_seq_length, -1)] (line 459), on a context
    [batch, heads, seq, head_size]. *)
Definition merge_heads (batch_size from_seq_length : Z)
    (context_layer : list (list (list (list R))))
  : result (list (list (list R))) :=
  let transposed := map (swap_axes (Z.to_nat from_seq_length)) context_layer in
  view_3d batch_size from_seq_length (row_major transposed).

End Heads.

Arguments view_heads {R}.
Arguments transpose_for_scores {R}.
Arguments view_3d {R}.
Arguments row_major {R}.
Arguments merge_heads {R}.

(** ** Building the model: which attention every layer gets

    [BigBirdModel.__init__], [BigBirdEncoder.__init__],
    [BigBirdLayer.__init__] and [BigBirdAttention.__init__], without
    the linear layers, the normalisations and the embeddings. *)

Record BigBirdModelConfig : Type := {
  attention_config : BigBirdConfig;
  attention_type : String.string;
  add_cross_attention : bool;
  is_decoder : bool;
  num_hidden_layers : Z;
  has_embedding_size : bool
}.

(** [config.attention_type = value] *)
Definition set_attention_type (config : BigBirdModelConfig)
    (value : String.string) : BigBirdModelConfig :=
  {| attention_config := attention_config config;
     attention_type := value;
     add_cross_attention := add_cross_attention config;
     is_decoder := is_decoder config;
     num_hidden_layers := num_hidden_layers config;
     has_embedding_size := has_embedding_size config |}.

(** The module [BigBirdAttention] holds as [self.self]. *)
Inductive SelfModule : Type :=
| FullAttention (num_attention_heads attention_head_size : Z)
| SparseAttention (self : BlockSparseAttention).

(** [BigBirdSelfAttention.__init__(config)]; [int(a / b)] truncates. *)
Definition BigBirdSelfAttention_init (config : BigBirdModelConfig)
  : result SelfModule :=
  let c := attention_config config in
  match Py.modulo (hidden_size c) (num_attention_heads c) with
  | Raise e => Raise e
  | Ok rem =>
      if negb (rem =? 0) && negb (has_embedding_size config)
      then Raise ValueError
      else Ok (FullAttention (num_attention_heads c)
                 (Z.quot (hidden_size c) (num_attention_heads c)))
  end.

(** [BigBirdAttention.__init__(config, seed)] *)
Definition BigBirdAttention_init (config : BigBirdModelConfig)
    (seed : option Z) : result SelfModule :=
  if String.eqb (attention_type config) "original_full"%string
  then BigBirdSelfAttention_init config
  else if String.eqb (attention_type config) "block_sparse"%string
  then match BigBirdBlockSparseAttention_init (attention_config config) seed with
       | Raise e => Raise e
       | Ok self => Ok (SparseAttention self)
       end
  else Raise ValueError.

Record BigBirdLayer : Type := {
  attention : SelfModule;
  layer_is_decoder : bool;
  layer_add_cross_attention : bool;
  crossattention : option SelfModule
}.

(** [BigBirdLayer.__init__(config, seed)] *)
Definition BigBirdLayer_init (config : BigBirdModelConfig) (seed : option Z)
  : result BigBirdLayer :=
  match BigBirdAttention_init config seed with
  | Raise e => Raise e
  | Ok att =>
      if add_cross_attention config
      then
        if is_decoder config
        then match BigBirdAttention_init config None with
             | Raise e => Raise e
             | Ok cross =>
                 Ok {| attention := att;
                       layer_is_decoder := is_decoder config;
                       layer_add_cross_attention := add_cross_attention config;
                       crossattention := Some cross |}
             end
        else Raise AssertionError
      else Ok {| attention := att;
                 layer_is_decoder := is_decoder config;
                 layer_add_cross_attention := add_cross_attention config;
                 crossattention := None |}
  end.

(** [BigBirdEncoder.__init__(config)]: layer [layer_idx] is built with
    [seed=layer_idx]. *)
Definition BigBirdEncoder_init (config : BigBirdModelConfig)
  : result (list BigBirdLayer) :=
  map_result (fun layer_idx => BigBirdLayer_init config (Some layer_idx))
             (Py.range 0 (num_hidden_layers config)).

Record BigBirdModel : Type := {
  model_config : BigBirdModelConfig;
  model_block_size : Z;
  model_attention_type : String.string;
  encoder_layer : list BigBirdLayer
}.

(** [BigBirdModel.__init__(config)]: the configuration object is
    changed in place before the encoder is built from it. *)
Definition BigBirdModel_init (config : BigBirdModelConfig) : result BigBirdModel :=
  let config :=
    if negb (String.eqb (attention_type config) "original_full"%string)
       && add_cross_attention config
    then set_attention_type config "original_full"%string
    else config in
  match BigBirdEncoder_init config with
  | Raise e => Raise e
  | Ok layers =>
      Ok {| model_config := config;
            model_block_size := block_size (attention_config config);
            model_attention_type := attention_type config;
            encoder_layer := layers |}
  end.

(** The check [BigBirdModel.forward] makes on the sequence length when
    the attention is block sparse (line 1720). *)
Definition model_forward_check (model : BigBirdModel) (seq_length : Z)
  : result unit :=
  if String.eqb (model_attention_type model) "block_sparse"%string
  then match Py.modulo seq_length (model_block_size model) with
       | Raise e => Raise e
       | Ok rem => if negb (rem =? 0) then Raise AssertionError else Ok tt
       end
  else if String.eqb (model_attention_type model) "original_full"%string
  then Ok tt
  else Raise ValueError.

(** ** The engine up to its first attention product

    [forward] asserts the two divisibility conditions, projects the
    hidden states and calls [bigbird_block_sparse_attention], which
    samples the adjacency (lines 499-546), builds the random mask
    (line 550), views queries, keys and values as blocks (lines
    556-558) and gathers the random key and value blocks (lines
    561-564); the first product of queries with keys is the [einsum]
    of line 575. *)

(** [layer.view(b, h, nb, w, -1)] of a projected layer [b, h, n, d],
    a list over batch elements of lists over heads of the [n] rows of
    [d] floats.  The engine asks for the sizes [b] and [h] of the layer
    itself and for [nb * w = n]; the view raises when the sizes asked
    for multiply to zero (the [-1] is then ambiguous) and, in this
    model, whenever they are not those of the layer. *)
Definition view_blocks {V} (b h nb w : Z) (layer : list (list (list V)))
  : result (list (list (list (list V)))) :=
  if negb ((0 <? b) && (Z.of_nat (length layer) =? b)) then Raise RuntimeError
  else
    map_result
      (fun heads : list (list V) =>
         if negb ((0 <? h) && (Z.of_nat (length heads) =? h))
         then Raise RuntimeError
         else
           map_result
             (fun rows : list V =>
                if (0 <? nb * w) && (Z.of_nat (length rows) =? nb * w)
                then Ok (chunks (Z.to_nat nb) (Z.to_nat w) rows)
                else Raise RuntimeError)
             heads)
      layer.

Section Prelude.
Variable G : Generator.
Variable R : Type.
Variable V : Type.
Variable mul : R -> R -> R.

(** What the attention holds when it reaches line 575. *)
Record Prelude : Type := {
  pre_rand_attn : list (list (list (list Z)));
  pre_rand_mask : list (list (list (list (list R))));
  pre_blocked_query_matrix : list (list (list (list V)));
  pre_blocked_key_matrix : list (list (list (list V)));
  pre_blocked_value_matrix : list (list (list (list V)));
  pre_gathered_key : list (list (list (list V)));
  pre_gathered_value : list (list (list (list V)))
}.

(** Lines 499-564 of [bigbird_block_sparse_attention]. *)
Definition attention_prelude
    (query_layer key_layer value_layer : list (list (list V)))
    (from_blocked_mask to_blocked_mask : list (list (list R)))
    (num_attention_heads num_rand_blocks from_block_size to_block_size
     batch_size from_seq_length to_seq_length : Z)
    (seed : option Z) (os_entropy : Z)
    (plan : option (list Z * list Z)) : M G Prelude :=
  let h := num_attention_heads in
  let r := num_rand_blocks in
  let b := batch_size in
  let m := from_seq_length in
  let n := to_seq_length in
  let wm := from_block_size in
  let wn := to_block_size in
  rand_attn <- bigbird_rand_attn G seed os_entropy h r wm wn b m n plan ;;
  rand_mask <- lift (_create_rand_mask_from_inputs mul from_blocked_mask
                       to_blocked_mask rand_attn h r b m wm) ;;
  blocked_query_matrix <- lift (view_blocks b h (m / wm) wm query_layer) ;;
  blocked_key_matrix <- lift (view_blocks b h (n / wn) wn key_layer) ;;
  blocked_value_matrix <- lift (view_blocks b h (n / wn) wn value_layer) ;;
  gathered_key <- lift (gathered blocked_key_matrix rand_attn n wn r) ;;
  gathered_value <- lift (gathered blocked_value_matrix rand_attn n wn r) ;;
  ret {| pre_rand_attn := rand_attn;
         pre_rand_mask := rand_mask;
         pre_blocked_query_matrix := blocked_query_matrix;
         pre_blocked_key_matrix := blocked_key_matrix;
         pre_blocked_value_matrix := blocked_value_matrix;
         pre_gathered_key := gathered_key;
         pre_gathered_value := gathered_value |}.

(** The engine from its construction to line 575: [__init__], the
    assertions of [forward], then the attention with the module's own
    head count, budget, block size and seed and no plan.  The three
    linear layers and [transpose_for_scores] between the assertions
    and the call are taken as computed: [query_layer], [key_layer]
    and [value_layer] are their results. *)
Definition engine_prelude (config : BigBirdConfig) (seed : option Z)
    (query_layer key_layer value_layer : list (list (list V)))
    (from_blocked_mask to_blocked_mask : list (list (list R)))
    (batch_size seqlen os_entropy : Z) : M G Prelude :=
  self <- lift (BigBirdBlockSparseAttention_init config seed) ;;
  _ <- lift (forward_checks self seqlen) ;;
  attention_prelude query_layer key_layer value_layer
    from_blocked_mask to_blocked_mask
    (self_num_attention_heads self) (self_num_random_blocks self)
    (self_block_size self) (self_block_size self)
    batch_size seqlen seqlen (self_seed self) os_entropy None.

End Prelude.

Arguments attention_prelude G {R V} mul.
Arguments engine_prelude G {R V} mul.

(** The exceptions that numpy, torch and list indexing raise, as
    opposed to the two the engine raises by its own checks
    ([NotImplementedError] at construction, [AssertionError]). *)
Definition library_error (e : py_exn) : Prop :=
  e = ValueError \/ e = IndexError \/ e = ZeroDivisionError \/ e = RuntimeError.

(** A computation that raises nothing but the exceptions of [P]. *)
Definition raises_only {G : Generator} {A} (P : py_exn -> Prop) (m : M G A)
  : Prop :=
  forall g e, m g = Raise e -> P e.

(** A computation that returns nothing but values of [I]. *)
Definition returns_only {G : Generator} {A} (I : A -> Prop) (m : M G A)
  : Prop :=
  forall g a g', m g = Ok (a, g') -> I a.

(** The adjacency names no block: it has no row, or rows of no
    column. *)
Definition index_free (adj : list (list (list (list Z)))) : Prop :=
  forall ra arr row, In ra adj -> In arr ra -> In row arr -> row = [].

(** * Properties *)

(** ** Ranges, membership and slices *)

Lemma range_In : forall lo hi x, In x (Py.range lo hi) <-> lo <= x < hi.
Proof.
  intros lo hi x. unfold Py.range. rewrite in_map_iff. split.
  - intros [k [<- Hk]]. apply in_seq in Hk. lia.
  - intros H. exists (Z.to_nat (x - lo)). split; [lia|].
    apply in_seq. lia.
Qed.

Lemma range_length : forall lo hi, length (Py.range lo hi) = Z.to_nat (hi - lo).
Proof. intros. unfold Py.range. now rewrite length_map, length_seq. Qed.

Lemma range_NoDup : forall lo hi, NoDup (Py.range lo hi).
Proof.
  intros lo hi. unfold Py.range.
  apply Injective_map_NoDup; [|apply seq_NoDup].
  intros a b H. lia.
Qed.

Lemma range_nth_error : forall lo hi k,
  (k < Z.to_nat (hi - lo))%nat ->
  nth_error (Py.range lo hi) k = Some (lo + Z.of_nat k).
Proof.
  intros lo hi k Hk. unfold Py.range.
  rewrite nth_error_map, nth_error_seq.
  destruct (Nat.ltb_spec k (Z.to_nat (hi - lo))); [reflexivity|lia].
Qed.

Lemma range_nil : forall lo hi, hi <= lo -> Py.range lo hi = [].
Proof.
  intros lo hi H. unfold Py.range.
  replace (Z.to_nat (hi - lo)) with 0%nat by lia. reflexivity.
Qed.

Lemma range_cons : forall lo hi, lo < hi ->
  Py.range lo hi = lo :: Py.range (lo + 1) hi.
Proof.
  intros lo hi H. unfold Py.range.
  replace (Z.to_nat (hi - lo)) with (S (Z.to_nat (hi - (lo + 1)))) by lia.
  simpl. f_equal; [lia|].
  rewrite <- seq_shift, map_map. apply map_ext. intros k. lia.
Qed.

Lemma mem_In : forall x l, Py.mem x l = true <-> In x l.
Proof.
  intros x l. unfold Py.mem. rewrite existsb_exists. split.
  - intros [y [Hy E]]. apply Z.eqb_eq in E. now subst.
  - intros H. exists x. split; [assumption|apply Z.eqb_refl].
Qed.

Lemma mem_false : forall x l, Py.mem x l = false <-> ~ In x l.
Proof.
  intros x l. rewrite <- mem_In. destruct (Py.mem x l); split; congruence.
Qed.

Lemma In_firstn : forall (A : Type) n (l : list A) x, In x (firstn n l) -> In x l.
Proof.
  intros A n l x H. rewrite <- (firstn_skipn n l). apply in_or_app. now left.
Qed.

Lemma In_skipn : forall (A : Type) n (l : list A) x, In x (skipn n l) -> In x l.
Proof.
  intros A n l x H. rewrite <- (firstn_skipn n l). apply in_or_app. now right.
Qed.

Lemma In_slice : forall (A : Type) (l : list A) lo hi x,
  In x (Py.slice l lo hi) -> In x l.
Proof.
  intros A l lo hi x H. unfold Py.slice in H.
  eapply In_skipn, In_firstn, H.
Qed.

(** ** BlockPlanner *)

(** C2: the planner returns exactly the two-segment plan with the full
    budget first when [2r+5 < B], the two-segment plan with the budget
    split into [floor(r/2)] and the rest when [r+5 < B], and the
    single full-budget segment otherwise. *)
Theorem plan_policy : forall seq_len block_size r,
  block_size <> 0 ->
  seq_len mod block_size = 0 ->
  let B := seq_len / block_size in
  exists plan,
    _get_rand_attn_plan seq_len block_size r = Ok plan /\
    plan_segments plan =
      if 2 * r + 5 <? B then
        [((2 * r + 5) * block_size, r); (seq_len, 0)]
      else if r + 5 <? B then
        [((r + 5) * block_size, r / 2); (seq_len, r - r / 2)]
      else [(seq_len, r)].
Proof.
  intros seq_len block_size r Hbs _ B.
  unfold _get_rand_attn_plan, Py.floordiv.
  destruct (Z.eqb_spec block_size 0) as [E|_]; [contradiction|].
  fold B.
  destruct (2 * r + 5 <? B); [eexists; split; reflexivity|].
  destruct (r + 5 <? B); eexists; split; reflexivity.
Qed.

Lemma plan_policy_witness :
  exists plan,
    _get_rand_attn_plan 512 64 2 = Ok plan /\
    plan_segments plan = [(448, 1); (512, 1)].
Proof.
  apply (plan_policy 512 64 2); [lia | reflexivity].
Defined.

(** ** One sampled row *)

Lemma filter_perm_length : forall (f : Z -> bool) l l',
  Permutation l l' -> length (filter f l) = length (filter f l').
Proof.
  intros f l l' H. induction H; simpl.
  - reflexivity.
  - destruct (f x); simpl; congruence.
  - destruct (f x), (f y); reflexivity.
  - congruence.
Qed.

(** With a budget of at least one block, the selection loop keeps the
    first [num_rand_blocks] legal blocks of the permutation. *)
Lemma select_blocks_firstn : forall illegal num perm selected,
  Z.of_nat (length selected) < num ->
  select_blocks illegal num perm selected =
  selected ++ firstn (Z.to_nat num - length selected)
                     (filter (legal_in illegal) perm).
Proof.
  intros illegal num perm. induction perm as [|p rest IH]; intros selected Hlt.
  - simpl. rewrite firstn_nil. now rewrite app_nil_r.
  - simpl. unfold legal_in at 1. destruct (Py.mem p illegal); simpl.
    + destruct (Z.eqb_spec (Z.of_nat (length selected)) num) as [E|_]; [lia|].
      now apply IH.
    + rewrite length_app. simpl.
      replace (Z.to_nat num - length selected)%nat
        with (S (Z.to_nat num - (length selected + 1)))%nat by lia.
      simpl.
      destruct (Z.eqb_spec (Z.of_nat (length selected + 1)) num) as [E|N].
      * replace (Z.to_nat num - (length selected + 1))%nat with 0%nat by lia.
        reflexivity.
      * rewrite IH by (rewrite length_app; simpl; lia).
        rewrite length_app. simpl. now rewrite <- app_assoc.
Qed.

Section SingleRow.
Variable G : Generator.
Variables block_id to_start to_end num wl wr gl gr : Z.
Variable g : gstate G.

Let illegal := illegal_blocks block_id to_end wl wr gl gr.
Let perm := fst (permutation G (Py.range to_start to_end) g).

Lemma single_row_run :
  _get_single_block_row_attention G block_id to_start to_end num wl wr gl gr g =
  Ok (select_blocks illegal num perm [], snd (permutation G (Py.range to_start to_end) g)).
Proof.
  unfold _get_single_block_row_attention, bind, np_random_permutation, ret.
  subst perm illegal.
  destruct (permutation G (Py.range to_start to_end) g); reflexivity.
Qed.

Lemma perm_NoDup : NoDup perm.
Proof.
  eapply Permutation_NoDup; [apply permutation_perm|apply range_NoDup].
Qed.

Lemma perm_In : forall b, In b perm <-> to_start <= b < to_end.
Proof.
  intros b. rewrite <- range_In. split; intros H.
  - eapply Permutation_in; [apply Permutation_sym, permutation_perm|exact H].
  - eapply Permutation_in; [apply permutation_perm|exact H].
Qed.

Lemma legal_pool_length :
  length (filter (legal_in illegal) perm) =
  length (legal_pool block_id to_start to_end wl wr gl gr).
Proof.
  unfold legal_pool. symmetry.
  apply (filter_perm_length (legal_in illegal)), permutation_perm.
Qed.

Lemma legal_pool_In : forall b,
  In b (filter (legal_in illegal) perm) <->
  In b (legal_pool block_id to_start to_end wl wr gl gr).
Proof.
  intros b. unfold legal_pool. rewrite !filter_In, perm_In, range_In.
  reflexivity.
Qed.

(** What a call with a budget of at least one block returns. *)
Lemma single_row_spec :
  1 <= num ->
  exists sel g',
    _get_single_block_row_attention G block_id to_start to_end num wl wr gl gr g
      = Ok (sel, g') /\
    NoDup sel /\
    Z.of_nat (length sel) <= num /\
    (num <= Z.of_nat (length (legal_pool block_id to_start to_end wl wr gl gr)) ->
     Z.of_nat (length sel) = num) /\
    (forall b, In b sel -> In b (legal_pool block_id to_start to_end wl wr gl gr)).
Proof.
  intros Hnum. rewrite single_row_run.
  rewrite select_blocks_firstn by (simpl; lia). simpl.
  rewrite Nat.sub_0_r.
  eexists; eexists; split; [reflexivity|].
  assert (Hnd : NoDup (filter (legal_in illegal) perm))
    by (apply NoDup_filter, perm_NoDup).
  repeat split.
  - rewrite <- (firstn_skipn (Z.to_nat num)) in Hnd.
    now apply NoDup_app_remove_r in Hnd.
  - rewrite length_firstn. lia.
  - intros Hpool. rewrite length_firstn, legal_pool_length. lia.
  - intros b Hb. apply legal_pool_In. eapply In_firstn. exact Hb.
Qed.

End SingleRow.

(** C3: the single-row sampling returns pairwise-distinct blocks, at
    most [num_rand_blocks] of them, and exactly [num_rand_blocks] when
    the legal pool holds that many.  The budget is at least one block,
    as it is at every call: the three call sites of
    [_bigbird_block_rand_mask_with_head] skip a segment whose budget
    is zero. *)
Theorem single_row_distinct_bounded :
  forall (G : Generator) block_id to_start to_end num wl wr gl gr (g : gstate G),
  1 <= num ->
  exists sel g',
    _get_single_block_row_attention G block_id to_start to_end num wl wr gl gr g
      = Ok (sel, g') /\
    NoDup sel /\
    Z.of_nat (length sel) <= num /\
    (num <= Z.of_nat (length (legal_pool block_id to_start to_end wl wr gl gr)) ->
     Z.of_nat (length sel) = num).
Proof.
  intros G block_id to_start to_end num wl wr gl gr g Hnum.
  destruct (single_row_spec G block_id to_start to_end num wl wr gl gr g Hnum)
    as (sel & g' & Hrun & Hnd & Hle & Heq & _).
  exists sel, g'. auto.
Qed.

Lemma single_row_distinct_bounded_witness :
  exists sel g',
    _get_single_block_row_attention rot_generator 3 0 8 3 1 1 1 1 5
      = Ok (sel, g') /\
    NoDup sel /\
    Z.of_nat (length sel) <= 3 /\
    (3 <= Z.of_nat (length (legal_pool 3 0 8 1 1 1 1)) ->
     Z.of_nat (length sel) = 3).
Proof.
  apply (single_row_distinct_bounded rot_generator 3 0 8 3 1 1 1 1 5). lia.
Defined.

(** The budget of at least one block is needed.  With a budget of
    zero, which no call site passes, the loop tests the length only
    after it may have appended, so a legal first block is kept and the
    test never fires: block 3 of a 7-block segment, with the
    permutation [1,2,3,4,5,6,0], gets two blocks. *)
Lemma single_row_zero_budget_overflows :
  _get_single_block_row_attention rot_generator 3 0 7 0 1 1 1 1 1
    = Ok ([1; 5], 2) /\
  ~ (Z.of_nat (length [1; 5]) <= 0).
Proof.
  split; [reflexivity|]. simpl. lia.
Qed.

(** ** Running monadic code backwards *)

Lemma bind_Ok : forall (G : Generator) (A B : Type) (m : M G A) (k : A -> M G B) g b g',
  bind m k g = Ok (b, g') ->
  exists a g1, m g = Ok (a, g1) /\ k a g1 = Ok (b, g').
Proof.
  intros G A B m k g b g' H. unfold bind in H.
  destruct (m g) as [[a g1]|e]; [|discriminate].
  exists a, g1. auto.
Qed.

Lemma lift_Ok : forall (G : Generator) (A : Type) (r : result A) (g : gstate G) a g',
  lift r g = Ok (a, g') -> r = Ok a /\ g' = g.
Proof.
  intros G A r g a g' H. unfold lift in H.
  destruct r; inversion H; auto.
Qed.

Lemma ret_Ok : forall (G : Generator) (A : Type) (a : A) (g : gstate G) b g',
  ret a g = Ok (b, g') -> b = a /\ g' = g.
Proof. intros G A a g b g' H. inversion H; auto. Qed.

Lemma raise_Ok : forall (G : Generator) (A : Type) e (g : gstate G) (b : A) g',
  raise e g = Ok (b, g') -> False.
Proof. intros. discriminate. Qed.

Ltac inv_run H :=
  lazymatch type of H with
  | bind _ _ _ = Ok _ =>
      let a := fresh "a" in let g1 := fresh "g" in
      let H1 := fresh "Hrun" in let H2 := fresh "Hrun" in
      apply bind_Ok in H; destruct H as (a & g1 & H1 & H2);
      inv_run H1; inv_run H2
  | lift _ _ = Ok _ =>
      let E := fresh "E" in
      apply lift_Ok in H; destruct H as [H E]; subst
  | ret _ _ = Ok _ =>
      let E := fresh "E" in
      apply ret_Ok in H; destruct H as [H E]; subst
  | raise _ _ = Ok _ => discriminate H
  | _ => idtac
  end.

(** A loop establishes on the whole list what each iteration adds for
    its own element. *)
Lemma for_each_prefix : forall (G : Generator) (A S : Type)
    (P : list A -> S -> Prop) (body : A -> S -> M G S) l done s g s' g',
  P done s ->
  (forall done a s g s' g',
      P done s -> body a s g = Ok (s', g') -> P (done ++ [a]) s') ->
  for_each l body s g = Ok (s', g') ->
  P (done ++ l) s'.
Proof.
  intros G A S P body l. induction l as [|a l IH]; intros done s g s' g' H0 Hstep Hrun.
  - simpl in Hrun. inversion Hrun; subst. now rewrite app_nil_r.
  - simpl in Hrun. apply bind_Ok in Hrun. destruct Hrun as (s1 & g1 & H1 & H2).
    replace (done ++ a :: l) with ((done ++ [a]) ++ l)
      by (rewrite <- app_assoc; reflexivity).
    eapply IH; eauto.
Qed.

Lemma for_each_inv : forall (G : Generator) (A S : Type)
    (I : S -> Prop) (body : A -> S -> M G S) l s g s' g',
  I s ->
  (forall a s g s' g', In a l -> I s -> body a s g = Ok (s', g') -> I s') ->
  for_each l body s g = Ok (s', g') ->
  I s'.
Proof.
  intros G A S I body l. induction l as [|a l IH]; intros s g s' g' H0 Hstep Hrun.
  - simpl in Hrun. inversion Hrun; subst. assumption.
  - simpl in Hrun. apply bind_Ok in Hrun. destruct Hrun as (s1 & g1 & H1 & H2).
    eapply IH; [| |exact H2].
    + eapply Hstep; [left; reflexivity|exact H0|exact H1].
    + intros; eapply Hstep; eauto. now right.
Qed.

Lemma comprehension_Forall : forall (G : Generator) (A B : Type)
    (P : B -> Prop) (e : A -> M G B) l g bs g',
  (forall a g b g', In a l -> e a g = Ok (b, g') -> P b) ->
  comprehension l e g = Ok (bs, g') ->
  Forall P bs /\ length bs = length l.
Proof.
  intros G A B P e l. induction l as [|a l IH]; intros g bs g' He Hrun.
  - simpl in Hrun. inversion Hrun; subst. split; [constructor|reflexivity].
  - simpl in Hrun. apply bind_Ok in Hrun. destruct Hrun as (b & g1 & H1 & H2).
    apply bind_Ok in H2. destruct H2 as (bs' & g2 & H2 & H3).
    inversion H3; subst.
    destruct (IH g1 bs' g') as [HF HL]; [intros; eapply He; eauto; now right|exact H2|].
    split; [constructor; [eapply He; [left; reflexivity|exact H1]|exact HF]|].
    simpl. now rewrite HL.
Qed.

(** ** Cells of arrays and what an assignment changes *)


Lemma nth_error_replace : forall (A : Type) (l : list A) n x k,
  (n < length l)%nat ->
  nth_error (firstn n l ++ x :: skipn (S n) l) k =
  if Nat.eqb k n then Some x else nth_error l k.
Proof.
  intros A l n x k Hn.
  assert (Hf : length (firstn n l) = n) by (rewrite length_firstn; lia).
  destruct (Nat.eqb_spec k n) as [->|Hne].
  - rewrite nth_error_app2 by lia. rewrite Hf, Nat.sub_diag. reflexivity.
  - destruct (Nat.lt_ge_cases k n) as [Hlt|Hge].
    + rewrite nth_error_app1 by lia. rewrite nth_error_firstn.
      destruct (Nat.ltb_spec k n); [reflexivity|lia].
    + rewrite nth_error_app2 by lia. rewrite Hf.
      replace (k - n)%nat with (S (k - S n)) by lia. cbn [nth_error].
      rewrite nth_error_skipn. f_equal. lia.
Qed.

Lemma length_replace : forall (A : Type) (l : list A) n x,
  (n < length l)%nat ->
  length (firstn n l ++ x :: skipn (S n) l) = length l.
Proof.
  intros A l n x Hn. rewrite length_app, length_firstn. cbn [length].
  rewrite length_skipn. lia.
Qed.

Lemma assign_slice_spec : forall row c0 c1 src row',
  Py.assign_slice row c0 c1 src = Ok row' ->
  0 <= c0 -> 0 <= c1 ->
  length row' = length row /\
  forall j v, nth_error row' j = Some v ->
    if (c0 <=? Z.of_nat j) && (Z.of_nat j <? c1) then In v src
    else nth_error row j = Some v.
Proof.
  intros row c0 c1 src row' H H0 H1. unfold Py.assign_slice in H.
  set (len := Z.of_nat (length row)) in *.
  set (lo := Py.bound len c0) in *.
  set (hi := Py.bound len c1) in *.
  set (w := Z.to_nat (hi - lo)) in *.
  assert (Hlo : lo = Z.min c0 len)
    by (subst lo; unfold Py.bound; destruct (Z.ltb_spec c0 0); [lia|reflexivity]).
  assert (Hhi : hi = Z.min c1 len)
    by (subst hi; unfold Py.bound; destruct (Z.ltb_spec c1 0); [lia|reflexivity]).
  assert (Hfill : exists fill, length fill = w /\ (forall v, In v fill -> In v src) /\
     row' = firstn (Z.to_nat lo) row ++ fill ++ skipn (Z.to_nat lo + w) row).
  { destruct (Nat.eqb_spec (length src) w) as [E|N].
    - inversion H. exists src. auto.
    - destruct src as [|x [|y src]]; try discriminate. inversion H.
      exists (repeat x w). rewrite repeat_length. repeat split; auto.
      intros v Hv. apply repeat_spec in Hv. subst. now left. }
  destruct Hfill as (fill & Hlen & Hin & ->).
  assert (Hf : length (firstn (Z.to_nat lo) row) = Z.to_nat lo)
    by (rewrite length_firstn; lia).
  split.
  - rewrite !length_app, Hf, Hlen, length_skipn. subst w. lia.
  - intros j v Hj.
    destruct (Nat.lt_ge_cases j (Z.to_nat lo)) as [Hlt|Hge].
    + rewrite nth_error_app1 in Hj by lia.
      rewrite nth_error_firstn in Hj.
      destruct (Nat.ltb_spec j (Z.to_nat lo)); [|lia].
      destruct (Z.leb_spec c0 (Z.of_nat j)); [lia|]. simpl. assumption.
    + rewrite nth_error_app2 in Hj by lia. rewrite Hf in Hj.
      destruct (Nat.lt_ge_cases (j - Z.to_nat lo) w) as [Hlt2|Hge2].
      * rewrite nth_error_app1 in Hj by lia.
        apply nth_error_In in Hj.
        destruct (Z.leb_spec c0 (Z.of_nat j)); [|lia].
        destruct (Z.ltb_spec (Z.of_nat j) c1); [|lia]. simpl. auto.
      * rewrite nth_error_app2 in Hj by lia. rewrite Hlen in Hj.
        rewrite nth_error_skipn in Hj.
        replace (Z.to_nat lo + w + (j - Z.to_nat lo - w))%nat with j in Hj by lia.
        assert (Hjl : (j < length row)%nat)
          by (apply nth_error_Some; congruence).
        destruct (Z.leb_spec c0 (Z.of_nat j)); simpl; [|assumption].
        destruct (Z.ltb_spec (Z.of_nat j) c1); [|assumption]. lia.
Qed.

Lemma assign_row_slice_spec : forall arr i c0 c1 src arr',
  Py.assign_row_slice arr i c0 c1 src = Ok arr' ->
  0 <= i -> 0 <= c0 -> 0 <= c1 ->
  length arr' = length arr /\
  (forall k, k <> Z.to_nat i -> nth_error arr' k = nth_error arr k) /\
  (forall row', nth_error arr' (Z.to_nat i) = Some row' ->
     exists row, nth_error arr (Z.to_nat i) = Some row /\
                 length row' = length row) /\
  forall k j v, cell2 arr' k j = Some v ->
    if Nat.eqb k (Z.to_nat i) && ((c0 <=? Z.of_nat j) && (Z.of_nat j <? c1))
    then In v src
    else cell2 arr k j = Some v.
Proof.
  intros arr i c0 c1 src arr' H Hi H0 H1. unfold Py.assign_row_slice in H.
  destruct (Z.ltb_spec i 0) as [?|_]; [lia|].
  destruct ((0 <=? i) && (i <? Z.of_nat (length arr))) eqn:Eb; [|discriminate].
  apply andb_prop in Eb. destruct Eb as [_ Hlt].
  apply Z.ltb_lt in Hlt.
  destruct (nth_error arr (Z.to_nat i)) as [row|] eqn:Erow; [|discriminate].
  destruct (Py.assign_slice row c0 c1 src) as [row'|] eqn:Eas; [|discriminate].
  inversion H; subst arr'; clear H.
  destruct (assign_slice_spec _ _ _ _ _ Eas H0 H1) as [Hlen Hcells].
  assert (Hn : (Z.to_nat i < length arr)%nat) by lia.
  split; [now apply length_replace|].
  split; [intros k Hk; rewrite nth_error_replace by assumption;
          destruct (Nat.eqb_spec k (Z.to_nat i)); [contradiction|reflexivity]|].
  split.
  { intros r' Hr'. rewrite nth_error_replace in Hr' by assumption.
    rewrite Nat.eqb_refl in Hr'. inversion Hr'; subst. eauto. }
  intros k j v Hc. unfold cell2 in *.
  rewrite nth_error_replace in Hc by assumption.
  destruct (Nat.eqb_spec k (Z.to_nat i)) as [->|Hne]; simpl.
  - specialize (Hcells j v Hc). rewrite Erow.
    destruct ((c0 <=? Z.of_nat j) && (Z.of_nat j <? c1)); assumption.
  - assumption.
Qed.

(** ** Slices of ranges *)

Lemma In_firstn_skipn : forall (A : Type) (l : list A) m n x,
  In x (firstn n (skipn m l)) <->
  exists k, (k < n)%nat /\ nth_error l (m + k) = Some x.
Proof.
  intros A l m n x. split.
  - intros H. apply In_nth_error in H. destruct H as [k Hk].
    exists k. rewrite nth_error_firstn in Hk.
    destruct (Nat.ltb_spec k n); [|discriminate].
    rewrite nth_error_skipn in Hk. auto.
  - intros [k [Hk Hn]]. apply (nth_error_In _ k).
    rewrite nth_error_firstn.
    destruct (Nat.ltb_spec k n); [|lia].
    now rewrite nth_error_skipn.
Qed.

Lemma In_slice_range : forall a b lo hi v,
  0 <= lo -> 0 <= hi ->
  (In v (Py.slice (Py.range a b) lo hi) <-> a + lo <= v /\ v < a + hi /\ v < b).
Proof.
  intros a b lo hi v Hlo Hhi. unfold Py.slice. rewrite In_firstn_skipn.
  rewrite range_length. unfold Py.bound.
  destruct (Z.ltb_spec lo 0); [lia|]. destruct (Z.ltb_spec hi 0); [lia|].
  split.
  - intros [k [Hk Hn]].
    match type of Hn with
    | nth_error _ ?i = _ =>
        assert (Hlt : (i < length (Py.range a b))%nat)
          by (apply nth_error_Some; congruence)
    end.
    rewrite range_length in Hlt.
    rewrite range_nth_error in Hn by assumption. inversion Hn. lia.
  - intros (H1 & H2 & H3).
    exists (Z.to_nat (v - a - lo)). split; [lia|].
    rewrite range_nth_error by lia. f_equal. lia.
Qed.

Lemma In_slice_to_range : forall a b hi v,
  0 <= hi ->
  (In v (Py.slice_to (Py.range a b) hi) <-> a <= v /\ v < a + hi /\ v < b).
Proof.
  intros a b hi v Hhi. unfold Py.slice_to.
  rewrite In_slice_range by lia. lia.
Qed.

Lemma slice_to_firstn : forall (A : Type) (l : list A) q,
  0 <= q -> Py.slice_to l q = firstn (Z.to_nat q) l.
Proof.
  intros A l q Hq. unfold Py.slice_to, Py.slice, Py.bound.
  destruct (Z.ltb_spec q 0); [lia|]. simpl.
  replace (Z.to_nat (Z.min 0 (Z.of_nat (length l)))) with 0%nat by lia.
  rewrite skipn_0.
  destruct (Z.le_ge_cases q (Z.of_nat (length l))).
  - f_equal. lia.
  - rewrite !firstn_all2 by lia. reflexivity.
Qed.

Lemma cell2_slice_to : forall arr q k j,
  0 <= q -> (Z.of_nat k < q) ->
  cell2 (Py.slice_to arr q) k j = cell2 arr k j.
Proof.
  intros arr q k j Hq Hk. unfold cell2.
  rewrite slice_to_firstn by assumption. rewrite nth_error_firstn.
  destruct (Nat.ltb_spec k (Z.to_nat q)); [reflexivity|lia].
Qed.

Lemma slice_to_row : forall (arr : list (list Z)) q k row,
  0 <= q ->
  nth_error (Py.slice_to arr q) k = Some row -> nth_error arr k = Some row.
Proof.
  intros arr q k row Hq H. rewrite slice_to_firstn in H by assumption.
  rewrite nth_error_firstn in H.
  destruct (Nat.ltb k (Z.to_nat q)); [assumption|discriminate].
Qed.

(** ** The old-plan sampler *)

(** [for_each] with a property of the elements available to each step. *)
Lemma for_each_prefix_on : forall (G : Generator) (A S : Type) (Q : A -> Prop)
    (P : list A -> S -> Prop) (body : A -> S -> M G S) l done s g s' g',
  Forall Q l ->
  P done s ->
  (forall done a s g s' g',
      Q a -> P done s -> body a s g = Ok (s', g') -> P (done ++ [a]) s') ->
  for_each l body s g = Ok (s', g') ->
  P (done ++ l) s'.
Proof.
  intros G A S Q P body l.
  induction l as [|a l IH]; intros done s g s' g' HQ H0 Hstep Hrun.
  - simpl in Hrun. inversion Hrun; subst. now rewrite app_nil_r.
  - simpl in Hrun. apply bind_Ok in Hrun. destruct Hrun as (s1 & g1 & H1 & H2).
    inversion HQ; subst.
    replace (done ++ a :: l) with ((done ++ [a]) ++ l)
      by (rewrite <- app_assoc; reflexivity).
    eapply IH; eauto.
Qed.

Lemma range_Forall : forall lo hi, Forall (fun x => lo <= x < hi) (Py.range lo hi).
Proof. intros. apply Forall_forall. intros x. apply range_In. Qed.

Lemma zeros_Ok : forall rows cols arr,
  Py.zeros rows cols = Ok arr ->
  0 <= rows /\ 0 <= cols /\
  arr = repeat (repeat 0 (Z.to_nat cols)) (Z.to_nat rows).
Proof.
  intros rows cols arr H. unfold Py.zeros in H.
  destruct (Z.ltb_spec rows 0); [discriminate|].
  destruct (Z.ltb_spec cols 0); [discriminate|].
  inversion H. auto.
Qed.

Lemma index_Ok : forall (A : Type) (l : list A) i a,
  0 <= i -> Py.index l i = Ok a -> nth_error l (Z.to_nat i) = Some a.
Proof.
  intros A l i a Hi H. unfold Py.index in H.
  destruct (Z.ltb_spec i 0); [lia|].
  destruct ((0 <=? i) && (i <? Z.of_nat (length l))); [|discriminate].
  destruct (nth_error l (Z.to_nat i)); inversion H. reflexivity.
Qed.

Lemma permutation_In : forall (G : Generator) l (g : gstate G) p g' v,
  np_random_permutation G l g = Ok (p, g') -> In v p -> In v l.
Proof.
  intros G l g p g' v H Hv. unfold np_random_permutation in H.
  inversion H as [E]. pose proof (permutation_perm G l g) as HP.
  rewrite E in HP. simpl in HP.
  eapply Permutation_in; [apply Permutation_sym; exact HP|exact Hv].
Qed.

(** Every entry of row [i - 1] of the old-plan array was drawn from the
    pool of block [i]. *)
Lemma old_mask_rows : forall (G : Generator) fs ts fbs tbs r last_idx g arr g',
  _bigbird_block_rand_mask G fs ts fbs tbs r last_idx g = Ok (arr, g') ->
  let fb := fs / fbs in
  let tb := ts / tbs in
  let last := if last_idx >? 2 * tbs then last_idx / tbs - 1 else tb - 1 in
  forall i j v, 1 <= i < fb - 1 ->
    cell2 arr (Z.to_nat (i - 1)) j = Some v ->
    In v (old_pool (Py.range 1 (tb - 1)) last fb i).
Proof.
  intros G fs ts fbs tbs r last_idx g arr g' H fb tb last.
  unfold _bigbird_block_rand_mask in H.
  apply bind_Ok in H. destruct H as (fb' & g1 & H1 & H).
  apply lift_Ok in H1. destruct H1 as [H1 ->].
  unfold Py.floordiv in H1. destruct (fbs =? 0); [discriminate|].
  inversion H1; subst fb'; clear H1.
  apply bind_Ok in H. destruct H as (tb' & g1 & H1 & H).
  apply lift_Ok in H1. destruct H1 as [H1 ->].
  unfold Py.floordiv in H1. destruct (tbs =? 0); [discriminate|].
  inversion H1; subst tb'; clear H1.
  fold fb tb in H.
  destruct (fb =? tb); [|discriminate].
  apply bind_Ok in H. destruct H as (arr0 & g1 & H1 & H).
  apply lift_Ok in H1. destruct H1 as [H1 ->].
  fold last in H.
  set (pool := old_pool (Py.range 1 (tb - 1)) last fb) in *.
  set (P := fun (done : list Z) (a : list (list Z)) =>
              forall i j v, In i done -> 1 <= i ->
                cell2 a (Z.to_nat (i - 1)) j = Some v -> In v (pool i)).
  assert (HP : P ([] ++ Py.range 1 (fb - 1)) arr).
  { eapply for_each_prefix_on with (Q := fun x => 1 <= x < fb - 1) (P := P);
      [apply range_Forall| |clear H|exact H].
    - intros i j v [].
    - intros done a s g0 s' g0' Ha HPd Hbody i j v Hi Hi1 Hc.
      apply bind_Ok in Hbody. destruct Hbody as (p & g2 & Hp & Hbody).
      apply lift_Ok in Hbody. destruct Hbody as [Hbody ->].
      unfold assign_row in Hbody.
      destruct (Py.index s (a - 1)) as [row|] eqn:Erow; [|discriminate].
      destruct (assign_row_slice_spec _ _ _ _ _ _ Hbody) as (_ & _ & Hrow & Hcells);
        [lia|lia|lia|].
      specialize (Hcells _ _ _ Hc).
      destruct (Nat.eqb_spec (Z.to_nat (i - 1)) (Z.to_nat (a - 1))) as [E|N].
      + assert (i = a) by lia. subst i.
        apply index_Ok in Erow; [|lia].
        unfold cell2 in Hc.
        destruct (nth_error s' (Z.to_nat (a - 1))) as [row'|] eqn:Erow'; [|discriminate].
        destruct (Hrow _ eq_refl) as (row0 & Hrow0 & Hlen).
        assert (row0 = row) by congruence. subst row0.
        assert (Hj : (j < length row')%nat) by (apply nth_error_Some; congruence).
        destruct (Z.leb_spec 0 (Z.of_nat j)); [|lia].
        destruct (Z.ltb_spec (Z.of_nat j) (Z.of_nat (length row))); [|lia].
        simpl in Hcells.
        eapply permutation_In; [exact Hp|].
        eapply In_slice. exact Hcells.
      + simpl in Hcells. apply in_app_or in Hi. destruct Hi as [Hi|[Hi|[]]].
        * eapply HPd; eauto.
        * subst. contradiction. }
  intros i j v Hi Hc. simpl in HP.
  eapply HP; eauto; [apply range_In; lia|lia].
Qed.

Section OldPlan.
Variable bs : Z.
Hypothesis bs_pos : 0 < bs.
Hypothesis bs_small : bs < 512.

Let N := max_seqlen / bs.
Let L := 1024 / bs - 1.

Lemma clamp_last : (if 1024 >? 2 * bs then 1024 / bs - 1 else N - 1) = L.
Proof.
  destruct (Z.gtb_spec 1024 (2 * bs)); [reflexivity|lia].
Qed.

Lemma clamp_bounds : 1 <= L /\ 4 * (L + 1) <= N.
Proof.
  subst N L. unfold max_seqlen. split.
  - assert (2 <= 1024 / bs) by (apply Z.div_le_lower_bound; lia). lia.
  - assert (bs * (1024 / bs) <= 1024) by (apply Z.mul_div_le; lia).
    assert (4 * (1024 / bs) <= 4096 / bs) by (apply Z.div_le_lower_bound; lia).
    lia.
Qed.

(** Under the clamp, the pool of block [i] lies in [1, L] and misses
    the window of [i]. *)
Lemma old_pool_clamped : forall i v,
  1 <= i <= N - 2 ->
  In v (old_pool (Py.range 1 (N - 1)) L N i) ->
  1 <= v <= L /\ v <> i - 1 /\ v <> i /\ v <> i + 1.
Proof.
  intros i v Hi Hv. destruct clamp_bounds as [HL HN].
  unfold old_pool in Hv.
  destruct (Z.eqb_spec i 1).
  { apply In_slice_range in Hv; lia. }
  destruct (Z.eqb_spec i 2).
  { apply In_slice_range in Hv; lia. }
  destruct (Z.eqb_spec i (N - 3)).
  { apply In_slice_to_range in Hv; lia. }
  destruct (Z.eqb_spec i (N - 2)).
  { apply In_slice_to_range in Hv; lia. }
  destruct (Z.gtb_spec (i - 2) L).
  { apply In_slice_to_range in Hv; lia. }
  destruct (Z.eqb_spec (i + 1) L).
  { apply In_slice_to_range in Hv; lia. }
  apply in_app_or in Hv. destruct Hv as [Hv|Hv].
  - apply In_slice_to_range in Hv; lia.
  - apply In_slice_range in Hv; lia.
Qed.

End OldPlan.

Lemma mem_old_lengths : forall m,
  Py.mem m [1024; 3072; 4096] = true -> m = 1024 \/ m = 3072 \/ m = 4096.
Proof.
  intros m H. apply mem_In in H. simpl in H. intuition.
Qed.

Lemma bind_lift_Ok : forall (G : Generator) (A B : Type) (a : A) (k : A -> M G B) g,
  bind (lift (Ok a)) k g = k a g.
Proof. reflexivity. Qed.

(** On the old sequence lengths the engine's adjacency is the old-plan
    one, whatever plan is passed. *)
Lemma rand_attn_old_path : forall (G : Generator) seed e h r bs batch m plan g,
  bs <> 0 -> Py.mem m [1024; 3072; 4096] = true ->
  bigbird_rand_attn G seed e h r bs bs batch m m plan g =
  old_plan_rand_attn G seed e h r bs batch m g.
Proof.
  intros G seed e h r bs batch m plan g Hbs Hm.
  unfold bigbird_rand_attn, old_plan_rand_attn, Py.floordiv.
  destruct (Z.eqb_spec bs 0); [contradiction|].
  rewrite bind_lift_Ok. cbv beta. rewrite bind_lift_Ok. cbv beta.
  rewrite Z.eqb_refl. unfold bind at 1 3, np_random_seed.
  rewrite Hm. reflexivity.
Qed.

Lemma np_stack_Ok : forall (A : Type) (l l' : list A), np_stack l = Ok l' -> l' = l.
Proof. intros A l l' H. destruct l; inversion H. reflexivity. Qed.

Lemma torch_cat_batch_Ok : forall (A : Type) (t : A) batch l,
  torch_cat_batch t batch = Ok l -> l = repeat t (Z.to_nat batch).
Proof.
  intros A t batch l H. unfold torch_cat_batch in H.
  destruct (batch <=? 0); inversion H. reflexivity.
Qed.

Lemma cell4_repeat : forall ra n b h k j v,
  cell4 (repeat ra n) b h k j = Some v -> cell3 ra h k j = Some v.
Proof.
  intros ra n b h k j v H. unfold cell4 in H.
  destruct (nth_error (repeat ra n) b) as [x|] eqn:E; [|discriminate].
  apply nth_error_In, repeat_spec in E. now subst.
Qed.

(** Every entry of the old-plan adjacency comes from the clamped pool
    of its query block. *)
Lemma old_plan_cells : forall (G : Generator) seed e h r bs batch m g adj g',
  0 < bs -> bs < 512 -> 1024 <= m <= 4096 ->
  old_plan_rand_attn G seed e h r bs batch m g = Ok (adj, g') ->
  forall b hd k j v,
    cell4 adj b hd k j = Some v ->
    Z.of_nat k < m / bs - 2 /\
    In v (old_pool (Py.range 1 (max_seqlen / bs - 1)) (1024 / bs - 1)
            (max_seqlen / bs) (Z.of_nat k + 1)).
Proof.
  intros G seed e h r bs batch m g adj g' Hbs Hsm Hm H b hd k j v Hc.
  unfold old_plan_rand_attn in H.
  apply bind_Ok in H. destruct H as ([] & g1 & _ & H).
  apply bind_Ok in H. destruct H as (ra & g2 & Hra & H).
  apply bind_Ok in H. destruct H as (ra' & g3 & Hst & H).
  apply lift_Ok in Hst. destruct Hst as [Hst ->].
  apply np_stack_Ok in Hst. subst ra'.
  apply lift_Ok in H. destruct H as [H ->].
  apply torch_cat_batch_Ok in H. subst adj.
  apply cell4_repeat in Hc.
  set (good := fun a : list (list Z) =>
     forall k j v, cell2 a k j = Some v ->
       Z.of_nat k < m / bs - 2 /\
       In v (old_pool (Py.range 1 (max_seqlen / bs - 1)) (1024 / bs - 1)
               (max_seqlen / bs) (Z.of_nat k + 1))).
  assert (HF : Forall good ra).
  { refine (proj1 (comprehension_Forall G _ _ good _ _ _ _ _ _ Hra)).
    intros a0 g0 a g0' _ Hone. clear Hra Hc.
    apply bind_Ok in Hone. destruct Hone as (arr & g4 & Harr & Hone).
    apply ret_Ok in Hone. destruct Hone as [-> ->].
    intros k0 j0 v0 Hc0.
    assert (Hq0 : 0 <= m / bs - 2).
    { assert (2 <= 1024 / bs) by (apply Z.div_le_lower_bound; lia).
      assert (1024 / bs <= m / bs) by (apply Z.div_le_mono; lia). lia. }
    assert (Hq : Z.of_nat k0 < m / bs - 2).
    { unfold cell2 in Hc0. rewrite slice_to_firstn in Hc0 by assumption.
      rewrite nth_error_firstn in Hc0.
      destruct (Nat.ltb_spec k0 (Z.to_nat (m / bs - 2))); [lia|discriminate]. }
    rewrite cell2_slice_to in Hc0 by assumption.
    split; [assumption|].
    pose proof (old_mask_rows G _ _ _ _ _ _ _ _ _ Harr) as Hrows.
    cbv zeta in Hrows.
    rewrite (clamp_last bs Hsm) in Hrows.
    assert (Hdiv : m / bs <= max_seqlen / bs)
      by (apply Z.div_le_mono; unfold max_seqlen; lia).
    apply (Hrows (Z.of_nat k0 + 1) j0 v0); [lia|].
    replace (Z.to_nat (Z.of_nat k0 + 1 - 1)) with k0 by lia. assumption. }
  unfold cell3 in Hc.
  destruct (nth_error ra hd) as [a|] eqn:Ea; [|discriminate].
  apply nth_error_In in Ea. rewrite Forall_forall in HF.
  apply (HF a Ea k j v Hc).
Qed.

(** C10: on the sequence lengths 1024, 3072 and 4096, with a block
    size below 512, the engine's adjacency is the one the old-plan
    routine builds per head with [last_idx = 1024], whatever plan is
    supplied, and every sampled block index lies in
    [1, 1024 // block_size - 1]. *)
Theorem old_lengths_sample_first_1024 :
  forall (G : Generator) seed e h r bs batch m plan (g : gstate G),
  In m [1024; 3072; 4096] ->
  0 < bs -> bs < 512 ->
  bigbird_rand_attn G seed e h r bs bs batch m m plan g =
    old_plan_rand_attn G seed e h r bs batch m g /\
  forall adj g',
    bigbird_rand_attn G seed e h r bs bs batch m m plan g = Ok (adj, g') ->
    forall b hd k j v,
      cell4 adj b hd k j = Some v -> 1 <= v <= 1024 / bs - 1.
Proof.
  intros G seed e h r bs batch m plan g Hm Hbs Hsm.
  assert (Hmem : Py.mem m [1024; 3072; 4096] = true) by (now apply mem_In).
  assert (Heq := rand_attn_old_path G seed e h r bs batch m plan g
                   (ltac:(lia)) Hmem).
  split; [exact Heq|].
  intros adj g' Hrun b hd k j v Hc. rewrite Heq in Hrun.
  assert (Hrange : 1024 <= m <= 4096) by (simpl in Hm; lia).
  destruct (old_plan_cells G seed e h r bs batch m g adj g' Hbs Hsm Hrange Hrun
              b hd k j v Hc) as [Hk Hv].
  assert (Hdiv : m / bs <= max_seqlen / bs)
    by (apply Z.div_le_mono; unfold max_seqlen; lia).
  apply (old_pool_clamped bs Hbs Hsm) in Hv; lia.
Qed.

Lemma old_lengths_sample_first_1024_witness :
  is_ok (bigbird_rand_attn rot_generator (Some 12) 0 2 3 64 64 1 1024 1024 None 0)
    = true /\
  (bigbird_rand_attn rot_generator (Some 12) 0 2 3 64 64 1 1024 1024 None 0 =
     old_plan_rand_attn rot_generator (Some 12) 0 2 3 64 1 1024 0 /\
   forall adj g',
     bigbird_rand_attn rot_generator (Some 12) 0 2 3 64 64 1 1024 1024 None 0
       = Ok (adj, g') ->
     forall b hd k j v,
       cell4 adj b hd k j = Some v -> 1 <= v <= 1024 / 64 - 1).
Proof.
  split; [vm_compute; reflexivity|].
  apply (old_lengths_sample_first_1024 rot_generator (Some 12) 0 2 3 64 1 1024 None 0);
    [simpl; auto | lia | lia].
Defined.

(** ** The planned sampler: what the row-filling loops establish *)

Lemma not_In_app : forall (A : Type) (x : A) l1 l2,
  ~ In x (l1 ++ l2) -> ~ In x l1 /\ ~ In x l2.
Proof. intros A x l1 l2 H. split; intro; apply H, in_or_app; auto. Qed.

(** A block of the legal pool of a segment ending at or before the
    last block is outside the window and the globals. *)
Lemma pool_legal : forall B blk ts te v,
  te <= B ->
  In v (legal_pool blk ts te 1 1 1 1) ->
  outside_window_and_globals B blk v.
Proof.
  intros B blk ts te v Hte Hv. unfold legal_pool in Hv.
  apply filter_In in Hv. destruct Hv as [Hr Hl].
  apply range_In in Hr. apply negb_true_iff, mem_false in Hl.
  unfold illegal_blocks in Hl.
  apply not_In_app in Hl. destruct Hl as [Hw Hl].
  apply not_In_app in Hl. destruct Hl as [Hg0 Hl].
  apply not_In_app in Hl. destruct Hl as [Hg1 _].
  rewrite range_In in Hw, Hg0, Hg1.
  unfold outside_window_and_globals. lia.
Qed.

Lemma set_item_Ok : forall (A : Type) (l : list A) i x l',
  set_item l i x = Ok l' ->
  (Z.to_nat i < length l)%nat /\ 0 <= i /\
  length l' = length l /\
  forall k, nth_error l' k =
            if Nat.eqb k (Z.to_nat i) then Some x else nth_error l k.
Proof.
  intros A l i x l' H. unfold set_item in H.
  destruct ((0 <=? i) && (i <? Z.of_nat (length l))) eqn:E; [|discriminate].
  apply andb_prop in E. destruct E as [E1 E2].
  apply Z.leb_le in E1. apply Z.ltb_lt in E2.
  inversion H; subst l'; clear H.
  assert (Hn : (Z.to_nat i < length l)%nat) by lia.
  repeat split; try assumption.
  - now apply length_replace.
  - intros k. now apply nth_error_replace.
Qed.

Section PlanPath.
Variable G : Generator.
Variable B : Z.
Variable H : Z.
Variable total : nat.

Lemma Inv_weaken : forall (D D' : Z -> Z -> Prop) ra,
  (forall k j, D' k j -> D k j) -> Inv B H total D ra -> Inv B H total D' ra.
Proof.
  intros D D' ra Hsub (H1 & H2 & H3).
  split; [exact H1|]. split; [exact H2|].
  intros hd k j v Hc HD. eapply H3; eauto.
Qed.

Lemma fill_heads_inv_pos : forall D blk c0 c1 ts te num ra g ra' g',
  fill_heads G H blk c0 c1 ts te num 1 1 1 1 ra g = Ok (ra', g') ->
  1 <= num -> te <= B -> 0 <= blk -> 0 <= c0 -> 0 <= c1 ->
  Inv B H total D ra ->
  Inv B H total (fun k j => D k j \/ (k = blk /\ c0 <= j < c1)) ra'.
Proof.
  intros D blk c0 c1 ts te num ra g ra' g' Hrun Hnum Hte Hblk Hc0 Hc1 HI.
  unfold fill_heads in Hrun.
  set (P := fun (done : list Z) (s : list (list (list Z))) =>
    length s = Z.to_nat H /\
    (forall hd arr, nth_error s hd = Some arr ->
       length arr = Z.to_nat B /\
       forall k row, nth_error arr k = Some row -> length row = total) /\
    (forall hd k j v, cell3 s hd k j = Some v ->
       (D (Z.of_nat k) (Z.of_nat j) ->
        outside_window_and_globals B (Z.of_nat k) v) /\
       (In (Z.of_nat hd) done -> Z.of_nat k = blk -> c0 <= Z.of_nat j < c1 ->
        outside_window_and_globals B (Z.of_nat k) v))).
  assert (HP : P ([] ++ Py.range 0 H) ra').
  { eapply for_each_prefix_on with (Q := fun h => 0 <= h < H) (P := P);
      [apply range_Forall| |clear Hrun|exact Hrun].
    - destruct HI as (I1 & I2 & I3).
      split; [exact I1|]. split; [exact I2|].
      intros hd k j v Hc. split; [intros; eapply I3; eauto|intros []].
    - intros done a s g0 s' g0' Ha (P1 & P2 & P3) Hbody.
      apply bind_Ok in Hbody. destruct Hbody as (sel & g1 & Hsel & Hbody).
      apply bind_Ok in Hbody. destruct Hbody as (arr & g2 & Harr & Hbody).
      apply lift_Ok in Harr. destruct Harr as [Harr ->].
      apply bind_Ok in Hbody. destruct Hbody as (arr' & g2 & Harr' & Hbody).
      apply lift_Ok in Harr'. destruct Harr' as [Harr' ->].
      apply lift_Ok in Hbody. destruct Hbody as [Hset ->].
      apply index_Ok in Harr; [|lia].
      destruct (single_row_spec G blk ts te num 1 1 1 1 g0 Hnum)
        as (sel0 & g0' & Hrun0 & _ & _ & _ & Hpool).
      rewrite Hrun0 in Hsel. inversion Hsel; subst sel0 g0'; clear Hsel.
      destruct (set_item_Ok _ _ _ _ _ Hset) as (Hlt & _ & Hlen & Hnth).
      destruct (assign_row_slice_spec _ _ _ _ _ _ Harr')
        as (Hlen' & Hother & Hrow & Hcells); [lia|lia|lia|].
      unfold P. split; [congruence|]. split.
      + intros hd arr0 Hhd. rewrite Hnth in Hhd.
        destruct (Nat.eqb_spec hd (Z.to_nat a)) as [->|Hne].
        * inversion Hhd; subst arr0; clear Hhd.
          destruct (P2 _ _ Harr) as [Q1 Q2]. split; [congruence|].
          intros k row Hk.
          destruct (Nat.eq_dec k (Z.to_nat blk)) as [->|Hk'].
          -- destruct (Hrow _ Hk) as (row0 & Hrow0 & Hl). rewrite Hl. eauto.
          -- rewrite Hother in Hk by assumption. eauto.
        * apply (P2 _ _ Hhd).
      + intros hd k j v Hc. unfold cell3 in Hc. rewrite Hnth in Hc.
        destruct (Nat.eqb_spec hd (Z.to_nat a)) as [->|Hne].
        * specialize (Hcells _ _ _ Hc).
          destruct (Nat.eqb_spec k (Z.to_nat blk)) as [->|Hk'].
          -- destruct ((c0 <=? Z.of_nat j) && (Z.of_nat j <? c1)) eqn:Ecol;
               simpl in Hcells.
             ++ assert (Hleg : outside_window_and_globals B (Z.of_nat (Z.to_nat blk)) v).
                { rewrite Z2Nat.id by assumption.
                  eapply pool_legal; [exact Hte|]. apply Hpool, Hcells. }
                split; intros; exact Hleg.
             ++ assert (Hold : cell3 s (Z.to_nat a) (Z.to_nat blk) j = Some v)
                  by (unfold cell3; rewrite Harr; exact Hcells).
                destruct (P3 _ _ _ _ Hold) as [Q1 Q2]. split; [exact Q1|].
                intros _ _ Hcol. apply andb_false_iff in Ecol.
                destruct Ecol as [E|E]; [apply Z.leb_gt in E|apply Z.ltb_ge in E]; lia.
          -- simpl in Hcells.
             assert (Hold : cell3 s (Z.to_nat a) k j = Some v)
               by (unfold cell3; rewrite Harr; exact Hcells).
             destruct (P3 _ _ _ _ Hold) as [Q1 Q2]. split; [exact Q1|].
             intros _ Hk _. lia.
        * assert (Hold : cell3 s hd k j = Some v) by exact Hc.
          destruct (P3 _ _ _ _ Hold) as [Q1 Q2]. split; [exact Q1|].
          intros Hin Hk Hcol. apply in_app_or in Hin.
          destruct Hin as [Hin|[Hin|[]]]; [auto|lia]. }
  destruct HP as (P1 & P2 & P3). simpl in P3.
  split; [exact P1|]. split; [exact P2|].
  intros hd k j v Hc [HD|[Hk Hcol]].
  - apply (proj1 (P3 _ _ _ _ Hc) HD).
  - apply (proj2 (P3 _ _ _ _ Hc)); auto.
    apply range_In. unfold cell3 in Hc.
    destruct (nth_error ra' hd) eqn:E; [|discriminate].
    assert ((hd < length ra')%nat) by (apply nth_error_Some; congruence). lia.
Qed.

Lemma Inv_nil : forall D, H <= 0 -> Inv B H total D [].
Proof.
  intros D HH. split; [simpl; lia|]. split.
  - intros hd arr E. destruct hd; discriminate.
  - intros hd k j v E. unfold cell3 in E. destruct hd; discriminate.
Qed.

(** The same, the numeric side conditions being needed only when there
    is a head to fill. *)
Lemma fill_heads_inv : forall D blk c0 c1 ts te num ra g ra' g',
  fill_heads G H blk c0 c1 ts te num 1 1 1 1 ra g = Ok (ra', g') ->
  te <= B ->
  (0 < H -> 1 <= num /\ 0 <= c0 /\ 0 <= c1 /\ 0 <= blk) ->
  Inv B H total D ra ->
  Inv B H total (fun k j => D k j \/ (k = blk /\ c0 <= j < c1)) ra'.
Proof.
  intros D blk c0 c1 ts te num ra g ra' g' Hrun Hte Hg HI.
  destruct (Z.lt_ge_cases 0 H) as [HH|HH].
  - destruct (Hg HH) as (Hnum & Hc0 & Hc1 & Hblk).
    eapply fill_heads_inv_pos; eauto.
  - unfold fill_heads in Hrun. rewrite range_nil in Hrun by lia.
    apply ret_Ok in Hrun. destruct Hrun as [-> ->].
    destruct HI as (HL & _).
    destruct ra; [|simpl in HL; lia]. apply Inv_nil. lia.
Qed.

(** A loop over rows whose body fills one row adds the rows of its range. *)
Lemma rows_loop_inv : forall D (body : Z -> list (list (list Z)) -> M G _)
    a b c0 c1 ra g ra' g',
  (forall blk s g s' g' D',
      a <= blk < b -> body blk s g = Ok (s', g') -> Inv B H total D' s ->
      Inv B H total (fun k j => D' k j \/ (k = blk /\ c0 <= j < c1)) s') ->
  for_each (Py.range a b) body ra g = Ok (ra', g') ->
  Inv B H total D ra ->
  Inv B H total (fun k j => D k j \/ (a <= k < b /\ c0 <= j < c1)) ra'.
Proof.
  intros D body a b c0 c1 ra g ra' g' Hbody Hrun HI.
  set (P := fun (done : list Z) s =>
              Inv B H total (fun k j => D k j \/ (In k done /\ c0 <= j < c1)) s).
  assert (HP : P ([] ++ Py.range a b) ra').
  { eapply for_each_prefix_on with (Q := fun x => a <= x < b) (P := P);
      [apply range_Forall| |clear Hrun|exact Hrun].
    - unfold P. eapply Inv_weaken; [|exact HI]. simpl. intros k j [HD|[[] _]]. exact HD.
    - intros done x s g0 s' g0' Hx HPd Hb. unfold P in *.
      eapply Inv_weaken; [|eapply Hbody; [exact Hx|exact Hb|exact HPd]].
      simpl. intros k j [HD|[Hin Hcol]]; [auto|].
      apply in_app_or in Hin. destruct Hin as [Hin|[Hin|[]]]; [auto|subst; auto]. }
  unfold P in HP. simpl in HP.
  eapply Inv_weaken; [|exact HP].
  simpl. intros k j [HD|[Hk Hcol]]; [auto|].
  right. split; [apply range_In; exact Hk|exact Hcol].
Qed.

End PlanPath.

Section PlanSites.
Variable G : Generator.
Variable B : Z.
Variable H : Z.
Variable total : nat.

(** The rows of earlier segments, extended by the columns of segment
    [plan_idx]. *)
Lemma extend_earlier_rows_inv :
  forall D plan_idx pbl pn n_idx p_prev p_idx ra g ra' g',
  extend_earlier_rows G H plan_idx pbl pn 1 1 1 1 1 ra g = Ok (ra', g') ->
  Py.index pn plan_idx = Ok n_idx ->
  Py.index pbl (plan_idx - 1) = Ok p_prev ->
  Py.index pbl plan_idx = Ok p_idx ->
  p_idx <= B ->
  (0 < H -> 0 <= Py.sum (Py.slice_to pn plan_idx) /\
            0 <= Py.sum (Py.slice_to pn (plan_idx + 1))) ->
  Inv B H total D ra ->
  Inv B H total (fun k j => D k j \/
         (0 < n_idx /\ 1 <= k < p_prev /\
          Py.sum (Py.slice_to pn plan_idx) <= j
            < Py.sum (Py.slice_to pn (plan_idx + 1)))) ra'.
Proof.
  intros D plan_idx pbl pn n_idx p_prev p_idx ra g ra' g'
         Hrun En Eprev Eidx Hle Hg HI.
  unfold extend_earlier_rows in Hrun.
  rewrite En in Hrun. rewrite bind_lift_Ok in Hrun.
  destruct (Z.gtb_spec n_idx 0) as [Hpos|Hnpos].
  - rewrite Eprev in Hrun. rewrite bind_lift_Ok in Hrun.
    eapply Inv_weaken; [|eapply rows_loop_inv; [|exact Hrun|exact HI]].
    + simpl. intros k j [HD|(_ & Hk & Hj)]; [left; exact HD|right; split; [exact Hk|exact Hj]].
    + intros blk s g0 s' g0' D' Hblk Hbody HI'. cbv beta in Hbody.
      rewrite ?Eprev, ?Eidx, ?En in Hbody.
      repeat (rewrite bind_lift_Ok in Hbody; cbv beta in Hbody).
      eapply fill_heads_inv; [exact Hbody|exact Hle| |exact HI'].
      intros HH. destruct (Hg HH). lia.
  - apply ret_Ok in Hrun. destruct Hrun as [-> ->].
    eapply Inv_weaken; [|exact HI].
    simpl. intros k j [HD|(Hn & _)]; [exact HD|lia].
Qed.

(** The rows of segment 1, filled with the columns of segment 0. *)
Lemma cover_first_segment_inv :
  forall D pbl pn n0 p0 p1 ra g ra' g',
  cover_earlier_segments G H 1 pbl pn 1 1 1 1 ra g = Ok (ra', g') ->
  Py.index pn 0 = Ok n0 ->
  Py.index pbl 0 = Ok p0 ->
  Py.index pbl 1 = Ok p1 ->
  p0 <= B ->
  (0 < H -> 0 <= n0 /\ 0 <= Py.sum (Py.slice_to pn 1) /\ 0 <= p0) ->
  Inv B H total D ra ->
  Inv B H total (fun k j => D k j \/
         (n0 <> 0 /\ p0 <= k < p1 /\ 0 <= j < Py.sum (Py.slice_to pn 1))) ra'.
Proof.
  intros D pbl pn n0 p0 p1 ra g ra' g' Hrun En Ep0 Ep1 Hle Hg HI.
  unfold cover_earlier_segments in Hrun.
  change (Py.range 0 1) with [0] in Hrun.
  cbn [for_each] in Hrun.
  apply bind_Ok in Hrun. destruct Hrun as (ra1 & g1 & Hrun & Hret).
  apply ret_Ok in Hret. destruct Hret as [-> ->].
  rewrite En, bind_lift_Ok in Hrun.
  destruct (Z.eqb_spec n0 0) as [Hz|Hnz].
  - apply ret_Ok in Hrun. destruct Hrun as [-> ->].
    eapply Inv_weaken; [|exact HI].
    simpl. intros k j [HD|(Hn & _)]; [exact HD|lia].
  - change (1 - 1) with 0 in Hrun.
    rewrite Ep0, bind_lift_Ok in Hrun. rewrite Ep1, bind_lift_Ok in Hrun.
    eapply Inv_weaken; [|eapply rows_loop_inv; [|exact Hrun|exact HI]].
    + simpl. intros k j [HD|(_ & Hk & Hj)]; [left; exact HD|right; split; [exact Hk|exact Hj]].
    + intros blk s g0 s' g0' D' Hblk Hbody HI'. cbv beta in Hbody.
      change (0 >? 0) with false in Hbody. cbv iota in Hbody.
      unfold bind at 1 in Hbody. unfold ret at 1 in Hbody. cbv iota beta in Hbody.
      cbn [fst snd] in Hbody.
      change (0 + 1) with 1 in Hbody.
      rewrite ?Ep0, ?En in Hbody.
      repeat (rewrite bind_lift_Ok in Hbody; cbv beta in Hbody).
      eapply fill_heads_inv; [exact Hbody|exact Hle| |exact HI'].
      intros HH. destruct (Hg HH) as (? & ? & ?). lia.
Qed.

(** The rows of segment [plan_idx], filled with its own columns. *)
Lemma fill_own_segment_inv :
  forall D plan_idx pbl pn n p p_prev ra g ra' g',
  fill_own_segment G H plan_idx pbl pn 1 1 1 1 1 ra g = Ok (ra', g') ->
  Py.index pn plan_idx = Ok n ->
  Py.index pbl plan_idx = Ok p ->
  ((plan_idx >? 0) = true -> Py.index pbl (plan_idx - 1) = Ok p_prev) ->
  p <= B ->
  (0 < H -> 0 <= n /\ 0 <= Py.sum (Py.slice_to pn plan_idx) /\
            0 <= Py.sum (Py.slice_to pn (plan_idx + 1)) /\
            ((plan_idx >? 0) = true -> 0 <= p_prev)) ->
  Inv B H total D ra ->
  Inv B H total (fun k j => D k j \/
         (n <> 0 /\
          (if plan_idx >? 0 then p_prev else 1) <= k < p /\
          (if plan_idx >? 0 then Py.sum (Py.slice_to pn plan_idx) else 0) <= j
            < Py.sum (Py.slice_to pn (plan_idx + 1)))) ra'.
Proof.
  intros D plan_idx pbl pn n p p_prev ra g ra' g'
         Hrun En Ep Eprev Hle Hg HI.
  unfold fill_own_segment in Hrun.
  rewrite En, bind_lift_Ok in Hrun.
  destruct (Z.eqb_spec n 0) as [Hz|Hnz].
  - apply ret_Ok in Hrun. destruct Hrun as [-> ->].
    eapply Inv_weaken; [|exact HI].
    simpl. intros k j [HD|(Hn' & _)]; [exact HD|lia].
  - destruct (plan_idx >? 0) eqn:Eidx.
    + pose proof (Eprev eq_refl) as Eprev'.
      rewrite Eprev' in Hrun. unfold bind at 1 in Hrun.
      rewrite bind_lift_Ok in Hrun. unfold ret at 1 in Hrun. cbv iota beta in Hrun.
      cbn [fst snd] in Hrun.
      rewrite Ep, bind_lift_Ok in Hrun.
      eapply Inv_weaken; [|eapply rows_loop_inv; [|exact Hrun|exact HI]].
      * simpl. intros k j [HD|(_ & Hk & Hj)]; [left; exact HD|right; split; [exact Hk|exact Hj]].
      * intros blk s g0 s' g0' D' Hblk Hbody HI'. cbv beta in Hbody.
        rewrite ?Ep, ?En in Hbody.
        repeat (rewrite bind_lift_Ok in Hbody; cbv beta in Hbody).
        eapply fill_heads_inv; [exact Hbody|exact Hle| |exact HI'].
        intros HH. destruct (Hg HH) as (? & ? & ? & Hpp).
        try specialize (Hpp eq_refl). lia.
    + unfold bind at 1 in Hrun. unfold ret at 1 in Hrun. cbv iota beta in Hrun.
      cbn [fst snd] in Hrun.
      rewrite Ep, bind_lift_Ok in Hrun.
      eapply Inv_weaken; [|eapply rows_loop_inv; [|exact Hrun|exact HI]].
      * simpl. intros k j [HD|(_ & Hk & Hj)]; [left; exact HD|right; split; [exact Hk|exact Hj]].
      * intros blk s g0 s' g0' D' Hblk Hbody HI'. cbv beta in Hbody.
        rewrite ?Ep, ?En in Hbody.
        repeat (rewrite bind_lift_Ok in Hbody; cbv beta in Hbody).
        eapply fill_heads_inv; [exact Hbody|exact Hle| |exact HI'].
        intros HH. destruct (Hg HH) as (? & ? & ? & Hpp).
        try specialize (Hpp eq_refl). lia.
Qed.

End PlanSites.

(** ** The planned sampler on the planner's one- and two-segment plans *)

Lemma cell2_slice_from_1 : forall arr hi k j v,
  cell2 (Py.slice arr 1 hi) k j = Some v -> cell2 arr (S k) j = Some v.
Proof.
  intros arr hi k j v Hc. unfold cell2, Py.slice in *.
  rewrite nth_error_firstn in Hc.
  destruct (Nat.ltb k _); [|discriminate].
  rewrite nth_error_skipn in Hc.
  destruct arr as [|row0 arr]; [destruct k; discriminate|].
  replace (Z.to_nat (Py.bound (Z.of_nat (length (row0 :: arr))) 1)) with 1%nat in Hc.
  - exact Hc.
  - unfold Py.bound. change (1 <? 0) with false. cbv iota. cbn [length]. lia.
Qed.

Lemma zeros_arrays_inv : forall (G : Generator) B H tot g ra g',
  comprehension (G := G) (Py.range 0 H) (fun _ => lift (Py.zeros B tot)) g
    = Ok (ra, g') ->
  Inv B H (Z.to_nat tot) (fun _ _ => False) ra /\ (0 < H -> 0 <= tot).
Proof.
  intros G B H tot g ra g' Hrun.
  destruct (comprehension_Forall G _ _
              (fun arr => Py.zeros B tot = Ok arr) _ _ _ _ _
              (fun a g0 b g0' _ Hb => proj1 (lift_Ok G _ _ _ _ _ Hb)) Hrun)
    as [HF HL].
  rewrite range_length in HL. rewrite Forall_forall in HF.
  split.
  - split; [rewrite HL; f_equal; lia|]. split.
    + intros hd arr E. apply nth_error_In in E. apply HF in E.
      apply zeros_Ok in E. destruct E as (HB & Ht & ->).
      split; [apply repeat_length|].
      intros k row Hk. apply nth_error_In, repeat_spec in Hk. subst.
      apply repeat_length.
    + intros hd k j v _ [].
  - intros HH. destruct ra as [|arr ra]; [simpl in HL; lia|].
    assert (E : Py.zeros B tot = Ok arr) by (apply HF; left; reflexivity).
    apply zeros_Ok in E. lia.
Qed.

Lemma bind_ret : forall (G : Generator) (A B : Type) (a : A) (k : A -> M G B) g,
  bind (ret a) k g = k a g.
Proof. reflexivity. Qed.

Lemma floordiv_Ok : forall a b, b <> 0 -> Py.floordiv a b = Ok (a / b).
Proof.
  intros a b Hb. unfold Py.floordiv.
  destruct (Z.eqb_spec b 0); [contradiction|reflexivity].
Qed.

(** The final slicing [rand_attn[nh][1:num_blocks - 1, :]] keeps, at
    row [k], the row of block [k + 1]. *)
Lemma final_slice_legal : forall B H total D ra hd k j v hi,
  Inv B H total D ra ->
  (forall k' j', 1 <= k' < B -> 0 <= j' < Z.of_nat total -> D k' j') ->
  cell3 (map (fun a => Py.slice a 1 hi) ra) hd k j = Some v ->
  outside_window_and_globals B (Z.of_nat k + 1) v.
Proof.
  intros B H total D ra hd k j v hi (I1 & I2 & I3) HD Hc.
  unfold cell3 in Hc. rewrite nth_error_map in Hc.
  destruct (nth_error ra hd) as [arr|] eqn:Earr; [|discriminate].
  simpl in Hc. apply cell2_slice_from_1 in Hc.
  assert (Hc3 : cell3 ra hd (S k) j = Some v) by (unfold cell3; now rewrite Earr).
  destruct (I2 _ _ Earr) as [Hlen Hrows].
  unfold cell2 in Hc.
  destruct (nth_error arr (S k)) as [row|] eqn:Erow; [|discriminate].
  assert (Hk : (S k < length arr)%nat) by (apply nth_error_Some; congruence).
  assert (Hj : (j < length row)%nat) by (apply nth_error_Some; congruence).
  rewrite (Hrows _ _ Erow) in Hj.
  replace (Z.of_nat k + 1) with (Z.of_nat (S k)) by lia.
  eapply I3; [exact Hc3|]. apply HD; lia.
Qed.

Section PlannedPlans.
Variable G : Generator.
Variables m bs H : Z.
Hypothesis bs_pos : 0 < bs.

Let B := m / bs.

(** A single segment covering the whole sequence. *)
Lemma with_head_one_segment : forall n0 g res g',
  _bigbird_block_rand_mask_with_head G m m bs bs H [m] [n0] 1 1 1 1 1 1 g
    = Ok (res, g') ->
  forall hd k j v, cell3 res hd k j = Some v ->
    outside_window_and_globals B (Z.of_nat k + 1) v.
Proof.
  intros n0 g res g' Hrun hd k j v Hc.
  unfold _bigbird_block_rand_mask_with_head in Hrun.
  rewrite floordiv_Ok in Hrun by lia.
  rewrite bind_lift_Ok in Hrun; cbv beta in Hrun.
  rewrite bind_lift_Ok in Hrun; cbv beta in Hrun.
  fold B in Hrun. rewrite Z.eqb_refl in Hrun.
  destruct (Py.mem m [m]); [|discriminate].
  assert (Eidx : Py.index_of m [m] = Ok 0)
    by (simpl; rewrite Z.eqb_refl; reflexivity).
  rewrite Eidx in Hrun. rewrite bind_lift_Ok in Hrun; cbv beta in Hrun.
  change (map (fun x => x / bs) [m]) with [B] in Hrun.
  change (0 + 1) with 1 in Hrun.
  assert (Es : Py.sum (Py.slice_to [n0] 1) = n0)
    by (unfold Py.sum, Py.slice_to, Py.slice; simpl; lia).
  apply bind_Ok in Hrun. destruct Hrun as (ra0 & g1 & Hz & Hrun).
  apply bind_Ok in Hrun. destruct Hrun as (ra1 & g2 & Hloop & Hret).
  apply ret_Ok in Hret. destruct Hret as [-> ->].
  apply zeros_arrays_inv in Hz. destruct Hz as [HI0 Htot].
  change (Py.range 0 1) with [0] in Hloop. cbn [for_each] in Hloop.
  apply bind_Ok in Hloop. destruct Hloop as (ra1' & g3 & Hbody & Hret).
  apply ret_Ok in Hret. destruct Hret as [-> ->].
  change (0 >? 0) with false in Hbody. cbv iota in Hbody.
  rewrite bind_ret in Hbody; cbv beta in Hbody.
  eapply fill_own_segment_inv with (B := B) (n := n0) (p := B) (p_prev := 0) in Hbody;
    [|reflexivity|reflexivity|discriminate|lia| |exact HI0].
  - eapply final_slice_legal; [exact Hbody| |exact Hc].
    simpl. intros k' j' Hk' Hj'. right.
    change (0 >? 0) with false. cbv iota.
    change (0 + 1) with 1. rewrite Es in *.
    lia.
  - intros HH. change (0 + 1) with 1. rewrite Es. specialize (Htot HH).
    change (Py.sum (Py.slice_to [n0] 0)) with 0. lia.
Qed.

Lemma index_of_second : forall a x, a <> x -> Py.index_of x [a; x] = Ok 1.
Proof.
  intros a x Hne. simpl.
  destruct (Z.eqb_spec a x); [contradiction|].
  rewrite Z.eqb_refl. reflexivity.
Qed.

(** Two segments: the first [A] blocks with budget [n0], the whole
    sequence with budget [n1]. *)
Lemma with_head_two_segments : forall A n0 n1 g res g',
  A < B ->
  (0 <= n0 + n1 -> 0 <= A /\ 0 <= n0 /\ 0 <= n1) ->
  _bigbird_block_rand_mask_with_head G m m bs bs H [A * bs; m] [n0; n1]
    1 1 1 1 1 1 g = Ok (res, g') ->
  forall hd k j v, cell3 res hd k j = Some v ->
    outside_window_and_globals B (Z.of_nat k + 1) v.
Proof.
  intros A n0 n1 g res g' HAB Hn Hrun hd k j v Hc.
  assert (Hne : A * bs <> m).
  { assert (bs * (m / bs) <= m) by (apply Z.mul_div_le; lia).
    subst B. nia. }
  unfold _bigbird_block_rand_mask_with_head in Hrun.
  rewrite floordiv_Ok in Hrun by lia.
  rewrite bind_lift_Ok in Hrun; cbv beta in Hrun.
  rewrite bind_lift_Ok in Hrun; cbv beta in Hrun.
  fold B in Hrun. rewrite Z.eqb_refl in Hrun.
  destruct (Py.mem m [A * bs; m]); [|discriminate].
  rewrite (index_of_second _ _ Hne) in Hrun.
  rewrite bind_lift_Ok in Hrun; cbv beta in Hrun.
  assert (Epbl : map (fun x => x / bs) [A * bs; m] = [A; B])
    by (simpl; rewrite Z.div_mul by lia; reflexivity).
  rewrite Epbl in Hrun.
  change (1 + 1) with 2 in Hrun.
  assert (Es0 : Py.sum (Py.slice_to [n0; n1] 0) = 0) by reflexivity.
  assert (Es1 : Py.sum (Py.slice_to [n0; n1] 1) = n0)
    by (unfold Py.sum, Py.slice_to, Py.slice; simpl; lia).
  assert (Es2 : Py.sum (Py.slice_to [n0; n1] 2) = n0 + n1)
    by (unfold Py.sum, Py.slice_to, Py.slice; simpl; lia).
  apply bind_Ok in Hrun. destruct Hrun as (ra0 & g1 & Hz & Hrun).
  apply bind_Ok in Hrun. destruct Hrun as (ra2 & g2 & Hloop & Hret).
  apply ret_Ok in Hret. destruct Hret as [-> ->].
  apply zeros_arrays_inv in Hz. destruct Hz as [HI0 Htot].
  rewrite Es2 in HI0, Htot.
  change (Py.range 0 2) with [0; 1] in Hloop. cbn [for_each] in Hloop.
  apply bind_Ok in Hloop. destruct Hloop as (ra1 & g3 & Hbody0 & Hloop).
  apply bind_Ok in Hloop. destruct Hloop as (ra2' & g4 & Hbody1 & Hret).
  apply ret_Ok in Hret. destruct Hret as [-> ->].
  (* segment 0 *)
  change (0 >? 0) with false in Hbody0. cbv iota in Hbody0.
  rewrite bind_ret in Hbody0; cbv beta in Hbody0.
  eapply fill_own_segment_inv with (B := B) (n := n0) (p := A) (p_prev := 0)
    in Hbody0;
    [|reflexivity|reflexivity|discriminate|lia| |exact HI0].
  2:{ intros HH. change (0 + 1) with 1. rewrite Es0, Es1.
      specialize (Htot HH). lia. }
  (* segment 1 *)
  change (1 >? 0) with true in Hbody1. cbv iota in Hbody1.
  apply bind_Ok in Hbody1. destruct Hbody1 as (ra1a & g5 & Hext & Hown).
  apply bind_Ok in Hext. destruct Hext as (ra1b & g6 & Hext & Hcov).
  eapply extend_earlier_rows_inv with (B := B) (n_idx := n1) (p_prev := A) (p_idx := B)
    in Hext;
    [|reflexivity|reflexivity|reflexivity|lia| |exact Hbody0].
  2:{ intros HH. change (1 + 1) with 2. rewrite Es1, Es2.
      specialize (Htot HH). lia. }
  eapply cover_first_segment_inv with (B := B) (n0 := n0) (p0 := A) (p1 := B)
    in Hcov;
    [|reflexivity|reflexivity|reflexivity|lia| |exact Hext].
  2:{ intros HH. rewrite Es1. specialize (Htot HH). lia. }
  eapply fill_own_segment_inv with (B := B) (n := n1) (p := B) (p_prev := A)
    in Hown;
    [|reflexivity|reflexivity|intros _; reflexivity|lia| |exact Hcov].
  2:{ intros HH. change (1 + 1) with 2. rewrite Es1, Es2.
      specialize (Htot HH). lia. }
  eapply final_slice_legal; [exact Hown| |exact Hc].
  cbv beta. intros k' j' Hk' Hj'.
  change (0 >? 0) with false. change (1 >? 0) with true. cbv iota.
  change (0 + 1) with 1. change (1 + 1) with 2.
  rewrite Es1, Es2.
  assert (Hpos : 0 <= n0 + n1) by lia.
  destruct (Hn Hpos) as (HA & Hn0 & Hn1).
  lia.
Qed.

End PlannedPlans.

(** ** The engine's adjacency *)

(** On every other sequence length the engine plans and samples per
    head, and every entry is outside the window and the globals. *)
Lemma planned_cells : forall (G : Generator) seed e h r bs batch m g adj g',
  0 < bs ->
  Py.mem m [1024; 3072; 4096] = false ->
  bigbird_rand_attn G seed e h r bs bs batch m m None g = Ok (adj, g') ->
  forall b hd k j v,
    cell4 adj b hd k j = Some v ->
    outside_window_and_globals (m / bs) (Z.of_nat k + 1) v.
Proof.
  intros G seed e h r bs batch m g adj g' Hbs Hm Hrun b hd k j v Hc.
  unfold bigbird_rand_attn in Hrun.
  rewrite floordiv_Ok in Hrun by lia.
  rewrite bind_lift_Ok in Hrun; cbv beta in Hrun.
  rewrite bind_lift_Ok in Hrun; cbv beta in Hrun.
  rewrite Z.eqb_refl, Hm in Hrun.
  apply bind_Ok in Hrun. destruct Hrun as ([] & g1 & _ & Hrun).
  apply bind_Ok in Hrun. destruct Hrun as (ra & g2 & Hra & Hrun).
  apply bind_Ok in Hrun. destruct Hrun as (ra' & g3 & Hst & Hrun).
  apply lift_Ok in Hst. destruct Hst as [Hst ->].
  apply np_stack_Ok in Hst. subst ra'.
  apply lift_Ok in Hrun. destruct Hrun as [Hrun ->].
  apply torch_cat_batch_Ok in Hrun. subst adj.
  apply cell4_repeat in Hc.
  apply bind_Ok in Hra. destruct Hra as (p & g4 & Hp & Hra).
  apply lift_Ok in Hp. destruct Hp as [Hp ->].
  unfold _get_rand_attn_plan in Hp. rewrite floordiv_Ok in Hp by lia.
  destruct (Z.ltb_spec (2 * r + 5) (m / bs)) as [HA|HA].
  - inversion Hp; subst p; clear Hp. cbn [fst snd] in Hra.
    eapply (with_head_two_segments G m bs h Hbs (2 * r + 5) r 0);
      [exact HA|lia|exact Hra|exact Hc].
  - destruct (Z.ltb_spec (r + 5) (m / bs)) as [HB|HB].
    + inversion Hp; subst p; clear Hp. cbn [fst snd] in Hra.
      eapply (with_head_two_segments G m bs h Hbs (r + 5) (r / 2) (r - r / 2));
        [exact HB| |exact Hra|exact Hc].
      intros Hr. assert (0 <= r) by lia.
      assert (0 <= r / 2) by (apply Z.div_pos; lia).
      assert (r / 2 <= r) by (apply Z.div_le_upper_bound; lia).
      lia.
    + inversion Hp; subst p; clear Hp. cbn [fst snd] in Hra.
      eapply (with_head_one_segment G m bs h Hbs r); [exact Hra|exact Hc].
Qed.

(** X16: when no plan is passed and the sampling returns, every entry
    of the adjacency row of a query block [i >= 1] is outside
    [{i-1, i, i+1, 0}], for every generator state and seed, on the
    planned path and on the old sequence lengths 1024, 3072 and 4096
    with a block size below 512; it is also different from [B-1],
    except at sequence length 1024, where the old plan draws from the
    blocks up to [1024 // block_size - 1 = B - 1]. *)
Theorem adjacency_outside_window_and_first :
  forall (G : Generator) seed e h r bs batch m (g : gstate G) adj g',
  0 < bs ->
  (In m [1024; 3072; 4096] -> bs < 512) ->
  bigbird_rand_attn G seed e h r bs bs batch m m None g = Ok (adj, g') ->
  forall b hd i j v,
    1 <= i ->
    cell4 adj b hd (Z.to_nat (i - 1)) j = Some v ->
    v <> i - 1 /\ v <> i /\ v <> i + 1 /\ v <> 0 /\
    (m <> 1024 -> v <> m / bs - 1).
Proof.
  intros G seed e h r bs batch m g adj g' Hbs Hold Hrun b hd i j v Hi Hc.
  destruct (Py.mem m [1024; 3072; 4096]) eqn:Hm.
  - assert (Hin : In m [1024; 3072; 4096]) by (now apply mem_In).
    specialize (Hold Hin).
    rewrite rand_attn_old_path in Hrun by (auto; lia).
    assert (Hrange : 1024 <= m <= 4096) by (simpl in Hin; lia).
    destruct (old_plan_cells G seed e h r bs batch m g adj g' Hbs Hold Hrange Hrun
                b hd _ j v Hc) as [Hk Hv].
    assert (Hdiv : m / bs <= max_seqlen / bs)
      by (apply Z.div_le_mono; unfold max_seqlen; lia).
    replace (Z.of_nat (Z.to_nat (i - 1)) + 1) with i in Hv by lia.
    apply (old_pool_clamped bs Hbs Hold) in Hv; [|lia].
    repeat split; try lia.
    intros Hne.
    assert (Hm3 : 3072 <= m) by (simpl in Hin; lia).
    assert (bs * (1024 / bs) <= 1024) by (apply Z.mul_div_le; lia).
    assert (2 <= 1024 / bs) by (apply Z.div_le_lower_bound; lia).
    assert (3 * (1024 / bs) <= m / bs) by (apply Z.div_le_lower_bound; lia).
    lia.
  - pose proof (planned_cells G seed e h r bs batch m g adj g' Hbs Hm Hrun
                  b hd _ j v Hc) as Hleg.
    replace (Z.of_nat (Z.to_nat (i - 1)) + 1) with i in Hleg by lia.
    unfold outside_window_and_globals in Hleg. repeat split; try lia.
Qed.

Lemma adjacency_outside_window_and_first_witness :
  exists adj g',
    bigbird_rand_attn rot_generator (Some 0) 0 2 3 64 64 1 512 512 None 0
      = Ok (adj, g') /\
    forall b hd i j v,
      1 <= i ->
      cell4 adj b hd (Z.to_nat (i - 1)) j = Some v ->
      v <> i - 1 /\ v <> i /\ v <> i + 1 /\ v <> 0 /\
      (512 <> 1024 -> v <> 512 / 64 - 1).
Proof.
  eexists. eexists. split; [vm_compute; reflexivity|].
  eapply (adjacency_outside_window_and_first rot_generator (Some 0) 0 2 3 64 1 512 0);
    [lia | simpl; lia | vm_compute; reflexivity].
Defined.

(** C1 fails on the old-plan routine.  At sequence length 4096 with
    512-token blocks ([B = 8], three random blocks, one head, seed 0)
    the clamp at [last_idx = 1024] does not apply
    ([1024 > 2 * 512] is false), so [last = 7] and the rows of query
    blocks 5 and 6 (the branches [i == B - 3] and [i == B - 2], whose
    comments say [Missing -3] and [Missing -4]) draw from
    [middle_seq[:7]], the blocks 1 to 6: query block 5 gets itself and
    block 6, query block 6 gets itself. *)
Lemma old_plan_samples_own_window :
  returned (bigbird_rand_attn rot_generator (Some 0) 0 1 3 512 512 1
              4096 4096 None 0)
    = Ok [[[[3; 4; 5]; [5; 6; 4]; [6; 1; 5]; [1; 2; 6]; [5; 6; 1]; [6; 1; 2]]]] /\
  ~ outside_window_and_globals (4096 / 512) 5 5 /\
  ~ outside_window_and_globals (4096 / 512) 5 6 /\
  ~ outside_window_and_globals (4096 / 512) 6 6.
Proof.
  split; [vm_compute; reflexivity|].
  unfold outside_window_and_globals. repeat split; lia.
Qed.

(** At sequence length 1024 with 64-token blocks ([B = 16]) the same
    routine draws the row of query block 1 from the blocks 3 to 15:
    with three random blocks and seed 12 its first entry is block 15,
    the last global block. *)
Lemma adjacency_1024_samples_last_block :
  match bigbird_rand_attn rot_generator (Some 12) 0 1 3 64 64 1 1024 1024 None 0 with
  | Ok (adj, _) => cell4 adj 0 0 0 0
  | Raise _ => None
  end = Some (1024 / 64 - 1).
Proof. vm_compute. reflexivity. Qed.

(** ** Seeding, determinism and the global generator *)

(** With an integer seed the adjacency run does not depend on the
    generator state it finds nor on the entropy of the system: it
    starts from the state the seed determines. *)
Lemma rand_attn_from_seed :
  forall (G : Generator) s e h r wm wn batch m n plan (g : gstate G),
  bigbird_rand_attn G (Some s) e h r wm wn batch m n plan g =
  bigbird_rand_attn G (Some s) 0 h r wm wn batch m n plan (seed_state G s).
Proof.
  intros G s e h r wm wn batch m n plan g.
  unfold bigbird_rand_attn, Py.floordiv.
  destruct (wm =? 0); [reflexivity|].
  rewrite !bind_lift_Ok. cbv beta.
  destruct (wn =? 0); [reflexivity|].
  rewrite !bind_lift_Ok. cbv beta.
  destruct (m / wm =? n / wn); [|reflexivity].
  reflexivity.
Qed.

(** Whatever the seed, the run does not depend on the state the global
    generator is found in. *)
Lemma rand_attn_forgets_state :
  forall (G : Generator) seed e h r wm wn batch m n plan (g1 g2 : gstate G),
  bigbird_rand_attn G seed e h r wm wn batch m n plan g1 =
  bigbird_rand_attn G seed e h r wm wn batch m n plan g2.
Proof.
  intros G seed e h r wm wn batch m n plan g1 g2.
  unfold bigbird_rand_attn, Py.floordiv.
  destruct (wm =? 0); [reflexivity|].
  rewrite !bind_lift_Ok. cbv beta.
  destruct (wn =? 0); [reflexivity|].
  rewrite !bind_lift_Ok. cbv beta.
  destruct (m / wm =? n / wn); [|reflexivity].
  reflexivity.
Qed.

(** C6: two invocations of the block-sparse attention with the same
    integer seed, sizes, head count, tensors and masks return the same
    adjacency and the same context (or raise the same exception),
    whatever state the global generator was in before each of them and
    whatever entropy the system holds; without a seed ([None]) the
    same holds for two runs that draw the same entropy. *)
Theorem two_run_determinism :
  forall (G : Generator) (Tensors Context : Type)
         (compute : Tensors -> list (list (list (list Z))) -> result Context)
         (inputs : Tensors) h r wm wn batch m n plan (g1 g2 : gstate G),
  (forall (s e1 e2 : Z),
     returned (bigbird_block_sparse_attention G compute inputs
                 h r wm wn batch m n (Some s) e1 plan g1) =
     returned (bigbird_block_sparse_attention G compute inputs
                 h r wm wn batch m n (Some s) e2 plan g2)) /\
  (forall (e : Z),
     returned (bigbird_block_sparse_attention G compute inputs
                 h r wm wn batch m n None e plan g1) =
     returned (bigbird_block_sparse_attention G compute inputs
                 h r wm wn batch m n None e plan g2)).
Proof.
  intros G Tensors Context compute inputs h r wm wn batch m n plan g1 g2.
  split.
  - intros s e1 e2. unfold bigbird_block_sparse_attention, bind.
    rewrite (rand_attn_from_seed G s e1 h r wm wn batch m n plan g1).
    rewrite (rand_attn_from_seed G s e2 h r wm wn batch m n plan g2).
    reflexivity.
  - intros e. unfold bigbird_block_sparse_attention, bind.
    rewrite (rand_attn_forgets_state G None e h r wm wn batch m n plan g1 g2).
    reflexivity.
Qed.



(** ** Configuration checks *)

Lemma modulo_Ok : forall a b, b <> 0 -> Py.modulo a b = Ok (a mod b).
Proof.
  intros a b Hb. unfold Py.modulo.
  destruct (Z.eqb_spec b 0); [contradiction|reflexivity].
Qed.

(** The explicit checks alone: for a non-zero block size and a hidden
    size that is a multiple of the head count, they raise
    [NotImplementedError] exactly when the position embedding type is
    not absolute, and otherwise [AssertionError] exactly when the
    sequence length is not a multiple of the block size; no check
    looks at the number of blocks. *)
Lemma engine_checks_outcome :
  forall config seed seqlen,
  num_attention_heads config <> 0 ->
  hidden_size config mod num_attention_heads config = 0 ->
  block_size config <> 0 ->
  (position_embedding_type config <> "absolute"%string ->
     engine_checks config seed seqlen = Raise NotImplementedError) /\
  (position_embedding_type config = "absolute"%string ->
     seqlen mod block_size config <> 0 ->
     engine_checks config seed seqlen = Raise AssertionError) /\
  (position_embedding_type config = "absolute"%string ->
     seqlen mod block_size config = 0 ->
     is_ok (engine_checks config seed seqlen) = true).
Proof.
  intros config seed seqlen Hh Hm Hb.
  unfold engine_checks, BigBirdBlockSparseAttention_init.
  rewrite modulo_Ok by assumption. rewrite Hm.
  change (negb (0 =? 0)) with false. cbv iota.
  destruct (String.eqb_spec (position_embedding_type config) "absolute") as [E|N].
  - split; [intros C; contradiction|].
    simpl negb. cbv iota. unfold forward_checks. cbn [self_block_size].
    rewrite modulo_Ok by assumption.
    split.
    + intros _ Hne. apply Z.eqb_neq in Hne. rewrite Hne. reflexivity.
    + intros _ He. rewrite He. reflexivity.
  - split; [intros _; reflexivity|]. split; intros C; contradiction.
Qed.

(** ** The block gatherer *)

Lemma map_result_Ok : forall (A B : Type) (f : A -> result B) l l',
  map_result f l = Ok l' ->
  length l' = length l /\
  forall k b, nth_error l' k = Some b ->
    exists a, nth_error l k = Some a /\ f a = Ok b.
Proof.
  intros A B f l. induction l as [|a l IH]; intros l' H; simpl in H.
  - inversion H; subst. split; [reflexivity|]. intros [|k] b E; discriminate.
  - destruct (f a) as [b0|] eqn:Ea; [|discriminate].
    destruct (map_result f l) as [bs|] eqn:El; [|discriminate].
    inversion H; subst l'; clear H.
    destruct (IH bs eq_refl) as [HL Hn].
    split; [simpl; now rewrite HL|].
    intros [|k] b E; simpl in E.
    + inversion E; subst. exists a. auto.
    + apply Hn in E. exact E.
Qed.

Lemma nth_error_combine : forall (A B : Type) (l1 : list A) (l2 : list B) k a b,
  nth_error (combine l1 l2) k = Some (a, b) ->
  nth_error l1 k = Some a /\ nth_error l2 k = Some b.
Proof.
  intros A B l1. induction l1 as [|x l1 IH]; intros l2 k a b H.
  - destruct k; discriminate.
  - destruct l2 as [|y l2]; [destruct k; discriminate|].
    destruct k; simpl in *.
    + inversion H; subst. auto.
    + now apply IH.
Qed.

Lemma torch_stack_Ok : forall (A : Type) (l l' : list A),
  torch_stack l = Ok l' -> l' = l.
Proof. intros A l l' H. destruct l; inversion H. reflexivity. Qed.

Lemma nth_error_concat_uniform : forall (A : Type) (k : nat) (ls : list (list A)) q t,
  Forall (fun x => length x = k) ls ->
  (t < k)%nat ->
  nth_error (concat ls) (q * k + t) =
  match nth_error ls q with
  | Some x => nth_error x t
  | None => None
  end.
Proof.
  intros A k ls. induction ls as [|x ls IH]; intros q t HF Ht.
  - simpl. destruct q; now rewrite nth_error_nil.
  - inversion HF as [|? ? Hx HF']; subst. simpl concat.
    destruct q as [|q]; simpl nth_error at 2.
    + simpl. apply nth_error_app1. lia.
    + rewrite nth_error_app2 by lia.
      replace (S q * length x + t - length x)%nat with (q * length x + t)%nat by lia.
      now apply IH.
Qed.

Lemma chunks_length : forall (A : Type) groups k (l : list A),
  length (chunks groups k l) = groups.
Proof.
  intros A groups. induction groups; intros; simpl; [reflexivity|]. now rewrite IHgroups.
Qed.

Lemma nth_error_chunks : forall (A : Type) groups k (l : list A) i row,
  nth_error (chunks groups k l) i = Some row ->
  (i < groups)%nat /\ row = firstn k (skipn (i * k) l).
Proof.
  intros A groups. induction groups as [|g IH]; intros k l i row H.
  - destruct i; discriminate.
  - destruct i as [|i]; simpl in H.
    + inversion H. split; [lia|reflexivity].
    + apply IH in H. destruct H as [Hi ->]. split; [lia|].
      rewrite skipn_skipn.
      replace (i * k + k)%nat with (S i * k)%nat by lia. reflexivity.
Qed.

(** One batch element and one head: row [j] of group [i] of the
    regrouped selection is row [j mod wn] of the block that the
    adjacency names at position [j / wn] of its row [i]. *)
Lemma gather_group : forall (V : Type) (p2 : list (list V)) (i2 : list (list Z))
    sel (wn r groups : nat) i j x,
  torch_index_select p2 (concat i2) = Ok sel ->
  Forall (fun blk => length blk = wn) p2 ->
  Forall (fun row => length row = r /\ Forall (fun a => 0 <= a) row) i2 ->
  match nth_error (chunks groups (r * wn) (concat sel)) i with
  | Some row => nth_error row j
  | None => None
  end = Some x ->
  (i < groups)%nat /\ (j < r * wn)%nat /\
  exists a,
    match nth_error i2 i with
    | Some row => nth_error row (j / wn)
    | None => None
    end = Some a /\
    0 <= a /\
    match nth_error p2 (Z.to_nat a) with
    | Some blk => nth_error blk (j mod wn)
    | None => None
    end = Some x.
Proof.
  intros V p2 i2 sel wn r groups i j x Hsel Hp2 Hi2 Hx.
  destruct (nth_error (chunks groups (r * wn) (concat sel)) i) as [row|] eqn:Erow;
    [|discriminate].
  apply nth_error_chunks in Erow. destruct Erow as [Hi ->].
  rewrite nth_error_firstn in Hx.
  destruct (Nat.ltb_spec j (r * wn)) as [Hj|]; [|discriminate].
  rewrite nth_error_skipn in Hx.
  split; [exact Hi|]. split; [exact Hj|].
  assert (Hwn : (0 < wn)%nat) by (destruct wn; [lia|lia]).
  unfold torch_index_select in Hsel.
  destruct (map_result_Ok _ _ _ _ _ Hsel) as [HL Hn].
  assert (Hsel_len : Forall (fun blk => length blk = wn) sel).
  { apply Forall_forall. intros blk Hin. apply In_nth_error in Hin.
    destruct Hin as [q Hq]. destruct (Hn _ _ Hq) as (a & Ha & Hidx).
    unfold Py.index in Hidx.
    destruct ((0 <=? _) && _); [|discriminate].
    destruct (nth_error p2 _) as [blk'|] eqn:E; inversion Hidx; subst.
    rewrite Forall_forall in Hp2. apply Hp2. eapply nth_error_In; eauto. }
  assert (Hmod : (j mod wn < wn)%nat) by (apply Nat.mod_upper_bound; lia).
  assert (Hdm : (i * (r * wn) + j = (i * r + j / wn) * wn + j mod wn)%nat).
  { pose proof (Nat.div_mod_eq j wn). nia. }
  rewrite Hdm in Hx.
  rewrite (nth_error_concat_uniform _ _ _ _ _ Hsel_len Hmod) in Hx.
  destruct (nth_error sel (i * r + j / wn)) as [blk|] eqn:Eblk; [|discriminate].
  destruct (Hn _ _ Eblk) as (a & Ha & Hidx).
  assert (Hrows : Forall (fun row => length row = r) i2)
    by (eapply Forall_impl; [|exact Hi2]; intros ? [? _]; assumption).
  assert (Hdiv : (j / wn < r)%nat)
    by (apply Nat.Div0.div_lt_upper_bound; lia).
  rewrite (nth_error_concat_uniform _ _ _ _ _ Hrows Hdiv) in Ha.
  exists a. split; [exact Ha|].
  assert (Ha0 : 0 <= a).
  { destruct (nth_error i2 i) as [row|] eqn:Er; [|discriminate].
    rewrite Forall_forall in Hi2. apply nth_error_In in Er.
    destruct (Hi2 _ Er) as [_ Hnn]. rewrite Forall_forall in Hnn.
    apply Hnn. eapply nth_error_In; eauto. }
  split; [exact Ha0|].
  apply index_Ok in Hidx; [|exact Ha0]. now rewrite Hidx.
Qed.

Lemma map_result_nth : forall (A B : Type) (f : A -> result B) l l' k a,
  map_result f l = Ok l' ->
  nth_error l k = Some a ->
  exists b, nth_error l' k = Some b /\ f a = Ok b.
Proof.
  intros A B f l l' k a H Ha.
  destruct (map_result_Ok _ _ _ _ _ H) as [HL Hn].
  assert (Hk : (k < length l')%nat)
    by (rewrite HL; apply nth_error_Some; congruence).
  apply nth_error_Some in Hk.
  destruct (nth_error l' k) as [b|] eqn:Eb; [|contradiction].
  exists b. split; [reflexivity|].
  destruct (Hn _ _ Eb) as (a' & Ha' & Hf). congruence.
Qed.

Lemma combine_nth_error : forall (A B : Type) (l1 : list A) (l2 : list B) k a b,
  nth_error l1 k = Some a -> nth_error l2 k = Some b ->
  nth_error (combine l1 l2) k = Some (a, b).
Proof.
  intros A B l1. induction l1 as [|x l1 IH]; intros l2 k a b H1 H2.
  - destruct k; discriminate.
  - destruct l2 as [|y l2]; [destruct k; discriminate|].
    destruct k; simpl in *.
    + inversion H1; inversion H2; subst. reflexivity.
    + now apply IH.
Qed.

Lemma chunks_nth_error : forall (A : Type) groups k (l : list A) i,
  (i < groups)%nat ->
  nth_error (chunks groups k l) i = Some (firstn k (skipn (i * k) l)).
Proof.
  intros A groups k l i Hi.
  assert (H : (i < length (chunks groups k l))%nat) by (now rewrite chunks_length).
  apply nth_error_Some in H.
  destruct (nth_error (chunks groups k l) i) as [row|] eqn:E; [|contradiction].
  apply nth_error_chunks in E. destruct E as [_ ->]. reflexivity.
Qed.

(** Where an entry of the gathered tensor comes from. *)
Lemma gathered_entry : forall (V : Type) (blocked : list (list (list (list V))))
    adj n wn r g b h,
  gathered blocked adj n wn r = Ok g ->
  forall gbh, at2 g b h = Some gbh ->
  exists p2 i2 sel,
    at2 blocked b h = Some p2 /\ at2 adj b h = Some i2 /\
    torch_index_select p2 (concat i2) = Ok sel /\
    0 < (n / wn - 2) * (r * wn) /\
    Z.of_nat (length (concat sel)) = (n / wn - 2) * (r * wn) /\
    gbh = chunks (Z.to_nat (n / wn - 2)) (Z.to_nat (r * wn)) (concat sel).
Proof.
  intros V blocked adj n wn r g b h Hg gbh Hgbh.
  unfold gathered in Hg.
  destruct (torch_gather_b2 blocked adj) as [gg|] eqn:Egg; [|discriminate].
  unfold view_groups in Hg. unfold at2 in Hgbh.
  destruct (nth_error g b) as [gb|] eqn:Egb; [|discriminate].
  destruct (map_result_Ok _ _ _ _ _ Hg) as [_ Hn1].
  destruct (Hn1 _ _ Egb) as (ggb & Eggb & Hin).
  destruct (map_result_Ok _ _ _ _ _ Hin) as [_ Hn2].
  destruct (Hn2 _ _ Hgbh) as (sel & Esel & Hview).
  destruct ((0 <? (n / wn - 2) * (r * wn)) &&
            (Z.of_nat (length (concat sel)) =? (n / wn - 2) * (r * wn))) eqn:Econd;
    [|discriminate].
  apply andb_prop in Econd. destruct Econd as [Hpos Hlen].
  apply Z.ltb_lt in Hpos. apply Z.eqb_eq in Hlen.
  inversion Hview; subst gbh; clear Hview.
  unfold torch_gather_b2 in Egg.
  destruct (_ && _) in Egg; [|discriminate].
  match type of Egg with
  | match map_result ?F ?L with _ => _ end = _ =>
      destruct (map_result F L) as [out|] eqn:Eout; [|discriminate]
  end.
  apply torch_stack_Ok in Egg. subst gg.
  destruct (map_result_Ok _ _ _ _ _ Eout) as [_ Hn3].
  destruct (Hn3 _ _ Eggb) as ([p1 i1] & Ep1 & Hinner).
  apply nth_error_combine in Ep1. destruct Ep1 as [Ep1 Ei1].
  cbn [fst snd] in Hinner.
  match type of Hinner with
  | match map_result ?F ?L with _ => _ end = _ =>
      destruct (map_result F L) as [inner|] eqn:Einner; [|discriminate]
  end.
  apply torch_stack_Ok in Hinner. subst ggb.
  destruct (map_result_Ok _ _ _ _ _ Einner) as [_ Hn4].
  destruct (Hn4 _ _ Esel) as ([p2 i2] & Ep2 & Hsel).
  apply nth_error_combine in Ep2. destruct Ep2 as [Ep2 Ei2].
  cbn [fst snd] in Hsel.
  exists p2, i2, sel. unfold at2. rewrite Ep1, Ei1.
  repeat split; assumption.
Qed.

(** C5: the gathered key (or value) tensor preserves adjacency order.
    For every batch element [b], head [h], query-block row [i] and
    position [j], the entry [gathered[b][h][i][j]] is row [j mod wn]
    of the block of the blocked input that the adjacency names at
    [adjacency[b][h][i][j div wn]]; and every entry with [i] below
    [n // wn - 2] and [j] below [r * wn] exists. *)
Theorem gather_preserves_adjacency_order :
  forall (V : Type) (blocked : list (list (list (list V))))
         (adj : list (list (list (list Z)))) n wn r g,
  gathered blocked adj n wn r = Ok g ->
  0 < wn -> 0 <= r ->
  (forall b h blocks, at2 blocked b h = Some blocks ->
     Forall (fun blk => length blk = Z.to_nat wn) blocks) ->
  (forall b h rows, at2 adj b h = Some rows ->
     Forall (fun row => length row = Z.to_nat r /\ Forall (fun a => 0 <= a) row)
            rows) ->
  (forall b h i j x,
     at4 g b h i j = Some x ->
     exists a,
       cell4 adj b h i (j / Z.to_nat wn) = Some a /\ 0 <= a /\
       at4 blocked b h (Z.to_nat a) (j mod Z.to_nat wn) = Some x) /\
  (forall b h i j,
     at2 blocked b h <> None -> at2 adj b h <> None ->
     Z.of_nat i < n / wn - 2 -> Z.of_nat j < r * wn ->
     at4 g b h i j <> None).
Proof.
  intros V blocked adj n wn r g Hg Hwn Hr Hblocks Hadj. split.
  - intros b h i j x Hx.
    assert (Hat : exists gbh, at2 g b h = Some gbh /\
              match nth_error gbh i with
              | Some row => nth_error row j
              | None => None
              end = Some x).
    { unfold at4 in Hx. unfold at2.
      destruct (nth_error g b) as [gb|]; [|discriminate].
      destruct (nth_error gb h) as [gbh|]; [|discriminate].
      exists gbh. auto. }
    destruct Hat as (gbh & Egbh & Hrow).
    destruct (gathered_entry _ _ _ _ _ _ _ _ _ Hg _ Egbh)
      as (p2 & i2 & sel & Ep2 & Ei2 & Hsel & Hpos & Hlen & ->).
    replace (Z.to_nat (r * wn)) with (Z.to_nat r * Z.to_nat wn)%nat in Hrow
      by (rewrite Z2Nat.inj_mul; lia).
    destruct (gather_group _ _ _ _ _ _ _ _ _ _ Hsel (Hblocks _ _ _ Ep2)
                (Hadj _ _ _ Ei2) Hrow)
      as (_ & _ & a & Ha & Ha0 & Hblk).
    exists a. split; [|split; [exact Ha0|]].
    + unfold cell4, cell3, cell2. unfold at2 in Ei2.
      destruct (nth_error adj b) as [ab|]; [|discriminate].
      rewrite Ei2. exact Ha.
    + unfold at4. unfold at2 in Ep2.
      destruct (nth_error blocked b) as [pb|]; [|discriminate].
      rewrite Ep2. exact Hblk.
  - intros b h i j Hb Ha Hi Hj.
    destruct (at2 blocked b h) as [p2|] eqn:Ep2; [|contradiction].
    destruct (at2 adj b h) as [i2|] eqn:Ei2; [|contradiction].
    unfold gathered in Hg.
    destruct (torch_gather_b2 blocked adj) as [gg|] eqn:Egg; [|discriminate].
    unfold torch_gather_b2 in Egg.
    destruct (_ && _) in Egg; [|discriminate].
    match type of Egg with
    | match map_result ?F ?L with _ => _ end = _ =>
        destruct (map_result F L) as [out|] eqn:Eout; [|discriminate]
    end.
    apply torch_stack_Ok in Egg. subst gg.
    unfold at2 in Ep2, Ei2.
    destruct (nth_error blocked b) as [p1|] eqn:Ep1; [|discriminate].
    destruct (nth_error adj b) as [i1|] eqn:Ei1; [|discriminate].
    destruct (map_result_nth _ _ _ _ _ _ _ Eout (combine_nth_error _ _ _ _ _ _ _ Ep1 Ei1))
      as (ggb & Eggb & Hinner).
    cbn [fst snd] in Hinner.
    match type of Hinner with
    | match map_result ?F ?L with _ => _ end = _ =>
        destruct (map_result F L) as [inner|] eqn:Einner; [|discriminate]
    end.
    apply torch_stack_Ok in Hinner. subst ggb.
    destruct (map_result_nth _ _ _ _ _ _ _ Einner (combine_nth_error _ _ _ _ _ _ _ Ep2 Ei2))
      as (sel & Esel & Hsel).
    unfold view_groups in Hg.
    destruct (map_result_nth _ _ _ _ _ _ _ Hg Eggb) as (gb & Egb & Hgb).
    destruct (map_result_nth _ _ _ _ _ _ _ Hgb Esel) as (gbh & Egbh & Hview).
    destruct ((0 <? (n / wn - 2) * (r * wn)) &&
              (Z.of_nat (length (concat sel)) =? (n / wn - 2) * (r * wn))) eqn:Econd;
      [|discriminate].
    apply andb_prop in Econd. destruct Econd as [Hpos Hlen].
    apply Z.ltb_lt in Hpos. apply Z.eqb_eq in Hlen.
    inversion Hview; subst gbh; clear Hview.
    unfold at4. rewrite Egb, Egbh.
    rewrite chunks_nth_error by lia.
    apply nth_error_Some. rewrite length_firstn, length_skipn. nia.
Qed.

Lemma gather_preserves_adjacency_order_witness :
  let blocked := [[[[10; 11]; [20; 21]; [30; 31]; [40; 41]; [50; 51]]]] in
  let adj := [[[[3; 1]; [2; 3]; [1; 2]]]] in
  exists g,
    gathered blocked adj 10 2 2 = Ok g /\
    (forall b h i j x,
       at4 g b h i j = Some x ->
       exists a,
         cell4 adj b h i (j / Z.to_nat 2) = Some a /\ 0 <= a /\
         at4 blocked b h (Z.to_nat a) (j mod Z.to_nat 2) = Some x) /\
    (forall b h i j,
       at2 blocked b h <> None -> at2 adj b h <> None ->
       Z.of_nat i < 10 / 2 - 2 -> Z.of_nat j < 2 * 2 ->
       at4 g b h i j <> None).
Proof.
  intros blocked adj. eexists. split; [vm_compute; reflexivity|].
  apply (gather_preserves_adjacency_order Z blocked adj 10 2 2);
    [vm_compute; reflexivity | lia | lia | |].
  - intros [|b] [|h] blocks E; try (destruct b; discriminate);
      try (destruct h; discriminate).
    inversion E; subst. repeat constructor.
  - intros [|b] [|h] rows E; try (destruct b; discriminate);
      try (destruct h; discriminate).
    inversion E; subst. repeat constructor; lia.
Defined.

(** ** The dense attention map *)

Lemma assign_block_rows : forall (R : Type) (t : list (list R)) r0 r1 c0 c1 src t',
  assign_block t r0 r1 c0 c1 src = Ok t' ->
  let len := Z.of_nat (length t) in
  length t' = length t /\
  forall i, ~ (Py.bound len r0 <= Z.of_nat i < Py.bound len r1) ->
            nth_error t' i = nth_error t i.
Proof.
  intros R t r0 r1 c0 c1 src t' H len. unfold assign_block in H. fold len in H.
  set (lo := Py.bound len r0) in *. set (hi := Py.bound len r1) in *.
  destruct (Nat.eqb_spec (length src) (Z.to_nat (hi - lo))) as [Hsrc|]; [|discriminate].
  match type of H with
  | match map_result ?F ?L with _ => _ end = _ =>
      destruct (map_result F L) as [rows|] eqn:Erows; [|discriminate]
  end.
  inversion H; subst t'; clear H.
  destruct (map_result_Ok _ _ _ _ _ Erows) as [HL _].
  assert (Hlen0 : 0 <= len) by (subst len; lia).
  assert (Hlo : 0 <= lo <= len)
    by (subst lo; unfold Py.bound; destruct (Z.ltb_spec r0 0); lia).
  assert (Hhi : 0 <= hi <= len)
    by (subst hi; unfold Py.bound; destruct (Z.ltb_spec r1 0); lia).
  assert (Hrows : length rows = Z.to_nat (hi - lo)).
  { rewrite HL, length_combine, length_firstn, length_skipn. subst len. lia. }
  assert (Hf : length (firstn (Z.to_nat lo) t) = Z.to_nat lo)
    by (rewrite length_firstn; subst len; lia).
  split.
  - rewrite !length_app, Hf, Hrows, length_skipn. subst len. lia.
  - intros i Hi.
    destruct (Nat.lt_ge_cases i (Z.to_nat lo)) as [Hlt|Hge].
    + rewrite nth_error_app1 by lia. rewrite nth_error_firstn.
      destruct (Nat.ltb_spec i (Z.to_nat lo)); [reflexivity|lia].
    + rewrite nth_error_app2 by lia. rewrite Hf.
      rewrite nth_error_app2 by lia. rewrite Hrows.
      rewrite nth_error_skipn. f_equal. lia.
Qed.

(** C9, what the code does against it: the rows of the interior query
    blocks are never written; with [output_attentions] set they come
    back as rows of zeros, whatever the weights of the five row-groups
    are. *)
Theorem interior_rows_left_zero :
  forall (R : Type) (zero : R) m n wm wn r first second band second_last last probs,
  attention_probs zero m n wm wn r first second band second_last last = Ok probs ->
  0 < wm -> 4 * wm <= m ->
  forall i row,
    2 * wm <= Z.of_nat i < m - 2 * wm ->
    nth_error probs i = Some row ->
    row = repeat zero (Z.to_nat n).
Proof.
  intros R zero m n wm wn r first second band second_last last probs H Hwm Hm i row Hi Hrow.
  unfold attention_probs in H.
  destruct (torch_zeros zero m n) as [p0|] eqn:E0; [|discriminate].
  destruct (assign_block p0 0 wm 0 n first) as [p1|] eqn:E1; [|discriminate].
  destruct (assign_block p1 wm (wm * 2) 0 (3 * wn) _) as [p2|] eqn:E2; [|discriminate].
  destruct (assign_block p2 wm (wm * 2) (- wn) n _) as [p3|] eqn:E3; [|discriminate].
  destruct (negb _); [discriminate|].
  destruct (assign_block p3 (- 2 * wm) (- wm) 0 wn _) as [p4|] eqn:E4; [|discriminate].
  destruct (assign_block p4 (- 2 * wm) (- wm) (- 3 * wn) n _) as [p5|] eqn:E5; [|discriminate].
  unfold torch_zeros in E0.
  destruct ((m <? 0) || (n <? 0)); [discriminate|]. inversion E0; subst p0; clear E0.
  apply assign_block_rows in E1, E2, E3, E4, E5, H. cbv zeta in *.
  destruct E1 as [L1 N1]. destruct E2 as [L2 N2]. destruct E3 as [L3 N3].
  destruct E4 as [L4 N4]. destruct E5 as [L5 N5]. destruct H as [L6 N6].
  rewrite repeat_length in L1.
  assert (Hlen : forall p : list (list R),
            length p = Z.to_nat m -> Z.of_nat (length p) = m) by (intros; lia).
  rewrite N6 in Hrow
    by (rewrite (Hlen p5) by congruence; unfold Py.bound;
        destruct (Z.ltb_spec (- wm) 0); destruct (Z.ltb_spec m 0); lia).
  rewrite N5 in Hrow
    by (rewrite (Hlen p4) by congruence; unfold Py.bound;
        destruct (Z.ltb_spec (- 2 * wm) 0); destruct (Z.ltb_spec (- wm) 0); lia).
  rewrite N4 in Hrow
    by (rewrite (Hlen p3) by congruence; unfold Py.bound;
        destruct (Z.ltb_spec (- 2 * wm) 0); destruct (Z.ltb_spec (- wm) 0); lia).
  rewrite N3 in Hrow
    by (rewrite (Hlen p2) by congruence; unfold Py.bound;
        destruct (Z.ltb_spec wm 0); destruct (Z.ltb_spec (wm * 2) 0); lia).
  rewrite N2 in Hrow
    by (rewrite (Hlen p1) by congruence; unfold Py.bound;
        destruct (Z.ltb_spec wm 0); destruct (Z.ltb_spec (wm * 2) 0); lia).
  rewrite N1 in Hrow
    by (rewrite repeat_length; unfold Py.bound;
        destruct (Z.ltb_spec 0 0); destruct (Z.ltb_spec wm 0); lia).
  apply nth_error_In, repeat_spec in Hrow. exact Hrow.
Qed.

Lemma interior_rows_left_zero_witness :
  let ones8 := [1; 1; 1; 1; 1; 1; 1; 1] in
  let ones7 := [1; 1; 1; 1; 1; 1; 1] in
  exists probs,
    attention_probs 0 8 8 1 1 3 [ones8] [ones7]
      [[ones8]; [ones8]; [ones8]; [ones8]] [ones7] [ones8] = Ok probs /\
    forall i row,
      2 * 1 <= Z.of_nat i < 8 - 2 * 1 ->
      nth_error probs i = Some row ->
      row = repeat 0 (Z.to_nat 8).
Proof.
  intros ones8 ones7. eexists. split; [vm_compute; reflexivity|].
  apply (interior_rows_left_zero Z 0 8 8 1 1 3 [ones8] [ones7]
           [[ones8]; [ones8]; [ones8]; [ones8]] [ones7] [ones8]);
    [vm_compute; reflexivity | lia | lia].
Defined.

(** ** Selections, chunks and slices as lists *)

Lemma map_result_app : forall (A B : Type) (f : A -> result B) l1 l2 s,
  map_result f (l1 ++ l2) = Ok s ->
  exists s1 s2, map_result f l1 = Ok s1 /\ map_result f l2 = Ok s2 /\ s = s1 ++ s2.
Proof.
  intros A B f l1. induction l1 as [|a l1 IH]; intros l2 s H.
  - exists [], s. simpl in *. auto.
  - simpl in H. destruct (f a) as [b|] eqn:Ea; [|discriminate].
    destruct (map_result f (l1 ++ l2)) as [bs|] eqn:El; [|discriminate].
    inversion H; subst s; clear H.
    destruct (IH _ _ El) as (s1 & s2 & H1 & H2 & ->).
    exists (b :: s1), s2. simpl. rewrite Ea, H1. auto.
Qed.

Lemma map_result_app_Ok : forall (A B : Type) (f : A -> result B) l1 l2 s1 s2,
  map_result f l1 = Ok s1 -> map_result f l2 = Ok s2 ->
  map_result f (l1 ++ l2) = Ok (s1 ++ s2).
Proof.
  intros A B f l1. induction l1 as [|a l1 IH]; intros l2 s1 s2 H1 H2.
  - simpl in *. inversion H1; subst. exact H2.
  - simpl in *. destruct (f a) as [b|]; [|discriminate].
    destruct (map_result f l1) as [bs|] eqn:El; [|discriminate].
    inversion H1; subst s1; clear H1.
    rewrite (IH _ _ _ eq_refl H2). reflexivity.
Qed.

Lemma map_result_total : forall (A B : Type) (f : A -> result B) (f' : A -> B) l,
  (forall a, In a l -> f a = Ok (f' a)) ->
  map_result f l = Ok (map f' l).
Proof.
  intros A B f f' l. induction l as [|a l IH]; intros H; simpl.
  - reflexivity.
  - rewrite (H a) by (now left). rewrite IH by (intros; apply H; now right).
    reflexivity.
Qed.

Lemma map_result_length : forall (A B : Type) (f : A -> result B) l l',
  map_result f l = Ok l' -> length l' = length l.
Proof. intros A B f l l' H. apply (map_result_Ok _ _ _ _ _ H). Qed.

Lemma select_uniform : forall (T : Type) (p : list (list T)) idx sel w,
  torch_index_select p idx = Ok sel ->
  Forall (fun blk => length blk = w) p ->
  Forall (fun blk => length blk = w) sel.
Proof.
  intros T p idx sel w H Hp. unfold torch_index_select in H.
  destruct (map_result_Ok _ _ _ _ _ H) as [_ Hn].
  apply Forall_forall. intros blk Hin. apply In_nth_error in Hin.
  destruct Hin as [q Hq]. destruct (Hn _ _ Hq) as (a & _ & Hidx).
  unfold Py.index in Hidx.
  destruct ((0 <=? _) && _); [|discriminate].
  destruct (nth_error p _) as [blk'|] eqn:E; inversion Hidx; subst.
  rewrite Forall_forall in Hp. apply Hp. eapply nth_error_In; eauto.
Qed.

Lemma concat_uniform_length : forall (A : Type) (ls : list (list A)) w,
  Forall (fun x => length x = w) ls ->
  length (concat ls) = (length ls * w)%nat.
Proof.
  intros A ls w H. induction H; simpl; [reflexivity|].
  rewrite length_app. lia.
Qed.

Lemma firstn_app_exact : forall (A : Type) (l1 l2 : list A) n,
  length l1 = n -> firstn n (l1 ++ l2) = l1.
Proof.
  intros A l1 l2 n H. rewrite firstn_app. rewrite H, Nat.sub_diag.
  simpl. rewrite app_nil_r. apply firstn_all2. lia.
Qed.

Lemma skipn_app_exact : forall (A : Type) (l1 l2 : list A) n,
  length l1 = n -> skipn n (l1 ++ l2) = l2.
Proof.
  intros A l1 l2 n H. rewrite skipn_app. rewrite H, Nat.sub_diag.
  rewrite skipn_all2 by lia. reflexivity.
Qed.

Lemma index_nonneg : forall (T : Type) (l : list T) i x,
  nth_error l i = Some x -> Py.index l (Z.of_nat i) = Ok x.
Proof.
  intros T l i x H. unfold Py.index.
  assert (Hi : (i < length l)%nat) by (apply nth_error_Some; congruence).
  destruct (Z.ltb_spec (Z.of_nat i) 0); [lia|].
  destruct (Z.leb_spec 0 (Z.of_nat i)); [|lia].
  destruct (Z.ltb_spec (Z.of_nat i) (Z.of_nat (length l))); [|lia].
  simpl. rewrite Nat2Z.id, H. reflexivity.
Qed.

Lemma index_last : forall (T : Type) (l : list T) B,
  Z.of_nat (length l) = B -> 1 <= B ->
  Py.index l (-1) = Py.index l (B - 1).
Proof.
  intros T l B HB H1. unfold Py.index.
  change (-1 <? 0) with true. cbv iota.
  destruct (Z.ltb_spec (B - 1) 0); [lia|].
  rewrite HB. replace (-1 + B) with (B - 1) by lia. reflexivity.
Qed.

Lemma index_0_chunks : forall (A : Type) groups k (l : list A),
  (0 < groups)%nat ->
  Py.index (chunks groups k l) 0 = Ok (firstn k l).
Proof.
  intros A groups k l H. destruct groups; [lia|]. reflexivity.
Qed.

Lemma firstn_plus : forall (A : Type) a b (l : list A),
  firstn (a + b) l = firstn a l ++ firstn b (skipn a l).
Proof.
  intros A a. induction a as [|a IH]; intros b l.
  - reflexivity.
  - destruct l as [|x l]; [simpl; now rewrite firstn_nil|].
    simpl. now rewrite IH.
Qed.

(** The blocks of a flat mask: the first three are its first [3 * w]
    entries and the last one its last [w] entries. *)
Lemma mask_window_global_blocks : forall (A : Type) (tm : list A) (B w : Z),
  0 < w -> 3 <= B ->
  Z.of_nat (length tm) = B * w ->
  exists c0 c1 c2 cl,
    torch_index_select (chunks (Z.to_nat B) (Z.to_nat w) tm) [0; 1; 2; B - 1]
      = Ok [c0; c1; c2; cl] /\
    Py.slice_to tm (3 * w) ++ Py.slice_from tm (- w) = concat [c0; c1; c2; cl].
Proof.
  intros A tm B w Hw HB Hlen.
  set (W := Z.to_nat w). set (Bn := Z.to_nat B).
  assert (HBn : (3 <= Bn)%nat) by (subst Bn; lia).
  assert (HL : length tm = (Bn * W)%nat) by (subst Bn W; nia).
  exists (firstn W (skipn (0 * W) tm)), (firstn W (skipn (1 * W) tm)),
         (firstn W (skipn (2 * W) tm)), (firstn W (skipn ((Bn - 1) * W) tm)).
  split.
  - assert (E0 : Py.index (chunks Bn W tm) 0 = Ok (firstn W (skipn (0 * W) tm)))
      by (apply (index_nonneg _ _ 0%nat), chunks_nth_error; lia).
    assert (E1 : Py.index (chunks Bn W tm) 1 = Ok (firstn W (skipn (1 * W) tm)))
      by (apply (index_nonneg _ _ 1%nat), chunks_nth_error; lia).
    assert (E2 : Py.index (chunks Bn W tm) 2 = Ok (firstn W (skipn (2 * W) tm)))
      by (apply (index_nonneg _ _ 2%nat), chunks_nth_error; lia).
    assert (EL : Py.index (chunks Bn W tm) (B - 1)
                 = Ok (firstn W (skipn ((Bn - 1) * W) tm))).
    { replace (B - 1) with (Z.of_nat (Bn - 1)) by (subst Bn; lia).
      apply index_nonneg, chunks_nth_error. lia. }
    unfold torch_index_select. cbn [map_result].
    fold Bn W. rewrite E0, E1, E2, EL. reflexivity.
  - rewrite slice_to_firstn by lia.
    unfold Py.slice_from, Py.slice, Py.bound.
    destruct (Z.ltb_spec (- w) 0); [|lia].
    destruct (Z.ltb_spec (Z.of_nat (length tm)) 0); [lia|].
    rewrite Z.min_id.
    replace (Z.to_nat (Z.max 0 (- w + Z.of_nat (length tm)))) with ((Bn - 1) * W)%nat
      by (subst Bn W; nia).
    replace (Z.to_nat (Z.of_nat (length tm) - Z.max 0 (- w + Z.of_nat (length tm))))
      with W by (subst Bn W; nia).
    replace (Z.to_nat (3 * w)) with (W + (W + W))%nat by (subst W; lia).
    cbn [concat]. rewrite app_nil_r. change (0 * W)%nat with 0%nat. rewrite skipn_0.
    rewrite !firstn_plus, skipn_skipn.
    replace (1 * W)%nat with W by lia. replace (2 * W)%nat with (W + W)%nat by lia.
    rewrite <- !app_assoc. reflexivity.
Qed.

(** ** The first group of the gathered tensor and of the random mask *)

(** [gathered[b][h][0]] is the concatenation of the blocks that the
    adjacency row of query block 1 names, in its order. *)
Lemma gathered_first_group : forall (V : Type)
    (blocked : list (list (list (list V)))) adj n wn r g b h g_bh p2 adj0 rest,
  gathered blocked adj n wn r = Ok g ->
  at2 g b h = Some g_bh ->
  at2 blocked b h = Some p2 ->
  at2 adj b h = Some (adj0 :: rest) ->
  Forall (fun blk => length blk = Z.to_nat wn) p2 ->
  length adj0 = Z.to_nat r ->
  0 < wn -> 0 <= r ->
  exists s0,
    torch_index_select p2 adj0 = Ok s0 /\
    length (concat s0) = Z.to_nat (r * wn) /\
    Py.index g_bh 0 = Ok (concat s0).
Proof.
  intros V blocked adj n wn r g b h g_bh p2 adj0 rest Hg Hgbh Hp2 Hadj Hun Hr0 Hwn Hr.
  destruct (gathered_entry _ _ _ _ _ _ _ _ _ Hg _ Hgbh)
    as (p2' & i2 & sel & Ep2 & Ei2 & Hsel & Hpos & Hlen & ->).
  rewrite Hp2 in Ep2. inversion Ep2; subst p2'; clear Ep2.
  rewrite Hadj in Ei2. inversion Ei2; subst i2; clear Ei2.
  simpl concat in Hsel. unfold torch_index_select in Hsel.
  apply map_result_app in Hsel. destruct Hsel as (s0 & s1 & Hs0 & Hs1 & ->).
  exists s0. split; [exact Hs0|].
  assert (Hu0 : Forall (fun blk => length blk = Z.to_nat wn) s0)
    by (eapply select_uniform; eauto).
  assert (Hl0 : length (concat s0) = Z.to_nat (r * wn)).
  { rewrite (concat_uniform_length _ _ _ Hu0).
    rewrite (map_result_length _ _ _ _ _ Hs0), Hr0. rewrite Z2Nat.inj_mul; lia. }
  split; [exact Hl0|].
  rewrite index_0_chunks by nia.
  rewrite concat_app. now rewrite firstn_app_exact.
Qed.

Section RandMask.
Variable R : Type.
Variable mul : R -> R -> R.

(** [rand_mask[b][h][0]]: for each row of query block 1, its validity
    times the validity bits of the blocks that the adjacency row of
    query block 1 names. *)
Lemma rand_mask_first_group :
  forall (fbm tbm : list (list (list R))) adj H r batch m w rm b h rm_bh
         fbm_b tbm_b adj_b adj0 rest,
  _create_rand_mask_from_inputs mul fbm tbm adj H r batch m w = Ok rm ->
  at2 rm b h = Some rm_bh ->
  nth_error fbm b = Some fbm_b ->
  nth_error tbm b = Some tbm_b ->
  nth_error adj b = Some adj_b ->
  nth_error adj_b h = Some (adj0 :: rest) ->
  Forall (fun hd => length hd = Z.to_nat (m / w - 2) /\
                    Forall (fun row => length row = Z.to_nat r) hd) adj_b ->
  Forall (fun blk => length blk = Z.to_nat w) tbm_b ->
  0 < w -> 0 <= r ->
  exists t0 f1,
    torch_index_select tbm_b adj0 = Ok t0 /\
    length (concat t0) = Z.to_nat (r * w) /\
    Py.index fbm_b 1 = Ok f1 /\
    Py.index rm_bh 0 = Ok (map (fun fq => map (fun x => mul fq x) (concat t0)) f1).
Proof.
  intros fbm tbm adj H r batch m w rm b h rm_bh fbm_b tbm_b adj_b adj0 rest
         Hrm Hrmbh Efbm Etbm Eadj Eadjh Hreg Htbm Hw Hr.
  unfold _create_rand_mask_from_inputs in Hrm.
  destruct (Py.floordiv m w) as [q|] eqn:Eq; [|discriminate].
  unfold Py.floordiv in Eq. destruct (w =? 0); [discriminate|].
  inversion Eq; subst q; clear Eq.
  set (NW := m / w - 2) in *. set (K := r * w) in *.
  match type of Hrm with
  | match map_result ?F ?L with _ => _ end = _ =>
      destruct (map_result F L) as [sel|] eqn:Esel; [|discriminate]
  end.
  destruct (torch_stack sel) as [sel'|] eqn:Est; [|discriminate].
  apply torch_stack_Ok in Est. subst sel'.
  destruct (negb (Z.of_nat (length sel) =? batch)); [discriminate|].
  match type of Hrm with
  | match map_result ?F ?L with _ => _ end = _ =>
      destruct (map_result F L) as [viewed|] eqn:Eview; [|discriminate]
  end.
  destruct (negb (length fbm =? length viewed)%nat); [discriminate|].
  unfold at2 in Hrmbh.
  destruct (nth_error rm b) as [rm_b|] eqn:Ermb; [|discriminate].
  destruct (map_result_Ok _ _ _ _ _ Hrm) as [_ Hn1].
  destruct (Hn1 _ _ Ermb) as ([fb vb] & Efv & Hheads).
  apply nth_error_combine in Efv. destruct Efv as [Efb Evb].
  rewrite Efbm in Efb. inversion Efb; subst fb; clear Efb.
  cbn [fst snd] in Hheads.
  destruct (map_result_Ok _ _ _ _ _ Hheads) as [_ Hn2].
  destruct (Hn2 _ _ Hrmbh) as (vh & Evh & Hzip).
  destruct (map_result_Ok _ _ _ _ _ Eview) as [_ Hn3].
  destruct (Hn3 _ _ Evb) as (blocks & Eblocks & Hv).
  destruct (map_result_Ok _ _ _ _ _ Esel) as [_ Hn4].
  destruct (Hn4 _ _ Eblocks) as ([p1 i1] & Epi & Hselb).
  apply nth_error_combine in Epi. destruct Epi as [Ep1 Ei1].
  rewrite Etbm in Ep1. inversion Ep1; subst p1; clear Ep1.
  rewrite Eadj in Ei1. inversion Ei1; subst i1; clear Ei1.
  cbn [fst snd] in Hselb.
  assert (HNW1 : (NW =? -1) = false).
  { apply Z.eqb_neq.
    pose proof (proj1 (Forall_forall _ _) Hreg _ (nth_error_In _ _ Eadjh))
      as [HNW0 _].
    simpl length in HNW0. lia. }
  cbv zeta in Hv. rewrite HNW1 in Hv. cbn [andb] in Hv.
  destruct ((0 <=? H) && (0 <=? NW) && (0 <=? K) &&
            (Z.of_nat (length (concat blocks)) =? H * (NW * K))) eqn:Econd;
    [|discriminate].
  inversion Hv; subst vb; clear Hv.
  rewrite nth_error_map in Evh.
  destruct (nth_error (chunks (Z.to_nat H) (Z.to_nat (NW * K)) (concat blocks)) h)
    as [hc|] eqn:Ehc; [|discriminate].
  simpl in Evh. inversion Evh; subst vh; clear Evh.
  apply nth_error_chunks in Ehc. destruct Ehc as [Hh ->].
  (* the adjacency of this head inside the flattened indices *)
  destruct (nth_error_split _ _ Eadjh) as (pre & post & Hsplit & Hpre).
  rewrite Forall_forall in Hreg.
  assert (Hhead : length (adj0 :: rest) = Z.to_nat NW /\
                  Forall (fun row => length row = Z.to_nat r) (adj0 :: rest))
    by (apply Hreg; eapply nth_error_In; eauto).
  destruct Hhead as [HNW Hrows].
  assert (Hr0 : length adj0 = Z.to_nat r) by (inversion Hrows; assumption).
  assert (Hprelen : length (concat (map (@concat Z) pre)) = (h * (Z.to_nat NW * Z.to_nat r))%nat).
  { rewrite <- Hpre.
    rewrite (concat_uniform_length _ (map (@concat Z) pre) (Z.to_nat NW * Z.to_nat r)).
    - rewrite length_map. reflexivity.
    - apply Forall_forall. intros x Hx. apply in_map_iff in Hx.
      destruct Hx as (hd & <- & Hhd).
      assert (Hin : In hd adj_b) by (rewrite Hsplit; apply in_or_app; now left).
      destruct (Hreg _ Hin) as [Hl Hrw].
      rewrite (concat_uniform_length _ _ _ Hrw). now rewrite Hl. }
  subst adj_b. rewrite map_app, concat_app in Hselb. simpl map in Hselb.
  simpl concat in Hselb. unfold torch_index_select in Hselb.
  apply map_result_app in Hselb. destruct Hselb as (s_pre & s_tail & Hspre & Hstail & ->).
  rewrite <- !app_assoc in Hstail.
  apply map_result_app in Hstail. destruct Hstail as (t0 & s_rest & Ht0 & _ & ->).
  assert (Hu_pre : Forall (fun blk => length blk = Z.to_nat w) s_pre)
    by (eapply select_uniform; eauto).
  assert (Hu0 : Forall (fun blk => length blk = Z.to_nat w) t0)
    by (eapply select_uniform; eauto).
  assert (Hl0 : length (concat t0) = Z.to_nat K).
  { rewrite (concat_uniform_length _ _ _ Hu0).
    rewrite (map_result_length _ _ _ _ _ Ht0), Hr0. subst K.
    rewrite Z2Nat.inj_mul; lia. }
  assert (Hlpre : length (concat s_pre) = (h * Z.to_nat (NW * K))%nat).
  { rewrite (concat_uniform_length _ _ _ Hu_pre).
    rewrite (map_result_length _ _ _ _ _ Hspre), Hprelen. subst K.
    rewrite !Z2Nat.inj_mul by lia. lia. }
  assert (HNWpos : (0 < Z.to_nat NW)%nat) by (simpl in HNW; lia).
  (* the rows of the query blocks *)
  unfold zip_with_checked in Hzip.
  destruct (Nat.eqb_spec (length (Py.slice fbm_b 1 (-1)))
              (length (chunks (Z.to_nat NW) (Z.to_nat K)
                         (firstn (Z.to_nat (NW * K))
                            (skipn (h * Z.to_nat (NW * K))
                               (concat (s_pre ++ t0 ++ s_rest)))))))
    as [Hmid|]; [|discriminate].
  inversion Hzip; subst rm_bh; clear Hzip.
  rewrite chunks_length in Hmid.
  destruct (Py.slice fbm_b 1 (-1)) as [|f1 mid] eqn:Emid; [simpl in Hmid; lia|].
  assert (Ef1 : Py.index fbm_b 1 = Ok f1).
  { apply (index_nonneg _ _ 1%nat).
    assert (Hin : nth_error (Py.slice fbm_b 1 (-1)) 0 = Some f1) by (now rewrite Emid).
    unfold Py.slice in Hin. rewrite nth_error_firstn in Hin.
    destruct (Nat.ltb 0 _); [|discriminate].
    rewrite nth_error_skipn in Hin.
    destruct fbm_b as [|x0 fbm_b]; [destruct (Z.to_nat _); discriminate|].
    replace (Z.to_nat (Py.bound (Z.of_nat (length (x0 :: fbm_b))) 1)) with 1%nat in Hin.
    - exact Hin.
    - unfold Py.bound. change (1 <? 0) with false. cbv iota. cbn [length]. lia. }
  exists t0, f1. split; [exact Ht0|]. split; [exact Hl0|]. split; [exact Ef1|].
  destruct (Z.to_nat NW) as [|nw] eqn:ENW; [lia|].
  cbn [chunks combine map]. cbn [fst snd].
  unfold Py.index. simpl.
  repeat f_equal.
  rewrite !concat_app.
  rewrite skipn_app_exact by exact Hlpre.
  rewrite firstn_firstn.
  replace (Nat.min (Z.to_nat K) (Z.to_nat (NW * K))) with (Z.to_nat K) by nia.
  now rewrite firstn_app_exact.
Qed.

End RandMask.

(** ** The second row-group *)

Lemma combine_map : forall (A B A' B' : Type) (g : A -> A') (h : B -> B') l1 l2,
  combine (map g l1) (map h l2) =
  map (fun ab => (g (fst ab), h (snd ab))) (combine l1 l2).
Proof.
  intros A B A' B' g h l1. induction l1 as [|a l1 IH]; intros [|b l2]; simpl;
    try reflexivity. now rewrite IH.
Qed.

Lemma map_pair_eta : forall (A B : Type) (l : list (A * B)),
  map (fun ab => (fst ab, snd ab)) l = l.
Proof.
  intros A B l. induction l as [|[a b] l IH]; simpl; [reflexivity|now rewrite IH].
Qed.

Lemma map_result_map : forall (A B C : Type) (g : A -> B) (f : B -> result C) l,
  map_result f (map g l) = map_result (fun a => f (g a)) l.
Proof.
  intros A B C g f l. induction l as [|a l IH]; simpl; [reflexivity|].
  now rewrite IH.
Qed.

Lemma zip_with_checked_Ok : forall (A B C : Type) (f : A -> B -> C) l1 l2,
  length l1 = length l2 ->
  zip_with_checked f l1 l2 = Ok (map (fun ab => f (fst ab) (snd ab)) (combine l1 l2)).
Proof.
  intros A B C f l1 l2 H. unfold zip_with_checked.
  rewrite H, Nat.eqb_refl. reflexivity.
Qed.

Lemma index_exists : forall (T : Type) (l : list T) i,
  (i < length l)%nat -> exists x, Py.index l (Z.of_nat i) = Ok x.
Proof.
  intros T l i Hi. apply nth_error_Some in Hi.
  destruct (nth_error l i) as [x|] eqn:E; [|contradiction].
  exists x. now apply index_nonneg.
Qed.

Lemma index_block_length : forall (T : Type) (l : list (list T)) i x w,
  Forall (fun blk => length blk = w) l ->
  Py.index l i = Ok x -> length x = w.
Proof.
  intros T l i x w HF H. unfold Py.index in H.
  destruct ((0 <=? _) && _); [|discriminate].
  destruct (nth_error l _) as [y|] eqn:E; inversion H; subst.
  rewrite Forall_forall in HF. apply HF. eapply nth_error_In; eauto.
Qed.

(** The four window and global blocks of a blocked tensor, by index
    and as a selection. *)
Lemma window_global_blocks : forall (T : Type) (bk : list (list T)) B,
  Z.of_nat (length bk) = B -> 3 <= B ->
  exists k0 k1 k2 kl,
    Py.index bk 0 = Ok k0 /\ Py.index bk 1 = Ok k1 /\
    Py.index bk 2 = Ok k2 /\ Py.index bk (-1) = Ok kl /\
    torch_index_select bk [0; 1; 2; B - 1] = Ok [k0; k1; k2; kl].
Proof.
  intros T bk B HB H3.
  destruct (index_exists _ bk 0) as [k0 E0]; [lia|].
  destruct (index_exists _ bk 1) as [k1 E1]; [lia|].
  destruct (index_exists _ bk 2) as [k2 E2]; [lia|].
  destruct (index_exists _ bk (Z.to_nat (B - 1))) as [kl EL]; [lia|].
  rewrite Z2Nat.id in EL by lia.
  change (Z.of_nat 0) with 0 in E0. change (Z.of_nat 1) with 1 in E1.
  change (Z.of_nat 2) with 2 in E2.
  exists k0, k1, k2, kl.
  rewrite (index_last _ bk B HB) by lia.
  repeat split; try assumption.
  unfold torch_index_select. cbn [map_result].
  rewrite E0, E1, E2, EL. reflexivity.
Qed.

Section SecondBlockRefinement.
Variable R : Type.
Variable V : Type.
Variables one neg_10000 rsqrt_d : R.
Variables add sub mul rmin : R -> R -> R.
Variable dot : V -> V -> R.
Variable softmax : list R -> list R.
Variable weighted_sum : list R -> list V -> V.
Hypothesis softmax_length : forall l, length (softmax l) = length l.

(** C4: the context rows of the second query block are the
    specification's: the query block scored against the concatenation
    of key blocks 0, 1, 2, B-1 and its gathered random key blocks, the
    bias [(1 - min(sequence-padding mask, random-block mask)) * -10000]
    added, one softmax over that row, and the weighted sum of the
    matching value blocks; and the computation returns. *)
Theorem second_block_as_specified :
  forall (bkm bvm : list (list (list (list V)))) (bq : list (list V))
         (to_mask : list R) (fbm tbm : list (list (list R)))
         (adj : list (list (list (list Z)))) n wn r H batch gk gv rm b h
         bk bv gk_bh gv_bh rm_bh fbm_b tbm_b adj_b adj0 rest q1 f1,
  0 < wn -> 0 <= r -> 3 <= n / wn ->
  gathered bkm adj n wn r = Ok gk ->
  gathered bvm adj n wn r = Ok gv ->
  _create_rand_mask_from_inputs mul fbm tbm adj H r batch n wn = Ok rm ->
  at2 bkm b h = Some bk -> at2 bvm b h = Some bv ->
  at2 gk b h = Some gk_bh -> at2 gv b h = Some gv_bh -> at2 rm b h = Some rm_bh ->
  nth_error fbm b = Some fbm_b -> nth_error tbm b = Some tbm_b ->
  nth_error adj b = Some adj_b -> nth_error adj_b h = Some (adj0 :: rest) ->
  Forall (fun hd => length hd = Z.to_nat (n / wn - 2) /\
                    Forall (fun row => length row = Z.to_nat r) hd) adj_b ->
  Z.of_nat (length bk) = n / wn -> Z.of_nat (length bv) = n / wn ->
  Forall (fun blk => length blk = Z.to_nat wn) bk ->
  Forall (fun blk => length blk = Z.to_nat wn) bv ->
  Forall (fun blk => length blk = Z.to_nat wn) tbm_b ->
  Z.of_nat (length to_mask) = n / wn * wn ->
  Py.index bq 1 = Ok q1 -> length q1 = Z.to_nat wn ->
  Py.index fbm_b 1 = Ok f1 -> length f1 = Z.to_nat wn ->
  second_context_layer one neg_10000 rsqrt_d add sub mul rmin dot softmax
    weighted_sum bq bk bv to_mask gk_bh gv_bh rm_bh wn wn r
  = second_block_spec one neg_10000 rsqrt_d add sub mul rmin dot softmax
      weighted_sum bq bk bv
      (chunks (Z.to_nat (n / wn)) (Z.to_nat wn) to_mask) fbm_b tbm_b adj0
      (n / wn) wn r
  /\ is_ok (second_context_layer one neg_10000 rsqrt_d add sub mul rmin dot
              softmax weighted_sum bq bk bv to_mask gk_bh gv_bh rm_bh wn wn r)
     = true.
Proof.
  intros bkm bvm bq to_mask fbm tbm adj n wn r H batch gk gv rm b h
         bk bv gk_bh gv_bh rm_bh fbm_b tbm_b adj_b adj0 rest q1 f1
         Hwn Hr HB Hgk Hgv Hrm Ebk Ebv Egk Egv Erm Efbm Etbm Eadj Eadjh Hreg
         Lbk Lbv Ubk Ubv Utbm Ltm Eq1 Lq1 Ef1 Lf1.
  set (W := Z.to_nat wn).
  assert (Eadj2 : at2 adj b h = Some (adj0 :: rest))
    by (unfold at2; rewrite Eadj; exact Eadjh).
  assert (Hr0 : length adj0 = Z.to_nat r).
  { rewrite Forall_forall in Hreg.
    destruct (Hreg _ (nth_error_In _ _ Eadjh)) as [_ Hrows].
    inversion Hrows; assumption. }
  destruct (gathered_first_group _ _ _ _ _ _ _ _ _ _ _ _ _ Hgk Egk Ebk Eadj2 Ubk Hr0 Hwn Hr)
    as (sk & Hsk & Lsk & Igk).
  destruct (gathered_first_group _ _ _ _ _ _ _ _ _ _ _ _ _ Hgv Egv Ebv Eadj2 Ubv Hr0 Hwn Hr)
    as (sv & Hsv & Lsv & Igv).
  destruct (rand_mask_first_group _ mul _ _ _ _ _ _ _ _ _ _ _ _ _ _ _ _ _
              Hrm Erm Efbm Etbm Eadj Eadjh Hreg Utbm Hwn Hr)
    as (t0 & f1' & Ht0 & Lt0 & Ef1' & Irm).
  rewrite Ef1 in Ef1'. inversion Ef1'; subst f1'; clear Ef1'.
  destruct (window_global_blocks _ bk _ Lbk HB)
    as (k0 & k1 & k2 & kl & Ek0 & Ek1 & Ek2 & Ekl & Eksel).
  destruct (window_global_blocks _ bv _ Lbv HB)
    as (v0 & v1 & v2 & vl & Ev0 & Ev1 & Ev2 & Evl & Evsel).
  destruct (mask_window_global_blocks _ to_mask (n / wn) wn Hwn HB Ltm)
    as (c0 & c1 & c2 & cl & Ecsel & Emask).
  (* lengths *)
  assert (Lk : forall x i, Py.index bk i = Ok x -> length x = W)
    by (intros x i Hx; exact (index_block_length _ bk i x W Ubk Hx)).
  assert (Lv : forall x i, Py.index bv i = Ok x -> length x = W)
    by (intros x i Hx; exact (index_block_length _ bv i x W Ubv Hx)).
  set (keys := k0 ++ k1 ++ k2 ++ kl ++ concat sk).
  set (values := v0 ++ v1 ++ v2 ++ vl ++ concat sv).
  set (ones_r := repeat one (Z.to_nat (r * wn))).
  set (ones_4 := repeat one (Z.to_nat (4 * wn))).
  set (seq_mask := concat [c0; c1; c2; cl] ++ ones_r).
  set (Kn := (4 * W + Z.to_nat (r * wn))%nat).
  assert (Lkeys : length keys = Kn).
  { subst keys Kn. rewrite !length_app.
    rewrite (Lk _ _ Ek0), (Lk _ _ Ek1), (Lk _ _ Ek2), (Lk _ _ Ekl), Lsk. lia. }
  assert (Lvalues : length values = Kn).
  { subst values Kn. rewrite !length_app.
    rewrite (Lv _ _ Ev0), (Lv _ _ Ev1), (Lv _ _ Ev2), (Lv _ _ Evl), Lsv. lia. }
  assert (Lseq : length seq_mask = Kn).
  { subst seq_mask Kn ones_r. rewrite length_app, repeat_length.
    rewrite <- Emask. rewrite length_app.
    rewrite slice_to_firstn by lia. rewrite length_firstn.
    unfold Py.slice_from, Py.slice, Py.bound.
    destruct (Z.ltb_spec (- wn) 0); [|lia].
    destruct (Z.ltb_spec (Z.of_nat (length to_mask)) 0); [lia|].
    rewrite length_firstn, length_skipn. subst W. nia. }
  set (rand_of := fun fq : R => ones_4 ++ map (fun x => mul fq x) (concat t0)).
  assert (Lrand : forall fq, length (rand_of fq) = Kn).
  { intros fq. subst rand_of Kn ones_4. cbv beta.
    rewrite length_app, repeat_length, length_map, Lt0. subst W. lia. }
  set (row_of := fun qf : V * R =>
         map (fun ksr : V * (R * R) =>
                add (mul (dot (fst qf) (fst ksr)) rsqrt_d)
                    (mul (sub one (rmin (fst (snd ksr)) (snd (snd ksr))))
                         neg_10000))
             (combine keys (combine seq_mask (rand_of (snd qf))))).
  assert (Lrow : forall qf, length (row_of qf) = Kn).
  { intros qf. subst row_of. cbv beta.
    rewrite length_map, !length_combine, Lkeys, Lseq, Lrand. lia. }
  (* the specification side *)
  assert (Hspec :
    second_block_spec one neg_10000 rsqrt_d add sub mul rmin dot softmax
      weighted_sum bq bk bv (chunks (Z.to_nat (n / wn)) W to_mask)
      fbm_b tbm_b adj0 (n / wn) wn r
    = Ok (map (fun qf => weighted_sum (softmax (row_of qf)) values)
              (combine q1 f1))).
  { unfold second_block_spec. subst W.
    unfold torch_index_select in *.
    rewrite (map_result_app_Ok _ _ _ _ _ _ _ Eksel Hsk).
    rewrite (map_result_app_Ok _ _ _ _ _ _ _ Evsel Hsv).
    rewrite Ecsel, Ht0, Eq1, Ef1.
    assert (Ekeys : concat ([k0; k1; k2; kl] ++ sk) = keys)
      by (rewrite concat_app; cbn [concat]; rewrite app_nil_r, <- !app_assoc;
          reflexivity).
    assert (Evalues : concat ([v0; v1; v2; vl] ++ sv) = values)
      by (rewrite concat_app; cbn [concat]; rewrite app_nil_r, <- !app_assoc;
          reflexivity).
    rewrite Ekeys, Evalues. reflexivity. }
  (* the code side *)
  assert (Hcode :
    second_context_layer one neg_10000 rsqrt_d add sub mul rmin dot softmax
      weighted_sum bq bk bv to_mask gk_bh gv_bh rm_bh wn wn r
    = Ok (map (fun qf => weighted_sum (softmax (row_of qf)) values)
              (combine q1 f1))).
  { unfold second_context_layer.
    rewrite Ek0, Ek1, Ek2, Ekl, Igk, Ev0, Ev1, Ev2, Evl, Igv, Eq1, Irm.
    fold keys values ones_r ones_4.
    rewrite length_map, Lf1. subst W. rewrite Z2Nat.id by lia.
    rewrite Z.eqb_refl. cbn [negb].
    rewrite app_assoc, Emask. fold seq_mask.
    rewrite map_map.
    rewrite zip_with_checked_Ok by (rewrite !length_map; congruence).
    rewrite map_pair_eta, combine_map, map_result_map.
    rewrite (map_result_total _ _ _ row_of).
    - rewrite map_map, map_result_map.
      rewrite (map_result_total _ _ _
                 (fun qf => weighted_sum (softmax (row_of qf)) values)).
      + reflexivity.
      + intros qf _. cbv beta.
        rewrite softmax_length, Lrow, Lvalues, Nat.eqb_refl. reflexivity.
    - intros qf _. cbn [fst snd].
      fold (rand_of (snd qf)).
      rewrite zip_with_checked_Ok by (rewrite Lseq, Lrand; reflexivity).
      rewrite zip_with_checked_Ok
        by (rewrite !length_map, length_combine, Lkeys, Lseq, Lrand; lia).
      rewrite combine_map, map_map. reflexivity. }
  split.
  - fold W. rewrite Hcode, Hspec. reflexivity.
  - rewrite Hcode. reflexivity.
Qed.

End SecondBlockRefinement.

Lemma second_block_as_specified_witness :
  let wsum := fun (w vs : list Z) =>
    fold_right Z.add 0 (map (fun ab => fst ab * snd ab) (combine w vs)) in
  let bq := [[7]; [8]; [9]; [6]; [5]] in
  let bk := [[1]; [2]; [3]; [4]; [5]] in
  let bv := [[10]; [20]; [30]; [40]; [50]] in
  let to_mask := [1; 1; 0; 1; 1] in
  let mask_b := [[1]; [1]; [0]; [1]; [1]] in
  second_context_layer 1 (-10000) 1 Z.add Z.sub Z.mul Z.min Z.mul (fun l => l) wsum
    bq bk bv to_mask [[4]; [2]; [3]] [[40]; [20]; [30]] [[[1]]; [[0]]; [[0]]] 1 1 1
  = second_block_spec 1 (-10000) 1 Z.add Z.sub Z.mul Z.min Z.mul (fun l => l) wsum
      bq bk bv (chunks (Z.to_nat (5 / 1)) (Z.to_nat 1) to_mask) mask_b mask_b [3]
      (5 / 1) 1 1
  /\ is_ok (second_context_layer 1 (-10000) 1 Z.add Z.sub Z.mul Z.min Z.mul
              (fun l => l) wsum bq bk bv to_mask
              [[4]; [2]; [3]] [[40]; [20]; [30]] [[[1]]; [[0]]; [[0]]] 1 1 1)
     = true.
Proof.
  intros wsum bq bk bv to_mask mask_b.
  apply (second_block_as_specified Z Z 1 (-10000) 1 Z.add Z.sub Z.mul Z.min Z.mul
           (fun l => l) wsum (fun l => eq_refl)
           [[bk]] [[bv]] bq to_mask [mask_b] [mask_b] [[[[3]; [1]; [2]]]]
           5 1 1 1 1
           [[[[4]; [2]; [3]]]] [[[[40]; [20]; [30]]]] [[[[[1]]; [[0]]; [[0]]]]]
           0%nat 0%nat bk bv [[4]; [2]; [3]] [[40]; [20]; [30]]
           [[[1]]; [[0]]; [[0]]] mask_b mask_b [[[3]; [1]; [2]]] [3] [[1]; [2]]
           [8] [1]);
    try reflexivity; try lia; try (vm_compute; intro; discriminate);
    repeat constructor.
Defined.

(** * The sampler run forwards: which configurations return

    The lemmas above read a finished run backwards.  The ones below run
    the sampler forwards: they show when a call returns and what it
    raises when it does not. *)

(** ** Running loops forwards *)

Lemma for_each_run : forall (G : Generator) (A S : Type) (Q : A -> Prop)
    (P : list A -> S -> Prop) (body : A -> S -> M G S) l done s g,
  Forall Q l ->
  P done s ->
  (forall done a s g, Q a -> P done s ->
     exists s' g', body a s g = Ok (s', g') /\ P (done ++ [a]) s') ->
  exists s' g', for_each l body s g = Ok (s', g') /\ P (done ++ l) s'.
Proof.
  intros G A S Q P body l.
  induction l as [|a l IH]; intros done s g HQ H0 Hstep.
  - exists s, g. split; [reflexivity|]. now rewrite app_nil_r.
  - inversion HQ; subst.
    destruct (Hstep done a s g) as (s1 & g1 & E1 & HP1); [assumption|assumption|].
    destruct (IH (done ++ [a]) s1 g1) as (s2 & g2 & E2 & HP2); [assumption|assumption|assumption|].
    exists s2, g2. split.
    + cbn [for_each]. unfold bind. rewrite E1. exact E2.
    + rewrite <- app_assoc in HP2. exact HP2.
Qed.

Lemma for_each_first_raises : forall (G : Generator) (A S : Type)
    (body : A -> S -> M G S) a l s g e,
  body a s g = Raise e -> for_each (a :: l) body s g = Raise e.
Proof.
  intros G A S body a l s g e H. cbn [for_each]. unfold bind. now rewrite H.
Qed.

Lemma comprehension_run : forall (G : Generator) (A B : Type) (b : B) l g,
  comprehension (G := G) l (fun _ : A => lift (Ok b)) g = Ok (repeat b (length l), g).
Proof.
  intros G A B b l g. induction l as [|a l IH]; [reflexivity|].
  cbn [comprehension]. rewrite bind_lift_Ok. unfold bind at 1. rewrite IH. reflexivity.
Qed.

(** ** The size of a legal pool *)

(** Filtering a duplicate-free list drops at most as many elements as
    the list that holds the dropped ones. *)
Lemma filter_legal_length_incl : forall ill ill' l,
  NoDup l ->
  (forall x, In x l -> In x ill -> In x ill') ->
  (length l <= length (filter (legal_in ill) l) + length ill')%nat.
Proof.
  intros ill ill' l Hnd Hincl.
  pose proof (filter_length (legal_in ill) l) as HL.
  assert (Hle : (length (filter (fun x => negb (legal_in ill x)) l) <= length ill')%nat).
  { apply NoDup_incl_length; [now apply NoDup_filter|].
    intros x Hx. apply filter_In in Hx. destruct Hx as [Hl Hx].
    unfold legal_in in Hx. rewrite negb_involutive in Hx.
    apply Hincl; [exact Hl|now apply mem_In]. }
  lia.
Qed.

(** The blocks a row may not take are at most five: the window, the
    two global blocks and one boundary exception, the window of the
    rows that have an exception holding a global block already. *)
Lemma legal_pool_size5 : forall blk ts te,
  te - ts - 5 <= Z.of_nat (length (legal_pool blk ts te 1 1 1 1)).
Proof.
  intros blk ts te. unfold legal_pool.
  set (ill5 := if blk =? 1 then [0; 1; 2; te - 1; te - 2]
               else if blk =? te - 2 then [te - 3; te - 2; te - 1; 0; 1]
               else [blk - 1; blk; blk + 1; 0; te - 1]).
  assert (H5 : length ill5 = 5%nat)
    by (subst ill5; destruct (blk =? 1); [|destruct (blk =? te - 2)]; reflexivity).
  pose proof (filter_legal_length_incl (illegal_blocks blk te 1 1 1 1) ill5
                (Py.range ts te) (range_NoDup ts te)) as H.
  rewrite range_length in H. unfold legal_in in H.
  assert (Hincl : forall x, In x (Py.range ts te) ->
            In x (illegal_blocks blk te 1 1 1 1) -> In x ill5).
  { intros x _ Hx. unfold illegal_blocks in Hx.
    rewrite !in_app_iff, !range_In in Hx. subst ill5.
    destruct (Z.eqb_spec blk 1) as [E1|N1];
      destruct (Z.eqb_spec blk (te - 2)) as [E2|N2]; simpl in Hx |- *; lia. }
  specialize (H Hincl). lia.
Qed.

Lemma legal_pool_range : forall blk ts te v,
  In v (legal_pool blk ts te 1 1 1 1) -> ts <= v < te.
Proof.
  intros blk ts te v H. unfold legal_pool in H.
  apply filter_In in H. destruct H as [H _]. now apply range_In.
Qed.

(** ** Writing one row *)

Lemma nth_error_lt : forall (A : Type) (l : list A) n x,
  nth_error l n = Some x -> (n < length l)%nat.
Proof. intros A l n x H. apply nth_error_Some. congruence. Qed.

Lemma assign_slice_run : forall row c0 num src,
  0 <= c0 -> 0 <= num -> c0 + num <= Z.of_nat (length row) ->
  Z.of_nat (length src) = num ->
  Py.assign_slice row c0 (c0 + num) src =
  Ok (firstn (Z.to_nat c0) row ++ src ++ skipn (Z.to_nat (c0 + num)) row).
Proof.
  intros row c0 num src H0 Hn Hle Hsrc. unfold Py.assign_slice, Py.bound.
  destruct (Z.ltb_spec c0 0); [lia|]. destruct (Z.ltb_spec (c0 + num) 0); [lia|].
  rewrite !Z.min_l by lia.
  replace (Z.to_nat (c0 + num - c0)) with (length src) by lia.
  rewrite Nat.eqb_refl.
  replace (Z.to_nat c0 + length src)%nat with (Z.to_nat (c0 + num)) by lia.
  reflexivity.
Qed.

Lemma assign_slice_short : forall row c0 num src,
  0 <= c0 -> 0 <= num -> c0 + num <= Z.of_nat (length row) ->
  Z.of_nat (length src) <> num -> length src <> 1%nat ->
  Py.assign_slice row c0 (c0 + num) src = Raise ValueError.
Proof.
  intros row c0 num src H0 Hn Hle Hsrc H1. unfold Py.assign_slice, Py.bound.
  destruct (Z.ltb_spec c0 0); [lia|]. destruct (Z.ltb_spec (c0 + num) 0); [lia|].
  rewrite !Z.min_l by lia.
  destruct (Nat.eqb_spec (length src) (Z.to_nat (c0 + num - c0))); [lia|].
  destruct src as [|x [|y src]]; [reflexivity|simpl in H1; lia|reflexivity].
Qed.

Lemma assign_row_slice_run : forall arr i c0 num src row,
  nth_error arr (Z.to_nat i) = Some row ->
  0 <= i -> 0 <= c0 -> 0 <= num -> c0 + num <= Z.of_nat (length row) ->
  Z.of_nat (length src) = num ->
  Py.assign_row_slice arr i c0 (c0 + num) src =
  Ok (firstn (Z.to_nat i) arr
        ++ (firstn (Z.to_nat c0) row ++ src ++ skipn (Z.to_nat (c0 + num)) row)
        :: skipn (S (Z.to_nat i)) arr).
Proof.
  intros arr i c0 num src row Hrow Hi H0 Hn Hle Hsrc.
  pose proof (nth_error_lt _ _ _ _ Hrow) as Hlt.
  unfold Py.assign_row_slice.
  destruct (Z.ltb_spec i 0); [lia|].
  destruct (Z.leb_spec 0 i); [|lia].
  destruct (Z.ltb_spec i (Z.of_nat (length arr))); [|lia].
  cbn [andb]. rewrite Hrow. rewrite assign_slice_run by assumption. reflexivity.
Qed.

Lemma assign_row_slice_short : forall arr i c0 num src row,
  nth_error arr (Z.to_nat i) = Some row ->
  0 <= i -> 0 <= c0 -> 0 <= num -> c0 + num <= Z.of_nat (length row) ->
  Z.of_nat (length src) <> num -> length src <> 1%nat ->
  Py.assign_row_slice arr i c0 (c0 + num) src = Raise ValueError.
Proof.
  intros arr i c0 num src row Hrow Hi H0 Hn Hle Hsrc H1.
  pose proof (nth_error_lt _ _ _ _ Hrow) as Hlt.
  unfold Py.assign_row_slice.
  destruct (Z.ltb_spec i 0); [lia|].
  destruct (Z.leb_spec 0 i); [|lia].
  destruct (Z.ltb_spec i (Z.of_nat (length arr))); [|lia].
  cbn [andb]. rewrite Hrow. rewrite assign_slice_short by assumption. reflexivity.
Qed.

Lemma index_run : forall (A : Type) (l : list A) i a,
  0 <= i -> nth_error l (Z.to_nat i) = Some a -> Py.index l i = Ok a.
Proof.
  intros A l i a Hi H. pose proof (nth_error_lt _ _ _ _ H).
  unfold Py.index.
  destruct (Z.ltb_spec i 0); [lia|].
  destruct (Z.leb_spec 0 i); [|lia].
  destruct (Z.ltb_spec i (Z.of_nat (length l))); [|lia].
  cbn [andb]. now rewrite H.
Qed.

Lemma set_item_run : forall (A : Type) (l : list A) i x,
  0 <= i < Z.of_nat (length l) ->
  set_item l i x = Ok (firstn (Z.to_nat i) l ++ x :: skipn (S (Z.to_nat i)) l).
Proof.
  intros A l i x Hi. unfold set_item.
  destruct (Z.leb_spec 0 i); [|lia].
  destruct (Z.ltb_spec i (Z.of_nat (length l))); [|lia]. reflexivity.
Qed.

Lemma bind_assoc : forall (G : Generator) (A B C : Type)
    (m : M G A) (k1 : A -> M G B) (k2 : B -> M G C) g,
  bind (bind m k1) k2 g = bind m (fun a => bind (k1 a) k2) g.
Proof.
  intros. unfold bind. destruct (m g) as [[a g']|e]; reflexivity.
Qed.

Lemma bind_run : forall (G : Generator) (A B : Type)
    (m : M G A) (k : A -> M G B) g a g',
  m g = Ok (a, g') -> bind m k g = k a g'.
Proof. intros G A B m k g a g' E. unfold bind. now rewrite E. Qed.

Lemma bind_raises : forall (G : Generator) (A B : Type)
    (m : M G A) (k : A -> M G B) g e,
  m g = Raise e -> bind m k g = Raise e.
Proof. intros G A B m k g e E. unfold bind. now rewrite E. Qed.

Section Forward.
Variable G : Generator.
Variables B H : Z.
Variable total : nat.

Lemma Rows_weaken : forall (W W' : Z -> Prop) Q ra,
  (forall k, W' k -> W k) -> Rows B H total W Q ra -> Rows B H total W' Q ra.
Proof.
  intros W W' Q ra Hsub [H1 H2]. split; [exact H1|].
  intros hd arr Ha. destruct (H2 hd arr Ha) as [HL HR]. split; [exact HL|].
  intros k row Hk. destruct (HR k row Hk) as [Hlen HQ]. split; [exact Hlen|].
  intros HW. apply HQ, Hsub, HW.
Qed.

(** The loop over the heads writes the columns [c0, c0 + num) of row
    [blk] of every head, when the legal pool holds [num] blocks. *)
Lemma fill_heads_run : forall (W : Z -> Prop) (Q : Z -> list Z -> Prop)
    blk c0 num ts te ra g,
  Rows B H total W Q ra ->
  0 <= blk < B -> 0 <= c0 -> 1 <= num -> c0 + num <= Z.of_nat total ->
  num <= Z.of_nat (length (legal_pool blk ts te 1 1 1 1)) ->
  (forall row sel, length row = total -> NoDup sel ->
      Z.of_nat (length sel) = num ->
      (forall b, In b sel -> In b (legal_pool blk ts te 1 1 1 1)) ->
      Q blk (firstn (Z.to_nat c0) row ++ sel ++ skipn (Z.to_nat (c0 + num)) row)) ->
  exists ra' g',
    fill_heads G H blk c0 (c0 + num) ts te num 1 1 1 1 ra g = Ok (ra', g') /\
    Rows B H total (fun k => W k \/ k = blk) Q ra'.
Proof.
  intros W Q blk c0 num ts te ra g HR Hblk Hc0 Hnum Hc1 Hpool HQ.
  unfold fill_heads.
  set (P := fun (done : list Z) (s : list (list (list Z))) =>
    length s = Z.to_nat H /\
    forall hd arr, nth_error s hd = Some arr ->
      length arr = Z.to_nat B /\
      forall k row, nth_error arr k = Some row ->
        length row = total /\
        (W (Z.of_nat k) -> Z.of_nat k <> blk -> Q (Z.of_nat k) row) /\
        (Z.of_nat k = blk -> In (Z.of_nat hd) done -> Q (Z.of_nat k) row)).
  lazymatch goal with
  | |- context [for_each ?l ?b ?s ?g0] =>
      destruct (for_each_run G _ _ (fun h => 0 <= h < H) P b l [] s g0)
        as (ra' & g' & Hrun & HP)
  end.
  - apply range_Forall.
  - destruct HR as [R1 R2]. split; [exact R1|].
    intros hd arr Ha. destruct (R2 hd arr Ha) as [HL HRows]. split; [exact HL|].
    intros k row Hk. destruct (HRows k row Hk) as [Hlen HW].
    split; [exact Hlen|]. split; [intros; auto|intros _ []].
  - intros done a s g0 Ha [P1 P2].
    destruct (single_row_spec G blk ts te num 1 1 1 1 g0 Hnum)
      as (sel & g1 & Hsel & Hnd & _ & Hlen & Hin).
    specialize (Hlen Hpool).
    assert (Harr : exists arr, nth_error s (Z.to_nat a) = Some arr).
    { destruct (nth_error s (Z.to_nat a)) eqn:E; [eauto|].
      apply nth_error_None in E. lia. }
    destruct Harr as [arr Harr].
    destruct (P2 _ _ Harr) as [HLarr Hrows].
    assert (Hrow : exists row, nth_error arr (Z.to_nat blk) = Some row).
    { destruct (nth_error arr (Z.to_nat blk)) eqn:E; [eauto|].
      apply nth_error_None in E. lia. }
    destruct Hrow as [row Hrow].
    destruct (Hrows _ _ Hrow) as [Hrl _].
    eexists. eexists. split.
    + unfold bind at 1. rewrite Hsel.
      rewrite (index_run _ _ _ _ (proj1 Ha) Harr). rewrite bind_lift_Ok.
      rewrite (assign_row_slice_run _ _ _ _ _ _ Hrow) by lia.
      rewrite bind_lift_Ok.
      rewrite set_item_run by lia. reflexivity.
    + assert (Hlt : (Z.to_nat a < length s)%nat) by (eapply nth_error_lt; eauto).
      assert (Hlt2 : (Z.to_nat blk < length arr)%nat) by (eapply nth_error_lt; eauto).
      split; [rewrite length_replace by assumption; exact P1|].
      intros hd arr0 Hhd. rewrite nth_error_replace in Hhd by assumption.
      destruct (Nat.eqb_spec hd (Z.to_nat a)) as [->|Hne].
      * inversion Hhd; subst arr0; clear Hhd.
        split; [rewrite length_replace by assumption; exact HLarr|].
        intros k row0 Hk. rewrite nth_error_replace in Hk by assumption.
        destruct (Nat.eqb_spec k (Z.to_nat blk)) as [->|Hk'].
        -- inversion Hk; subst row0; clear Hk.
           split.
           { rewrite !length_app, length_firstn, length_skipn. lia. }
           split; [intros _ Hc; lia|].
           intros _ _. rewrite Z2Nat.id by lia. apply HQ; assumption.
        -- destruct (Hrows _ _ Hk) as (L1 & L2 & L3).
           split; [exact L1|]. split; [exact L2|].
           intros Hkb _. lia.
      * destruct (P2 _ _ Hhd) as [HL0 Hrows0]. split; [exact HL0|].
        intros k row0 Hk. destruct (Hrows0 _ _ Hk) as (L1 & L2 & L3).
        split; [exact L1|]. split; [exact L2|].
        intros Hkb Hd. apply in_app_or in Hd.
        destruct Hd as [Hd|[Hd|[]]]; [auto|lia].
  - exists ra', g'. split; [exact Hrun|].
    destruct HP as [P1 P2]. split; [exact P1|].
    intros hd arr Ha. destruct (P2 _ _ Ha) as [HL Hrows]. split; [exact HL|].
    intros k row Hk. destruct (Hrows _ _ Hk) as (L1 & L2 & L3).
    split; [exact L1|].
    pose proof (nth_error_lt _ _ _ _ Ha) as Hhd.
    destruct (Z.eq_dec (Z.of_nat k) blk) as [E|N].
    + intros _. apply L3; [exact E|]. simpl. apply range_In. lia.
    + intros [HW|E]; [auto|contradiction].
Qed.

(** A loop over the rows [a .. b - 1] whose body fills its row. *)
Lemma rows_loop_run : forall (W : Z -> Prop) Q
    (body : Z -> list (list (list Z)) -> M G (list (list (list Z)))) a b ra g,
  Rows B H total W Q ra ->
  (forall blk s g W', a <= blk < b -> Rows B H total W' Q s ->
     exists s' g', body blk s g = Ok (s', g') /\
                   Rows B H total (fun k => W' k \/ k = blk) Q s') ->
  exists ra' g', for_each (Py.range a b) body ra g = Ok (ra', g') /\
    Rows B H total (fun k => W k \/ a <= k < b) Q ra'.
Proof.
  intros W Q body a b ra g HR Hbody.
  set (P := fun (done : list Z) s =>
              Rows B H total (fun k => W k \/ In k done) Q s).
  destruct (for_each_run G _ _ (fun x => a <= x < b) P body (Py.range a b) [] ra g)
    as (ra' & g' & Hrun & HP).
  - apply range_Forall.
  - unfold P. eapply Rows_weaken; [|exact HR]. simpl. intros k [HW|[]]. exact HW.
  - intros done x s g0 Hx HPd. unfold P in *.
    destruct (Hbody x s g0 _ Hx HPd) as (s' & g1 & Hb & HR').
    exists s', g1. split; [exact Hb|].
    eapply Rows_weaken; [|exact HR'].
    simpl. intros k [HW|Hin]; [auto|].
    apply in_app_or in Hin. destruct Hin as [Hin|[Hin|[]]]; [auto|subst; auto].
  - exists ra', g'. split; [exact Hrun|].
    unfold P in HP. simpl in HP.
    eapply Rows_weaken; [|exact HP].
    simpl. intros k [HW|Hk]; [auto|]. right. apply range_In. exact Hk.
Qed.

End Forward.

Section ForwardSites.
Variable G : Generator.
Variables B H : Z.
Variable total : nat.

(** Segment 0 fills the rows [1 .. p - 1] with its own columns. *)
Lemma fill_own_first_run : forall (W : Z -> Prop) Q pbl pn n p ra g,
  Py.index pn 0 = Ok n -> Py.index pbl 0 = Ok p ->
  Py.sum (Py.slice_to pn 1) = n ->
  Rows B H total W Q ra ->
  (n <> 0 ->
     1 <= n /\ n <= Z.of_nat total /\ p <= B /\ n <= p - 5 /\
     forall blk row sel, 1 <= blk < p -> length row = total -> NoDup sel ->
       Z.of_nat (length sel) = n ->
       (forall b, In b sel -> In b (legal_pool blk 0 p 1 1 1 1)) ->
       Q blk (firstn (Z.to_nat 0) row ++ sel ++ skipn (Z.to_nat (0 + n)) row)) ->
  exists ra' g',
    fill_own_segment G H 0 pbl pn 1 1 1 1 1 ra g = Ok (ra', g') /\
    Rows B H total (fun k => W k \/ (n <> 0 /\ 1 <= k < p)) Q ra'.
Proof.
  intros W Q pbl pn n p ra g En Ep Es HR Hn.
  unfold fill_own_segment. rewrite En, bind_lift_Ok.
  destruct (Z.eqb_spec n 0) as [Hz|Hnz].
  - exists ra, g. split; [reflexivity|].
    eapply Rows_weaken; [|exact HR]. simpl. intros k [HW|[Hc _]]; [exact HW|contradiction].
  - destruct (Hn Hnz) as (H1 & H2 & H3 & H5 & HQ).
    change (0 >? 0) with false. cbv iota.
    rewrite bind_ret. cbn [fst snd].
    rewrite Ep, bind_lift_Ok.
    change (0 + 1) with 1. rewrite Es.
    lazymatch goal with
    | |- context [for_each (Py.range ?a ?b) ?body ?s ?g0] =>
        destruct (rows_loop_run G B H total W Q body a b s g0 HR)
          as (ra' & g' & Hrun & HR')
    end.
    + intros blk s g0 W' Hblk HRs. cbv beta.
      rewrite ?Ep, ?En. rewrite !bind_lift_Ok.
      apply (fill_heads_run G B H total W' Q blk 0 n 0 p s g0 HRs); try lia.
      * pose proof (legal_pool_size5 blk 0 p). lia.
      * intros row sel. apply HQ. exact Hblk.
    + exists ra', g'. split; [exact Hrun|].
      eapply Rows_weaken; [|exact HR']. simpl. intros k [HW|[_ Hk]]; auto.
Qed.

(** Segment 1: its rows [p0 .. p1 - 1] get the columns of segment 0. *)
Lemma cover_first_run : forall (W : Z -> Prop) Q pbl pn n0 p0 p1 ra g,
  Py.index pn 0 = Ok n0 -> Py.index pbl 0 = Ok p0 -> Py.index pbl 1 = Ok p1 ->
  Py.sum (Py.slice_to pn 1) = n0 ->
  Rows B H total W Q ra ->
  (n0 <> 0 ->
     1 <= n0 /\ n0 <= Z.of_nat total /\ 0 <= p0 /\ p1 <= B /\
     n0 <= p0 - 5 /\
     forall blk row sel, p0 <= blk < p1 -> length row = total -> NoDup sel ->
       Z.of_nat (length sel) = n0 ->
       (forall b, In b sel -> In b (legal_pool blk 0 p0 1 1 1 1)) ->
       Q blk (firstn (Z.to_nat 0) row ++ sel ++ skipn (Z.to_nat (0 + n0)) row)) ->
  exists ra' g',
    cover_earlier_segments G H 1 pbl pn 1 1 1 1 ra g = Ok (ra', g') /\
    Rows B H total (fun k => W k \/ (n0 <> 0 /\ p0 <= k < p1)) Q ra'.
Proof.
  intros W Q pbl pn n0 p0 p1 ra g En Ep0 Ep1 Es HR Hn.
  unfold cover_earlier_segments.
  change (Py.range 0 1) with [0]. cbn [for_each].
  unfold bind at 1. cbv beta.
  rewrite En, bind_lift_Ok.
  destruct (Z.eqb_spec n0 0) as [Hz|Hnz].
  - exists ra, g. split; [reflexivity|].
    eapply Rows_weaken; [|exact HR]. simpl. intros k [HW|[Hc _]]; [exact HW|contradiction].
  - destruct (Hn Hnz) as (H1 & H2 & H3 & H4 & H6 & HQ).
    change (1 - 1) with 0.
    rewrite Ep0, bind_lift_Ok, Ep1, bind_lift_Ok.
    change (0 >? 0) with false. cbv iota.
    change (0 + 1) with 1. rewrite Es.
    lazymatch goal with
    | |- context [for_each (Py.range ?a ?b) ?body ?s ?g0] =>
        destruct (rows_loop_run G B H total W Q body a b s g0 HR)
          as (ra' & g' & Hrun & HR')
    end.
    + intros blk s g0 W' Hblk HRs. cbv beta.
      rewrite bind_ret. cbn [fst snd].
      rewrite ?Ep0, ?En. rewrite !bind_lift_Ok.
      apply (fill_heads_run G B H total W' Q blk 0 n0 0 p0 s g0 HRs); try lia.
      * pose proof (legal_pool_size5 blk 0 p0). lia.
      * intros row sel. apply HQ. exact Hblk.
    + exists ra', g'. split; [|eapply Rows_weaken; [|exact HR']].
      * rewrite Hrun. reflexivity.
      * simpl. intros k [HW|[_ Hk]]; auto.
Qed.

End ForwardSites.

Lemma extend_zero_budget : forall (G : Generator) H idx pbl pn ra g,
  Py.index pn idx = Ok 0 ->
  extend_earlier_rows G H idx pbl pn 1 1 1 1 1 ra g = Ok (ra, g).
Proof.
  intros G H idx pbl pn ra g E. unfold extend_earlier_rows.
  rewrite E, bind_lift_Ok. reflexivity.
Qed.

Lemma fill_own_zero_budget : forall (G : Generator) H idx pbl pn ra g,
  Py.index pn idx = Ok 0 ->
  fill_own_segment G H idx pbl pn 1 1 1 1 1 ra g = Ok (ra, g).
Proof.
  intros G H idx pbl pn ra g E. unfold fill_own_segment.
  rewrite E, bind_lift_Ok. reflexivity.
Qed.

Lemma zeros_run : forall rows cols,
  0 <= rows -> 0 <= cols ->
  Py.zeros rows cols = Ok (repeat (repeat 0 (Z.to_nat cols)) (Z.to_nat rows)).
Proof.
  intros rows cols Hr Hc. unfold Py.zeros.
  destruct (Z.ltb_spec rows 0); [lia|]. destruct (Z.ltb_spec cols 0); [lia|].
  reflexivity.
Qed.

Lemma zeros_rows : forall B H tot W Q,
  0 <= B -> 0 <= H -> 0 <= tot ->
  (forall k, ~ W k) ->
  Rows B H (Z.to_nat tot) W Q
    (repeat (repeat (repeat 0 (Z.to_nat tot)) (Z.to_nat B))
            (length (Py.range 0 H))).
Proof.
  intros B H tot W Q HB HH Ht HW. split.
  - rewrite repeat_length, range_length. f_equal. lia.
  - intros hd arr E. apply nth_error_In, repeat_spec in E. subst arr.
    split; [apply repeat_length|].
    intros k row Hk. apply nth_error_In, repeat_spec in Hk. subst row.
    split; [apply repeat_length|]. intros Hc. destruct (HW _ Hc).
Qed.

Lemma mem_second : forall a x, Py.mem x [a; x] = true.
Proof.
  intros a x. unfold Py.mem. cbn [existsb]. rewrite Z.eqb_refl.
  now rewrite orb_true_r.
Qed.

Lemma slice_1_length : forall (A : Type) (l : list A) n,
  Z.of_nat (length l) = n -> 1 <= n ->
  length (Py.slice l 1 (n - 1)) = Z.to_nat (n - 2).
Proof.
  intros A l n Hl Hn. unfold Py.slice, Py.bound.
  change (1 <? 0) with false. cbv iota.
  destruct (Z.ltb_spec (n - 1) 0); [lia|].
  rewrite length_firstn, length_skipn. lia.
Qed.

Lemma slice_1_nth : forall (A : Type) (l : list A) hi k x,
  nth_error (Py.slice l 1 hi) k = Some x -> nth_error l (S k) = Some x.
Proof.
  intros A l hi k x Hc. unfold Py.slice in Hc.
  rewrite nth_error_firstn in Hc.
  destruct (Nat.ltb k _); [|discriminate].
  rewrite nth_error_skipn in Hc.
  destruct l as [|a l]; [destruct k; discriminate|].
  replace (Z.to_nat (Py.bound (Z.of_nat (length (a :: l))) 1)) with 1%nat in Hc.
  - exact Hc.
  - unfold Py.bound. change (1 <? 0) with false. cbv iota. cbn [length]. lia.
Qed.

Ltac run_step E :=
  rewrite (bind_run _ _ _ _ _ _ _ _ E); cbv beta; rewrite ?bind_assoc.

Section LongSequences.
Variable G : Generator.
Variables m bs H r : Z.
Hypothesis bs_pos : 0 < bs.
Hypothesis r_nonneg : 0 <= r.
Hypothesis H_nonneg : 0 <= H.
Hypothesis long : 2 * r + 5 < m / bs.

(** On a sequence of more than [2r + 5] blocks the planned sampler
    returns, for every head, [B - 2] rows of [r] distinct blocks, each
    drawn from the legal pool of its query block within the first
    [2r + 5] blocks. *)
Lemma with_head_long_run : forall g,
  exists res g',
    _bigbird_block_rand_mask_with_head G m m bs bs H
      [(2 * r + 5) * bs; m] [r; 0] 1 1 1 1 1 1 g = Ok (res, g') /\
    length res = Z.to_nat H /\
    forall arr, In arr res ->
      length arr = Z.to_nat (m / bs - 2) /\
      forall k row, nth_error arr k = Some row ->
        length row = Z.to_nat r /\ NoDup row /\
        forall v, In v row ->
          In v (legal_pool (Z.of_nat k + 1) 0 (2 * r + 5) 1 1 1 1).
Proof.
  intros g.
  set (B := m / bs) in *. set (A := 2 * r + 5) in *.
  set (Q := fun (k : Z) (row : list Z) =>
              NoDup row /\ forall v, In v row -> In v (legal_pool k 0 A 1 1 1 1)).
  assert (Hne : A * bs <> m).
  { assert (bs * (m / bs) <= m) by (apply Z.mul_div_le; lia).
    subst B A. nia. }
  unfold _bigbird_block_rand_mask_with_head.
  rewrite floordiv_Ok by lia.
  rewrite bind_lift_Ok; cbv beta. rewrite bind_lift_Ok; cbv beta.
  fold B. rewrite Z.eqb_refl, mem_second.
  rewrite (index_of_second _ _ Hne), bind_lift_Ok; cbv beta.
  assert (Epbl : map (fun x => x / bs) [A * bs; m] = [A; B])
    by (simpl; rewrite Z.div_mul by lia; reflexivity).
  rewrite Epbl. change (1 + 1) with 2.
  assert (Es1 : Py.sum (Py.slice_to [r; 0] 1) = r)
    by (unfold Py.sum, Py.slice_to, Py.slice; simpl; lia).
  assert (Es2 : Py.sum (Py.slice_to [r; 0] 2) = r)
    by (unfold Py.sum, Py.slice_to, Py.slice; simpl; lia).
  rewrite Es2. rewrite zeros_run by lia.
  unfold bind at 1. rewrite comprehension_run.
  pose proof (zeros_rows B H r (fun _ => False) Q ltac:(lia) H_nonneg r_nonneg
                (fun _ F => F)) as HR0.
  change (Py.range 0 2) with [0; 1]. cbn [for_each].
  change (0 >? 0) with false. change (1 >? 0) with true. cbv iota.
  (* segment 0 *)
  assert (HQ : forall (blk : Z) (row sel : list Z),
             length row = Z.to_nat r -> NoDup sel -> Z.of_nat (length sel) = r ->
             (forall b, In b sel -> In b (legal_pool blk 0 A 1 1 1 1)) ->
             Q blk (firstn (Z.to_nat 0) row ++ sel ++ skipn (Z.to_nat (0 + r)) row)).
  { intros blk0 row sel Hlen Hnd Hsel Hin.
    change (Z.to_nat 0) with 0%nat. cbn [firstn app].
    rewrite skipn_all2 by (simpl; lia). rewrite app_nil_r.
    split; assumption. }
  destruct (fill_own_first_run G B H (Z.to_nat r) (fun _ => False) Q
              [A; B] [r; 0] r A _ g eq_refl eq_refl Es1 HR0)
    as (ra1 & g1 & Hrun1 & HR1).
  { intros Hr.
    split; [lia|]. split; [lia|]. split; [lia|]. split; [lia|].
    intros blk0 row sel _. apply HQ. }
  rewrite !bind_assoc. rewrite bind_ret. run_step Hrun1.
  (* segment 1 *)
  run_step (extend_zero_budget G H 1 [A; B] [r; 0] ra1 g1 eq_refl).
  destruct (cover_first_run G B H (Z.to_nat r) _ Q
              [A; B] [r; 0] r A B ra1 g1 eq_refl eq_refl eq_refl Es1 HR1)
    as (ra2 & g2 & Hrun2 & HR2).
  { intros Hr.
    split; [lia|]. split; [lia|]. split; [lia|]. split; [lia|]. split; [lia|].
    intros blk0 row sel _. apply HQ. }
  run_step Hrun2.
  run_step (fill_own_zero_budget G H 1 [A; B] [r; 0] ra2 g2 eq_refl).
  rewrite bind_ret.
  eexists. eexists. split; [reflexivity|].
  destruct HR2 as [L1 L2].
  split; [rewrite length_map; exact L1|].
  intros arr Harr. apply in_map_iff in Harr. destruct Harr as (arr0 & <- & Hin0).
  apply In_nth_error in Hin0. destruct Hin0 as [hd Hhd].
  destruct (L2 _ _ Hhd) as [HL Hrows].
  split; [apply slice_1_length; lia|].
  intros k row Hk. apply slice_1_nth in Hk.
  destruct (Hrows _ _ Hk) as [Hlen HW].
  split; [exact Hlen|].
  destruct (Z.eq_dec r 0) as [Hr0|Hr0].
  - destruct row; [|simpl in Hlen; lia]. split; [constructor|intros v []].
  - pose proof (nth_error_lt _ _ _ _ Hk) as Hlt.
    replace (Z.of_nat k + 1) with (Z.of_nat (S k)) by lia.
    apply HW. subst A.
    destruct (Z.lt_ge_cases (Z.of_nat (S k)) (2 * r + 5)).
    + left. right. split; [exact Hr0|lia].
    + right. split; [exact Hr0|lia].
Qed.

End LongSequences.

(** ** How many blocks a row gets *)

Lemma single_row_length :
  forall (G : Generator) blk ts te num (g : gstate G),
  1 <= num ->
  exists sel g',
    _get_single_block_row_attention G blk ts te num 1 1 1 1 g = Ok (sel, g') /\
    Z.of_nat (length sel) =
      Z.min num (Z.of_nat (length (legal_pool blk ts te 1 1 1 1))).
Proof.
  intros G blk ts te num g Hnum. rewrite single_row_run.
  rewrite select_blocks_firstn by (simpl; lia). simpl.
  rewrite Nat.sub_0_r.
  eexists; eexists; split; [reflexivity|].
  rewrite length_firstn, (legal_pool_length G blk ts te 1 1 1 1 g). lia.
Qed.

(** The legal pool of query block 1: the blocks from 3 (or the start
    of the segment) up to the third-last block of the segment. *)
Lemma pool_row1_In : forall ts te v,
  0 <= ts ->
  (In v (legal_pool 1 ts te 1 1 1 1) <-> Z.max ts 3 <= v < te - 2).
Proof.
  intros ts te v Hts. unfold legal_pool. rewrite filter_In, range_In.
  rewrite negb_true_iff, mem_false. unfold illegal_blocks.
  change (1 =? 1) with true. cbv iota.
  rewrite !in_app_iff, !range_In.
  destruct (Z.eqb_spec 1 (te - 2)); simpl; lia.
Qed.

Lemma pool_row1_length : forall ts te,
  0 <= ts ->
  length (legal_pool 1 ts te 1 1 1 1) = Z.to_nat (te - 2 - Z.max ts 3).
Proof.
  intros ts te Hts. rewrite <- range_length.
  apply Permutation_length, NoDup_Permutation.
  - unfold legal_pool. apply NoDup_filter, range_NoDup.
  - apply range_NoDup.
  - intros v. rewrite pool_row1_In, range_In by assumption. reflexivity.
Qed.

(** ** A row that cannot be filled *)

Lemma fill_heads_short : forall (G : Generator) B H total W Q
    blk c0 num ts te ra g,
  Rows B H total W Q ra ->
  1 <= H -> 0 <= blk < B -> 0 <= c0 -> 1 <= num -> c0 + num <= Z.of_nat total ->
  Z.of_nat (length (legal_pool blk ts te 1 1 1 1)) < num ->
  length (legal_pool blk ts te 1 1 1 1) <> 1%nat ->
  fill_heads G H blk c0 (c0 + num) ts te num 1 1 1 1 ra g = Raise ValueError.
Proof.
  intros G B H total W Q blk c0 num ts te ra g [R1 R2] HH Hblk Hc0 Hnum Hc1 Hlt Hne.
  unfold fill_heads. rewrite range_cons by lia.
  apply for_each_first_raises.
  destruct (single_row_length G blk ts te num g Hnum) as (sel & g1 & Hsel & Hlen).
  rewrite (bind_run _ _ _ _ _ _ _ _ Hsel).
  assert (Harr : exists arr, nth_error ra (Z.to_nat 0) = Some arr).
  { destruct (nth_error ra (Z.to_nat 0)) eqn:E; [eauto|].
    apply nth_error_None in E. lia. }
  destruct Harr as [arr Harr].
  destruct (R2 _ _ Harr) as [HLarr Hrows].
  assert (Hrow : exists row, nth_error arr (Z.to_nat blk) = Some row).
  { destruct (nth_error arr (Z.to_nat blk)) eqn:E; [eauto|].
    apply nth_error_None in E. lia. }
  destruct Hrow as [row Hrow].
  destruct (Hrows _ _ Hrow) as [Hrl _].
  rewrite (index_run _ _ _ _ (Z.le_refl 0) Harr), bind_lift_Ok.
  rewrite (assign_row_slice_short _ _ _ _ _ _ Hrow) by lia.
  reflexivity.
Qed.

(** ** The engine on long sequences *)

Lemma seed_run : forall (G : Generator) seed e (g : gstate G),
  np_random_seed G seed e g =
  Ok (tt, seed_state G (match seed with Some s => s | None => e end)).
Proof. reflexivity. Qed.

Lemma np_stack_run : forall (A : Type) (l : list A),
  (0 < length l)%nat -> np_stack l = Ok l.
Proof. intros A l H. destruct l; [simpl in H; lia|reflexivity]. Qed.

Lemma torch_cat_batch_run : forall (A : Type) (t : A) batch,
  1 <= batch -> torch_cat_batch t batch = Ok (repeat t (Z.to_nat batch)).
Proof.
  intros A t batch Hb. unfold torch_cat_batch.
  destruct (Z.leb_spec batch 0); [lia|reflexivity].
Qed.

Lemma long_sequence_run :
  forall (G : Generator) seed e h r bs batch m (g : gstate G),
  0 < bs -> 0 <= r -> 1 <= h -> 1 <= batch ->
  Py.mem m [1024; 3072; 4096] = false ->
  2 * r + 5 < m / bs ->
  exists adj g',
    bigbird_rand_attn G seed e h r bs bs batch m m None g = Ok (adj, g') /\
    length adj = Z.to_nat batch /\
    forall ra, In ra adj ->
      length ra = Z.to_nat h /\
      forall arr, In arr ra ->
        length arr = Z.to_nat (m / bs - 2) /\
        forall k row, nth_error arr k = Some row ->
          length row = Z.to_nat r /\ NoDup row /\
          forall v, In v row ->
            In v (legal_pool (Z.of_nat k + 1) 0 (2 * r + 5) 1 1 1 1).
Proof.
  intros G seed e h r bs batch m g Hbs Hr Hh Hb Hm Hlong.
  unfold bigbird_rand_attn.
  rewrite floordiv_Ok by lia.
  rewrite bind_lift_Ok; cbv beta. rewrite bind_lift_Ok; cbv beta.
  rewrite Z.eqb_refl, Hm.
  run_step (seed_run G seed e g).
  unfold _get_rand_attn_plan. rewrite floordiv_Ok by lia.
  destruct (Z.ltb_spec (2 * r + 5) (m / bs)) as [_|]; [|lia].
  rewrite bind_lift_Ok. cbn [fst snd].
  destruct (with_head_long_run G m bs h r Hbs Hr ltac:(lia) Hlong
              (seed_state G (match seed with Some s => s | None => e end)))
    as (res & g1 & Hrun & Hlen & Hres).
  run_step Hrun.
  rewrite np_stack_run by lia. rewrite bind_lift_Ok.
  unfold lift. rewrite torch_cat_batch_run by assumption.
  eexists. eexists. split; [reflexivity|].
  split; [apply repeat_length|].
  intros ra Hra. apply repeat_spec in Hra. subst ra.
  split; [exact Hlen|exact Hres].
Qed.

Lemma run_unique : forall (A S : Type) (r : result (A * S)) a s a' s',
  r = Ok (a, s) -> r = Ok (a', s') -> a' = a.
Proof. intros A S r a s a' s' E E'. congruence. Qed.

(** X2: On a sequence of more than [2r + 5] blocks the adjacency sampling
    always returns, for every seed and generator state, and the
    adjacency has the shape [batch, heads, B - 2, r]. *)
Theorem long_sequences_always_sample :
  forall (G : Generator) seed e h r bs batch m (g : gstate G),
  0 < bs -> 0 <= r -> 1 <= h -> 1 <= batch ->
  Py.mem m [1024; 3072; 4096] = false ->
  2 * r + 5 < m / bs ->
  exists adj g',
    bigbird_rand_attn G seed e h r bs bs batch m m None g = Ok (adj, g') /\
    length adj = Z.to_nat batch /\
    forall ra, In ra adj ->
      length ra = Z.to_nat h /\
      forall arr, In arr ra ->
        length arr = Z.to_nat (m / bs - 2) /\
        forall row, In row arr -> length row = Z.to_nat r.
Proof.
  intros G seed e h r bs batch m g Hbs Hr Hh Hb Hm Hlong.
  destruct (long_sequence_run G seed e h r bs batch m g Hbs Hr Hh Hb Hm Hlong)
    as (adj & g' & Hrun & Hlen & Hadj).
  exists adj, g'. split; [exact Hrun|]. split; [exact Hlen|].
  intros ra Hra. destruct (Hadj ra Hra) as [Hh' Harr]. split; [exact Hh'|].
  intros arr Ha. destruct (Harr arr Ha) as [HB Hrows]. split; [exact HB|].
  intros row Hrow. apply In_nth_error in Hrow. destruct Hrow as [k Hk].
  apply (Hrows k row Hk).
Qed.

Lemma long_sequences_always_sample_witness :
  exists adj g',
    bigbird_rand_attn rot_generator (Some 7) 0 2 3 64 64 2 768 768 None 0
      = Ok (adj, g') /\
    length adj = Z.to_nat 2 /\
    forall ra, In ra adj ->
      length ra = Z.to_nat 2 /\
      forall arr, In arr ra ->
        length arr = Z.to_nat (768 / 64 - 2) /\
        forall row, In row arr -> length row = Z.to_nat 3.
Proof.
  apply (long_sequences_always_sample rot_generator (Some 7) 0 2 3 64 2 768 0);
    [lia | lia | lia | lia | reflexivity | vm_compute; reflexivity].
Defined.

(** X3: On a sequence of more than [2r + 5] blocks, of a length other
    than 1024, 3072 and 4096 (the planned sampler), every row of the
    adjacency holds [r] pairwise distinct blocks. *)
Theorem long_sequence_rows_distinct :
  forall (G : Generator) seed e h r bs batch m (g : gstate G) adj g',
  0 < bs -> 0 <= r -> 1 <= h -> 1 <= batch ->
  Py.mem m [1024; 3072; 4096] = false ->
  2 * r + 5 < m / bs ->
  bigbird_rand_attn G seed e h r bs bs batch m m None g = Ok (adj, g') ->
  forall ra arr row, In ra adj -> In arr ra -> In row arr ->
    NoDup row /\ length row = Z.to_nat r.
Proof.
  intros G seed e h r bs batch m g adj g' Hbs Hr Hh Hb Hm Hlong Hrun
         ra arr row Hra Harr Hrow.
  destruct (long_sequence_run G seed e h r bs batch m g Hbs Hr Hh Hb Hm Hlong)
    as (adj0 & g0 & Hrun0 & _ & Hadj).
  assert (adj = adj0) by (eapply run_unique; eauto). subst adj0.
  destruct (Hadj ra Hra) as [_ H1]. destruct (H1 arr Harr) as [_ H2].
  apply In_nth_error in Hrow. destruct Hrow as [k Hk].
  destruct (H2 k row Hk) as (L & N & _). split; assumption.
Qed.

Lemma long_sequence_rows_distinct_witness :
  exists adj g',
    bigbird_rand_attn rot_generator (Some 7) 0 2 3 64 64 2 768 768 None 0
      = Ok (adj, g') /\
    forall ra arr row, In ra adj -> In arr ra -> In row arr ->
      NoDup row /\ length row = Z.to_nat 3.
Proof.
  eexists. eexists. split; [vm_compute; reflexivity|].
  eapply (long_sequence_rows_distinct rot_generator (Some 7) 0 2 3 64 2 768 0);
    [lia | lia | lia | lia | reflexivity | vm_compute; reflexivity
    | vm_compute; reflexivity].
Defined.

(** X4: On a sequence of more than [2r + 5] blocks, of a length other
    than 1024, 3072 and 4096 (the planned sampler), the random blocks
    of every query block, also of the last ones, lie among the first
    [2r + 5] blocks: every entry is between 1 and [2r + 3]. *)
Theorem long_sequence_random_blocks_lead :
  forall (G : Generator) seed e h r bs batch m (g : gstate G) adj g',
  0 < bs -> 0 <= r -> 1 <= h -> 1 <= batch ->
  Py.mem m [1024; 3072; 4096] = false ->
  2 * r + 5 < m / bs ->
  bigbird_rand_attn G seed e h r bs bs batch m m None g = Ok (adj, g') ->
  forall b hd k j v, cell4 adj b hd k j = Some v -> 1 <= v <= 2 * r + 3.
Proof.
  intros G seed e h r bs batch m g adj g' Hbs Hr Hh Hb Hm Hlong Hrun
         b hd k j v Hc.
  destruct (long_sequence_run G seed e h r bs batch m g Hbs Hr Hh Hb Hm Hlong)
    as (adj0 & g0 & Hrun0 & _ & Hadj).
  assert (adj = adj0) by (eapply run_unique; eauto). subst adj0.
  unfold cell4 in Hc.
  destruct (nth_error adj b) as [ra|] eqn:Era; [|discriminate].
  unfold cell3 in Hc.
  destruct (nth_error ra hd) as [arr|] eqn:Earr; [|discriminate].
  unfold cell2 in Hc.
  destruct (nth_error arr k) as [row|] eqn:Erow; [|discriminate].
  apply nth_error_In in Era, Earr, Hc.
  destruct (Hadj ra Era) as [_ H1]. destruct (H1 arr Earr) as [_ H2].
  destruct (H2 k row Erow) as (_ & _ & Hin).
  specialize (Hin v Hc).
  pose proof (legal_pool_range _ _ _ _ Hin) as Hrange.
  apply (pool_legal (2 * r + 5)) in Hin; [|lia].
  unfold outside_window_and_globals in Hin. lia.
Qed.

Lemma long_sequence_random_blocks_lead_witness :
  exists adj g',
    bigbird_rand_attn rot_generator (Some 7) 0 2 3 64 64 2 768 768 None 0
      = Ok (adj, g') /\
    forall b hd k j v, cell4 adj b hd k j = Some v -> 1 <= v <= 2 * 3 + 3.
Proof.
  eexists. eexists. split; [vm_compute; reflexivity|].
  eapply (long_sequence_random_blocks_lead rot_generator (Some 7) 0 2 3 64 2 768 0);
    [lia | lia | lia | lia | reflexivity | vm_compute; reflexivity
    | vm_compute; reflexivity].
Defined.

Section ShortRows.
Variable G : Generator.
Variables B H : Z.
Variable total : nat.

(** Segment 0 stops at query block 1 when its legal pool is too small. *)
Lemma fill_own_first_short : forall (W : Z -> Prop) Q pbl pn n p ra g,
  Py.index pn 0 = Ok n -> Py.index pbl 0 = Ok p ->
  Py.sum (Py.slice_to pn 1) = n ->
  Rows B H total W Q ra ->
  1 <= H -> 1 <= n -> n <= Z.of_nat total -> 2 <= p -> 2 <= B ->
  Z.of_nat (length (legal_pool 1 0 p 1 1 1 1)) < n ->
  length (legal_pool 1 0 p 1 1 1 1) <> 1%nat ->
  fill_own_segment G H 0 pbl pn 1 1 1 1 1 ra g = Raise ValueError.
Proof.
  intros W Q pbl pn n p ra g En Ep Es HR HH Hn Hnt Hp HB Hlt Hne.
  unfold fill_own_segment. rewrite En, bind_lift_Ok.
  destruct (Z.eqb_spec n 0) as [Hz|_]; [lia|].
  change (0 >? 0) with false. cbv iota.
  rewrite bind_ret. cbn [fst snd].
  rewrite Ep, bind_lift_Ok.
  change (0 + 1) with 1. rewrite Es.
  rewrite range_cons by lia.
  apply for_each_first_raises.
  rewrite ?Ep, ?En. rewrite !bind_lift_Ok.
  apply (fill_heads_short G B H total W Q 1 0 n 0 p ra g HR); try lia; assumption.
Qed.

(** The rows of segment 0 cannot be extended when the legal pool of
    query block 1 in segment 1 is too small. *)
Lemma extend_short : forall (W : Z -> Prop) Q pbl pn n0 n1 p0 p1 ra g,
  Py.index pn 1 = Ok n1 ->
  Py.index pbl 0 = Ok p0 -> Py.index pbl 1 = Ok p1 ->
  Py.sum (Py.slice_to pn 1) = n0 ->
  Py.sum (Py.slice_to pn 2) = n0 + n1 ->
  Rows B H total W Q ra ->
  1 <= H -> 0 <= n0 -> 1 <= n1 -> n0 + n1 <= Z.of_nat total ->
  2 <= p0 -> 2 <= B ->
  Z.of_nat (length (legal_pool 1 p0 p1 1 1 1 1)) < n1 ->
  length (legal_pool 1 p0 p1 1 1 1 1) <> 1%nat ->
  extend_earlier_rows G H 1 pbl pn 1 1 1 1 1 ra g = Raise ValueError.
Proof.
  intros W Q pbl pn n0 n1 p0 p1 ra g En Ep0 Ep1 Es1 Es2 HR HH Hn0 Hn1 Hnt Hp HB
         Hlt Hne.
  unfold extend_earlier_rows. rewrite En, bind_lift_Ok.
  destruct (Z.gtb_spec n1 0) as [_|]; [|lia].
  change (1 - 1) with 0. change (1 + 1) with 2.
  rewrite Ep0, bind_lift_Ok. rewrite Es1, Es2.
  rewrite range_cons by lia.
  apply for_each_first_raises.
  rewrite ?Ep0, ?Ep1, ?En. rewrite !bind_lift_Ok.
  apply (fill_heads_short G B H total W Q 1 n0 n1 p0 p1 ra g HR); try lia; assumption.
Qed.

End ShortRows.

Lemma mem_head : forall x l, Py.mem x (x :: l) = true.
Proof. intros x l. unfold Py.mem. cbn [existsb]. now rewrite Z.eqb_refl. Qed.

Section ShortSequences.
Variable G : Generator.
Variables m bs H r : Z.
Hypothesis bs_pos : 0 < bs.
Hypothesis H_pos : 1 <= H.
Hypothesis r_pos : 1 <= r.

(** A single segment over at most [r + 4] blocks. *)
Lemma with_head_single_short : forall g,
  2 <= m / bs <= r + 4 -> m / bs <> 6 ->
  _bigbird_block_rand_mask_with_head G m m bs bs H [m] [r] 1 1 1 1 1 1 g
    = Raise ValueError.
Proof.
  intros g HB H6. set (B := m / bs) in *.
  unfold _bigbird_block_rand_mask_with_head.
  rewrite floordiv_Ok by lia.
  rewrite bind_lift_Ok; cbv beta. rewrite bind_lift_Ok; cbv beta.
  fold B. rewrite Z.eqb_refl, mem_head.
  assert (Eidx : Py.index_of m [m] = Ok 0)
    by (simpl; rewrite Z.eqb_refl; reflexivity).
  rewrite Eidx, bind_lift_Ok; cbv beta.
  change (map (fun x => x / bs) [m]) with [B].
  change (0 + 1) with 1.
  assert (Es : Py.sum (Py.slice_to [r] 1) = r)
    by (unfold Py.sum, Py.slice_to, Py.slice; simpl; lia).
  rewrite Es. rewrite zeros_run by lia.
  rewrite (bind_run _ _ _ _ _ _ _ _ (comprehension_run G _ _ _ _ _)).
  pose proof (zeros_rows B H r (fun _ => False) (fun _ _ => True)
                ltac:(lia) ltac:(lia) ltac:(lia) (fun _ F => F)) as HR0.
  change (Py.range 0 1) with [0]. cbn [for_each].
  change (0 >? 0) with false. cbv iota.
  rewrite !bind_assoc. rewrite bind_ret.
  apply bind_raises.
  apply (fill_own_first_short G B H (Z.to_nat r) _ _ [B] [r] r B _ _
           eq_refl eq_refl Es HR0); try lia.
  - rewrite pool_row1_length by lia. lia.
  - rewrite pool_row1_length by lia. lia.
Qed.

(** Two segments, the second too short for query block 1. *)
Lemma with_head_split_short : forall A n0 n1 g,
  5 <= A -> A < m / bs ->
  0 <= n0 -> n0 <= A - 5 -> 1 <= n1 ->
  m / bs - 2 - A < n1 -> m / bs - 2 - A <> 1 ->
  _bigbird_block_rand_mask_with_head G m m bs bs H [A * bs; m] [n0; n1]
    1 1 1 1 1 1 g = Raise ValueError.
Proof.
  intros A n0 n1 g HA HAB Hn0 Hn0A Hn1 Hlt Hne. set (B := m / bs) in *.
  assert (HneA : A * bs <> m).
  { assert (bs * (m / bs) <= m) by (apply Z.mul_div_le; lia).
    subst B. nia. }
  unfold _bigbird_block_rand_mask_with_head.
  rewrite floordiv_Ok by lia.
  rewrite bind_lift_Ok; cbv beta. rewrite bind_lift_Ok; cbv beta.
  fold B. rewrite Z.eqb_refl, mem_second.
  rewrite (index_of_second _ _ HneA), bind_lift_Ok; cbv beta.
  assert (Epbl : map (fun x => x / bs) [A * bs; m] = [A; B])
    by (simpl; rewrite Z.div_mul by lia; reflexivity).
  rewrite Epbl. change (1 + 1) with 2.
  assert (Es1 : Py.sum (Py.slice_to [n0; n1] 1) = n0)
    by (unfold Py.sum, Py.slice_to, Py.slice; simpl; lia).
  assert (Es2 : Py.sum (Py.slice_to [n0; n1] 2) = n0 + n1)
    by (unfold Py.sum, Py.slice_to, Py.slice; simpl; lia).
  rewrite Es2. rewrite zeros_run by lia.
  rewrite (bind_run _ _ _ _ _ _ _ _ (comprehension_run G _ _ _ _ _)).
  pose proof (zeros_rows B H (n0 + n1) (fun _ => False) (fun _ _ => True)
                ltac:(lia) ltac:(lia) ltac:(lia) (fun _ F => F)) as HR0.
  change (Py.range 0 2) with [0; 1]. cbn [for_each].
  change (0 >? 0) with false. change (1 >? 0) with true. cbv iota.
  destruct (fill_own_first_run G B H (Z.to_nat (n0 + n1)) (fun _ => False)
              (fun _ _ => True) [A; B] [n0; n1] n0 A _ g eq_refl eq_refl Es1 HR0)
    as (ra1 & g1 & Hrun1 & HR1).
  { intros Hnz.
    split; [lia|]. split; [lia|]. split; [lia|]. split; [lia|].
    intros; exact I. }
  rewrite !bind_assoc. rewrite bind_ret. run_step Hrun1.
  apply bind_raises.
  apply (extend_short G B H (Z.to_nat (n0 + n1)) _ _ [A; B] [n0; n1] n0 n1 A B _ _
           eq_refl eq_refl eq_refl Es1 Es2 HR1); try lia.
  - rewrite pool_row1_length by lia. lia.
  - rewrite pool_row1_length by lia. lia.
Qed.

End ShortSequences.

(** X6: With at least one random block per row and a sequence of 2 to
    [r + 4] blocks, other than 6, of a length other than 1024, 3072
    and 4096 (the planned sampler), the adjacency sampling raises
    [ValueError]: the legal pool of query block 1 holds fewer than [r]
    blocks and numpy cannot broadcast the short row into the [r]
    columns. *)
Theorem short_sequences_raise :
  forall (G : Generator) seed e h r bs batch m (g : gstate G),
  0 < bs -> 1 <= r -> 1 <= h ->
  Py.mem m [1024; 3072; 4096] = false ->
  2 <= m / bs <= r + 4 -> m / bs <> 6 ->
  bigbird_rand_attn G seed e h r bs bs batch m m None g = Raise ValueError.
Proof.
  intros G seed e h r bs batch m g Hbs Hr Hh Hm HB H6.
  unfold bigbird_rand_attn.
  rewrite floordiv_Ok by lia.
  rewrite bind_lift_Ok; cbv beta. rewrite bind_lift_Ok; cbv beta.
  rewrite Z.eqb_refl, Hm.
  run_step (seed_run G seed e g).
  unfold _get_rand_attn_plan. rewrite floordiv_Ok by lia.
  destruct (Z.ltb_spec (2 * r + 5) (m / bs)); [lia|].
  destruct (Z.ltb_spec (r + 5) (m / bs)); [lia|].
  rewrite bind_lift_Ok. cbn [fst snd].
  apply bind_raises.
  apply with_head_single_short; assumption.
Qed.

Lemma short_sequences_raise_witness :
  bigbird_rand_attn rot_generator (Some 0) 0 2 3 64 64 1 320 320 None 0
    = Raise ValueError.
Proof.
  apply (short_sequences_raise rot_generator (Some 0) 0 2 3 64 1 320 0);
    [lia | lia | lia | reflexivity | vm_compute; split; discriminate
    | vm_compute; discriminate].
Defined.

(** ** A second segment of three blocks *)

(** A source of the width of the slice, or of one element, fits. *)
Lemma assign_slice_fits : forall row c0 num src,
  0 <= c0 -> 0 <= num -> c0 + num <= Z.of_nat (length row) ->
  Z.of_nat (length src) = num \/ length src = 1%nat ->
  exists row', Py.assign_slice row c0 (c0 + num) src = Ok row' /\
               length row' = length row.
Proof.
  intros row c0 num src H0 Hn Hle [Hsrc|Hsrc].
  - rewrite assign_slice_run by assumption.
    eexists. split; [reflexivity|].
    rewrite !length_app, length_firstn, length_skipn. lia.
  - destruct src as [|x [|y src]]; try discriminate.
    unfold Py.assign_slice, Py.bound.
    destruct (Z.ltb_spec c0 0); [lia|]. destruct (Z.ltb_spec (c0 + num) 0); [lia|].
    rewrite !Z.min_l by lia.
    destruct (Nat.eqb_spec (length [x]) (Z.to_nat (c0 + num - c0))) as [E|E];
      (eexists; split; [reflexivity|]);
      rewrite !length_app, length_firstn, length_skipn, ?repeat_length;
      simpl length in *; lia.
Qed.

Lemma assign_row_slice_fits : forall arr i c0 num src row,
  nth_error arr (Z.to_nat i) = Some row ->
  0 <= i -> 0 <= c0 -> 0 <= num -> c0 + num <= Z.of_nat (length row) ->
  Z.of_nat (length src) = num \/ length src = 1%nat ->
  exists row',
    Py.assign_row_slice arr i c0 (c0 + num) src =
      Ok (firstn (Z.to_nat i) arr ++ row' :: skipn (S (Z.to_nat i)) arr) /\
    length row' = length row.
Proof.
  intros arr i c0 num src row Hrow Hi H0 Hn Hle Hsrc.
  destruct (assign_slice_fits row c0 num src H0 Hn Hle Hsrc) as (row' & E & L).
  exists row'. split; [|exact L].
  unfold Py.assign_row_slice.
  pose proof (nth_error_lt _ _ _ _ Hrow) as Hlt.
  destruct (Z.ltb_spec i 0); [lia|].
  destruct (Z.leb_spec 0 i); [|lia].
  destruct (Z.ltb_spec i (Z.of_nat (length arr))); [|lia].
  cbn [andb]. rewrite Hrow, E. reflexivity.
Qed.

Section Broadcast.
Variable G : Generator.
Variables B H : Z.
Variable total : nat.

(** The arrays keep their shape when every head finds either its
    whole budget or a single block, which numpy broadcasts. *)
Lemma fill_heads_shape_run : forall blk c0 num ts te ra g,
  Rows B H total (fun _ => False) (fun _ _ => True) ra ->
  0 <= blk < B -> 0 <= c0 -> 1 <= num -> c0 + num <= Z.of_nat total ->
  num <= Z.of_nat (length (legal_pool blk ts te 1 1 1 1)) \/
  length (legal_pool blk ts te 1 1 1 1) = 1%nat ->
  exists ra' g',
    fill_heads G H blk c0 (c0 + num) ts te num 1 1 1 1 ra g = Ok (ra', g') /\
    Rows B H total (fun _ => False) (fun _ _ => True) ra'.
Proof.
  intros blk c0 num ts te ra g HR Hblk Hc0 Hnum Hc1 Hpool.
  unfold fill_heads.
  set (P := fun (done : list Z) (s : list (list (list Z))) =>
              Rows B H total (fun _ => False) (fun _ _ => True) s).
  lazymatch goal with
  | |- context [for_each ?l ?b ?s ?g0] =>
      destruct (for_each_run G _ _ (fun h => 0 <= h < H) P b l [] s g0)
        as (ra' & g' & Hrun & HP)
  end.
  - apply range_Forall.
  - exact HR.
  - intros done a s g0 Ha [P1 P2].
    destruct (single_row_length G blk ts te num g0 Hnum) as (sel & g1 & Hsel & Hlen).
    assert (Harr : exists arr, nth_error s (Z.to_nat a) = Some arr).
    { destruct (nth_error s (Z.to_nat a)) eqn:E; [eauto|].
      apply nth_error_None in E. lia. }
    destruct Harr as [arr Harr].
    destruct (P2 _ _ Harr) as [HLarr Hrows].
    assert (Hrow : exists row, nth_error arr (Z.to_nat blk) = Some row).
    { destruct (nth_error arr (Z.to_nat blk)) eqn:E; [eauto|].
      apply nth_error_None in E. lia. }
    destruct Hrow as [row Hrow].
    destruct (Hrows _ _ Hrow) as [Hrl _].
    destruct (assign_row_slice_fits arr blk c0 num sel row Hrow)
      as (row' & Eas & Lrow'); try lia.
    eexists. eexists. split.
    + unfold bind at 1. rewrite Hsel.
      rewrite (index_run _ _ _ _ (proj1 Ha) Harr). rewrite bind_lift_Ok.
      rewrite Eas. rewrite bind_lift_Ok.
      rewrite set_item_run by lia. reflexivity.
    + assert (Hlt : (Z.to_nat a < length s)%nat) by (eapply nth_error_lt; eauto).
      assert (Hlt2 : (Z.to_nat blk < length arr)%nat) by (eapply nth_error_lt; eauto).
      split; [rewrite length_replace by assumption; exact P1|].
      intros hd arr0 Hhd. rewrite nth_error_replace in Hhd by assumption.
      destruct (Nat.eqb_spec hd (Z.to_nat a)) as [->|Hne].
      * inversion Hhd; subst arr0; clear Hhd.
        split; [rewrite length_replace by assumption; exact HLarr|].
        intros k row0 Hk. rewrite nth_error_replace in Hk by assumption.
        destruct (Nat.eqb_spec k (Z.to_nat blk)) as [->|Hk'].
        -- inversion Hk; subst row0; clear Hk.
           split; [congruence|intros []].
        -- destruct (Hrows _ _ Hk) as (L1 & _). split; [exact L1|intros []].
      * exact (P2 _ _ Hhd).
  - exists ra', g'. split; [exact Hrun|exact HP].
Qed.

End Broadcast.

(** The legal pool of any row. *)
Lemma pool_In : forall blk ts te v,
  In v (legal_pool blk ts te 1 1 1 1) <->
  ts <= v < te /\ ~ (blk - 1 <= v <= blk + 1) /\ v <> 0 /\ v <> te - 1 /\
  (blk = 1 -> v <> te - 2) /\ (blk = te - 2 -> v <> 1).
Proof.
  intros blk ts te v. unfold legal_pool. rewrite filter_In, range_In.
  rewrite negb_true_iff, mem_false. unfold illegal_blocks.
  rewrite !in_app_iff, !range_In.
  destruct (Z.eqb_spec blk 1); destruct (Z.eqb_spec blk (te - 2)); simpl; lia.
Qed.

Lemma pool_length_range : forall blk ts te lo hi,
  (forall v, In v (legal_pool blk ts te 1 1 1 1) <-> lo <= v < hi) ->
  length (legal_pool blk ts te 1 1 1 1) = Z.to_nat (hi - lo).
Proof.
  intros blk ts te lo hi Hin. rewrite <- range_length.
  apply Permutation_length, NoDup_Permutation.
  - unfold legal_pool. apply NoDup_filter, range_NoDup.
  - apply range_NoDup.
  - intros v. rewrite Hin, range_In. reflexivity.
Qed.

(** A segment of three blocks after [A >= 5] blocks: the rows before
    it find one or two legal blocks in it, its first row none. *)
Lemma pool_three_before : forall A blk,
  5 <= A -> 1 <= blk < A ->
  length (legal_pool blk A (A + 3) 1 1 1 1) =
    if (blk =? 1) || (blk =? A - 1) then 1%nat else 2%nat.
Proof.
  intros A blk HA Hblk.
  destruct (Z.eqb_spec blk 1) as [E1|N1]; cbn [orb].
  - rewrite (pool_length_range blk A (A + 3) A (A + 1)); [f_equal; lia|].
    intros v. rewrite pool_In. lia.
  - destruct (Z.eqb_spec blk (A - 1)) as [E2|N2].
    + rewrite (pool_length_range blk A (A + 3) (A + 1) (A + 2)); [f_equal; lia|].
      intros v. rewrite pool_In. lia.
    + rewrite (pool_length_range blk A (A + 3) A (A + 2)); [f_equal; lia|].
      intros v. rewrite pool_In. lia.
Qed.

Lemma pool_three_own : forall A,
  5 <= A -> length (legal_pool A A (A + 3) 1 1 1 1) = 0%nat.
Proof.
  intros A HA.
  rewrite (pool_length_range A A (A + 3) A A); [f_equal; lia|].
  intros v. rewrite pool_In. lia.
Qed.

Section SecondSegment.
Variable G : Generator.
Variables B H : Z.
Variable total : nat.

(** The rows of segment 0 get their columns for segment 1 when each
    of them finds its budget or a single block. *)
Lemma extend_shape_run : forall pbl pn n0 n1 p0 p1 ra g,
  Py.index pn 1 = Ok n1 ->
  Py.index pbl 0 = Ok p0 -> Py.index pbl 1 = Ok p1 ->
  Py.sum (Py.slice_to pn 1) = n0 ->
  Py.sum (Py.slice_to pn 2) = n0 + n1 ->
  Rows B H total (fun _ => False) (fun _ _ => True) ra ->
  0 <= n0 -> 1 <= n1 -> n0 + n1 <= Z.of_nat total -> p0 <= B ->
  (forall blk, 1 <= blk < p0 ->
     n1 <= Z.of_nat (length (legal_pool blk p0 p1 1 1 1 1)) \/
     length (legal_pool blk p0 p1 1 1 1 1) = 1%nat) ->
  exists ra' g',
    extend_earlier_rows G H 1 pbl pn 1 1 1 1 1 ra g = Ok (ra', g') /\
    Rows B H total (fun _ => False) (fun _ _ => True) ra'.
Proof.
  intros pbl pn n0 n1 p0 p1 ra g En Ep0 Ep1 Es1 Es2 HR Hn0 Hn1 Hnt Hp Hpool.
  unfold extend_earlier_rows. rewrite En, bind_lift_Ok.
  destruct (Z.gtb_spec n1 0) as [_|]; [|lia].
  change (1 - 1) with 0. change (1 + 1) with 2.
  rewrite Ep0, bind_lift_Ok. rewrite Es1, Es2.
  set (P := fun (done : list Z) (s : list (list (list Z))) =>
              Rows B H total (fun _ => False) (fun _ _ => True) s).
  lazymatch goal with
  | |- context [for_each ?l ?b ?s ?g0] =>
      destruct (for_each_run G _ _ (fun blk => 1 <= blk < p0) P b l [] s g0)
        as (ra' & g' & Hrun & HP)
  end.
  - apply range_Forall.
  - exact HR.
  - intros done blk s g0 Hblk HPs. cbv beta.
    rewrite ?Ep0, ?Ep1, ?En. rewrite !bind_lift_Ok.
    apply (fill_heads_shape_run G B H total blk n0 n1 p0 p1 s g0 HPs); try lia.
    now apply Hpool.
  - exists ra', g'. split; [exact Hrun|exact HP].
Qed.

(** Query block 1 finds its budget or a single block, query block 2
    neither. *)
Lemma extend_short_second : forall pbl pn n0 n1 p0 p1 ra g,
  Py.index pn 1 = Ok n1 ->
  Py.index pbl 0 = Ok p0 -> Py.index pbl 1 = Ok p1 ->
  Py.sum (Py.slice_to pn 1) = n0 ->
  Py.sum (Py.slice_to pn 2) = n0 + n1 ->
  Rows B H total (fun _ => False) (fun _ _ => True) ra ->
  1 <= H -> 0 <= n0 -> 1 <= n1 -> n0 + n1 <= Z.of_nat total ->
  3 <= p0 -> p0 <= B ->
  (n1 <= Z.of_nat (length (legal_pool 1 p0 p1 1 1 1 1)) \/
   length (legal_pool 1 p0 p1 1 1 1 1) = 1%nat) ->
  Z.of_nat (length (legal_pool 2 p0 p1 1 1 1 1)) < n1 ->
  length (legal_pool 2 p0 p1 1 1 1 1) <> 1%nat ->
  extend_earlier_rows G H 1 pbl pn 1 1 1 1 1 ra g = Raise ValueError.
Proof.
  intros pbl pn n0 n1 p0 p1 ra g En Ep0 Ep1 Es1 Es2 HR HH Hn0 Hn1 Hnt Hp HpB
         Hfit Hlt Hne.
  unfold extend_earlier_rows. rewrite En, bind_lift_Ok.
  destruct (Z.gtb_spec n1 0) as [_|]; [|lia].
  change (1 - 1) with 0. change (1 + 1) with 2.
  rewrite Ep0, bind_lift_Ok. rewrite Es1, Es2.
  rewrite range_cons by lia. change (1 + 1) with 2. rewrite range_cons by lia.
  cbn [for_each].
  lazymatch goal with
  | |- bind ?b1 ?k g = _ =>
      assert (E1 : exists ra1 g1, b1 g = Ok (ra1, g1) /\
                Rows B H total (fun _ => False) (fun _ _ => True) ra1)
  end.
  { rewrite ?Ep0, ?Ep1, ?En. rewrite !bind_lift_Ok.
    apply (fill_heads_shape_run G B H total 1 n0 n1 p0 p1 ra g HR);
      try lia; assumption. }
  destruct E1 as (ra1 & g1 & E1 & HR1).
  rewrite (bind_run _ _ _ _ _ _ _ _ E1).
  apply bind_raises.
  rewrite ?Ep0, ?Ep1, ?En. rewrite !bind_lift_Ok.
  apply (fill_heads_short G B H total _ _ 2 n0 n1 p0 p1 ra1 g1 HR1);
    try lia; assumption.
Qed.

(** Segment 1 stops at its first row when the legal pool of that row
    is too small. *)
Lemma fill_own_second_short : forall pbl pn n0 n1 p0 p1 ra g,
  Py.index pn 1 = Ok n1 ->
  Py.index pbl 0 = Ok p0 -> Py.index pbl 1 = Ok p1 ->
  Py.sum (Py.slice_to pn 1) = n0 ->
  Py.sum (Py.slice_to pn 2) = n0 + n1 ->
  Rows B H total (fun _ => False) (fun _ _ => True) ra ->
  1 <= H -> 0 <= n0 -> 1 <= n1 -> n0 + n1 <= Z.of_nat total ->
  0 <= p0 -> p0 < p1 -> p0 < B ->
  Z.of_nat (length (legal_pool p0 p0 p1 1 1 1 1)) < n1 ->
  length (legal_pool p0 p0 p1 1 1 1 1) <> 1%nat ->
  fill_own_segment G H 1 pbl pn 1 1 1 1 1 ra g = Raise ValueError.
Proof.
  intros pbl pn n0 n1 p0 p1 ra g En Ep0 Ep1 Es1 Es2 HR HH Hn0 Hn1 Hnt Hp Hpp HpB
         Hlt Hne.
  unfold fill_own_segment. rewrite En, bind_lift_Ok.
  destruct (Z.eqb_spec n1 0) as [Hz|_]; [lia|].
  change (1 >? 0) with true. cbv iota.
  change (1 - 1) with 0. change (1 + 1) with 2.
  rewrite Ep0, bind_assoc, bind_lift_Ok. rewrite bind_ret. cbn [fst snd].
  rewrite Ep1, bind_lift_Ok. rewrite Es1, Es2.
  rewrite range_cons by lia.
  apply for_each_first_raises.
  rewrite ?Ep1, ?En. rewrite !bind_lift_Ok.
  apply (fill_heads_short G B H total _ _ p0 n0 n1 p0 p1 ra g HR);
    try lia; assumption.
Qed.

End SecondSegment.

Section ThreeBlockSegment.
Variable G : Generator.
Variables m bs H : Z.
Hypothesis bs_pos : 0 < bs.
Hypothesis H_pos : 1 <= H.

(** Two segments, the second of three blocks with a budget of two or
    more: query block 1 gets the single legal block of the segment,
    broadcast; then query block 2 finds two blocks for a budget above
    two, or the first row of the segment itself finds none. *)
Lemma with_head_split_three : forall A n0 n1 g,
  5 <= A -> m / bs = A + 3 ->
  0 <= n0 -> n0 <= A - 5 -> 2 <= n1 ->
  _bigbird_block_rand_mask_with_head G m m bs bs H [A * bs; m] [n0; n1]
    1 1 1 1 1 1 g = Raise ValueError.
Proof.
  intros A n0 n1 g HA HB Hn0 Hn0A Hn1. set (B := m / bs) in *.
  assert (HneA : A * bs <> m).
  { assert (bs * (m / bs) <= m) by (apply Z.mul_div_le; lia).
    subst B. nia. }
  unfold _bigbird_block_rand_mask_with_head.
  rewrite floordiv_Ok by lia.
  rewrite bind_lift_Ok; cbv beta. rewrite bind_lift_Ok; cbv beta.
  fold B. rewrite Z.eqb_refl, mem_second.
  rewrite (index_of_second _ _ HneA), bind_lift_Ok; cbv beta.
  assert (Epbl : map (fun x => x / bs) [A * bs; m] = [A; B])
    by (simpl; rewrite Z.div_mul by lia; reflexivity).
  rewrite Epbl. change (1 + 1) with 2.
  assert (Es1 : Py.sum (Py.slice_to [n0; n1] 1) = n0)
    by (unfold Py.sum, Py.slice_to, Py.slice; simpl; lia).
  assert (Es2 : Py.sum (Py.slice_to [n0; n1] 2) = n0 + n1)
    by (unfold Py.sum, Py.slice_to, Py.slice; simpl; lia).
  rewrite Es2. rewrite zeros_run by lia.
  rewrite (bind_run _ _ _ _ _ _ _ _ (comprehension_run G _ _ _ _ _)).
  pose proof (zeros_rows B H (n0 + n1) (fun _ => False) (fun _ _ => True)
                ltac:(lia) ltac:(lia) ltac:(lia) (fun _ F => F)) as HR0.
  change (Py.range 0 2) with [0; 1]. cbn [for_each].
  change (0 >? 0) with false. change (1 >? 0) with true. cbv iota.
  destruct (fill_own_first_run G B H (Z.to_nat (n0 + n1)) (fun _ => False)
              (fun _ _ => True) [A; B] [n0; n1] n0 A _ g eq_refl eq_refl Es1 HR0)
    as (ra1 & g1 & Hrun1 & HR1).
  { intros Hnz.
    split; [lia|]. split; [lia|]. split; [lia|]. split; [lia|].
    intros; exact I. }
  apply (Rows_weaken B H _ _ (fun _ => False)) in HR1; [|intros k []].
  rewrite !bind_assoc. rewrite bind_ret. run_step Hrun1.
  rewrite HB in *.
  destruct (Z_le_gt_dec n1 2) as [Hle|Hgt].
  - destruct (extend_shape_run G (A + 3) H (Z.to_nat (n0 + n1)) [A; A + 3] [n0; n1]
                n0 n1 A (A + 3) ra1 g1 eq_refl eq_refl eq_refl Es1 Es2 HR1)
      as (ra2 & g2 & Hrun2 & HR2); try lia.
    { intros blk Hblk. rewrite (pool_three_before A blk HA Hblk).
      destruct ((blk =? 1) || (blk =? A - 1)); [right; reflexivity|left; simpl; lia]. }
    run_step Hrun2.
    destruct (cover_first_run G (A + 3) H (Z.to_nat (n0 + n1)) (fun _ => False)
                (fun _ _ => True) [A; A + 3] [n0; n1] n0 A (A + 3) ra2 g2
                eq_refl eq_refl eq_refl Es1 HR2)
      as (ra3 & g3 & Hrun3 & HR3).
    { intros Hnz.
      split; [lia|]. split; [lia|]. split; [lia|]. split; [lia|]. split; [lia|].
      intros; exact I. }
    apply (Rows_weaken (A + 3) H _ _ (fun _ => False)) in HR3; [|intros k []].
    run_step Hrun3.
    apply bind_raises.
    apply (fill_own_second_short G (A + 3) H (Z.to_nat (n0 + n1)) [A; A + 3] [n0; n1]
             n0 n1 A (A + 3) ra3 g3 eq_refl eq_refl eq_refl Es1 Es2 HR3); try lia.
    + rewrite pool_three_own by assumption. simpl. lia.
    + rewrite pool_three_own by assumption. discriminate.
  - apply bind_raises.
    apply (extend_short_second G (A + 3) H (Z.to_nat (n0 + n1)) [A; A + 3] [n0; n1]
             n0 n1 A (A + 3) ra1 g1 eq_refl eq_refl eq_refl Es1 Es2 HR1); try lia.
    + right. rewrite (pool_three_before A 1 HA) by lia. reflexivity.
    + rewrite (pool_three_before A 2 HA) by lia.
      destruct (Z.eqb_spec 2 (A - 1)); [lia|]. simpl. lia.
    + rewrite (pool_three_before A 2 HA) by lia.
      destruct (Z.eqb_spec 2 (A - 1)); [lia|]. simpl. discriminate.
Qed.

End ThreeBlockSegment.

(** X7: On a length other than 1024, 3072 and 4096 (the planned
    sampler), when the planner splits the budget
    ([r + 5 < B <= 2r + 5]) and the second segment leaves query block 1
    fewer legal blocks ([B - r - 7]) than its share [r - r // 2] of the
    budget, the adjacency sampling raises [ValueError]: at query block
    1, or, when that pool is a single block that numpy broadcasts
    ([B = r + 8]), at query block 2 or at the first row of the second
    segment. *)
Theorem split_plans_raise :
  forall (G : Generator) seed e h r bs batch m (g : gstate G),
  0 < bs -> 1 <= r -> 1 <= h ->
  Py.mem m [1024; 3072; 4096] = false ->
  r + 5 < m / bs <= 2 * r + 5 ->
  m / bs - r - 7 < r - r / 2 ->
  bigbird_rand_attn G seed e h r bs bs batch m m None g = Raise ValueError.
Proof.
  intros G seed e h r bs batch m g Hbs Hr Hh Hm HB Hlt.
  unfold bigbird_rand_attn.
  rewrite floordiv_Ok by lia.
  rewrite bind_lift_Ok; cbv beta. rewrite bind_lift_Ok; cbv beta.
  rewrite Z.eqb_refl, Hm.
  run_step (seed_run G seed e g).
  unfold _get_rand_attn_plan. rewrite floordiv_Ok by lia.
  destruct (Z.ltb_spec (2 * r + 5) (m / bs)); [lia|].
  destruct (Z.ltb_spec (r + 5) (m / bs)); [|lia].
  rewrite bind_lift_Ok. cbn [fst snd].
  apply bind_raises.
  assert (Hd0 : 0 <= r / 2) by (apply Z.div_pos; lia).
  assert (Hd1 : 2 * (r / 2) <= r) by (apply Z.mul_div_le; lia).
  destruct (Z.eq_dec (m / bs) (r + 8)) as [E8|N8].
  - apply (with_head_split_three G m bs h Hbs Hh (r + 5)); lia.
  - apply with_head_split_short; try assumption; lia.
Qed.

Lemma split_plans_raise_witness :
  bigbird_rand_attn rot_generator (Some 0) 0 2 2 64 64 1 512 512 None 0
    = Raise ValueError.
Proof.
  apply (split_plans_raise rot_generator (Some 0) 0 2 2 64 1 512 0);
    [lia | lia | lia | reflexivity | vm_compute; split; [reflexivity|discriminate]
    | vm_compute; reflexivity].
Defined.

Section MinimalSequences.
Variable G : Generator.
Variables m bs H r : Z.
Hypothesis bs_pos : 0 < bs.
Hypothesis r_nonneg : 0 <= r.
Hypothesis H_nonneg : 0 <= H.
Hypothesis fits : r <= m / bs - 5.

(** A single segment whose rows all find [r] legal blocks. *)
Lemma with_head_single_run : forall g,
  exists res g',
    _bigbird_block_rand_mask_with_head G m m bs bs H [m] [r] 1 1 1 1 1 1 g
      = Ok (res, g') /\
    length res = Z.to_nat H /\
    forall arr, In arr res ->
      length arr = Z.to_nat (m / bs - 2) /\
      forall k row, nth_error arr k = Some row ->
        length row = Z.to_nat r /\ NoDup row /\
        forall v, In v row ->
          In v (legal_pool (Z.of_nat k + 1) 0 (m / bs) 1 1 1 1).
Proof.
  intros g.
  set (B := m / bs) in *.
  set (Q := fun (k : Z) (row : list Z) =>
              NoDup row /\ forall v, In v row -> In v (legal_pool k 0 B 1 1 1 1)).
  unfold _bigbird_block_rand_mask_with_head.
  rewrite floordiv_Ok by lia.
  rewrite bind_lift_Ok; cbv beta. rewrite bind_lift_Ok; cbv beta.
  fold B. rewrite Z.eqb_refl, mem_head.
  assert (Eidx : Py.index_of m [m] = Ok 0)
    by (simpl; rewrite Z.eqb_refl; reflexivity).
  rewrite Eidx, bind_lift_Ok; cbv beta.
  change (map (fun x => x / bs) [m]) with [B].
  change (0 + 1) with 1.
  assert (Es : Py.sum (Py.slice_to [r] 1) = r)
    by (unfold Py.sum, Py.slice_to, Py.slice; simpl; lia).
  rewrite Es. rewrite zeros_run by lia.
  rewrite (bind_run _ _ _ _ _ _ _ _ (comprehension_run G _ _ _ _ _)).
  pose proof (zeros_rows B H r (fun _ => False) Q ltac:(lia) H_nonneg r_nonneg
                (fun _ F => F)) as HR0.
  change (Py.range 0 1) with [0]. cbn [for_each].
  change (0 >? 0) with false. cbv iota.
  destruct (fill_own_first_run G B H (Z.to_nat r) (fun _ => False) Q
              [B] [r] r B _ g eq_refl eq_refl Es HR0)
    as (ra1 & g1 & Hrun1 & HR1).
  { intros Hr.
    split; [lia|]. split; [lia|]. split; [lia|]. split; [lia|].
    intros blk0 row sel _ Hlen Hnd Hsel Hin.
    change (Z.to_nat 0) with 0%nat. cbn [firstn app].
    rewrite skipn_all2 by (simpl; lia). rewrite app_nil_r.
    split; assumption. }
  rewrite !bind_assoc. rewrite bind_ret. run_step Hrun1.
  rewrite bind_ret.
  eexists. eexists. split; [reflexivity|].
  destruct HR1 as [L1 L2].
  split; [rewrite length_map; exact L1|].
  intros arr Harr. apply in_map_iff in Harr. destruct Harr as (arr0 & <- & Hin0).
  apply In_nth_error in Hin0. destruct Hin0 as [hd Hhd].
  destruct (L2 _ _ Hhd) as [HL Hrows].
  split; [apply slice_1_length; lia|].
  intros k row Hk. apply slice_1_nth in Hk.
  destruct (Hrows _ _ Hk) as [Hlen HW].
  split; [exact Hlen|].
  destruct (Z.eq_dec r 0) as [Hr0|Hr0].
  - destruct row; [|simpl in Hlen; lia]. split; [constructor|intros v []].
  - pose proof (nth_error_lt _ _ _ _ Hk) as Hlt.
    replace (Z.of_nat k + 1) with (Z.of_nat (S k)) by lia.
    apply HW. right. split; [exact Hr0|lia].
Qed.

End MinimalSequences.

(** X5: On a sequence of exactly [r + 5] blocks, of a length other than
    1024, 3072 and 4096 (the planned sampler), the adjacency sampling
    returns [batch, heads, B - 2, r] with pairwise distinct blocks in
    every row. *)
Theorem minimal_sequences_sample :
  forall (G : Generator) seed e h r bs batch m (g : gstate G),
  0 < bs -> 0 <= r -> 1 <= h -> 1 <= batch ->
  Py.mem m [1024; 3072; 4096] = false ->
  m / bs = r + 5 ->
  exists adj g',
    bigbird_rand_attn G seed e h r bs bs batch m m None g = Ok (adj, g') /\
    length adj = Z.to_nat batch /\
    forall ra, In ra adj ->
      length ra = Z.to_nat h /\
      forall arr, In arr ra ->
        length arr = Z.to_nat (m / bs - 2) /\
        forall row, In row arr -> length row = Z.to_nat r /\ NoDup row.
Proof.
  intros G seed e h r bs batch m g Hbs Hr Hh Hb Hm HB.
  unfold bigbird_rand_attn.
  rewrite floordiv_Ok by lia.
  rewrite bind_lift_Ok; cbv beta. rewrite bind_lift_Ok; cbv beta.
  rewrite Z.eqb_refl, Hm.
  run_step (seed_run G seed e g).
  unfold _get_rand_attn_plan. rewrite floordiv_Ok by lia.
  destruct (Z.ltb_spec (2 * r + 5) (m / bs)); [lia|].
  destruct (Z.ltb_spec (r + 5) (m / bs)); [lia|].
  rewrite bind_lift_Ok. cbn [fst snd].
  destruct (with_head_single_run G m bs h r Hbs Hr ltac:(lia) ltac:(lia)
              (seed_state G (match seed with Some s => s | None => e end)))
    as (res & g1 & Hrun & Hlen & Hres).
  run_step Hrun.
  rewrite np_stack_run by lia. rewrite bind_lift_Ok.
  unfold lift. rewrite torch_cat_batch_run by assumption.
  eexists. eexists. split; [reflexivity|].
  split; [apply repeat_length|].
  intros ra Hra. apply repeat_spec in Hra. subst ra.
  split; [exact Hlen|].
  intros arr Harr. destruct (Hres arr Harr) as [HL Hrows]. split; [exact HL|].
  intros row Hrow. apply In_nth_error in Hrow. destruct Hrow as [k Hk].
  destruct (Hrows k row Hk) as (L & N & _). split; assumption.
Qed.

Lemma minimal_sequences_sample_witness :
  exists adj g',
    bigbird_rand_attn rot_generator (Some 3) 0 2 3 64 64 1 512 512 None 0
      = Ok (adj, g') /\
    length adj = Z.to_nat 1 /\
    forall ra, In ra adj ->
      length ra = Z.to_nat 2 /\
      forall arr, In arr ra ->
        length arr = Z.to_nat (512 / 64 - 2) /\
        forall row, In row arr -> length row = Z.to_nat 3 /\ NoDup row.
Proof.
  apply (minimal_sequences_sample rot_generator (Some 3) 0 2 3 64 1 512 0);
    [lia | lia | lia | lia | reflexivity | vm_compute; reflexivity].
Defined.

(** ** The old-plan sampler run forwards *)

Lemma slice_range_length : forall a b lo hi,
  0 <= lo -> 0 <= hi ->
  length (Py.slice (Py.range a b) lo hi) =
  Z.to_nat (Z.min (a + hi) b - (a + lo)).
Proof.
  intros a b lo hi Hlo Hhi. unfold Py.slice, Py.bound.
  destruct (Z.ltb_spec lo 0); [lia|]. destruct (Z.ltb_spec hi 0); [lia|].
  rewrite length_firstn, length_skipn, range_length. lia.
Qed.

Lemma NoDup_slice : forall (A : Type) (l : list A) lo hi,
  NoDup l -> NoDup (Py.slice l lo hi).
Proof.
  intros A l lo hi H. unfold Py.slice.
  set (n := Z.to_nat (Py.bound (Z.of_nat (length l)) lo)).
  set (k := Z.to_nat (Py.bound (Z.of_nat (length l)) hi - Py.bound (Z.of_nat (length l)) lo)).
  rewrite <- (firstn_skipn n l) in H. apply NoDup_app_remove_l in H.
  rewrite <- (firstn_skipn k (skipn n l)) in H. now apply NoDup_app_remove_r in H.
Qed.

Lemma NoDup_append : forall (A : Type) (l1 l2 : list A),
  NoDup l1 -> NoDup l2 -> (forall x, In x l1 -> In x l2 -> False) ->
  NoDup (l1 ++ l2).
Proof.
  intros A l1 l2 H1 H2 Hd. induction l1 as [|a l1 IH]; [exact H2|].
  inversion H1; subst. simpl. constructor.
  - rewrite in_app_iff. intros [Hi|Hi]; [contradiction|].
    apply (Hd a); [now left|exact Hi].
  - apply IH; [assumption|]. intros x Hx. apply Hd. now right.
Qed.

Section OldPoolSize.
Variable bs : Z.
Hypothesis bs_pos : 0 < bs.
Hypothesis bs_small : bs < 512.

(** Under the clamp every pool is duplicate free and holds at least
    [1024 // bs - 4] blocks. *)
Lemma old_pool_size : forall i,
  1 <= i <= max_seqlen / bs - 2 ->
  NoDup (old_pool (Py.range 1 (max_seqlen / bs - 1)) (1024 / bs - 1)
           (max_seqlen / bs) i) /\
  1024 / bs - 4 <=
  Z.of_nat (length (old_pool (Py.range 1 (max_seqlen / bs - 1)) (1024 / bs - 1)
                      (max_seqlen / bs) i)).
Proof.
  intros i Hi. destruct (clamp_bounds bs bs_pos bs_small) as [HL HN].
  set (N := max_seqlen / bs) in *. set (L := 1024 / bs - 1) in *.
  unfold old_pool.
  destruct (Z.eqb_spec i 1).
  { split; [apply NoDup_slice, range_NoDup|].
    rewrite slice_range_length by lia. lia. }
  destruct (Z.eqb_spec i 2).
  { split; [apply NoDup_slice, range_NoDup|].
    rewrite slice_range_length by lia. lia. }
  destruct (Z.eqb_spec i (N - 3)).
  { split; [apply NoDup_slice, range_NoDup|].
    unfold Py.slice_to. rewrite slice_range_length by lia. lia. }
  destruct (Z.eqb_spec i (N - 2)).
  { split; [apply NoDup_slice, range_NoDup|].
    unfold Py.slice_to. rewrite slice_range_length by lia. lia. }
  destruct (Z.gtb_spec (i - 2) L).
  { split; [apply NoDup_slice, range_NoDup|].
    unfold Py.slice_to. rewrite slice_range_length by lia. lia. }
  destruct (Z.eqb_spec (i + 1) L).
  { split; [apply NoDup_slice, range_NoDup|].
    unfold Py.slice_to. rewrite slice_range_length by lia. lia. }
  split.
  - apply NoDup_append; try (apply NoDup_slice, range_NoDup).
    intros x H1 H2. apply In_slice_to_range in H1; [|lia].
    apply In_slice_range in H2; lia.
  - rewrite length_app. unfold Py.slice_to.
    rewrite !slice_range_length by lia. lia.
Qed.

End OldPoolSize.

Lemma perm_run : forall (G : Generator) l (g : gstate G),
  exists p g', np_random_permutation G l g = Ok (p, g') /\ Permutation l p.
Proof.
  intros G l g. unfold np_random_permutation.
  pose proof (permutation_perm G l g) as HP.
  destruct (permutation G l g) as [p g']. exists p, g'. split; [reflexivity|exact HP].
Qed.

Lemma assign_row_run : forall arr i src row,
  nth_error arr (Z.to_nat i) = Some row -> 0 <= i ->
  length src = length row ->
  assign_row arr i src =
  Ok (firstn (Z.to_nat i) arr ++ src :: skipn (S (Z.to_nat i)) arr).
Proof.
  intros arr i src row Hrow Hi Hlen. unfold assign_row.
  rewrite (index_run _ _ _ _ Hi Hrow).
  pose proof (assign_row_slice_run arr i 0 (Z.of_nat (length row)) src row Hrow Hi
                (Z.le_refl 0) ltac:(lia) ltac:(lia) ltac:(lia)) as E.
  change (0 + Z.of_nat (length row)) with (Z.of_nat (length row)) in E.
  rewrite E. change (Z.to_nat 0) with 0%nat. cbn [firstn app].
  rewrite skipn_all2 by lia. now rewrite app_nil_r.
Qed.

(** With a budget of at most [1024 // bs - 4] blocks the old-plan
    routine fills its [4096 // bs - 2] rows, each with [r] distinct
    blocks. *)
Lemma old_mask_run : forall (G : Generator) bs r (g : gstate G),
  0 < bs -> bs < 512 -> 0 <= r <= 1024 / bs - 4 ->
  exists arr g',
    _bigbird_block_rand_mask G max_seqlen max_seqlen bs bs r 1024 g = Ok (arr, g') /\
    length arr = Z.to_nat (max_seqlen / bs - 2) /\
    forall row, In row arr -> length row = Z.to_nat r /\ NoDup row.
Proof.
  intros G bs r g Hbs Hsm Hr.
  destruct (clamp_bounds bs Hbs Hsm) as [HL HN].
  unfold _bigbird_block_rand_mask.
  rewrite floordiv_Ok by lia.
  rewrite bind_lift_Ok; cbv beta. rewrite bind_lift_Ok; cbv beta.
  rewrite Z.eqb_refl. rewrite zeros_run by lia. rewrite bind_lift_Ok.
  rewrite (clamp_last bs Hsm).
  set (N := max_seqlen / bs) in *.
  set (pool := old_pool (Py.range 1 (N - 1)) (1024 / bs - 1) N).
  set (P := fun (done : list Z) (a : list (list Z)) =>
              length a = Z.to_nat (N - 2) /\
              forall k row, nth_error a k = Some row ->
                length row = Z.to_nat r /\
                (In (Z.of_nat k + 1) done -> NoDup row)).
  lazymatch goal with
  | |- context [for_each ?l ?b ?s ?g0] =>
      destruct (for_each_run G _ _ (fun i => 1 <= i < N - 1) P b l [] s g0)
        as (arr & g' & Hrun & HP)
  end.
  - apply range_Forall.
  - split; [apply repeat_length|].
    intros k row Hk. apply nth_error_In, repeat_spec in Hk. subst row.
    split; [apply repeat_length|intros []].
  - intros done i s g0 Hi [P1 P2]. cbv beta.
    destruct (perm_run G (pool i) g0) as (p & g1 & Hp & Hperm).
    rewrite (bind_run _ _ _ _ _ _ _ _ Hp).
    destruct (old_pool_size bs Hbs Hsm i ltac:(fold N; lia)) as [Hnd Hsz].
    fold N in Hnd, Hsz. fold pool in Hnd, Hsz.
    assert (Hrow : exists row, nth_error s (Z.to_nat (i - 1)) = Some row).
    { destruct (nth_error s (Z.to_nat (i - 1))) eqn:E; [eauto|].
      apply nth_error_None in E. lia. }
    destruct Hrow as [row Hrow].
    destruct (P2 _ _ Hrow) as [Hrl _].
    assert (Hsl : Py.slice_to p r = firstn (Z.to_nat r) p)
      by (apply slice_to_firstn; lia).
    assert (Hlen : length (Py.slice_to p r) = length row).
    { rewrite Hsl, length_firstn, Hrl.
      rewrite <- (Permutation_length Hperm). lia. }
    unfold lift. rewrite (assign_row_run _ _ _ _ Hrow ltac:(lia) Hlen).
    eexists. eexists. split; [reflexivity|].
    pose proof (nth_error_lt _ _ _ _ Hrow) as Hlt.
    split; [rewrite length_replace by assumption; exact P1|].
    intros k row0 Hk. rewrite nth_error_replace in Hk by assumption.
    destruct (Nat.eqb_spec k (Z.to_nat (i - 1))) as [->|Hne].
    + inversion Hk; subst row0; clear Hk.
      split; [congruence|]. intros _. rewrite Hsl.
      assert (Hndp : NoDup p) by (eapply Permutation_NoDup; eauto).
      rewrite <- (firstn_skipn (Z.to_nat r) p) in Hndp.
      now apply NoDup_app_remove_r in Hndp.
    + destruct (P2 _ _ Hk) as [L1 L2]. split; [exact L1|].
      intros Hin. apply in_app_or in Hin.
      destruct Hin as [Hin|[Hin|[]]]; [auto|lia].
  - exists arr, g'. split; [exact Hrun|].
    destruct HP as [P1 P2]. split; [exact P1|].
    intros row Hrow. apply In_nth_error in Hrow. destruct Hrow as [k Hk].
    destruct (P2 _ _ Hk) as [L1 L2]. split; [exact L1|].
    apply L2. simpl. apply range_In.
    pose proof (nth_error_lt _ _ _ _ Hk). lia.
Qed.

Lemma comprehension_all : forall (G : Generator) (A B : Type) (P : B -> Prop)
    (e : A -> M G B) l g,
  (forall a g, exists b g', e a g = Ok (b, g') /\ P b) ->
  exists bs g', comprehension l e g = Ok (bs, g') /\
    length bs = length l /\ forall b, In b bs -> P b.
Proof.
  intros G A B P e l. induction l as [|a l IH]; intros g He.
  - exists [], g. split; [reflexivity|]. split; [reflexivity|intros b []].
  - destruct (He a g) as (b & g1 & Hb & HPb).
    destruct (IH g1 He) as (bs & g2 & Hbs & Hlen & HPbs).
    exists (b :: bs), g2. split.
    + cbn [comprehension]. rewrite (bind_run _ _ _ _ _ _ _ _ Hb).
      rewrite (bind_run _ _ _ _ _ _ _ _ Hbs). reflexivity.
    + split; [simpl; now rewrite Hlen|].
      intros b0 [<-|Hin]; auto.
Qed.

(** X8: On the old sequence lengths, with a block size below 512 and a
    budget of at most [1024 // bs - 4] random blocks, the adjacency
    sampling always returns [batch, heads, B - 2, r] with pairwise
    distinct blocks in every row. *)
Theorem old_lengths_always_sample :
  forall (G : Generator) seed e h r bs batch m plan (g : gstate G),
  In m [1024; 3072; 4096] ->
  0 < bs -> bs < 512 -> 0 <= r <= 1024 / bs - 4 -> 1 <= h -> 1 <= batch ->
  exists adj g',
    bigbird_rand_attn G seed e h r bs bs batch m m plan g = Ok (adj, g') /\
    length adj = Z.to_nat batch /\
    forall ra, In ra adj ->
      length ra = Z.to_nat h /\
      forall arr, In arr ra ->
        length arr = Z.to_nat (m / bs - 2) /\
        forall row, In row arr -> length row = Z.to_nat r /\ NoDup row.
Proof.
  intros G seed e h r bs batch m plan g Hm Hbs Hsm Hr Hh Hb.
  assert (Hmem : Py.mem m [1024; 3072; 4096] = true) by (now apply mem_In).
  rewrite (rand_attn_old_path G seed e h r bs batch m plan g ltac:(lia) Hmem).
  unfold old_plan_rand_attn.
  run_step (seed_run G seed e g).
  assert (Hrange : 1024 <= m <= 4096) by (simpl in Hm; lia).
  assert (Hq0 : 0 <= m / bs - 2).
  { assert (2 <= 1024 / bs) by (apply Z.div_le_lower_bound; lia).
    assert (1024 / bs <= m / bs) by (apply Z.div_le_mono; lia). lia. }
  assert (Hdiv : m / bs <= max_seqlen / bs)
    by (apply Z.div_le_mono; unfold max_seqlen; lia).
  set (good := fun a : list (list Z) =>
     length a = Z.to_nat (m / bs - 2) /\
     forall row, In row a -> length row = Z.to_nat r /\ NoDup row).
  lazymatch goal with
  | |- context [comprehension ?l ?b] =>
      destruct (comprehension_all G _ _ good b l
                  (seed_state G (match seed with Some s => s | None => e end)))
        as (ra & g1 & Hra & Hlen & Hgood)
  end.
  { intros _ g0. cbv beta.
    destruct (old_mask_run G bs r g0 Hbs Hsm Hr) as (arr & g2 & Harr & HL & Hrows).
    rewrite (bind_run _ _ _ _ _ _ _ _ Harr).
    eexists. eexists. split; [reflexivity|].
    rewrite slice_to_firstn by assumption. split.
    - rewrite length_firstn. lia.
    - intros row Hrow. apply Hrows. eapply In_firstn; exact Hrow. }
  run_step Hra.
  rewrite range_length in Hlen.
  rewrite np_stack_run by lia. rewrite bind_lift_Ok.
  unfold lift. rewrite torch_cat_batch_run by assumption.
  eexists. eexists. split; [reflexivity|].
  split; [apply repeat_length|].
  intros ra0 Hra0. apply repeat_spec in Hra0. subst ra0.
  split; [rewrite Hlen; f_equal; lia|].
  intros arr Harr. apply (Hgood arr Harr).
Qed.

Lemma old_lengths_always_sample_witness :
  exists adj g',
    bigbird_rand_attn rot_generator (Some 5) 0 2 3 64 64 1 1024 1024 None 0
      = Ok (adj, g') /\
    length adj = Z.to_nat 1 /\
    forall ra, In ra adj ->
      length ra = Z.to_nat 2 /\
      forall arr, In arr ra ->
        length arr = Z.to_nat (1024 / 64 - 2) /\
        forall row, In row arr -> length row = Z.to_nat 3 /\ NoDup row.
Proof.
  apply (old_lengths_always_sample rot_generator (Some 5) 0 2 3 64 1 1024 None 0);
    [simpl; auto | lia | lia | vm_compute; split; discriminate | lia | lia].
Defined.

(** With the largest budget that the old plan can serve at sequence
    length 1024, the row of query block 2 is its whole pool, the
    blocks 4 to [B - 1]. *)
Lemma old_mask_second_row : forall (G : Generator) bs (g : gstate G),
  0 < bs -> 1 <= 1024 / bs - 4 ->
  exists arr g',
    _bigbird_block_rand_mask G max_seqlen max_seqlen bs bs (1024 / bs - 4) 1024 g
      = Ok (arr, g') /\
    exists row, nth_error arr 1 = Some row /\ In (1024 / bs - 1) row.
Proof.
  intros G bs g Hbs Hr.
  assert (Hsm : bs < 512).
  { destruct (Z_lt_ge_dec bs 512) as [|Hge]; [assumption|].
    assert (1024 / bs <= 1024 / 512) by (apply Z.div_le_compat_l; lia).
    change (1024 / 512) with 2 in *. lia. }
  destruct (clamp_bounds bs Hbs Hsm) as [HL HN].
  destruct (old_mask_run G bs (1024 / bs - 4) g Hbs Hsm ltac:(lia))
    as (arr & g' & Hrun & Hlen & Hrows).
  exists arr, g'. split; [exact Hrun|].
  assert (Hrow : exists row, nth_error arr 1 = Some row).
  { destruct (nth_error arr 1) eqn:E; [eauto|].
    apply nth_error_None in E. lia. }
  destruct Hrow as [row Hrow]. exists row. split; [exact Hrow|].
  destruct (Hrows row (nth_error_In _ _ Hrow)) as [Hrl Hnd].
  pose proof (old_mask_rows G _ _ _ _ _ _ _ _ _ Hrun) as Hcells.
  cbv zeta in Hcells. rewrite (clamp_last bs Hsm) in Hcells.
  set (pool := old_pool (Py.range 1 (max_seqlen / bs - 1)) (1024 / bs - 1)
                 (max_seqlen / bs) 2) in *.
  assert (Epool : pool = Py.slice (Py.range 1 (max_seqlen / bs - 1)) 3 (1024 / bs - 1))
    by reflexivity.
  assert (Hincl : incl row pool).
  { intros v Hv. apply In_nth_error in Hv. destruct Hv as [j Hj].
    apply (Hcells 2 j v); [lia|].
    unfold cell2. change (Z.to_nat (2 - 1)) with 1%nat. rewrite Hrow. exact Hj. }
  assert (Hpl : length pool = Z.to_nat (1024 / bs - 4)).
  { rewrite Epool, slice_range_length by lia. f_equal. lia. }
  assert (Hrev : incl pool row)
    by (apply (NoDup_length_incl Hnd); [lia|exact Hincl]).
  apply Hrev. rewrite Epool. apply In_slice_range; lia.
Qed.

(** C1: the old-plan routine breaks the exclusion, whatever the seed.
    At sequence length 1024 it draws from the blocks up to
    [1024 // block_size - 1], the last block [B - 1] of the sequence;
    with [num_rand_blocks = B - 4] the row of query block 2 is a
    permutation of its whole pool, the blocks 4 to [B - 1], so for
    every generator state, seed, head and batch element the sampling
    returns and that row holds the last block, which the claim
    excludes. *)
Theorem old_plan_row_holds_last_block :
  forall (G : Generator) seed e h bs batch plan (g : gstate G),
  0 < bs -> 1 <= 1024 / bs - 4 -> 1 <= h -> 1 <= batch ->
  exists adj g',
    bigbird_rand_attn G seed e h (1024 / bs - 4) bs bs batch 1024 1024 plan g
      = Ok (adj, g') /\
    adj <> [] /\
    forall ra, In ra adj -> ra <> [] /\
      forall arr, In arr ra ->
        exists row, nth_error arr 1 = Some row /\
                    In (1024 / bs - 1) row /\
                    ~ outside_window_and_globals (1024 / bs) 2 (1024 / bs - 1).
Proof.
  intros G seed e h bs batch plan g Hbs Hr Hh Hb.
  rewrite (rand_attn_old_path G seed e h _ bs batch 1024 plan g ltac:(lia) eq_refl).
  unfold old_plan_rand_attn.
  run_step (seed_run G seed e g).
  set (good := fun a : list (list Z) =>
     exists row, nth_error a 1 = Some row /\ In (1024 / bs - 1) row).
  lazymatch goal with
  | |- context [comprehension ?l ?b] =>
      destruct (comprehension_all G _ _ good b l
                  (seed_state G (match seed with Some s => s | None => e end)))
        as (ra & g1 & Hra & Hlen & Hgood)
  end.
  { intros _ g0. cbv beta.
    destruct (old_mask_second_row G bs g0 Hbs Hr)
      as (arr & g2 & Harr & row & Hrow & Hin).
    rewrite (bind_run _ _ _ _ _ _ _ _ Harr).
    eexists. eexists. split; [reflexivity|].
    exists row. split; [|exact Hin].
    rewrite slice_to_firstn by lia.
    rewrite nth_error_firstn.
    destruct (Nat.ltb_spec 1 (Z.to_nat (1024 / bs - 2))); [exact Hrow|lia]. }
  run_step Hra.
  rewrite range_length in Hlen.
  rewrite np_stack_run by lia. rewrite bind_lift_Ok.
  unfold lift. rewrite torch_cat_batch_run by assumption.
  eexists. eexists. split; [reflexivity|].
  split; [destruct (Z.to_nat batch) eqn:E; [lia|discriminate]|].
  intros ra0 Hra0. apply repeat_spec in Hra0. subst ra0.
  split; [destruct ra; [simpl in Hlen; lia|discriminate]|].
  intros arr Harr. destruct (Hgood arr Harr) as (row & Hrow & Hin).
  exists row. split; [exact Hrow|]. split; [exact Hin|].
  unfold outside_window_and_globals. lia.
Qed.

Lemma old_plan_row_holds_last_block_witness :
  exists adj g',
    bigbird_rand_attn rot_generator (Some 0) 0 1 (1024 / 64 - 4) 64 64 1
      1024 1024 None 0 = Ok (adj, g') /\
    adj <> [] /\
    forall ra, In ra adj -> ra <> [] /\
      forall arr, In arr ra ->
        exists row, nth_error arr 1 = Some row /\
                    In (1024 / 64 - 1) row /\
                    ~ outside_window_and_globals (1024 / 64) 2 (1024 / 64 - 1).
Proof.
  apply (old_plan_row_holds_last_block rot_generator (Some 0) 0 1 64 1 None 0);
    first [lia | vm_compute; intro; discriminate].
Defined.

(** ** What every plan of the planner satisfies *)

(** X1: Whatever the sequence, the plan has as many budgets as lengths, its
    budgets add up to [num_rand_blocks], none of them is negative or
    above it, its last length is the sequence length, and its lengths
    in blocks increase strictly and end at the number of blocks. *)
Theorem plan_budgets_add_up : forall seq_len block_size r,
  0 < block_size -> 0 <= r ->
  exists plan_from_length plan_num_rand_blocks,
    _get_rand_attn_plan seq_len block_size r
      = Ok (plan_from_length, plan_num_rand_blocks) /\
    length plan_from_length = length plan_num_rand_blocks /\
    Py.sum plan_num_rand_blocks = r /\
    Forall (fun n => 0 <= n <= r) plan_num_rand_blocks /\
    Py.index plan_from_length (-1) = Ok seq_len /\
    Py.mem seq_len plan_from_length = true /\
    forall i j a b, (i < j)%nat ->
      nth_error plan_from_length i = Some a ->
      nth_error plan_from_length j = Some b ->
      a / block_size < b / block_size.
Proof.
  intros m bs r Hbs Hr. unfold _get_rand_attn_plan.
  rewrite floordiv_Ok by lia.
  assert (Hd0 : 0 <= r / 2) by (apply Z.div_pos; lia).
  assert (Hd1 : 2 * (r / 2) <= r) by (apply Z.mul_div_le; lia).
  destruct (Z.ltb_spec (2 * r + 5) (m / bs)) as [HA|HA].
  - eexists. eexists. split; [reflexivity|].
    split; [reflexivity|]. split; [simpl; lia|].
    split; [repeat constructor; lia|].
    split; [reflexivity|]. split; [apply mem_second|].
    intros i j a b Hij Hi Hj.
    destruct i as [|i]; [|destruct j as [|[|j]]; [lia|lia|destruct j; discriminate]].
    destruct j as [|[|j]]; [lia| |destruct j; discriminate].
    simpl in Hi, Hj. inversion Hi; inversion Hj; subst.
    rewrite Z.div_mul by lia. exact HA.
  - destruct (Z.ltb_spec (r + 5) (m / bs)) as [HB|HB].
    + eexists. eexists. split; [reflexivity|].
      split; [reflexivity|]. split; [simpl; lia|].
      split; [repeat constructor; lia|].
      split; [reflexivity|]. split; [apply mem_second|].
      intros i j a b Hij Hi Hj.
      destruct i as [|i]; [|destruct j as [|[|j]]; [lia|lia|destruct j; discriminate]].
      destruct j as [|[|j]]; [lia| |destruct j; discriminate].
      simpl in Hi, Hj. inversion Hi; inversion Hj; subst.
      rewrite Z.div_mul by lia. exact HB.
    + eexists. eexists. split; [reflexivity|].
      split; [reflexivity|]. split; [simpl; lia|].
      split; [repeat constructor; lia|].
      split; [reflexivity|]. split; [apply mem_head|].
      intros i j a b Hij Hi Hj.
      destruct j as [|j]; [lia|]. destruct j; discriminate.
Qed.

Lemma plan_budgets_add_up_witness :
  exists plan_from_length plan_num_rand_blocks,
    _get_rand_attn_plan 640 64 3 = Ok (plan_from_length, plan_num_rand_blocks) /\
    length plan_from_length = length plan_num_rand_blocks /\
    Py.sum plan_num_rand_blocks = 3 /\
    Forall (fun n => 0 <= n <= 3) plan_num_rand_blocks /\
    Py.index plan_from_length (-1) = Ok 640 /\
    Py.mem 640 plan_from_length = true /\
    forall i j a b, (i < j)%nat ->
      nth_error plan_from_length i = Some a ->
      nth_error plan_from_length j = Some b ->
      a / 64 < b / 64.
Proof.
  apply (plan_budgets_add_up 640 64 3); lia.
Defined.

(** ** The gatherer: when it returns and when it cannot *)

Lemma map_result_all : forall (A B : Type) (P : B -> Prop) (f : A -> result B) l,
  (forall a, In a l -> exists b, f a = Ok b /\ P b) ->
  exists bs, map_result f l = Ok bs /\ length bs = length l /\ Forall P bs.
Proof.
  intros A B P f l. induction l as [|a l IH]; intros H.
  - exists []. repeat split; constructor.
  - destruct (H a (or_introl eq_refl)) as (b & Hb & HPb).
    destruct IH as (bs & Hbs & Hlen & HF); [intros; apply H; now right|].
    exists (b :: bs). simpl. rewrite Hb, Hbs.
    repeat split; [simpl; now rewrite Hlen|constructor; assumption].
Qed.

Lemma index_in_range : forall (T : Type) (l : list T) i,
  0 <= i < Z.of_nat (length l) -> exists a, Py.index l i = Ok a /\ In a l.
Proof.
  intros T l i Hi.
  destruct (nth_error l (Z.to_nat i)) as [a|] eqn:E.
  - exists a. split; [apply index_run; [lia|exact E]|eapply nth_error_In; eauto].
  - apply nth_error_None in E. lia.
Qed.

Lemma index_select_run : forall (T : Type) (p : list (list T)) idx w,
  Forall (fun a => 0 <= a < Z.of_nat (length p)) idx ->
  Forall (fun blk => length blk = w) p ->
  exists sel, torch_index_select p idx = Ok sel /\
    length sel = length idx /\ Forall (fun blk => length blk = w) sel.
Proof.
  intros T p idx w Hidx Hp. unfold torch_index_select.
  apply map_result_all. intros a Ha.
  rewrite Forall_forall in Hidx, Hp.
  destruct (index_in_range _ p a (Hidx a Ha)) as (x & Hx & Hin).
  exists x. split; [exact Hx|apply Hp, Hin].
Qed.

Lemma torch_stack_run : forall (A : Type) (l : list A),
  (0 < length l)%nat -> torch_stack l = Ok l.
Proof. intros A l H. destruct l; [simpl in H; lia|reflexivity]. Qed.

Lemma concat_rows_length : forall (rows : list (list Z)) r,
  Forall (fun row => length row = r) rows ->
  length (concat rows) = (length rows * r)%nat.
Proof. intros rows r H. now apply concat_uniform_length. Qed.

Section GatherRuns.
Variable V : Type.
Variables bn hn nb w groups r : nat.

(** The shape [bn, hn, nb, w] of a blocked tensor. *)
Let blocked_shape (blocked : list (list (list (list V)))) : Prop :=
  length blocked = bn /\
  Forall (fun pb => length pb = hn /\
            Forall (fun blocks => length blocks = nb /\
                      Forall (fun blk => length blk = w) blocks) pb) blocked.

(** The shape [bn, hn, groups, r] of an adjacency whose entries are
    blocks of the tensor. *)
Let adjacency_shape (adj : list (list (list (list Z)))) : Prop :=
  length adj = bn /\
  Forall (fun ab => length ab = hn /\
            Forall (fun rows => length rows = groups /\
                      Forall (fun row => length row = r /\
                                Forall (fun a => 0 <= a < Z.of_nat nb) row) rows)
                   ab) adj.

Lemma gather_b2_run : forall blocked adj,
  blocked_shape blocked -> adjacency_shape adj ->
  (0 < bn)%nat -> (0 < hn)%nat ->
  exists g, torch_gather_b2 blocked adj = Ok g /\
    Forall (Forall (fun sel : list (list V) =>
                      length sel = (groups * r)%nat /\
                      Forall (fun blk => length blk = w) sel)) g /\
    Forall (fun gb => (0 < length gb)%nat) g /\ (0 < length g)%nat.
Proof.
  intros blocked adj [Hbl Hbs] [Hal Has] Hbn Hhn.
  unfold torch_gather_b2.
  assert (Hshape : shape2 blocked = shape2 adj).
  { unfold shape2. rewrite Hbl, Hal. f_equal.
    destruct blocked as [|pb blocked]; [simpl in Hbl; lia|].
    destruct adj as [|ab adj]; [simpl in Hal; lia|].
    inversion Hbs; subst. inversion Has; subst.
    destruct H1 as [-> _]. destruct H3 as [-> _]. reflexivity. }
  rewrite Hshape, !Nat.eqb_refl. cbn [andb].
  set (Psel := fun sel : list (list V) =>
                 length sel = (groups * r)%nat /\
                 Forall (fun blk => length blk = w) sel).
  rewrite Forall_forall in Hbs, Has.
  lazymatch goal with
  | |- context [map_result ?f (combine blocked adj)] =>
      destruct (map_result_all _ _
                  (fun gb => Forall Psel gb /\ (0 < length gb)%nat)
                  f (combine blocked adj)) as (out & Hout & Hlen & HF)
  end.
  - intros [p1 i1] Hin. cbn [fst snd].
    pose proof (in_combine_l _ _ _ _ Hin) as Hp1.
    pose proof (in_combine_r _ _ _ _ Hin) as Hi1.
    destruct (Hbs _ Hp1) as [Hph Hpb]. destruct (Has _ Hi1) as [Hih Hib].
    rewrite Forall_forall in Hpb, Hib.
    lazymatch goal with
    | |- context [map_result ?f (combine p1 i1)] =>
        destruct (map_result_all _ _ Psel f (combine p1 i1))
          as (inner & Hinner & Hlen & HF)
    end.
    + intros [p2 i2] Hin2. cbn [fst snd].
      pose proof (in_combine_l _ _ _ _ Hin2) as Hp2.
      pose proof (in_combine_r _ _ _ _ Hin2) as Hi2.
      destruct (Hpb _ Hp2) as [Hnb Hblk]. destruct (Hib _ Hi2) as [Hg Hrows].
      destruct (index_select_run V p2 (concat i2) w) as (sel & Hsel & Hl & Hw).
      * rewrite Hnb. apply Forall_concat.
        eapply Forall_impl; [|exact Hrows]. intros row [_ Hr]. exact Hr.
      * exact Hblk.
      * exists sel. split; [exact Hsel|]. split; [|exact Hw].
        rewrite Hl. rewrite (concat_rows_length i2 r).
        -- now rewrite Hg.
        -- eapply Forall_impl; [|exact Hrows]. intros row [Hr _]. exact Hr.
    + rewrite Hinner.
      assert (Hpos : (0 < length inner)%nat)
        by (rewrite Hlen, length_combine; lia).
      rewrite torch_stack_run by assumption.
      exists inner. split; [reflexivity|]. split; assumption.
  - rewrite Hout.
    assert (Hpos : (0 < length out)%nat)
      by (rewrite Hlen, length_combine; lia).
    rewrite torch_stack_run by assumption.
    exists out. split; [reflexivity|].
    split; [eapply Forall_impl; [|exact HF]; intros gb [H1 _]; exact H1|].
    split; [eapply Forall_impl; [|exact HF]; intros gb [_ H2]; exact H2|exact Hpos].
Qed.

(** The gather and the view return when the adjacency has the shape
    [bn, hn, groups, r], its entries are blocks of the tensor, and
    there is at least one random block per row. *)
Lemma gathered_run : forall blocked adj n wn rz,
  blocked_shape blocked -> adjacency_shape adj ->
  (0 < bn)%nat -> (0 < hn)%nat ->
  0 < wn -> Z.to_nat wn = w -> 0 < rz -> Z.to_nat rz = r ->
  0 < n / wn - 2 -> Z.to_nat (n / wn - 2) = groups ->
  exists g, gathered blocked adj n wn rz = Ok g.
Proof.
  intros blocked adj n wn rz Hb Ha Hbn Hhn Hwn Ew Hr Er Hg Eg.
  destruct (gather_b2_run blocked adj Hb Ha Hbn Hhn) as (g0 & Hg0 & HF & _).
  unfold gathered. rewrite Hg0. unfold view_groups.
  rewrite Forall_forall in HF.
  destruct (map_result_all _ _ (fun _ => True)
              (map_result
                 (fun blocks : list (list V) =>
                    let rows := concat blocks in
                    if (0 <? (n / wn - 2) * (rz * wn))
                       && (Z.of_nat (length rows) =? (n / wn - 2) * (rz * wn))
                    then Ok (chunks (Z.to_nat (n / wn - 2)) (Z.to_nat (rz * wn)) rows)
                    else Raise RuntimeError))
              g0) as (g & Hrun & _).
  - intros gb Hgb. specialize (HF gb Hgb). rewrite Forall_forall in HF.
    lazymatch goal with
    | |- exists b, map_result ?f gb = Ok b /\ True =>
        destruct (map_result_all _ _ (fun _ => True) f gb) as (x & Hx & _)
    end.
    + intros sel Hsel. destruct (HF sel Hsel) as [Hl Hw]. cbv zeta.
      rewrite (concat_uniform_length _ sel w Hw), Hl.
      destruct (Z.ltb_spec 0 ((n / wn - 2) * (rz * wn))); [|nia].
      destruct (Z.eqb_spec (Z.of_nat (groups * r * w))
                  ((n / wn - 2) * (rz * wn))) as [_|N]; [|nia].
      eexists. split; [reflexivity|exact I].
    + exists x. split; [exact Hx|exact I].
  - exists g. exact Hrun.
Qed.

End GatherRuns.

(** X10: Without a random block ([r = 0]) the view that follows the gather
    has nothing to infer its last dimension from: whenever the gather
    itself returns, the gathered tensor raises [RuntimeError]; the
    engine never gets past line 562 with [num_random_blocks = 0]. *)
Theorem zero_random_blocks_gather_raises :
  forall (V : Type) (blocked : list (list (list (list V))))
         (adj : list (list (list (list Z)))) n wn,
  is_ok (gathered blocked adj n wn 0) = false /\
  forall g, torch_gather_b2 blocked adj = Ok g ->
    gathered blocked adj n wn 0 = Raise RuntimeError.
Proof.
  intros V blocked adj n wn.
  assert (H : forall g, torch_gather_b2 blocked adj = Ok g ->
                gathered blocked adj n wn 0 = Raise RuntimeError).
  { intros g Hg. unfold gathered. rewrite Hg.
    unfold torch_gather_b2 in Hg.
    destruct (_ && _); [|discriminate].
    match type of Hg with
    | match map_result ?F ?L with _ => _ end = _ =>
        destruct (map_result F L) as [out|] eqn:Eout; [|discriminate]
    end.
    destruct out as [|gb out]; [discriminate|].
    inversion Hg; subst g; clear Hg.
    destruct (map_result_Ok _ _ _ _ _ Eout) as [_ Hn].
    destruct (Hn 0%nat gb eq_refl) as ([p1 i1] & _ & Hin).
    cbn [fst snd] in Hin.
    match type of Hin with
    | match map_result ?F ?L with _ => _ end = _ =>
        destruct (map_result F L) as [inner|] eqn:Einner; [|discriminate]
    end.
    destruct inner as [|sel inner]; [discriminate|].
    inversion Hin; subst gb; clear Hin.
    unfold view_groups. cbn [map_result].
    replace ((n / wn - 2) * (0 * wn)) with 0 by lia.
    change (0 <? 0) with false. cbn [andb]. reflexivity. }
  split; [|exact H].
  destruct (torch_gather_b2 blocked adj) as [g|e] eqn:Eg.
  - rewrite (H g eq_refl). reflexivity.
  - unfold gathered. rewrite Eg. reflexivity.
Qed.

(** X9: The sampler feeds the gatherer: on a sequence of more than
    [2r + 5] blocks, of a length other than 1024, 3072 and 4096 (the
    planned sampler), with at least one random block, the adjacency
    that the engine samples is a valid index map for every blocked
    key or value tensor of that sequence, and the gather with its
    view returns. *)
Theorem long_sequence_gather_returns :
  forall (G : Generator) (V : Type) seed e h r bs batch m (g : gstate G)
         (blocked : list (list (list (list V)))),
  0 < bs -> 1 <= r -> 1 <= h -> 1 <= batch ->
  Py.mem m [1024; 3072; 4096] = false ->
  2 * r + 5 < m / bs ->
  length blocked = Z.to_nat batch ->
  Forall (fun pb => length pb = Z.to_nat h /\
            Forall (fun blocks => length blocks = Z.to_nat (m / bs) /\
                      Forall (fun blk => length blk = Z.to_nat bs) blocks) pb)
         blocked ->
  exists adj g' gathered_key,
    bigbird_rand_attn G seed e h r bs bs batch m m None g = Ok (adj, g') /\
    gathered blocked adj m bs r = Ok gathered_key.
Proof.
  intros G V seed e h r bs batch m g blocked Hbs Hr Hh Hb Hm Hlong Hbl Hshape.
  destruct (long_sequence_run G seed e h r bs batch m g Hbs ltac:(lia) Hh Hb Hm Hlong)
    as (adj & g' & Hrun & Hlen & Hadj).
  exists adj, g'.
  destruct (gathered_run V (Z.to_nat batch) (Z.to_nat h) (Z.to_nat (m / bs))
              (Z.to_nat bs) (Z.to_nat (m / bs - 2)) (Z.to_nat r)
              blocked adj m bs r) as (gk & Hgk); try lia; try reflexivity.
  - split; assumption.
  - split; [exact Hlen|].
    apply Forall_forall. intros ra Hra. destruct (Hadj ra Hra) as [Hh' Harr].
    split; [exact Hh'|].
    apply Forall_forall. intros arr Ha. destruct (Harr arr Ha) as [HB Hrows].
    split; [exact HB|].
    apply Forall_forall. intros row Hrow.
    apply In_nth_error in Hrow. destruct Hrow as [k Hk].
    destruct (Hrows k row Hk) as (L & _ & Hin).
    split; [exact L|].
    apply Forall_forall. intros v Hv.
    pose proof (legal_pool_range _ _ _ _ (Hin v Hv)). lia.
  - exists gk. split; [exact Hrun|exact Hgk].
Qed.

Lemma long_sequence_gather_returns_witness :
  exists adj g' gathered_key,
    bigbird_rand_attn rot_generator (Some 1) 0 1 1 2 2 1 16 16 None 0
      = Ok (adj, g') /\
    gathered [[repeat [true; false] 8]] adj 16 2 1 = Ok gathered_key.
Proof.
  apply (long_sequence_gather_returns rot_generator bool (Some 1) 0 1 1 2 1 16 0
           [[repeat [true; false] 8]]);
    [lia | lia | lia | lia | reflexivity | vm_compute; reflexivity | reflexivity
    | repeat constructor].
Defined.

Lemma slice_neg_length : forall (A : Type) (l : list A) a hi,
  0 <= a -> hi < 0 ->
  length (Py.slice l a hi) = Z.to_nat (Z.of_nat (length l) + hi - a).
Proof.
  intros A l a hi Ha Hc. unfold Py.slice, Py.bound.
  destruct (Z.ltb_spec a 0); [lia|]. destruct (Z.ltb_spec hi 0); [|lia].
  rewrite length_firstn, length_skipn. lia.
Qed.

Lemma slice_neg_nth : forall (A : Type) (l : list A) a hi k,
  0 <= a -> hi < 0 ->
  Z.of_nat k < Z.of_nat (length l) + hi - a ->
  nth_error (Py.slice l a hi) k = nth_error l (Z.to_nat a + k).
Proof.
  intros A l a hi k Ha Hc Hk. unfold Py.slice, Py.bound.
  destruct (Z.ltb_spec a 0); [lia|]. destruct (Z.ltb_spec hi 0); [|lia].
  rewrite nth_error_firstn.
  match goal with |- context [Nat.ltb k ?n] => destruct (Nat.ltb_spec k n); [|lia] end.
  rewrite nth_error_skipn. f_equal. lia.
Qed.

Lemma map_result_pure : forall (A B : Type) (f : A -> B) l,
  map_result (fun a => Ok (f a)) l = Ok (map f l).
Proof. intros. now apply map_result_total. Qed.

Lemma einsum_pair_eq : forall (A B C : Type) (f : A -> B -> result C) l1 l2,
  length l1 = length l2 ->
  einsum_pair f l1 l2 = map_result (fun ab => f (fst ab) (snd ab)) (combine l1 l2).
Proof.
  intros A B C f l1 l2 H. unfold einsum_pair. now rewrite H, Nat.eqb_refl.
Qed.

Section BandMaskEntries.
Variable R : Type.
Variable mul : R -> R -> R.

(** The window bits of every interior block: row [l] joins the bits of
    the blocks [l + 1], [l + 2] and [l + 3]. *)
Lemma exp_blocked_to_pad_run : forall (tm : list (list R)),
  exists ex,
    exp_blocked_to_pad tm = Ok ex /\
    length ex = (length tm - 4)%nat /\
    forall l p s n,
      (l + 4 < length tm)%nat ->
      nth_error tm (l + 1) = Some p -> nth_error tm (l + 2) = Some s ->
      nth_error tm (l + 3) = Some n ->
      nth_error ex l = Some (p ++ s ++ n).
Proof.
  intros tm. unfold exp_blocked_to_pad, cat_rows.
  assert (L1 : length (Py.slice tm 1 (-3)) = (length tm - 4)%nat)
    by (rewrite (slice_neg_length _ tm 1 (-3)) by lia; lia).
  assert (L2 : length (Py.slice tm 2 (-2)) = (length tm - 4)%nat)
    by (rewrite (slice_neg_length _ tm 2 (-2)) by lia; lia).
  assert (L3 : length (Py.slice tm 3 (-1)) = (length tm - 4)%nat)
    by (rewrite (slice_neg_length _ tm 3 (-1)) by lia; lia).
  rewrite zip_with_checked_Ok by congruence.
  rewrite zip_with_checked_Ok
    by (rewrite length_map, length_combine, L1, L2, L3; lia).
  eexists. split; [reflexivity|]. split.
  - rewrite length_map, length_combine, length_map, length_combine, L1, L2, L3. lia.
  - intros l p s n Hlt Hp Hs Hn.
    assert (H1 : nth_error (Py.slice tm 1 (-3)) l = Some p).
    { rewrite (slice_neg_nth _ tm 1 (-3)) by lia.
      replace (Z.to_nat 1 + l)%nat with (l + 1)%nat by lia. exact Hp. }
    assert (H2 : nth_error (Py.slice tm 2 (-2)) l = Some s).
    { rewrite (slice_neg_nth _ tm 2 (-2)) by lia.
      replace (Z.to_nat 2 + l)%nat with (l + 2)%nat by lia. exact Hs. }
    assert (H3 : nth_error (Py.slice tm 3 (-1)) l = Some n).
    { rewrite (slice_neg_nth _ tm 3 (-1)) by lia.
      replace (Z.to_nat 3 + l)%nat with (l + 3)%nat by lia. exact Hn. }
    rewrite nth_error_map.
    rewrite (combine_nth_error _ _ _ _ l (p ++ s) n); [|
      rewrite nth_error_map, (combine_nth_error _ _ _ _ l p s H1 H2); reflexivity
      |exact H3].
    cbn [option_map fst snd]. now rewrite app_assoc.
Qed.

(** X11: The band mask of masks with the same batch and the same number of
    blocks: it is returned, and for every interior query block
    [i = l + 2] of every batch element its entry is the outer product
    of the validity of the rows of block [i] with the validity bits of
    the three window blocks [i - 1], [i], [i + 1], in this order.  The
    interior blocks are the blocks 2 to [B - 3]. *)
Theorem band_mask_is_window_outer_product :
  forall (fbm tbm : list (list (list R))),
  length fbm = length tbm ->
  (forall b fm tm, nth_error fbm b = Some fm -> nth_error tbm b = Some tm ->
     length fm = length tm) ->
  exists band,
    create_band_mask_from_inputs mul fbm tbm = Ok band /\
    length band = length tbm /\
    forall b fm tm, nth_error fbm b = Some fm -> nth_error tbm b = Some tm ->
      exists t,
        nth_error band b = Some [t] /\
        length t = (length tm - 4)%nat /\
        forall l fl p s n,
          (l + 4 < length tm)%nat ->
          nth_error fm (l + 2) = Some fl ->
          nth_error tm (l + 1) = Some p -> nth_error tm (l + 2) = Some s ->
          nth_error tm (l + 3) = Some n ->
          nth_error t l =
            Some (map (fun fq => map (fun x => mul fq x) (p ++ s ++ n)) fl).
Proof.
  intros fbm tbm Hlen Hblocks.
  unfold create_band_mask_from_inputs.
  destruct (map_result_all _ _
              (fun _ => True) (@exp_blocked_to_pad R) tbm) as (exs & Hexs & Lexs & _).
  { intros tm _. destruct (exp_blocked_to_pad_run tm) as (ex & Hex & _).
    exists ex. split; [exact Hex|exact I]. }
  rewrite Hexs.
  rewrite einsum_pair_eq by congruence.
  set (inner := fun fm em : list (list R) =>
                  einsum_pair
                    (fun fl el => Ok (map (fun fq => map (fun x => mul fq x) el) fl))
                    (Py.slice fm 2 (-2)) em).
  assert (Hinner : forall b fm tm ex,
            nth_error fbm b = Some fm -> nth_error tbm b = Some tm ->
            nth_error exs b = Some ex ->
            inner fm ex =
              Ok (map (fun ab : list R * list R =>
                         map (fun fq => map (fun x => mul fq x) (snd ab)) (fst ab))
                      (combine (Py.slice fm 2 (-2)) ex)) /\
            exp_blocked_to_pad tm = Ok ex).
  { intros b fm tm ex Hfm Htm Hex.
    destruct (map_result_nth _ _ _ _ _ _ _ Hexs Htm) as (ex' & Hex' & Hrun).
    assert (ex' = ex) by congruence. subst ex'.
    split; [|exact Hrun].
    destruct (exp_blocked_to_pad_run tm) as (ex0 & Hex0 & L0 & _).
    assert (ex0 = ex) by congruence. subst ex0.
    unfold inner. rewrite einsum_pair_eq.
    - apply map_result_pure.
    - rewrite (slice_neg_length _ fm 2 (-2)) by lia.
      rewrite (Hblocks _ _ _ Hfm Htm), L0. lia. }
  lazymatch goal with
  | |- context [map_result ?f (combine fbm exs)] =>
      destruct (map_result_all _ _ (fun _ => True) f (combine fbm exs))
        as (band & Hband & Lband & _)
  end.
  { intros [fm ex] Hin. apply In_nth_error in Hin. destruct Hin as [b Hb].
    apply nth_error_combine in Hb. destruct Hb as [Hfm Hex].
    assert (Htm : exists tm, nth_error tbm b = Some tm).
    { destruct (nth_error tbm b) eqn:E; [eauto|].
      apply nth_error_None in E. apply nth_error_lt in Hfm. lia. }
    destruct Htm as [tm Htm].
    destruct (Hinner b fm tm ex Hfm Htm Hex) as [Hrun _].
    cbn [fst snd]. unfold inner in Hrun. rewrite Hrun.
    eexists. split; [reflexivity|exact I]. }
  rewrite Hband. eexists. split; [reflexivity|].
  split; [rewrite length_map, Lband, length_combine; lia|].
  intros b fm tm Hfm Htm.
  assert (Hex : exists ex, nth_error exs b = Some ex).
  { destruct (nth_error exs b) eqn:E; [eauto|].
    apply nth_error_None in E. apply nth_error_lt in Htm. lia. }
  destruct Hex as [ex Hex].
  destruct (Hinner b fm tm ex Hfm Htm Hex) as [Hrun Hexrun].
  destruct (map_result_nth _ _ _ _ _ _ _ Hband (combine_nth_error _ _ _ _ _ _ _ Hfm Hex))
    as (t & Ht & Htrun).
  cbn [fst snd] in Htrun. unfold inner in Hrun. rewrite Hrun in Htrun.
  inversion Htrun; subst t; clear Htrun.
  eexists. split; [rewrite nth_error_map, Ht; reflexivity|].
  destruct (exp_blocked_to_pad_run tm) as (ex0 & Hex0 & L0 & Hrows).
  assert (ex0 = ex) by congruence. subst ex0.
  split.
  - rewrite length_map, length_combine, (slice_neg_length _ fm 2 (-2)) by lia.
    pose proof (Hblocks _ _ _ Hfm Htm). lia.
  - intros l fl p s n Hlt Hfl Hp Hs Hn.
    assert (H2 : nth_error (Py.slice fm 2 (-2)) l = Some fl).
    { pose proof (Hblocks _ _ _ Hfm Htm) as Hft.
      rewrite (slice_neg_nth _ fm 2 (-2)) by lia.
      replace (Z.to_nat 2 + l)%nat with (l + 2)%nat by lia. exact Hfl. }
    rewrite nth_error_map.
    rewrite (combine_nth_error _ _ _ _ l fl (p ++ s ++ n) H2 (Hrows l p s n Hlt Hp Hs Hn)).
    reflexivity.
Qed.

End BandMaskEntries.

Lemma band_mask_is_window_outer_product_witness :
  exists band,
    create_band_mask_from_inputs andb
      [[[true]; [true]; [false]; [true]; [true]]]
      [[[true]; [true]; [false]; [true]; [true]]] = Ok band /\
    length band = 1%nat /\
    forall b fm tm,
      nth_error [[[true]; [true]; [false]; [true]; [true]]] b = Some fm ->
      nth_error [[[true]; [true]; [false]; [true]; [true]]] b = Some tm ->
      exists t,
        nth_error band b = Some [t] /\
        length t = (length tm - 4)%nat /\
        forall l fl p s n,
          (l + 4 < length tm)%nat ->
          nth_error fm (l + 2) = Some fl ->
          nth_error tm (l + 1) = Some p -> nth_error tm (l + 2) = Some s ->
          nth_error tm (l + 3) = Some n ->
          nth_error t l =
            Some (map (fun fq => map (fun x => andb fq x) (p ++ s ++ n)) fl).
Proof.
  apply (band_mask_is_window_outer_product bool andb
           [[[true]; [true]; [false]; [true]; [true]]]
           [[[true]; [true]; [false]; [true]; [true]]]).
  - reflexivity.
  - intros b fm tm Hf Ht. congruence.
Defined.

Lemma concat_chunks : forall (A : Type) g k (l : list A),
  length l = (g * k)%nat -> concat (chunks g k l) = l.
Proof.
  intros A g k. induction g as [|g IH]; intros l Hl; simpl.
  - destruct l; [reflexivity|simpl in Hl; lia].
  - rewrite IH by (rewrite length_skipn; lia). apply firstn_skipn.
Qed.

Lemma chunks_concat : forall (A : Type) k (ls : list (list A)),
  Forall (fun x => length x = k) ls ->
  chunks (length ls) k (concat ls) = ls.
Proof.
  intros A k ls H. induction H as [|x ls Hx _ IH]; [reflexivity|].
  simpl. rewrite firstn_app_exact, skipn_app_exact by assumption.
  now rewrite IH.
Qed.

Lemma chunks_uniform : forall (A : Type) g k (l : list A),
  length l = (g * k)%nat ->
  length (chunks g k l) = g /\ Forall (fun x => length x = k) (chunks g k l).
Proof.
  intros A g k. induction g as [|g IH]; intros l Hl; simpl.
  - split; constructor.
  - destruct (IH (skipn k l)) as [H1 H2]; [rewrite length_skipn; lia|].
    split; [now rewrite H1|]. constructor; [|exact H2].
    rewrite length_firstn. lia.
Qed.

(** A column of a matrix whose rows all have that column. *)
Lemma column_spec : forall (A : Type) (t : list (list A)) h i,
  Forall (fun row => length row = h) t -> (i < h)%nat ->
  length (flat_map (fun row => match nth_error row i with
                               | Some x => [x] | None => [] end) t) = length t /\
  forall j, nth_error (flat_map (fun row => match nth_error row i with
                                            | Some x => [x] | None => [] end) t) j =
            match nth_error t j with
            | Some row => nth_error row i
            | None => None
            end.
Proof.
  intros A t h i H Hi. induction H as [|row t Hrow _ [IH1 IH2]].
  - split; [reflexivity|]. intros [|j]; reflexivity.
  - simpl. destruct (nth_error row i) as [x|] eqn:E.
    + split; [simpl; now rewrite IH1|].
      intros [|j]; simpl; [now rewrite E|apply IH2].
    + apply nth_error_None in E. lia.
Qed.

Lemma swap_axes_length : forall (A : Type) n (t : list (list A)),
  length (swap_axes n t) = n.
Proof. intros. unfold swap_axes. now rewrite length_map, length_seq. Qed.

Lemma swap_axes_uniform : forall (A : Type) h (t : list (list A)),
  Forall (fun row => length row = h) t ->
  Forall (fun col => length col = length t) (swap_axes h t).
Proof.
  intros A h t H. unfold swap_axes. apply Forall_forall. intros col Hcol.
  apply in_map_iff in Hcol. destruct Hcol as (i & <- & Hi).
  apply in_seq in Hi. apply (column_spec A t h i H). lia.
Qed.

Lemma swap_axes_entry : forall (A : Type) h (t : list (list A)) i j,
  Forall (fun row => length row = h) t -> (i < h)%nat ->
  match nth_error (swap_axes h t) i with
  | Some col => nth_error col j
  | None => None
  end = match nth_error t j with
        | Some row => nth_error row i
        | None => None
        end.
Proof.
  intros A h t i j H Hi. unfold swap_axes.
  rewrite nth_error_map, nth_error_seq.
  destruct (Nat.ltb_spec i h); [|lia]. cbn [option_map Nat.add].
  apply (column_spec A t h i H Hi).
Qed.

(** Exchanging the axes twice gives the matrix back. *)
Lemma swap_axes_involutive : forall (A : Type) h (t : list (list A)),
  Forall (fun row => length row = h) t ->
  swap_axes (length t) (swap_axes h t) = t.
Proof.
  intros A h t H.
  apply nth_error_ext. intros j.
  pose proof (swap_axes_uniform A h t H) as Hu.
  destruct (Nat.lt_ge_cases j (length t)) as [Hj|Hj].
  - destruct (nth_error t j) as [row|] eqn:Erow;
      [|apply nth_error_None in Erow; lia].
    unfold swap_axes at 1. rewrite nth_error_map, nth_error_seq.
    destruct (Nat.ltb_spec j (length t)); [|lia]. cbn [option_map Nat.add].
    f_equal. apply nth_error_ext. intros i.
    destruct (column_spec A (swap_axes h t) (length t) j Hu Hj) as [_ Hc].
    rewrite Hc.
    destruct (Nat.lt_ge_cases i h) as [Hi|Hi].
    + pose proof (swap_axes_entry A h t i j H Hi) as He.
      rewrite Erow in He. exact He.
    + rewrite Forall_forall in H.
      assert (Hl : length row = h) by (apply H; eapply nth_error_In; eauto).
      replace (nth_error row i) with (@None A)
        by (symmetry; apply nth_error_None; lia).
      replace (nth_error (swap_axes h t) i) with (@None (list A)); [reflexivity|].
      symmetry. apply nth_error_None. rewrite swap_axes_length. exact Hi.
  - replace (nth_error t j) with (@None (list A))
      by (symmetry; now apply nth_error_None).
    apply nth_error_None. now rewrite swap_axes_length.
Qed.

Section HeadsRoundTrip.
Variable R : Type.

Lemma view_heads_run : forall h d (row : list R),
  0 <= h -> 0 <= d -> Z.of_nat (length row) = h * d ->
  view_heads h d row = Ok (chunks (Z.to_nat h) (Z.to_nat d) row).
Proof.
  intros h d row Hh Hd Hl. unfold view_heads.
  destruct (Z.leb_spec 0 h); [|lia]. destruct (Z.leb_spec 0 d); [|lia].
  destruct (Z.eqb_spec (Z.of_nat (length row)) (h * d)); [reflexivity|lia].
Qed.

(** X12: Splitting the hidden dimension into heads and merging the heads
    again is the identity: on a non-empty tensor [batch, seq, h * d]
    the split returns, and the transpose and view that end the
    attention give the tensor back. *)
Theorem merge_after_split_is_identity :
  forall (x : list (list (list R))) batch seq h d,
  0 < batch -> 0 < seq -> 0 < h -> 0 < d ->
  Z.of_nat (length x) = batch ->
  Forall (fun xb => Z.of_nat (length xb) = seq /\
            Forall (fun row => Z.of_nat (length row) = h * d) xb) x ->
  exists t,
    transpose_for_scores h d x = Ok t /\
    merge_heads batch seq t = Ok x.
Proof.
  intros x batch seq h d Hb Hs Hh Hd Hx Hshape.
  rewrite Forall_forall in Hshape.
  set (split := fun xb : list (list R) =>
                  swap_axes (Z.to_nat h)
                    (map (chunks (Z.to_nat h) (Z.to_nat d)) xb)).
  assert (Hsplit : transpose_for_scores h d x = Ok (map split x)).
  { unfold transpose_for_scores. apply map_result_total. intros xb Hxb.
    destruct (Hshape xb Hxb) as [_ Hrows]. rewrite Forall_forall in Hrows.
    rewrite (map_result_total _ _ _ (chunks (Z.to_nat h) (Z.to_nat d))).
    - reflexivity.
    - intros row Hrow. apply view_heads_run; [lia|lia|]. now apply Hrows. }
  exists (map split x). split; [exact Hsplit|].
  unfold merge_heads. rewrite map_map.
  assert (Hback : forall xb, In xb x ->
            swap_axes (Z.to_nat seq) (split xb) =
            map (chunks (Z.to_nat h) (Z.to_nat d)) xb).
  { intros xb Hxb. destruct (Hshape xb Hxb) as [Hl Hrows].
    unfold split.
    replace (Z.to_nat seq)
      with (length (map (chunks (Z.to_nat h) (Z.to_nat d)) xb))
      by (rewrite length_map; lia).
    apply swap_axes_involutive.
    apply Forall_forall. intros v Hv. apply in_map_iff in Hv.
    destruct Hv as (row & <- & Hrow). rewrite Forall_forall in Hrows.
    apply chunks_uniform. specialize (Hrows row Hrow). nia. }
  rewrite (map_ext_in _ _ _ Hback).
  assert (Hflat : row_major (map (map (chunks (Z.to_nat h) (Z.to_nat d))) x) =
                  concat (map (@concat R) x)).
  { unfold row_major. rewrite map_map. f_equal.
    apply map_ext_in. intros xb Hxb. rewrite map_map. f_equal.
    rewrite <- (map_id xb) at 2. apply map_ext_in. intros row Hrow.
    destruct (Hshape xb Hxb) as [_ Hrows]. rewrite Forall_forall in Hrows.
    apply concat_chunks. specialize (Hrows row Hrow). nia. }
  rewrite Hflat.
  assert (Hxb : Forall (fun v => length v = (Z.to_nat seq * Z.to_nat (h * d))%nat)
                  (map (@concat R) x)).
  { apply Forall_forall. intros v Hv. apply in_map_iff in Hv.
    destruct Hv as (xb & <- & Hin). destruct (Hshape xb Hin) as [Hl Hrows].
    rewrite (concat_uniform_length _ xb (Z.to_nat (h * d))).
    - f_equal. lia.
    - eapply Forall_impl; [|exact Hrows]. intros row Hr. cbv beta in Hr. lia. }
  assert (Hlen : Z.of_nat (length (concat (map (@concat R) x))) =
                 batch * seq * (h * d)).
  { rewrite (concat_uniform_length _ _ _ Hxb), length_map. nia. }
  unfold view_3d.
  destruct (Z.ltb_spec 0 batch); [|lia]. destruct (Z.ltb_spec 0 seq); [|lia].
  cbn [andb]. cbv zeta. rewrite Hlen.
  replace (batch * seq * (h * d)) with ((h * d) * (batch * seq)) by lia.
  rewrite Z.mod_mul, Z.div_mul by nia. rewrite Z.eqb_refl.
  f_equal.
  replace (Z.to_nat batch) with (length (map (@concat R) x))
    by (rewrite length_map; lia).
  replace (Z.to_nat (seq * (h * d))) with (Z.to_nat seq * Z.to_nat (h * d))%nat
    by nia.
  rewrite (chunks_concat _ _ _ Hxb). rewrite map_map.
  rewrite <- (map_id x) at 2. apply map_ext_in. intros xb Hin.
  destruct (Hshape xb Hin) as [Hl Hrows].
  replace (Z.to_nat seq) with (length xb) by lia.
  apply chunks_concat.
  eapply Forall_impl; [|exact Hrows]. intros row Hr. cbv beta in Hr. lia.
Qed.

End HeadsRoundTrip.

Lemma merge_after_split_is_identity_witness :
  exists t,
    transpose_for_scores 2 2 [[[1; 2; 3; 4]; [5; 6; 7; 8]; [9; 10; 11; 12]]] = Ok t /\
    merge_heads 1 3 t = Ok [[[1; 2; 3; 4]; [5; 6; 7; 8]; [9; 10; 11; 12]]].
Proof.
  apply (merge_after_split_is_identity Z
           [[[1; 2; 3; 4]; [5; 6; 7; 8]; [9; 10; 11; 12]]] 1 3 2 2);
    [lia | lia | lia | lia | reflexivity | repeat constructor].
Defined.

Lemma sparse_init_fields : forall c seed self,
  BigBirdBlockSparseAttention_init c seed = Ok self ->
  self_seed self = seed /\ self_block_size self = block_size c /\
  self_num_random_blocks self = num_random_blocks c /\
  self_num_attention_heads self = num_attention_heads c.
Proof.
  intros c seed self H. unfold BigBirdBlockSparseAttention_init in H.
  destruct (Py.modulo _ _); [|discriminate].
  destruct (negb _); [discriminate|]. destruct (negb _); [discriminate|].
  inversion H. simpl. auto.
Qed.

Lemma sparse_layer_attention : forall config seed layer,
  attention_type config = "block_sparse"%string ->
  BigBirdLayer_init config seed = Ok layer ->
  exists self,
    attention layer = SparseAttention self /\
    BigBirdBlockSparseAttention_init (attention_config config) seed = Ok self.
Proof.
  intros config seed layer Ht H. unfold BigBirdLayer_init in H.
  destruct (BigBirdAttention_init config seed) as [att|] eqn:Eatt; [|discriminate].
  unfold BigBirdAttention_init in Eatt. rewrite Ht in Eatt.
  change (String.eqb "block_sparse" "original_full") with false in Eatt.
  change (String.eqb "block_sparse" "block_sparse") with true in Eatt.
  cbv iota in Eatt.
  destruct (BigBirdBlockSparseAttention_init (attention_config config) seed)
    as [self|] eqn:Eself; [|discriminate].
  inversion Eatt; subst att; clear Eatt.
  exists self. split; [|reflexivity].
  destruct (add_cross_attention config).
  - destruct (is_decoder config); [|discriminate].
    destruct (BigBirdAttention_init config None); inversion H; reflexivity.
  - inversion H; reflexivity.
Qed.

(** X13: Every layer of a block-sparse encoder holds a block-sparse engine
    seeded with the index of the layer, so the adjacency it samples,
    and what its [forward] returns, depend neither on the state of the
    global generator nor on the entropy of the system. *)
Theorem encoder_seeds_layers_by_index :
  forall config layers,
  attention_type config = "block_sparse"%string ->
  BigBirdEncoder_init config = Ok layers ->
  Z.of_nat (length layers) = Z.max 0 (num_hidden_layers config) /\
  forall i layer, nth_error layers i = Some layer ->
    exists self,
      attention layer = SparseAttention self /\
      self_seed self = Some (Z.of_nat i) /\
      forall (G : Generator) (Tensors Context : Type)
             (compute : Tensors -> list (list (list (list Z))) -> result Context)
             (inputs : Tensors) batch seqlen e1 e2 (g1 g2 : gstate G),
        returned (forward G compute self inputs batch seqlen e1 g1) =
        returned (forward G compute self inputs batch seqlen e2 g2).
Proof.
  intros config layers Ht H. unfold BigBirdEncoder_init in H.
  destruct (map_result_Ok _ _ _ _ _ H) as [HL Hn].
  split; [rewrite HL, range_length; lia|].
  intros i layer Hi.
  destruct (Hn _ _ Hi) as (idx & Hidx & Hlayer).
  assert (Hlt : (i < length (Py.range 0 (num_hidden_layers config)))%nat)
    by (apply nth_error_Some; congruence).
  rewrite range_length in Hlt.
  rewrite range_nth_error in Hidx by assumption.
  inversion Hidx; subst idx; clear Hidx.
  destruct (sparse_layer_attention _ _ _ Ht Hlayer) as (self & Hatt & Hself).
  destruct (sparse_init_fields _ _ _ Hself) as (Hseed & _).
  exists self. split; [exact Hatt|]. split; [rewrite Hseed; f_equal; lia|].
  intros G Tensors Context compute inputs batch seqlen e1 e2 g1 g2.
  unfold forward. unfold bind, lift.
  destruct (forward_checks self seqlen); [|reflexivity].
  unfold bigbird_block_sparse_attention, bind.
  rewrite Hseed.
  rewrite (rand_attn_from_seed G _ e1 _ _ _ _ _ _ _ _ g1).
  rewrite (rand_attn_from_seed G _ e2 _ _ _ _ _ _ _ _ g2).
  reflexivity.
Qed.

Lemma encoder_seeds_layers_by_index_witness :
  exists layers,
    BigBirdEncoder_init
      {| attention_config :=
           {| hidden_size := 8; num_attention_heads := 2;
              position_embedding_type := "absolute"%string;
              num_random_blocks := 3; block_size := 64 |};
         attention_type := "block_sparse"%string;
         add_cross_attention := false; is_decoder := false;
         num_hidden_layers := 2; has_embedding_size := false |} = Ok layers /\
    Z.of_nat (length layers) = 2 /\
    forall i layer, nth_error layers i = Some layer ->
      exists self,
        attention layer = SparseAttention self /\
        self_seed self = Some (Z.of_nat i).
Proof.
  eexists. split; [reflexivity|].
  destruct (encoder_seeds_layers_by_index
              {| attention_config :=
                   {| hidden_size := 8; num_attention_heads := 2;
                      position_embedding_type := "absolute"%string;
                      num_random_blocks := 3; block_size := 64 |};
                 attention_type := "block_sparse"%string;
                 add_cross_attention := false; is_decoder := false;
                 num_hidden_layers := 2; has_embedding_size := false |}
              _ eq_refl eq_refl) as [HL Hlayers].
  split; [exact HL|].
  intros i layer Hi. destruct (Hlayers i layer Hi) as (self & H1 & H2 & _).
  exists self. split; assumption.
Defined.

Lemma full_layer_attention : forall config seed layer,
  attention_type config = "original_full"%string ->
  BigBirdLayer_init config seed = Ok layer ->
  (exists h d, attention layer = FullAttention h d) /\
  forall cross, crossattention layer = Some cross ->
    exists h d, cross = FullAttention h d.
Proof.
  intros config seed layer Ht H. unfold BigBirdLayer_init in H.
  assert (Hfull : forall sd att, BigBirdAttention_init config sd = Ok att ->
            exists h d, att = FullAttention h d).
  { intros sd att Eatt. unfold BigBirdAttention_init in Eatt. rewrite Ht in Eatt.
    change (String.eqb "original_full" "original_full") with true in Eatt.
    cbv iota in Eatt. unfold BigBirdSelfAttention_init in Eatt.
    destruct (Py.modulo _ _); [|discriminate].
    destruct (_ && _); [discriminate|]. inversion Eatt. eauto. }
  destruct (BigBirdAttention_init config seed) as [att|] eqn:Eatt; [|discriminate].
  destruct (add_cross_attention config).
  - destruct (is_decoder config); [|discriminate].
    destruct (BigBirdAttention_init config None) as [cross|] eqn:Ecross;
      [|discriminate].
    inversion H; subst layer; clear H. simpl. split; [eauto|].
    intros c Hc. inversion Hc; subst c. eauto.
  - inversion H; subst layer; clear H. simpl. split; [eauto|].
    intros c Hc. discriminate.
Qed.

(** X14: A model configured with cross-attention is built with full
    attention whatever attention type was configured: the constructor
    rewrites the configuration first, so the model, every layer's
    self-attention and every layer's cross-attention are full
    attention, and no block-sparse engine exists in it. *)
Theorem cross_attention_model_is_full_attention :
  forall config model,
  add_cross_attention config = true ->
  BigBirdModel_init config = Ok model ->
  model_attention_type model = "original_full"%string /\
  attention_type (model_config model) = "original_full"%string /\
  forall layer, In layer (encoder_layer model) ->
    (exists h d, attention layer = FullAttention h d) /\
    (exists h d, crossattention layer = Some (FullAttention h d)) /\
    forall seq_length, model_forward_check model seq_length = Ok tt.
Proof.
  intros config model Hc H. unfold BigBirdModel_init in H.
  rewrite Hc in H. rewrite andb_true_r in H.
  set (config' := if negb (String.eqb (attention_type config) "original_full")
                  then set_attention_type config "original_full"%string
                  else config) in *.
  assert (Ht : attention_type config' = "original_full"%string).
  { subst config'.
    destruct (String.eqb_spec (attention_type config) "original_full") as [E|N];
      [exact E|reflexivity]. }
  assert (Hc' : add_cross_attention config' = true).
  { subst config'. destruct (negb _); [simpl|]; exact Hc. }
  destruct (BigBirdEncoder_init config') as [layers|] eqn:Eenc; [|discriminate].
  inversion H; subst model; clear H. simpl.
  split; [exact Ht|]. split; [exact Ht|].
  intros layer Hin. unfold BigBirdEncoder_init in Eenc.
  apply In_nth_error in Hin. destruct Hin as [i Hi].
  destruct (map_result_Ok _ _ _ _ _ Eenc) as [_ Hn].
  destruct (Hn _ _ Hi) as (idx & _ & Hlayer).
  destruct (full_layer_attention _ _ _ Ht Hlayer) as [Hatt Hcross].
  split; [exact Hatt|]. split.
  - unfold BigBirdLayer_init in Hlayer.
    destruct (BigBirdAttention_init config' (Some idx)); [|discriminate].
    rewrite Hc' in Hlayer.
    destruct (is_decoder config'); [|discriminate].
    destruct (BigBirdAttention_init config' None) as [cross|] eqn:Ecross;
      [|discriminate].
    inversion Hlayer; subst layer; clear Hlayer. simpl in *.
    destruct (Hcross cross eq_refl) as (h & d & ->). eauto.
  - intros seq_length. unfold model_forward_check. simpl. rewrite Ht.
    reflexivity.
Qed.

Lemma cross_attention_model_is_full_attention_witness :
  exists model,
    BigBirdModel_init
      {| attention_config :=
           {| hidden_size := 8; num_attention_heads := 2;
              position_embedding_type := "absolute"%string;
              num_random_blocks := 3; block_size := 64 |};
         attention_type := "block_sparse"%string;
         add_cross_attention := true; is_decoder := true;
         num_hidden_layers := 2; has_embedding_size := false |} = Ok model /\
    model_attention_type model = "original_full"%string /\
    attention_type (model_config model) = "original_full"%string /\
    forall layer, In layer (encoder_layer model) ->
      (exists h d, attention layer = FullAttention h d) /\
      (exists h d, crossattention layer = Some (FullAttention h d)) /\
      forall seq_length, model_forward_check model seq_length = Ok tt.
Proof.
  eexists. split; [reflexivity|].
  apply (cross_attention_model_is_full_attention
           {| attention_config :=
                {| hidden_size := 8; num_attention_heads := 2;
                   position_embedding_type := "absolute"%string;
                   num_random_blocks := 3; block_size := 64 |};
              attention_type := "block_sparse"%string;
              add_cross_attention := true; is_decoder := true;
              num_hidden_layers := 2; has_embedding_size := false |});
    reflexivity.
Defined.

(** X15: The check of the model covers the checks of its layers: in a
    block-sparse model, a sequence length that passes the assertion of
    [BigBirdModel.forward] passes the two assertions of the [forward]
    of every layer's engine, which holds the same block size. *)
Theorem model_check_covers_layer_checks :
  forall config model seq_length,
  BigBirdModel_init config = Ok model ->
  model_attention_type model = "block_sparse"%string ->
  model_forward_check model seq_length = Ok tt ->
  forall layer, In layer (encoder_layer model) ->
    exists self,
      attention layer = SparseAttention self /\
      self_block_size self = model_block_size model /\
      forward_checks self seq_length = Ok tt.
Proof.
  intros config model seq Hinit Htype Hcheck layer Hin.
  unfold BigBirdModel_init in Hinit.
  set (config' := if negb (String.eqb (attention_type config) "original_full")
                     && add_cross_attention config
                  then set_attention_type config "original_full"%string
                  else config) in *.
  destruct (BigBirdEncoder_init config') as [layers|] eqn:Eenc; [|discriminate].
  inversion Hinit; subst model; clear Hinit. simpl in *.
  unfold BigBirdEncoder_init in Eenc.
  apply In_nth_error in Hin. destruct Hin as [i Hi].
  destruct (map_result_Ok _ _ _ _ _ Eenc) as [_ Hn].
  destruct (Hn _ _ Hi) as (idx & _ & Hlayer).
  destruct (sparse_layer_attention _ _ _ Htype Hlayer) as (self & Hatt & Hself).
  destruct (sparse_init_fields _ _ _ Hself) as (_ & Hbs & _).
  exists self. split; [exact Hatt|]. split; [exact Hbs|].
  unfold model_forward_check in Hcheck. simpl in Hcheck. rewrite Htype in Hcheck.
  change (String.eqb "block_sparse" "block_sparse") with true in Hcheck.
  cbv iota in Hcheck.
  unfold forward_checks. rewrite Hbs.
  destruct (Py.modulo seq (block_size (attention_config config'))) as [rem|];
    [|discriminate].
  destruct (negb (rem =? 0)); [discriminate|reflexivity].
Qed.

Lemma model_check_covers_layer_checks_witness :
  exists model,
    BigBirdModel_init
      {| attention_config :=
           {| hidden_size := 8; num_attention_heads := 2;
              position_embedding_type := "absolute"%string;
              num_random_blocks := 3; block_size := 64 |};
         attention_type := "block_sparse"%string;
         add_cross_attention := false; is_decoder := false;
         num_hidden_layers := 2; has_embedding_size := false |} = Ok model /\
    forall layer, In layer (encoder_layer model) ->
      exists self,
        attention layer = SparseAttention self /\
        self_block_size self = model_block_size model /\
        forward_checks self 768 = Ok tt.
Proof.
  eexists. split; [reflexivity|].
  apply (model_check_covers_layer_checks
           {| attention_config :=
                {| hidden_size := 8; num_attention_heads := 2;
                   position_embedding_type := "absolute"%string;
                   num_random_blocks := 3; block_size := 64 |};
              attention_type := "block_sparse"%string;
              add_cross_attention := false; is_decoder := false;
              num_hidden_layers := 2; has_embedding_size := false |});
    reflexivity.
Defined.


(** * The engine before its first attention product *)

(** ** Which exceptions a computation can raise *)

Lemma raises_only_ret : forall (G : Generator) (A : Type) P (a : A),
  raises_only (G := G) P (ret a).
Proof. intros G A P a g e H. discriminate. Qed.

Lemma raises_only_lift : forall (G : Generator) (A : Type) (P : py_exn -> Prop)
    (r : result A),
  (forall e, r = Raise e -> P e) -> raises_only (G := G) P (lift r).
Proof.
  intros G A P r Hr g e H. unfold lift in H.
  destruct r as [a|e0]; [discriminate|]. inversion H; subst. now apply Hr.
Qed.

Lemma raises_only_bind : forall (G : Generator) (A B : Type) P
    (m : M G A) (k : A -> M G B),
  raises_only P m -> (forall a, raises_only P (k a)) ->
  raises_only P (bind m k).
Proof.
  intros G A B P m k Hm Hk g e H. unfold bind in H.
  destruct (m g) as [[a g1]|e0] eqn:E.
  - eapply Hk; eassumption.
  - inversion H; subst. eapply Hm; eassumption.
Qed.

Lemma raises_only_for_each : forall (G : Generator) (A S : Type) P
    (body : A -> S -> M G S) l s,
  (forall a s, raises_only P (body a s)) ->
  raises_only P (for_each l body s).
Proof.
  intros G A S P body l. induction l as [|a l IH]; intros s Hb.
  - apply raises_only_ret.
  - cbn [for_each]. apply raises_only_bind; [apply Hb|].
    intros s1. now apply IH.
Qed.

Lemma raises_only_comprehension : forall (G : Generator) (A B : Type) P
    (f : A -> M G B) l,
  (forall a, raises_only P (f a)) ->
  raises_only P (comprehension l f).
Proof.
  intros G A B P f l Hf. induction l as [|a l IH].
  - apply raises_only_ret.
  - cbn [comprehension]. apply raises_only_bind; [apply Hf|].
    intros b. apply raises_only_bind; [exact IH|].
    intros bs. apply raises_only_ret.
Qed.

Lemma raises_only_permutation : forall (G : Generator) P l,
  raises_only P (np_random_permutation G l).
Proof. intros G P l g e H. discriminate. Qed.

Lemma index_raises : forall (A : Type) (l : list A) i e,
  Py.index l i = Raise e -> e = IndexError.
Proof.
  intros A l i e H. unfold Py.index in H.
  destruct (_ && _); [|now inversion H].
  destruct (nth_error _ _); [discriminate|now inversion H].
Qed.

Lemma index_of_raises : forall x l e,
  Py.index_of x l = Raise e -> e = ValueError.
Proof.
  intros x l e. induction l as [|y l IH]; simpl; intros H.
  - now inversion H.
  - destruct (y =? x); [discriminate|].
    destruct (Py.index_of x l); [discriminate|]. inversion H; subst. now apply IH.
Qed.

Lemma zeros_raises : forall rows cols e,
  Py.zeros rows cols = Raise e -> e = ValueError.
Proof.
  intros rows cols e H. unfold Py.zeros in H.
  destruct (_ || _); [now inversion H|discriminate].
Qed.

Lemma floordiv_raises : forall a b e,
  Py.floordiv a b = Raise e -> e = ZeroDivisionError.
Proof.
  intros a b e H. unfold Py.floordiv in H.
  destruct (b =? 0); [now inversion H|discriminate].
Qed.

Lemma assign_slice_raises : forall row c0 c1 src e,
  Py.assign_slice row c0 c1 src = Raise e -> e = ValueError.
Proof.
  intros row c0 c1 src e H. unfold Py.assign_slice in H.
  destruct (Nat.eqb _ _); [discriminate|].
  destruct src as [|x [|y src]]; try discriminate; now inversion H.
Qed.

Lemma assign_row_slice_raises : forall arr i c0 c1 src e,
  Py.assign_row_slice arr i c0 c1 src = Raise e ->
  e = ValueError \/ e = IndexError.
Proof.
  intros arr i c0 c1 src e H. unfold Py.assign_row_slice in H.
  destruct (_ && _); [|right; now inversion H].
  destruct (nth_error _ _) as [row|]; [|right; now inversion H].
  destruct (Py.assign_slice row c0 c1 src) eqn:E; [discriminate|].
  inversion H; subst. left. eapply assign_slice_raises; eassumption.
Qed.

Lemma assign_row_raises : forall arr i src e,
  assign_row arr i src = Raise e -> e = ValueError \/ e = IndexError.
Proof.
  intros arr i src e H. unfold assign_row in H.
  destruct (Py.index arr i) eqn:E.
  - eapply assign_row_slice_raises; eassumption.
  - inversion H; subst. right. eapply index_raises; eassumption.
Qed.

Lemma set_item_raises : forall (A : Type) (l : list A) i x e,
  set_item l i x = Raise e -> e = IndexError.
Proof.
  intros A l i x e H. unfold set_item in H.
  destruct (_ && _); [discriminate|now inversion H].
Qed.

Lemma map_result_raises : forall (A B : Type) (f : A -> result B) l e,
  map_result f l = Raise e -> exists a, In a l /\ f a = Raise e.
Proof.
  intros A B f l e. induction l as [|a l IH]; simpl; intros H; [discriminate|].
  destruct (f a) eqn:Ea.
  - destruct (map_result f l); [discriminate|].
    destruct (IH H) as (a' & Hin & Ha'). exists a'. auto.
  - exists a. split; [now left|congruence].
Qed.

(** The steps of the samplers that can fail, each with what it raises. *)
Ltac library_raise :=
  let e := fresh "e" in
  let H := fresh "H" in
  intros e H; unfold library_error;
  first
    [ apply index_raises in H
    | apply index_of_raises in H
    | apply zeros_raises in H
    | apply floordiv_raises in H
    | apply set_item_raises in H
    | apply assign_row_slice_raises in H; destruct H as [H|H]
    | apply assign_row_raises in H; destruct H as [H|H] ];
  subst; auto.

Ltac raises_step :=
  first
    [ apply raises_only_ret
    | apply raises_only_permutation
    | apply raises_only_lift; library_raise
    | apply raises_only_bind; [|intro]
    | apply raises_only_for_each; intros
    | apply raises_only_comprehension; intros
    | match goal with
      | |- raises_only _ (if ?c then _ else _) => destruct c
      end ].

Lemma single_row_raises : forall (G : Generator) blk ts te num wl wr gl gr,
  raises_only library_error
    (_get_single_block_row_attention G blk ts te num wl wr gl gr).
Proof. intros. unfold _get_single_block_row_attention. repeat raises_step. Qed.

Lemma fill_heads_raises : forall (G : Generator) H blk c0 c1 ts te num wl wr gl gr ra,
  raises_only library_error (fill_heads G H blk c0 c1 ts te num wl wr gl gr ra).
Proof.
  intros. unfold fill_heads.
  apply raises_only_for_each. intros.
  apply raises_only_bind; [apply single_row_raises|intro].
  repeat raises_step.
Qed.

Lemma extend_raises : forall (G : Generator) H idx pbl pn wl wr gbt gl gr ra,
  raises_only library_error (extend_earlier_rows G H idx pbl pn wl wr gbt gl gr ra).
Proof.
  intros. unfold extend_earlier_rows.
  repeat first [apply fill_heads_raises | raises_step].
Qed.

Lemma cover_raises : forall (G : Generator) H idx pbl pn wl wr gl gr ra,
  raises_only library_error (cover_earlier_segments G H idx pbl pn wl wr gl gr ra).
Proof.
  intros. unfold cover_earlier_segments.
  repeat first [apply fill_heads_raises | raises_step].
Qed.

Lemma fill_own_raises : forall (G : Generator) H idx pbl pn wl wr gbt gl gr ra,
  raises_only library_error (fill_own_segment G H idx pbl pn wl wr gbt gl gr ra).
Proof.
  intros. unfold fill_own_segment.
  repeat first [apply fill_heads_raises | raises_step].
Qed.

Lemma raises_only_bind_lift : forall (G : Generator) (A B : Type) P
    (r : result A) (k : A -> M G B),
  (forall e, r = Raise e -> P e) ->
  (forall a, r = Ok a -> raises_only P (k a)) ->
  raises_only P (bind (lift r) k).
Proof.
  intros G A B P r k Hr Hk g e H. unfold bind, lift in H.
  destruct r as [a|e0].
  - eapply Hk; [reflexivity|eassumption].
  - inversion H; subst. now apply Hr.
Qed.

Lemma floordiv_value : forall a b q, Py.floordiv a b = Ok q -> q = a / b.
Proof.
  intros a b q H. unfold Py.floordiv in H.
  destruct (b =? 0); [discriminate|]. now inversion H.
Qed.

(** The planned sampler raises no assertion on a plan that holds the
    sequence length. *)
Lemma with_head_raises : forall (G : Generator) m bs H pfl pn,
  Py.mem m pfl = true ->
  raises_only library_error
    (_bigbird_block_rand_mask_with_head G m m bs bs H pfl pn 1 1 1 1 1 1).
Proof.
  intros G m bs H pfl pn Hmem. unfold _bigbird_block_rand_mask_with_head.
  apply raises_only_bind_lift; [library_raise|intros fb Hfb].
  apply raises_only_bind_lift; [library_raise|intros tb Htb].
  apply floordiv_value in Hfb, Htb. subst fb tb.
  rewrite Z.eqb_refl, Hmem.
  repeat first [apply extend_raises | apply cover_raises | apply fill_own_raises
               | raises_step].
Qed.

Lemma old_mask_raises : forall (G : Generator) fs bs r last_idx,
  raises_only library_error (_bigbird_block_rand_mask G fs fs bs bs r last_idx).
Proof.
  intros G fs bs r last_idx. unfold _bigbird_block_rand_mask.
  apply raises_only_bind_lift; [library_raise|intros fb Hfb].
  apply raises_only_bind_lift; [library_raise|intros tb Htb].
  apply floordiv_value in Hfb, Htb. subst fb tb.
  rewrite Z.eqb_refl.
  repeat raises_step.
Qed.

Lemma plan_holds_length : forall m bs r p,
  _get_rand_attn_plan m bs r = Ok p -> Py.mem m (fst p) = true.
Proof.
  intros m bs r p H. unfold _get_rand_attn_plan in H.
  destruct (Py.floordiv m bs); [|discriminate].
  destruct (_ <? _); [|destruct (_ <? _)]; inversion H; subst p; cbn [fst];
    unfold Py.mem; cbn [existsb]; rewrite Z.eqb_refl, ?orb_true_r; reflexivity.
Qed.

Lemma plan_raises : forall m bs r e,
  _get_rand_attn_plan m bs r = Raise e -> e = ZeroDivisionError.
Proof.
  intros m bs r e H. unfold _get_rand_attn_plan in H.
  destruct (Py.floordiv m bs) eqn:E.
  - destruct (_ <? _); [|destruct (_ <? _)]; discriminate.
  - inversion H; subst. eapply floordiv_raises; eassumption.
Qed.

(** The adjacency sampling of the engine raises neither of the
    engine's own errors. *)
Lemma rand_attn_raises : forall (G : Generator) seed e h r bs batch m,
  raises_only library_error (bigbird_rand_attn G seed e h r bs bs batch m m None).
Proof.
  intros G seed e h r bs batch m. unfold bigbird_rand_attn.
  apply raises_only_bind_lift; [library_raise|intros fb Hfb].
  apply raises_only_bind_lift; [library_raise|intros tb Htb].
  apply floordiv_value in Hfb, Htb. subst fb tb.
  rewrite Z.eqb_refl.
  apply raises_only_bind; [intros g0 e0 H0; discriminate|intros _].
  apply raises_only_bind.
  - destruct (Py.mem m [1024; 3072; 4096]).
    + apply raises_only_comprehension. intros _.
      apply raises_only_bind; [apply old_mask_raises|intro; apply raises_only_ret].
    + apply raises_only_bind_lift.
      * intros e0 H0. apply plan_raises in H0. subst. unfold library_error. auto.
      * intros p Hp. apply with_head_raises. eapply plan_holds_length; eassumption.
  - intros ra. apply raises_only_bind_lift.
    + intros e0 H0. destruct ra; inversion H0. unfold library_error. auto.
    + intros ra' _. apply raises_only_lift. intros e0 H0.
      unfold torch_cat_batch in H0. destruct (batch <=? 0); inversion H0.
      unfold library_error. auto.
Qed.


(** ** What a computation can return *)

Lemma returns_only_ret : forall (G : Generator) (A : Type) (I : A -> Prop) (a : A),
  I a -> returns_only (G := G) I (ret a).
Proof. intros G A I a Ha g a' g' H. inversion H; subst. exact Ha. Qed.

Lemma returns_only_lift : forall (G : Generator) (A : Type) (I : A -> Prop)
    (r : result A),
  (forall a, r = Ok a -> I a) -> returns_only (G := G) I (lift r).
Proof.
  intros G A I r Hr g a g' H. apply lift_Ok in H. now apply Hr.
Qed.

Lemma returns_only_bind : forall (G : Generator) (A B : Type)
    (J : A -> Prop) (I : B -> Prop) (m : M G A) (k : A -> M G B),
  returns_only J m -> (forall a, J a -> returns_only I (k a)) ->
  returns_only I (bind m k).
Proof.
  intros G A B J I m k Hm Hk g b g' H.
  apply bind_Ok in H. destruct H as (a & g1 & H1 & H2).
  eapply Hk; [eapply Hm; eassumption|eassumption].
Qed.

Lemma returns_only_any : forall (G : Generator) (A : Type) (m : M G A),
  returns_only (fun _ => True) m.
Proof. intros G A m g a g' _. exact I. Qed.

Lemma returns_only_for_each : forall (G : Generator) (A S : Type)
    (I : S -> Prop) (body : A -> S -> M G S) l s,
  I s -> (forall a s, I s -> returns_only I (body a s)) ->
  returns_only I (for_each l body s).
Proof.
  intros G A S I body l. induction l as [|a l IH]; intros s Hs Hb.
  - now apply returns_only_ret.
  - cbn [for_each]. apply returns_only_bind with (J := I); [now apply Hb|].
    intros s1 Hs1. now apply IH.
Qed.

(** The loops of the planned sampler keep one array per head. *)
Section HeadCount.
Variable G : Generator.
Variable n : nat.

Let I (ra : list (list (list Z))) : Prop := length ra = n.

Lemma fill_heads_heads : forall H blk c0 c1 ts te num wl wr gl gr ra,
  I ra -> returns_only I (fill_heads G H blk c0 c1 ts te num wl wr gl gr ra).
Proof.
  intros H blk c0 c1 ts te num wl wr gl gr ra Hra. unfold fill_heads.
  apply returns_only_for_each; [exact Hra|].
  intros h s Hs.
  apply returns_only_bind with (J := fun _ => True); [apply returns_only_any|].
  intros sel _.
  apply returns_only_bind with (J := fun _ => True); [apply returns_only_any|].
  intros arr _.
  apply returns_only_bind with (J := fun _ => True); [apply returns_only_any|].
  intros arr' _.
  apply returns_only_lift. intros s' Hs'.
  apply set_item_Ok in Hs'. unfold I in *. destruct Hs' as (_ & _ & Hl & _).
  congruence.
Qed.

Ltac heads_step :=
  first
    [ apply fill_heads_heads; assumption
    | apply returns_only_ret; assumption
    | apply returns_only_for_each; [assumption|intros]
    | apply returns_only_bind with (J := fun _ => True);
        [apply returns_only_any|intros ? _]
    | match goal with
      | |- returns_only _ (if ?c then _ else _) => destruct c
      end ].

Lemma extend_heads : forall H idx pbl pn wl wr gbt gl gr ra,
  I ra -> returns_only I (extend_earlier_rows G H idx pbl pn wl wr gbt gl gr ra).
Proof.
  intros. unfold extend_earlier_rows. repeat heads_step.
Qed.

Lemma cover_heads : forall H idx pbl pn wl wr gl gr ra,
  I ra -> returns_only I (cover_earlier_segments G H idx pbl pn wl wr gl gr ra).
Proof.
  intros. unfold cover_earlier_segments. repeat heads_step.
Qed.

Lemma fill_own_heads : forall H idx pbl pn wl wr gbt gl gr ra,
  I ra -> returns_only I (fill_own_segment G H idx pbl pn wl wr gbt gl gr ra).
Proof.
  intros. unfold fill_own_segment. repeat heads_step.
Qed.

End HeadCount.

Lemma comprehension_length : forall (G : Generator) (A B : Type)
    (f : A -> M G B) l,
  returns_only (fun bs => length bs = length l) (comprehension l f).
Proof.
  intros G A B f l g bs g' H.
  eapply (comprehension_Forall G A B (fun _ => True)); [|exact H].
  intros; exact Logic.I.
Qed.

Lemma with_head_heads : forall (G : Generator) m n bs ws H pfl pn wl wr gbt gbb gl gr,
  returns_only (fun ra => length ra = Z.to_nat H)
    (_bigbird_block_rand_mask_with_head G m n bs ws H pfl pn wl wr gbt gbb gl gr).
Proof.
  intros. unfold _bigbird_block_rand_mask_with_head.
  apply returns_only_bind with (J := fun _ => True); [apply returns_only_any|intros fb _].
  apply returns_only_bind with (J := fun _ => True); [apply returns_only_any|intros tb _].
  destruct (fb =? tb); [|intros g a g' E; discriminate].
  destruct (Py.mem m pfl); [|intros g a g' E; discriminate].
  apply returns_only_bind with (J := fun _ => True); [apply returns_only_any|intros idx _].
  apply returns_only_bind with (J := fun ra => length ra = Z.to_nat H).
  { intros g a g' E. apply comprehension_length in E.
    rewrite E, range_length. f_equal. lia. }
  intros ra0 Hra0.
  apply returns_only_bind with (J := fun ra => length ra = Z.to_nat H).
  - apply returns_only_for_each; [exact Hra0|].
    intros plan_idx s Hs.
    apply returns_only_bind with (J := fun ra => length ra = Z.to_nat H).
    + destruct (plan_idx >? 0); [|apply returns_only_ret; exact Hs].
      apply returns_only_bind with (J := fun ra => length ra = Z.to_nat H).
      * apply extend_heads. exact Hs.
      * intros s1 Hs1. apply cover_heads. exact Hs1.
    + intros s1 Hs1. apply fill_own_heads. exact Hs1.
  - intros ra1 Hra1. apply returns_only_ret. now rewrite length_map.
Qed.

(** The adjacency the engine computes has one entry per batch
    element, each with one array per head. *)
Lemma rand_attn_shape : forall (G : Generator) seed e h r wm wn batch m n plan,
  returns_only
    (fun adj => 1 <= batch /\ 1 <= h /\ length adj = Z.to_nat batch /\
                Forall (fun ra => length ra = Z.to_nat h) adj)
    (bigbird_rand_attn G seed e h r wm wn batch m n plan).
Proof.
  intros G seed e h r wm wn batch m n plan. unfold bigbird_rand_attn.
  apply returns_only_bind with (J := fun _ => True); [apply returns_only_any|intros fb _].
  apply returns_only_bind with (J := fun _ => True); [apply returns_only_any|intros tb _].
  destruct (fb =? tb); [|intros g a g' E; discriminate].
  apply returns_only_bind with (J := fun _ => True); [apply returns_only_any|intros _ _].
  apply returns_only_bind with (J := fun ra => length ra = Z.to_nat h).
  - destruct (Py.mem m [1024; 3072; 4096]).
    + intros g a g' E. apply comprehension_length in E.
      rewrite E, range_length. f_equal. lia.
    + apply returns_only_bind with (J := fun _ => True);
        [apply returns_only_any|intros p _].
      apply with_head_heads.
  - intros ra Hra.
    apply returns_only_bind with (J := fun ra' => ra' = ra /\ ra <> []).
    + apply returns_only_lift. intros ra' E.
      destruct ra; [discriminate|]. inversion E. split; [reflexivity|discriminate].
    + intros ra' [-> Hne]. apply returns_only_lift. intros adj E.
      unfold torch_cat_batch in E.
      destruct (Z.leb_spec batch 0); [discriminate|]. inversion E; subst adj.
      split; [lia|]. split.
      * destruct ra; [contradiction|]. simpl in Hra. lia.
      * split; [apply repeat_length|].
        apply Forall_forall. intros x Hx. apply repeat_spec in Hx. now subst.
Qed.


(** ** The tensor steps between the sampling and the first product *)

Lemma view_blocks_raises : forall (V : Type) b h nb w (layer : list (list (list V))) e,
  view_blocks b h nb w layer = Raise e -> e = RuntimeError.
Proof.
  intros V b h nb w layer e H. unfold view_blocks in H.
  destruct (negb _); [now inversion H|].
  apply map_result_raises in H. destruct H as (heads & _ & H).
  destruct (negb _); [now inversion H|].
  apply map_result_raises in H. destruct H as (rows & _ & H).
  destruct (_ && _); [discriminate|now inversion H].
Qed.

Lemma view_blocks_shape : forall (V : Type) b h nb w (layer : list (list (list V))) t,
  view_blocks b h nb w layer = Ok t ->
  length t = Z.to_nat b /\ Forall (fun tb => length tb = Z.to_nat h) t.
Proof.
  intros V b h nb w layer t H. unfold view_blocks in H.
  destruct (Z.ltb_spec 0 b); cbn [andb negb] in H; [|discriminate].
  destruct (Z.eqb_spec (Z.of_nat (length layer)) b); cbn [negb] in H; [|discriminate].
  destruct (map_result_Ok _ _ _ _ _ H) as [HL Hn].
  split; [lia|].
  apply Forall_forall. intros tb Htb. apply In_nth_error in Htb.
  destruct Htb as [k Hk]. destruct (Hn _ _ Hk) as (heads & _ & Hh).
  destruct (Z.ltb_spec 0 h); cbn [andb negb] in Hh; [|discriminate].
  destruct (Z.eqb_spec (Z.of_nat (length heads)) h); cbn [negb] in Hh; [|discriminate].
  apply map_result_length in Hh. lia.
Qed.

Lemma index_select_raises : forall (T : Type) (p : list T) idx e,
  torch_index_select p idx = Raise e -> e = IndexError /\ idx <> [].
Proof.
  intros T p idx e H. unfold torch_index_select in H.
  apply map_result_raises in H. destruct H as (i & Hi & H).
  split; [eapply index_raises; eassumption|].
  intros ->. contradiction.
Qed.

Lemma concat_not_nil : forall (A : Type) (l : list (list A)),
  concat l <> [] -> exists x, In x l /\ x <> [].
Proof.
  intros A l. induction l as [|x l IH]; simpl; intros H; [contradiction|].
  destruct x as [|a x].
  - destruct (IH H) as (y & Hy & Hne). exists y. auto.
  - exists (a :: x). split; [now left|discriminate].
Qed.

Lemma torch_stack_raises : forall (A : Type) (l : list A) e,
  torch_stack l = Raise e -> e = RuntimeError.
Proof. intros A l e H. destruct l; inversion H. reflexivity. Qed.

(** The gather fails with [RuntimeError], or with [IndexError] on an
    adjacency that names a block, once the leading sizes agree. *)
Lemma gather_b2_raises : forall (T : Type) (params : list (list (list T))) indices e,
  torch_gather_b2 params indices = Raise e ->
  shape2 params = shape2 indices ->
  e = RuntimeError \/ (e = IndexError /\ ~ index_free indices).
Proof.
  intros T params indices e H Hs. unfold torch_gather_b2 in H.
  rewrite Hs, !Nat.eqb_refl in H. cbn [andb] in H.
  match type of H with
  | match map_result ?F ?L with _ => _ end = _ =>
      destruct (map_result F L) as [out|e0] eqn:Eout
  end.
  - left. eapply torch_stack_raises; eassumption.
  - inversion H; subst e0; clear H.
    apply map_result_raises in Eout. destruct Eout as ([p1 i1] & Hin & H).
    apply in_combine_r in Hin. cbn [fst snd] in H.
    match type of H with
    | match map_result ?F ?L with _ => _ end = _ =>
        destruct (map_result F L) as [inner|e0] eqn:Einner
    end.
    + left. eapply torch_stack_raises; eassumption.
    + inversion H; subst e0; clear H.
      apply map_result_raises in Einner. destruct Einner as ([p2 i2] & Hin2 & H).
      apply in_combine_r in Hin2. cbn [fst snd] in H.
      apply index_select_raises in H. destruct H as [-> Hne].
      right. split; [reflexivity|].
      apply concat_not_nil in Hne. destruct Hne as (row & Hrow & Hn).
      intros Hfree. apply Hn. eapply Hfree; eassumption.
Qed.

Lemma view_groups_raises : forall (V : Type) groups k
    (t : list (list (list (list V)))) e,
  view_groups groups k t = Raise e -> e = RuntimeError.
Proof.
  intros V groups k t e H. unfold view_groups in H.
  apply map_result_raises in H. destruct H as (tb & _ & H).
  apply map_result_raises in H. destruct H as (blocks & _ & H).
  destruct (_ && _); [discriminate|now inversion H].
Qed.

Lemma gathered_raises : forall (V : Type) (blocked : list (list (list (list V))))
    adj n wn r e,
  gathered blocked adj n wn r = Raise e ->
  shape2 blocked = shape2 adj ->
  e = RuntimeError \/ (e = IndexError /\ ~ index_free adj).
Proof.
  intros V blocked adj n wn r e H Hs. unfold gathered in H.
  destruct (torch_gather_b2 blocked adj) as [g|e0] eqn:Eg.
  - left. eapply view_groups_raises; eassumption.
  - inversion H; subst e0. eapply gather_b2_raises; eassumption.
Qed.

(** Without a row to regroup, or without a column, the view after the
    gather cannot infer its last size: the gathered tensor is never
    produced. *)
Lemma gathered_degenerate : forall (V : Type) (blocked : list (list (list (list V))))
    adj n wn r,
  (n / wn - 2) * (r * wn) <= 0 ->
  is_ok (gathered blocked adj n wn r) = false.
Proof.
  intros V blocked adj n wn r Hz. unfold gathered.
  destruct (torch_gather_b2 blocked adj) as [g|e0] eqn:Hg; [|reflexivity].
  unfold torch_gather_b2 in Hg.
  destruct (_ && _); [|discriminate].
  match type of Hg with
  | match map_result ?F ?L with _ => _ end = _ =>
      destruct (map_result F L) as [out|] eqn:Eout; [|discriminate]
  end.
  destruct out as [|gb out]; [discriminate|].
  inversion Hg; subst g; clear Hg.
  destruct (map_result_Ok _ _ _ _ _ Eout) as [_ Hn].
  destruct (Hn 0%nat gb eq_refl) as ([p1 i1] & _ & Hin).
  cbn [fst snd] in Hin.
  match type of Hin with
  | match map_result ?F ?L with _ => _ end = _ =>
      destruct (map_result F L) as [inner|] eqn:Einner; [|discriminate]
  end.
  destruct inner as [|sel inner]; [discriminate|].
  inversion Hin; subst gb; clear Hin.
  unfold view_groups. cbn [map_result].
  destruct (Z.ltb_spec 0 ((n / wn - 2) * (r * wn))); [lia|].
  cbn [andb]. reflexivity.
Qed.

Section RandMaskRaises.
Variable R : Type.
Variable mul : R -> R -> R.

Lemma zip_with_checked_raises : forall (A B C : Type) (f : A -> B -> C) l1 l2 e,
  zip_with_checked f l1 l2 = Raise e -> e = RuntimeError.
Proof.
  intros A B C f l1 l2 e H. unfold zip_with_checked in H.
  destruct (Nat.eqb _ _); [discriminate|now inversion H].
Qed.

Lemma rand_mask_raises : forall (fbm tbm : list (list (list R))) adj H r batch m w e,
  _create_rand_mask_from_inputs mul fbm tbm adj H r batch m w = Raise e ->
  w <> 0 ->
  e = RuntimeError \/ (e = IndexError /\ ~ index_free adj).
Proof.
  intros fbm tbm adj H r batch m w e Hrm Hw.
  unfold _create_rand_mask_from_inputs in Hrm.
  unfold Py.floordiv in Hrm. destruct (Z.eqb_spec w 0); [contradiction|].
  match type of Hrm with
  | match map_result ?F ?L with _ => _ end = _ =>
      destruct (map_result F L) as [sel|e0] eqn:Esel
  end.
  - destruct (torch_stack sel) as [sel'|e0] eqn:Est.
    + destruct (negb _); [left; now inversion Hrm|].
      match type of Hrm with
      | match map_result ?F ?L with _ => _ end = _ =>
          destruct (map_result F L) as [viewed|e0] eqn:Eview
      end.
      * destruct (negb _); [left; now inversion Hrm|].
        apply map_result_raises in Hrm. destruct Hrm as ([fb vb] & _ & Hrm).
        cbn [fst snd] in Hrm.
        apply map_result_raises in Hrm. destruct Hrm as (vh & _ & Hrm).
        left. eapply zip_with_checked_raises; eassumption.
      * inversion Hrm; subst e0; clear Hrm.
        apply map_result_raises in Eview. destruct Eview as (blocks & _ & Hv).
        cbv zeta in Hv.
        destruct (_ && _ && _ && _); [discriminate|left; now inversion Hv].
    + inversion Hrm; subst e0. left. eapply torch_stack_raises; eassumption.
  - inversion Hrm; subst e0; clear Hrm.
    apply map_result_raises in Esel. destruct Esel as ([p1 i1] & Hin & Hs).
    apply in_combine_r in Hin. cbn [fst snd] in Hs.
    apply index_select_raises in Hs. destruct Hs as [-> Hne].
    right. split; [reflexivity|].
    apply concat_not_nil in Hne. destruct Hne as (x & Hx & Hn).
    apply in_map_iff in Hx. destruct Hx as (arr & <- & Harr).
    apply concat_not_nil in Hn. destruct Hn as (row & Hrow & Hn).
    intros Hfree. apply Hn. eapply Hfree; eassumption.
Qed.

End RandMaskRaises.

(** The sizes of a viewed layer and of an adjacency agree. *)
Lemma shape2_agree : forall (V : Type) b h (t : list (list (list (list V))))
    (adj : list (list (list (list Z)))),
  1 <= b -> 1 <= h ->
  length t = Z.to_nat b -> Forall (fun tb => length tb = Z.to_nat h) t ->
  length adj = Z.to_nat b -> Forall (fun ra => length ra = Z.to_nat h) adj ->
  shape2 t = shape2 adj.
Proof.
  intros V b h t adj Hb Hh Lt Ft La Fa. unfold shape2.
  destruct t as [|tb t]; [simpl in Lt; lia|].
  destruct adj as [|ra adj]; [simpl in La; lia|].
  inversion Ft; subst. inversion Fa; subst. congruence.
Qed.

Section PreludeRest.
Variable G : Generator.
Variable R : Type.
Variable V : Type.
Variable mul : R -> R -> R.

(** Once the adjacency is sampled, the rest of the prelude raises
    [RuntimeError], or [IndexError] when the adjacency names a block
    that a tensor does not have. *)
Lemma prelude_rest_raises :
  forall (q k v : list (list (list V))) (fbm tbm : list (list (list R)))
         h r bs batch m seed e0 plan (g : gstate G) adj g1 e,
  bs <> 0 ->
  bigbird_rand_attn G seed e0 h r bs bs batch m m plan g = Ok (adj, g1) ->
  attention_prelude G mul q k v fbm tbm h r bs bs batch m m seed e0 plan g
    = Raise e ->
  e = RuntimeError \/ (e = IndexError /\ ~ index_free adj).
Proof.
  intros q k v fbm tbm h r bs batch m seed e0 plan g adj g1 e Hbs Hrun H.
  destruct (rand_attn_shape G seed e0 h r bs bs batch m m plan _ _ _ Hrun)
    as (Hb & Hh & La & Fa).
  unfold attention_prelude in H. cbv zeta in H.
  rewrite (bind_run _ _ _ _ _ _ _ _ Hrun) in H.
  unfold bind, lift in H.
  destruct (_create_rand_mask_from_inputs mul fbm tbm adj h r batch m bs)
    as [rm|e1] eqn:Erm.
  2:{ inversion H; subst e1. eapply rand_mask_raises; eassumption. }
  destruct (view_blocks batch h (m / bs) bs q) as [bq|e1] eqn:Eq.
  2:{ inversion H; subst e1. left. eapply view_blocks_raises; eassumption. }
  destruct (view_blocks batch h (m / bs) bs k) as [bk|e1] eqn:Ek.
  2:{ inversion H; subst e1. left. eapply view_blocks_raises; eassumption. }
  destruct (view_blocks batch h (m / bs) bs v) as [bv|e1] eqn:Ev.
  2:{ inversion H; subst e1. left. eapply view_blocks_raises; eassumption. }
  destruct (view_blocks_shape _ _ _ _ _ _ _ Ek) as [Lk Fk].
  destruct (view_blocks_shape _ _ _ _ _ _ _ Ev) as [Lv Fv].
  destruct (gathered bk adj m bs r) as [gk|e1] eqn:Egk.
  2:{ inversion H; subst e1. eapply gathered_raises; [eassumption|].
      apply (shape2_agree V batch h); assumption. }
  destruct (gathered bv adj m bs r) as [gv|e1] eqn:Egv.
  2:{ inversion H; subst e1. eapply gathered_raises; [eassumption|].
      apply (shape2_agree V batch h); assumption. }
  discriminate.
Qed.

(** With fewer than three blocks, or without a random block, the
    prelude does not get past the view of the gathered keys. *)
Lemma prelude_rest_degenerate :
  forall (q k v : list (list (list V))) (fbm tbm : list (list (list R)))
         h r bs batch m seed e0 plan (g : gstate G) adj g1,
  bs <> 0 ->
  bigbird_rand_attn G seed e0 h r bs bs batch m m plan g = Ok (adj, g1) ->
  index_free adj ->
  (m / bs - 2) * (r * bs) <= 0 ->
  attention_prelude G mul q k v fbm tbm h r bs bs batch m m seed e0 plan g
    = Raise RuntimeError.
Proof.
  intros q k v fbm tbm h r bs batch m seed e0 plan g adj g1 Hbs Hrun Hfree Hz.
  destruct (attention_prelude G mul q k v fbm tbm h r bs bs batch m m seed e0 plan g)
    as [[p g2]|e] eqn:H.
  - exfalso. unfold attention_prelude in H. cbv zeta in H.
    rewrite (bind_run _ _ _ _ _ _ _ _ Hrun) in H.
    unfold bind, lift in H.
    destruct (_create_rand_mask_from_inputs mul fbm tbm adj h r batch m bs);
      [|inversion H].
    destruct (view_blocks batch h (m / bs) bs q); [|inversion H].
    destruct (view_blocks batch h (m / bs) bs k) as [bk|]; [|inversion H].
    destruct (view_blocks batch h (m / bs) bs v); [|inversion H].
    pose proof (gathered_degenerate V bk adj m bs r Hz) as Hd.
    destruct (gathered bk adj m bs r); [discriminate Hd|inversion H].
  - destruct (prelude_rest_raises _ _ _ _ _ _ _ _ _ _ _ _ _ _ _ _ _ Hbs Hrun H)
      as [->|[_ Hn]]; [reflexivity|contradiction].
Qed.

End PreludeRest.


(** ** The sampling on fewer than five blocks *)

Section FewBlocks.
Variable G : Generator.
Variables m bs H r : Z.
Hypothesis bs_pos : 0 < bs.
Hypothesis r_nonneg : 0 <= r.

(** A single segment without a budget, or of one block, has no row to
    fill. *)
Lemma with_head_single_empty : forall g,
  0 <= m / bs -> r = 0 \/ m / bs <= 1 ->
  _bigbird_block_rand_mask_with_head G m m bs bs H [m] [r] 1 1 1 1 1 1 g
    = Ok (map (fun a => Py.slice a 1 (m / bs - 1))
              (repeat (repeat (repeat 0 (Z.to_nat r)) (Z.to_nat (m / bs)))
                      (length (Py.range 0 H))), g).
Proof.
  intros g HB Hcase. set (B := m / bs) in *.
  unfold _bigbird_block_rand_mask_with_head.
  rewrite floordiv_Ok by lia.
  rewrite bind_lift_Ok; cbv beta. rewrite bind_lift_Ok; cbv beta.
  fold B. rewrite Z.eqb_refl, mem_head.
  assert (Eidx : Py.index_of m [m] = Ok 0)
    by (simpl; rewrite Z.eqb_refl; reflexivity).
  rewrite Eidx, bind_lift_Ok; cbv beta.
  change (map (fun x => x / bs) [m]) with [B].
  change (0 + 1) with 1.
  assert (Es : Py.sum (Py.slice_to [r] 1) = r)
    by (unfold Py.sum, Py.slice_to, Py.slice; simpl; lia).
  rewrite Es. rewrite zeros_run by lia.
  rewrite (bind_run _ _ _ _ _ _ _ _ (comprehension_run G _ _ _ _ _)).
  change (Py.range 0 1) with [0]. cbn [for_each].
  change (0 >? 0) with false. cbv iota.
  rewrite !bind_assoc. rewrite bind_ret.
  assert (Eown : forall ra g0,
            fill_own_segment G H 0 [B] [r] 1 1 1 1 1 ra g0 = Ok (ra, g0)).
  { intros ra g0. destruct (Z.eq_dec r 0) as [->|Hr].
    - now apply fill_own_zero_budget.
    - unfold fill_own_segment.
      assert (En : Py.index [r] 0 = Ok r) by reflexivity.
      rewrite En, bind_lift_Ok.
      destruct (Z.eqb_spec r 0); [contradiction|].
      change (0 >? 0) with false. cbv iota.
      rewrite bind_ret. cbn [fst snd].
      assert (Ep : Py.index [B] 0 = Ok B) by reflexivity.
      rewrite Ep, bind_lift_Ok.
      rewrite range_nil by lia. reflexivity. }
  rewrite (bind_run _ _ _ _ _ _ _ _ (Eown _ _)).
  reflexivity.
Qed.

End FewBlocks.

(** On the planned path, two to four blocks leave query block 1 no
    legal block. *)
Lemma planned_few_blocks_raise :
  forall (G : Generator) seed e h r bs batch m (g : gstate G),
  0 < bs -> 1 <= r -> 1 <= h ->
  Py.mem m [1024; 3072; 4096] = false ->
  2 <= m / bs <= 4 ->
  bigbird_rand_attn G seed e h r bs bs batch m m None g = Raise ValueError.
Proof.
  intros G seed e h r bs batch m g Hbs Hr Hh Hm HB.
  unfold bigbird_rand_attn.
  rewrite floordiv_Ok by lia.
  rewrite bind_lift_Ok; cbv beta. rewrite bind_lift_Ok; cbv beta.
  rewrite Z.eqb_refl, Hm.
  run_step (seed_run G seed e g).
  unfold _get_rand_attn_plan. rewrite floordiv_Ok by lia.
  destruct (Z.ltb_spec (2 * r + 5) (m / bs)); [lia|].
  destruct (Z.ltb_spec (r + 5) (m / bs)); [lia|].
  rewrite bind_lift_Ok. cbn [fst snd].
  apply bind_raises.
  apply with_head_single_short; try assumption; lia.
Qed.

Lemma slice_short_from_1 : forall (A : Type) (l : list A) hi,
  (length l <= 1)%nat -> Py.slice l 1 hi = [].
Proof.
  intros A l hi Hl. unfold Py.slice.
  assert (E : skipn (Z.to_nat (Py.bound (Z.of_nat (length l)) 1)) l = []).
  { destruct l as [|x [|y l]]; [apply skipn_nil|reflexivity|simpl in Hl; lia]. }
  rewrite E. apply firstn_nil.
Qed.

(** On the planned path, a sequence of one block, or no random block,
    gives an adjacency without an entry. *)
Lemma planned_no_entry :
  forall (G : Generator) seed e h r bs batch m (g : gstate G),
  0 < bs -> 0 <= r -> 1 <= h -> 1 <= batch ->
  Py.mem m [1024; 3072; 4096] = false ->
  0 <= m / bs <= 4 -> r = 0 \/ m / bs <= 1 ->
  exists adj g',
    bigbird_rand_attn G seed e h r bs bs batch m m None g = Ok (adj, g') /\
    index_free adj.
Proof.
  intros G seed e h r bs batch m g Hbs Hr Hh Hb Hm HB Hcase.
  unfold bigbird_rand_attn.
  rewrite floordiv_Ok by lia.
  rewrite bind_lift_Ok; cbv beta. rewrite bind_lift_Ok; cbv beta.
  rewrite Z.eqb_refl, Hm.
  run_step (seed_run G seed e g).
  unfold _get_rand_attn_plan. rewrite floordiv_Ok by lia.
  destruct (Z.ltb_spec (2 * r + 5) (m / bs)); [lia|].
  destruct (Z.ltb_spec (r + 5) (m / bs)); [lia|].
  rewrite bind_lift_Ok. cbn [fst snd].
  run_step (with_head_single_empty G m bs h r Hbs Hr
              (seed_state G match seed with Some s => s | None => e end)
              (proj1 HB) Hcase).
  rewrite np_stack_run
    by (rewrite length_map, repeat_length, range_length; lia).
  rewrite bind_lift_Ok. unfold lift.
  rewrite torch_cat_batch_run by assumption.
  eexists. eexists. split; [reflexivity|].
  intros ra arr row Hra Harr Hrow.
  apply repeat_spec in Hra. subst ra.
  apply in_map_iff in Harr. destruct Harr as (a & <- & Ha).
  apply repeat_spec in Ha. subst a.
  destruct Hcase as [->|HB1].
  - apply In_slice in Hrow. apply repeat_spec in Hrow. now subst row.
  - rewrite slice_short_from_1 in Hrow by (rewrite repeat_length; lia).
    contradiction.
Qed.

(** ** The old-plan routine: what it returns and what it raises *)

Lemma for_each_run_or : forall (G : Generator) (A S : Type) (Q : A -> Prop)
    (P : S -> Prop) (e : py_exn) (body : A -> S -> M G S) l s g,
  Forall Q l -> P s ->
  (forall a s g, Q a -> P s ->
     (exists s' g', body a s g = Ok (s', g') /\ P s') \/ body a s g = Raise e) ->
  (exists s' g', for_each l body s g = Ok (s', g') /\ P s') \/
  for_each l body s g = Raise e.
Proof.
  intros G A S Q P e body l. induction l as [|a l IH]; intros s g HQ Hs Hb.
  - left. exists s, g. split; [reflexivity|assumption].
  - inversion HQ as [|? ? Ha Hl]; subst. cbn [for_each].
    destruct (Hb a s g Ha Hs) as [(s1 & g1 & E1 & P1)|E1].
    + rewrite (bind_run _ _ _ _ _ _ _ _ E1). now apply IH.
    + right. now apply bind_raises.
Qed.

Lemma comprehension_run_or : forall (G : Generator) (A B : Type) (P : B -> Prop)
    (e : py_exn) (f : A -> M G B) l g,
  (forall a g, (exists b g', f a g = Ok (b, g') /\ P b) \/ f a g = Raise e) ->
  (exists bs g', comprehension l f g = Ok (bs, g') /\ Forall P bs /\
                 length bs = length l) \/
  comprehension l f g = Raise e.
Proof.
  intros G A B P e f l. induction l as [|a l IH]; intros g Hf.
  - left. exists [], g. repeat split; constructor.
  - cbn [comprehension].
    destruct (Hf a g) as [(b & g1 & E1 & P1)|E1].
    + rewrite (bind_run _ _ _ _ _ _ _ _ E1).
      destruct (IH g1 Hf) as [(bs & g2 & E2 & P2 & L2)|E2].
      * left. exists (b :: bs), g2.
        rewrite (bind_run _ _ _ _ _ _ _ _ E2).
        split; [reflexivity|]. split; [now constructor|simpl; now rewrite L2].
      * right. now apply bind_raises.
    + right. now apply bind_raises.
Qed.

(** Writing a row either keeps the shape of the array or fails to
    broadcast. *)
Lemma assign_row_outcome : forall arr i src row,
  nth_error arr (Z.to_nat i) = Some row -> 0 <= i ->
  (exists arr', assign_row arr i src = Ok arr' /\
     length arr' = length arr /\
     forall w, Forall (fun x => length x = w) arr ->
               Forall (fun x => length x = w) arr') \/
  assign_row arr i src = Raise ValueError.
Proof.
  intros arr i src row Hrow Hi.
  destruct (assign_row arr i src) as [arr'|e] eqn:E.
  - left. exists arr'. split; [reflexivity|].
    unfold assign_row in E. rewrite (index_run _ _ _ _ Hi Hrow) in E.
    destruct (assign_row_slice_spec _ _ _ _ _ _ E Hi (Z.le_refl 0)
                (Nat2Z.is_nonneg _)) as (HL & Hother & Hsame & _).
    split; [exact HL|].
    intros w Hw. apply Forall_forall. intros x Hx.
    apply In_nth_error in Hx. destruct Hx as [k Hk].
    rewrite Forall_forall in Hw.
    destruct (Nat.eq_dec k (Z.to_nat i)) as [->|Hne].
    + destruct (Hsame _ Hk) as (row0 & Hrow0 & Hlen).
      rewrite Hlen. apply Hw. eapply nth_error_In; eassumption.
    + rewrite (Hother _ Hne) in Hk. apply Hw. eapply nth_error_In; eassumption.
  - right. f_equal.
    unfold assign_row in E. rewrite (index_run _ _ _ _ Hi Hrow) in E.
    unfold Py.assign_row_slice in E.
    pose proof (nth_error_lt _ _ _ _ Hrow) as Hlt.
    destruct (Z.ltb_spec i 0); [lia|].
    destruct (Z.leb_spec 0 i); [|lia].
    destruct (Z.ltb_spec i (Z.of_nat (length arr))); [|lia].
    cbn [andb] in E. rewrite Hrow in E.
    destruct (Py.assign_slice row 0 (Z.of_nat (length row)) src) eqn:Es;
      [discriminate|].
    inversion E; subst. eapply assign_slice_raises; eassumption.
Qed.

Lemma old_mask_outcome : forall (G : Generator) fs bs r last_idx (g : gstate G),
  0 < bs ->
  (exists arr g',
     _bigbird_block_rand_mask G fs fs bs bs r last_idx g = Ok (arr, g') /\
     0 <= fs / bs - 2 /\ 0 <= r /\
     length arr = Z.to_nat (fs / bs - 2) /\
     Forall (fun row => length row = Z.to_nat r) arr) \/
  _bigbird_block_rand_mask G fs fs bs bs r last_idx g = Raise ValueError.
Proof.
  intros G fs bs r last_idx g Hbs.
  unfold _bigbird_block_rand_mask.
  rewrite floordiv_Ok by lia.
  rewrite bind_lift_Ok; cbv beta. rewrite bind_lift_Ok; cbv beta.
  rewrite Z.eqb_refl.
  set (N := fs / bs).
  destruct (Py.zeros (N - 2) r) as [arr0|e0] eqn:Ez.
  2:{ right. apply zeros_raises in Ez. subst e0. reflexivity. }
  apply zeros_Ok in Ez. destruct Ez as (HN & Hr & ->).
  rewrite bind_lift_Ok.
  set (P := fun a : list (list Z) =>
              length a = Z.to_nat (N - 2) /\
              Forall (fun row => length row = Z.to_nat r) a).
  lazymatch goal with
  | |- context [for_each ?l ?b ?s ?g0] =>
      destruct (for_each_run_or G _ _ (fun i => 1 <= i < N - 1) P ValueError
                  b l s g0) as [(arr & g' & Hrun & HP)|Hrun]
  end.
  - apply range_Forall.
  - split; [apply repeat_length|].
    apply Forall_forall. intros row Hrow. apply repeat_spec in Hrow.
    subst row. apply repeat_length.
  - intros i s g0 Hi [P1 P2]. cbv beta.
    lazymatch goal with
    | |- context [np_random_permutation G ?pool] =>
        destruct (perm_run G pool g0) as (p & g1 & Hp & _)
    end.
    rewrite (bind_run _ _ _ _ _ _ _ _ Hp).
    assert (Hrow : exists row, nth_error s (Z.to_nat (i - 1)) = Some row).
    { destruct (nth_error s (Z.to_nat (i - 1))) eqn:E; [eauto|].
      apply nth_error_None in E. lia. }
    destruct Hrow as [row Hrow].
    unfold lift.
    destruct (assign_row_outcome s (i - 1) (Py.slice_to p r) row Hrow ltac:(lia))
      as [(s' & Es & HL & HW)|Es]; rewrite Es.
    + left. exists s', g1. split; [reflexivity|].
      split; [congruence|apply HW; exact P2].
    + right. reflexivity.
  - left. exists arr, g'. destruct HP as [P1 P2]. auto.
  - right. exact Hrun.
Qed.


(** A row whose pool is empty cannot be written once the array has a
    column. *)
Lemma old_mask_empty_pool : forall (G : Generator) bs r (g : gstate G) a g' i0,
  0 < bs -> 1 <= r ->
  _bigbird_block_rand_mask G max_seqlen max_seqlen bs bs r 1024 g = Ok (a, g') ->
  length a = Z.to_nat (max_seqlen / bs - 2) ->
  Forall (fun row => length row = Z.to_nat r) a ->
  1 <= i0 < max_seqlen / bs - 1 ->
  old_pool (Py.range 1 (max_seqlen / bs - 1))
           (if 1024 >? 2 * bs then 1024 / bs - 1 else max_seqlen / bs - 1)
           (max_seqlen / bs) i0 = [] ->
  False.
Proof.
  intros G bs r g a g' i0 Hbs Hr Hrun HL HW Hi Hpool.
  assert (Hrow : exists row, nth_error a (Z.to_nat (i0 - 1)) = Some row).
  { destruct (nth_error a (Z.to_nat (i0 - 1))) eqn:E; [eauto|].
    apply nth_error_None in E. lia. }
  destruct Hrow as [row Hrow].
  rewrite Forall_forall in HW.
  pose proof (HW _ (nth_error_In _ _ Hrow)) as Hlen.
  destruct row as [|v row]; [simpl in Hlen; lia|].
  pose proof (old_mask_rows G _ _ _ _ _ _ _ _ _ Hrun) as Hrows.
  cbv zeta in Hrows.
  specialize (Hrows i0 0%nat v Hi).
  rewrite Hpool in Hrows. apply Hrows.
  unfold cell2. rewrite Hrow. reflexivity.
Qed.

(** The old-plan adjacency: arrays of [r] columns cut to the rows of
    the sequence, or [ValueError]. *)
Lemma old_attn_outcome :
  forall (G : Generator) seed e h r bs batch m (g : gstate G),
  0 < bs -> 1 <= h -> 1 <= batch ->
  (exists adj g',
     old_plan_rand_attn G seed e h r bs batch m g = Ok (adj, g') /\
     adj <> [] /\
     forall ra, In ra adj -> ra <> [] /\
       forall arr, In arr ra ->
       exists a g0 g1,
         _bigbird_block_rand_mask G max_seqlen max_seqlen bs bs r 1024 g0
           = Ok (a, g1) /\
         arr = Py.slice_to a (m / bs - 2) /\
         length a = Z.to_nat (max_seqlen / bs - 2) /\
         Forall (fun row => length row = Z.to_nat r) a) \/
  old_plan_rand_attn G seed e h r bs batch m g = Raise ValueError.
Proof.
  intros G seed e h r bs batch m g Hbs Hh Hb.
  unfold old_plan_rand_attn.
  run_step (seed_run G seed e g).
  set (P := fun arr : list (list Z) =>
       exists a g0 g1,
         _bigbird_block_rand_mask G max_seqlen max_seqlen bs bs r 1024 g0
           = Ok (a, g1) /\
         arr = Py.slice_to a (m / bs - 2) /\
         length a = Z.to_nat (max_seqlen / bs - 2) /\
         Forall (fun row => length row = Z.to_nat r) a).
  lazymatch goal with
  | |- context [comprehension ?l ?f] =>
      destruct (comprehension_run_or G _ _ P ValueError f l
                  (seed_state G match seed with Some s => s | None => e end))
        as [(ra & g1 & Hrun & HP & HL)|Hrun]
  end.
  - intros _ g0.
    destruct (old_mask_outcome G max_seqlen bs r 1024 g0 Hbs)
      as [(a & g1 & Ea & _ & _ & La & Wa)|Ea].
    + left. exists (Py.slice_to a (m / bs - 2)), g1.
      rewrite (bind_run _ _ _ _ _ _ _ _ Ea).
      split; [reflexivity|]. exists a, g0, g1. auto.
    + right. now apply bind_raises.
  - left. run_step Hrun.
    assert (Hne : ra <> []).
    { rewrite range_length in HL. destruct ra; [simpl in HL; lia|discriminate]. }
    rewrite np_stack_run by (destruct ra; [contradiction|simpl; lia]).
    rewrite bind_lift_Ok. unfold lift.
    rewrite torch_cat_batch_run by assumption.
    eexists. eexists. split; [reflexivity|].
    split.
    + destruct (Z.to_nat batch) eqn:E; [lia|discriminate].
    + intros ra0 Hra0. apply repeat_spec in Hra0. subst ra0.
      split; [exact Hne|].
      intros arr Harr. rewrite Forall_forall in HP. now apply HP.
  - right. now apply bind_raises.
Qed.

(** On the old sequence lengths, fewer than five blocks give an
    adjacency without an entry, on fewer than three rows or without a
    column, or [ValueError]. *)
Lemma old_few_blocks :
  forall (G : Generator) seed e h r bs batch m plan (g : gstate G),
  Py.mem m [1024; 3072; 4096] = true ->
  0 < bs -> m mod bs = 0 -> m / bs < 5 ->
  0 <= r -> 1 <= h -> 1 <= batch ->
  (exists adj g',
     bigbird_rand_attn G seed e h r bs bs batch m m plan g = Ok (adj, g') /\
     index_free adj /\ (m / bs - 2) * (r * bs) <= 0) \/
  bigbird_rand_attn G seed e h r bs bs batch m m plan g = Raise ValueError.
Proof.
  intros G seed e h r bs batch m plan g Hm Hbs Hmod HB Hr Hh Hb.
  rewrite rand_attn_old_path by (assumption || lia).
  destruct (old_attn_outcome G seed e h r bs batch m g Hbs Hh Hb)
    as [(adj & g' & Hrun & Hne & Hadj)|Hrun]; [|now right].
  left. exists adj, g'. split; [exact Hrun|].
  apply mem_old_lengths in Hm.
  assert (Hmb : m = bs * (m / bs)) by (apply Z.div_exact; lia).
  set (B := m / bs) in *.
  assert (HB1 : 1 <= B) by nia.
  destruct (Z.eq_dec r 0) as [->|Hr0].
  { split; [|lia].
    intros ra arr row Hra Harr Hrow.
    destruct (Hadj _ Hra) as [_ Harrs].
    destruct (Harrs _ Harr) as (a & g0 & g1 & _ & -> & _ & Wa).
    apply In_slice in Hrow. rewrite Forall_forall in Wa.
    apply Wa in Hrow. destruct row; [reflexivity|discriminate]. }
  destruct (Z.eq_dec B 2) as [HB2|HB2].
  { split; [|rewrite HB2; lia].
    intros ra arr row Hra Harr Hrow.
    destruct (Hadj _ Hra) as [_ Harrs].
    destruct (Harrs _ Harr) as (a & g0 & g1 & _ & -> & _ & _).
    rewrite HB2 in Hrow. change (2 - 2) with 0 in Hrow.
    rewrite slice_to_firstn in Hrow by lia. contradiction. }
  exfalso.
  destruct adj as [|ra adj]; [contradiction|].
  destruct (Hadj ra (or_introl eq_refl)) as [Hra Harrs].
  destruct ra as [|arr ra]; [contradiction|].
  destruct (Harrs arr (or_introl eq_refl)) as (a & g0 & g1 & Ea & _ & La & Wa).
  assert (HB3 : B = 1 \/ B = 3 \/ B = 4) by lia.
  assert (Hbs' : bs = 1024 \/ bs = 3072 \/ bs = 4096 \/ bs = 256 \/ bs = 768)
    by (destruct HB3 as [E|[E|E]]; rewrite E in Hmb;
        destruct Hm as [Hm|[Hm|Hm]]; lia).
  assert (Hshort : forall bs0, bs0 = 3072 \/ bs0 = 4096 -> bs = bs0 -> False).
  { intros bs0 H0 E0. subst bs.
    destruct (old_mask_outcome G max_seqlen bs0 r 1024 g0 ltac:(lia))
      as [(a' & g2 & _ & Hneg & _)|Ho].
    - assert (E1 : max_seqlen / bs0 = 1) by (destruct H0 as [-> | ->]; reflexivity).
      lia.
    - rewrite Ea in Ho. discriminate. }
  destruct Hbs' as [E|[E|[E|[E|E]]]].
  - subst bs.
    assert (EN : max_seqlen / 1024 = 4) by reflexivity.
    apply (old_mask_empty_pool G 1024 r g0 a g1 1); try assumption; try lia;
      first [rewrite EN; lia | vm_compute; reflexivity].
  - apply (Hshort 3072); auto.
  - apply (Hshort 4096); auto.
  - subst bs.
    assert (EN : max_seqlen / 256 = 16) by reflexivity.
    apply (old_mask_empty_pool G 256 r g0 a g1 2); try assumption; try lia;
      first [rewrite EN; lia | vm_compute; reflexivity].
  - subst bs.
    assert (EN : max_seqlen / 768 = 5) by reflexivity.
    apply (old_mask_empty_pool G 768 r g0 a g1 2); try assumption; try lia;
      first [rewrite EN; lia | vm_compute; reflexivity].
Qed.


(** ** The engine from construction to its first product *)

Section EnginePrelude.
Variable G : Generator.
Variable R : Type.
Variable V : Type.
Variable mul : R -> R -> R.

(** Past the checks of [forward], nothing raises an assertion. *)
Lemma attention_prelude_raises :
  forall (q k v : list (list (list V))) (fbm tbm : list (list (list R)))
         h r bs batch m seed e0,
  bs <> 0 ->
  raises_only library_error
    (attention_prelude G mul q k v fbm tbm h r bs bs batch m m seed e0 None).
Proof.
  intros q k v fbm tbm h r bs batch m seed e0 Hbs g e H.
  destruct (bigbird_rand_attn G seed e0 h r bs bs batch m m None g)
    as [[adj g1]|e1] eqn:Hrun.
  - destruct (prelude_rest_raises G R V mul _ _ _ _ _ _ _ _ _ _ _ _ _ _ _ _ _
                Hbs Hrun H) as [->|[-> _]]; unfold library_error; auto.
  - unfold attention_prelude in H. cbv zeta in H.
    rewrite (bind_raises _ _ _ _ _ _ _ Hrun) in H. inversion H; subst e1.
    eapply rand_attn_raises; eassumption.
Qed.

(** On fewer than five blocks the attention stops before line 575. *)
Lemma attention_prelude_few_blocks :
  forall (q k v : list (list (list V))) (fbm tbm : list (list (list R)))
         h r bs batch m seed e0 (g : gstate G),
  1 <= h -> 1 <= bs -> 0 <= r -> 1 <= batch -> 1 <= m ->
  m mod bs = 0 -> m / bs < 5 ->
  attention_prelude G mul q k v fbm tbm h r bs bs batch m m seed e0 None g
    = Raise ValueError \/
  attention_prelude G mul q k v fbm tbm h r bs bs batch m m seed e0 None g
    = Raise RuntimeError.
Proof.
  intros q k v fbm tbm h r bs batch m seed e0 g Hh Hbs Hr Hb Hm Hmod HB.
  assert (Hmb : m = bs * (m / bs)) by (apply Z.div_exact; lia).
  assert (HB1 : 1 <= m / bs) by nia.
  assert (Hraise : forall e,
            bigbird_rand_attn G seed e0 h r bs bs batch m m None g = Raise e ->
            attention_prelude G mul q k v fbm tbm h r bs bs batch m m seed e0
              None g = Raise e).
  { intros e He. unfold attention_prelude. cbv zeta. now apply bind_raises. }
  destruct (Py.mem m [1024; 3072; 4096]) eqn:Hold.
  - destruct (old_few_blocks G seed e0 h r bs batch m None g Hold)
      as [(adj & g1 & Hrun & Hfree & Hz)|Hrun]; try assumption; try lia.
    + right. eapply prelude_rest_degenerate; try eassumption. lia.
    + left. now apply Hraise.
  - destruct (Z_le_gt_dec r 0) as [Hr0|Hr1].
    + destruct (planned_no_entry G seed e0 h r bs batch m g)
        as (adj & g1 & Hrun & Hfree); try assumption; try lia.
      right. eapply prelude_rest_degenerate; try eassumption; [lia|].
      replace r with 0 by lia. lia.
    + destruct (Z_le_gt_dec (m / bs) 1) as [HB0|HB2].
      * destruct (planned_no_entry G seed e0 h r bs batch m g)
          as (adj & g1 & Hrun & Hfree); try assumption; try lia.
        right. eapply prelude_rest_degenerate; try eassumption; [lia|nia].
      * left. apply Hraise.
        apply planned_few_blocks_raise; try assumption; lia.
Qed.

End EnginePrelude.

(** C7, as the code has it: the engine stops before its first
    attention product with [NotImplementedError] (at construction)
    when the position embedding type is not absolute, with
    [AssertionError] (in [forward]) when the sequence length is not a
    multiple of the block size, and, although nothing checks the
    number of blocks, with [ValueError] (from the adjacency sampling)
    or [RuntimeError] (from the view of the gathered blocks) on every
    sequence of fewer than five blocks.  On every other input it raises
    neither [NotImplementedError] nor [AssertionError]; the sampling
    and the gather can still fail there. *)
Theorem engine_fails_before_attention :
  forall (G : Generator) (R V : Type) (mul : R -> R -> R) config seed
         (q k v : list (list (list V))) (fbm tbm : list (list (list R)))
         batch seqlen e (g : gstate G),
  1 <= num_attention_heads config ->
  hidden_size config mod num_attention_heads config = 0 ->
  1 <= block_size config ->
  0 <= num_random_blocks config ->
  1 <= batch -> 1 <= seqlen ->
  let run :=
    returned (engine_prelude G mul config seed q k v fbm tbm batch seqlen e g) in
  (position_embedding_type config <> "absolute"%string ->
     run = Raise NotImplementedError) /\
  (position_embedding_type config = "absolute"%string ->
     seqlen mod block_size config <> 0 ->
     run = Raise AssertionError) /\
  (position_embedding_type config = "absolute"%string ->
     seqlen mod block_size config = 0 ->
     seqlen / block_size config < 5 ->
     run = Raise ValueError \/ run = Raise RuntimeError) /\
  (position_embedding_type config = "absolute"%string ->
     seqlen mod block_size config = 0 ->
     run <> Raise NotImplementedError /\ run <> Raise AssertionError).
Proof.
  intros G R V mul config seed q k v fbm tbm batch seqlen e g
         Hh Hm Hbs Hr Hb Hs run.
  subst run. unfold engine_prelude, BigBirdBlockSparseAttention_init.
  rewrite modulo_Ok by lia. rewrite Hm.
  change (negb (0 =? 0)) with false. cbv iota.
  destruct (String.eqb_spec (position_embedding_type config) "absolute") as [E|N];
    cbn [negb]; cbv iota.
  2:{ split; [intros _; reflexivity|].
      split; [intros C; contradiction|].
      split; intros C; contradiction. }
  split; [intros C; contradiction|].
  rewrite bind_lift_Ok. cbv beta.
  unfold forward_checks. cbn [self_block_size self_num_attention_heads
    self_num_random_blocks self_seed].
  rewrite modulo_Ok by lia.
  destruct (Z.eqb_spec (seqlen mod block_size config) 0) as [Hz|Hnz];
    cbn [negb]; cbv iota.
  2:{ split; [intros _ _; reflexivity|].
      split; intros _ C; contradiction. }
  split; [intros _ C; contradiction|].
  rewrite bind_lift_Ok. cbv beta.
  split.
  - intros _ _ HB.
    destruct (attention_prelude_few_blocks G R V mul q k v fbm tbm
                (num_attention_heads config) (num_random_blocks config)
                (block_size config) batch seqlen seed e g)
      as [Hrun|Hrun]; try assumption; rewrite Hrun; auto.
  - intros _ _.
    destruct (attention_prelude G mul q k v fbm tbm (num_attention_heads config)
                (num_random_blocks config) (block_size config)
                (block_size config) batch seqlen seqlen seed e None g)
      as [[p g1]|e1] eqn:Hrun.
    + split; discriminate.
    + assert (Hlib : library_error e1).
      { eapply (attention_prelude_raises G R V mul); [|exact Hrun]. lia. }
      cbn [returned].
      split; intros C; inversion C; subst e1;
        destruct Hlib as [E1|[E1|[E1|E1]]]; discriminate.
Qed.

Lemma engine_fails_before_attention_witness :
  let config := {| hidden_size := 768; num_attention_heads := 12;
                   position_embedding_type := "absolute"%string;
                   num_random_blocks := 3; block_size := 64 |} in
  let layer := repeat (repeat (repeat 0 256) 12) 1 in
  let mask := repeat (repeat (repeat 1 64) 4) 1 in
  let run :=
    returned (engine_prelude rot_generator Z.mul config None layer layer layer
                mask mask 1 256 0 0) in
  (position_embedding_type config <> "absolute"%string ->
     run = Raise NotImplementedError) /\
  (position_embedding_type config = "absolute"%string ->
     256 mod block_size config <> 0 ->
     run = Raise AssertionError) /\
  (position_embedding_type config = "absolute"%string ->
     256 mod block_size config = 0 ->
     256 / block_size config < 5 ->
     run = Raise ValueError \/ run = Raise RuntimeError) /\
  (position_embedding_type config = "absolute"%string ->
     256 mod block_size config = 0 ->
     run <> Raise NotImplementedError /\ run <> Raise AssertionError).
Proof.
  intros config layer mask.
  apply (engine_fails_before_attention rot_generator Z Z Z.mul config None
           layer layer layer mask mask 1 256 0 0);
    first [reflexivity | simpl; lia].
Defined.

(** C7 as stated fails on its second half: a sequence of nine 64-token
    blocks with three random blocks passes every condition of the
    claim (absolute positions, a multiple of the block size, at least
    five blocks), and the engine still raises before any attention
    product, [ValueError] from the adjacency sampling. *)
Lemma nine_blocks_fail_before_attention :
  let config := {| hidden_size := 768; num_attention_heads := 12;
                   position_embedding_type := "absolute"%string;
                   num_random_blocks := 3; block_size := 64 |} in
  let layer := repeat (repeat (repeat 0 576) 12) 1 in
  let mask := repeat (repeat (repeat 1 64) 9) 1 in
  position_embedding_type config = "absolute"%string /\
  576 mod block_size config = 0 /\
  5 <= 576 / block_size config /\
  returned (engine_prelude rot_generator Z.mul config (Some 0) layer layer layer
              mask mask 1 576 0 0) = Raise ValueError.
Proof.
  intros config layer mask.
  split; [reflexivity|]. split; [reflexivity|].
  split; [vm_compute; intro; discriminate|].
  vm_compute. reflexivity.
Qed.
